(** * Escolinha-Futebol: payment reconciliation, attendance, user management

    A shallow embedding of the logic of [app.py] and [models/*.py]:
    the calendar helpers, [parse_decimal], the monthly payment reconciliation
    [pagamentos_do_mes_referencia], the attendance upsert of [presencas], the
    birthday list and the user-management guards of [manage_users].

    Python exceptions are an explicit [result] type; the relational tables
    are lists of rows in rowid order; money held in a [Numeric(10, 2)] column
    is a whole number of cents. *)

From Stdlib Require Import ZArith NArith List Bool String Ascii Lia.
From Stdlib Require Import Permutation Sorted.
Import ListNotations.

Local Open Scope string_scope.
Local Open Scope Z_scope.

(* ================================================================== *)
(** ** Exceptions as results *)

Inductive exn : Type :=
| ValueError          (* datetime: field out of range *)
| IllegalMonthError   (* calendar.monthrange *)
| InvalidOperation    (* decimal *)
| IntegrityError      (* sqlalchemy: a constraint of the schema fails *)
| NotFound.           (* flask abort(404) *)

Inductive result (A : Type) : Type :=
| Ok (a : A)
| Raise (e : exn).

Arguments Ok {A} a.
Arguments Raise {A} e.

Definition bind {A B : Type} (c : result A) (k : A -> result B) : result B :=
  match c with
  | Ok a => k a
  | Raise e => Raise e
  end.

Declare Scope py_scope.
Delimit Scope py_scope with py.
Notation "x <- c ;; k" := (bind c (fun x => k))
  (at level 61, c at next level, right associativity) : py_scope.
Local Open Scope py_scope.

(* ================================================================== *)
(** ** [datetime.date] and [calendar] *)

Definition MINYEAR : Z := 1.
Definition MAXYEAR : Z := 9999.

Record date : Type := mkdate { year : Z; month : Z; day : Z }.

Definition date_eqb (a b : date) : bool :=
  (year a =? year b) && (month a =? month b) && (day a =? day b).

(** [calendar.isleap], the same formula as [datetime._is_leap]. *)
Definition isleap (y : Z) : bool :=
  (y mod 4 =? 0) && (negb (y mod 100 =? 0) || (y mod 400 =? 0)).

(** [calendar.mdays] / [datetime._DAYS_IN_MONTH], index 0 unused. *)
Definition mdays (m : Z) : Z :=
  match m with
  | 1 => 31 | 2 => 28 | 3 => 31 | 4 => 30 | 5 => 31 | 6 => 30
  | 7 => 31 | 8 => 31 | 9 => 30 | 10 => 31 | 11 => 30 | 12 => 31
  | _ => 0
  end.

Definition _days_in_month (y m : Z) : Z :=
  if (m =? 2) && isleap y then 29 else mdays m.

(** [datetime._DAYS_BEFORE_MONTH]. *)
Definition _DAYS_BEFORE_MONTH (m : Z) : Z :=
  match m with
  | 1 => 0 | 2 => 31 | 3 => 59 | 4 => 90 | 5 => 120 | 6 => 151
  | 7 => 181 | 8 => 212 | 9 => 243 | 10 => 273 | 11 => 304 | 12 => 334
  | _ => 0
  end.

Definition _days_before_year (y : Z) : Z :=
  let y1 := y - 1 in y1 * 365 + y1 / 4 - y1 / 100 + y1 / 400.

Definition _days_before_month (y m : Z) : Z :=
  _DAYS_BEFORE_MONTH m + (if (2 <? m) && isleap y then 1 else 0).

Definition _ymd2ord (y m d : Z) : Z :=
  _days_before_year y + _days_before_month y m + d.

Definition toordinal (d : date) : Z := _ymd2ord (year d) (month d) (day d).

(** [datetime._check_date_fields], as a boolean. *)
Definition check_date_fields (y m d : Z) : bool :=
  (MINYEAR <=? y) && (y <=? MAXYEAR) &&
  (1 <=? m) && (m <=? 12) &&
  (1 <=? d) && (d <=? _days_in_month y m).

(** The constructor [date(y, m, d)]. *)
Definition date_new (y m d : Z) : result date :=
  if check_date_fields y m d then Ok (mkdate y m d) else Raise ValueError.

(** Every [date] object the program holds went through the constructor. *)
Definition valid_date (d : date) : Prop :=
  check_date_fields (year d) (month d) (day d) = true.

Definition from_opt (o : option Z) (dflt : Z) : Z :=
  match o with Some v => v | None => dflt end.

(** [date.replace(year=None, month=None, day=None)], for fields within the
    range of a C [int] (from -2^31 to 2^31 - 1): beyond it the conversion of
    the argument raises [OverflowError] before any field is checked. *)
Definition replace (self : date) (y m d : option Z) : result date :=
  date_new (from_opt y (year self)) (from_opt m (month self)) (from_opt d (day self)).

(** [date.__lt__]: comparison of the (year, month, day) triples. *)
Definition date_ltb (a b : date) : bool :=
  (year a <? year b)
  || ((year a =? year b)
      && ((month a <? month b) || ((month a =? month b) && (day a <? day b)))).

(** [(a - b).days]. *)
Definition date_sub_days (a b : date) : Z := toordinal a - toordinal b.

(** [calendar.weekday]: Monday is 0. *)
Definition weekday (y m d : Z) : Z :=
  let y' := if (MINYEAR <=? y) && (y <=? MAXYEAR) then y else 2000 + y mod 400 in
  (_ymd2ord y' m d + 6) mod 7.

(** [calendar.monthrange]: weekday of the first day, number of days. *)
Definition monthrange (y m : Z) : result (Z * Z) :=
  if (1 <=? m) && (m <=? 12)
  then Ok (weekday y m 1, mdays m + (if (m =? 2) && isleap y then 1 else 0))
  else Raise IllegalMonthError.

(* ================================================================== *)
(** ** [app.py]: calendar helpers *)

Definition DIA_VENCIMENTO_PADRAO : Z := 10.

Definition calcular_vencimento (competencia : date) (dia_vencimento : Z)
  : result date :=
  mr <- monthrange (year competencia) (month competencia) ;;
  let ultimo_dia := snd mr in
  let dia := Z.min dia_vencimento ultimo_dia in
  replace competencia None None (Some dia).

Definition first_day_of_month (target : date) : result date :=
  replace target None None (Some 1).

(* ================================================================== *)
(** ** [decimal.Decimal] under the default context

    The default context has [prec = 28], [ROUND_HALF_EVEN] and traps
    [InvalidOperation].  Text is ASCII: a [string] is its sequence of bytes. *)

Inductive Decimal : Type :=
| DFinite (sign : bool) (coeff : N) (exp : Z)   (* (-1)^sign * coeff * 10^exp *)
| DInf (sign : bool)
| DNaN (sign : bool) (signaling : bool) (payload : N).

Definition prec : Z := 28.
Definition Emax : Z := 999999.
Definition Emin : Z := -999999.
Definition Etiny : Z := Emin - prec + 1.

(** [len(self._int)]: the number of decimal digits of the coefficient,
    counted by dropping the last digit while one more is left.  The number
    of bits is fuel enough. *)
Fixpoint count_digits (fuel : nat) (c : N) : Z :=
  match fuel with
  | O => 1
  | S fuel' => if (c <? 10)%N then 1 else 1 + count_digits fuel' (c / 10)
  end.

Definition ndigits (c : N) : Z := count_digits (N.to_nat (N.size c)) c.

(** [Decimal.adjusted]. *)
Definition adjusted (c : N) (e : Z) : Z := e + ndigits c - 1.

(** [Decimal._fix_nan]: a payload longer than [prec] keeps its last digits. *)
Definition _fix_nan (sign : bool) (payload : N) : Decimal :=
  if prec <? ndigits payload
  then DNaN sign false (payload mod 10 ^ Z.to_N prec)
  else DNaN sign false payload.

(** [Decimal._rescale] with [ROUND_HALF_EVEN], on a finite operand. *)
Definition _rescale (sign : bool) (c : N) (e target : Z) : Decimal :=
  if (c =? 0)%N then DFinite sign 0 target
  else if target <=? e then DFinite sign (c * 10 ^ Z.to_N (e - target)) target
  else
    (* below a tenth of the last kept place the operand is replaced by
       [10 ** (target - 1)] before it is rounded *)
    let (c, e) := if ndigits c + e - target <? 0 then (1%N, target - 1) else (c, e) in
    let p := (10 ^ Z.to_N (target - e))%N in
    let q := (c / p)%N in
    let r := (c mod p)%N in
    let up := (p <? 2 * r)%N || ((2 * r =? p)%N && N.odd q) in
    DFinite sign (if up then q + 1 else q)%N target.

(** [Decimal.quantize(exp)] with the context's rounding. *)
Definition quantize (self exp : Decimal) : result Decimal :=
  match self, exp with
  | DNaN _ true _, _ => Raise InvalidOperation
  | _, DNaN _ true _ => Raise InvalidOperation
  | DNaN s false p, _ => Ok (_fix_nan s p)
  | _, DNaN s false p => Ok (_fix_nan s p)
  | DInf _, DInf _ => Ok self
  | DInf _, DFinite _ _ _ => Raise InvalidOperation
  | DFinite _ _ _, DInf _ => Raise InvalidOperation
  | DFinite s c e, DFinite _ _ target =>
      if negb ((Etiny <=? target) && (target <=? Emax)) then Raise InvalidOperation
      else if (c =? 0)%N then Ok (DFinite s 0 target)
      else if Emax <? adjusted c e then Raise InvalidOperation
      else if prec <? adjusted c e - target + 1 then Raise InvalidOperation
      else
        match _rescale s c e target with
        | DFinite s' c' e' =>
            if Emax <? adjusted c' e' then Raise InvalidOperation
            else if prec <? ndigits c' then Raise InvalidOperation
            else Ok (DFinite s' c' e')   (* [_fix] leaves such a value alone *)
        | other => Ok other
        end
  end.

(** *** Text helpers *)

Definition chars (s : string) : list ascii := list_ascii_of_string s.

Definition code (c : ascii) : N := N_of_ascii c.

(** ASCII white space, as [str.strip] removes it. *)
Definition is_space (c : ascii) : bool :=
  let n := code c in
  ((9 <=? n) && (n <=? 13) || (28 <=? n) && (n <=? 32))%N.

Definition is_digit (c : ascii) : bool :=
  let n := code c in ((48 <=? n) && (n <=? 57))%N.

Fixpoint lstrip (l : list ascii) : list ascii :=
  match l with
  | c :: r => if is_space c then lstrip r else l
  | [] => []
  end.

(** [str.strip()]. *)
Definition strip (l : list ascii) : list ascii :=
  rev (lstrip (rev (lstrip l))).

(** [s.replace(old, new)] for a one-character [old]. *)
Definition replace_char (old : ascii) (new : list ascii) (l : list ascii)
  : list ascii :=
  flat_map (fun c => if Ascii.eqb c old then new else [c]) l.

(** ASCII [str.lower]. *)
Definition lower_char (c : ascii) : ascii :=
  let n := code c in
  if ((65 <=? n) && (n <=? 90))%N then ascii_of_N (n + 32) else c.

Definition lower (l : list ascii) : list ascii := map lower_char l.

Fixpoint list_eqb (a b : list ascii) : bool :=
  match a, b with
  | [], [] => true
  | x :: a', y :: b' => Ascii.eqb x y && list_eqb a' b'
  | _, _ => false
  end.

(** The maximal run of digits at the front, and what follows it. *)
Fixpoint span_digits (l : list ascii) : list ascii * list ascii :=
  match l with
  | c :: r =>
      if is_digit c
      then let (ds, rest) := span_digits r in (c :: ds, rest)
      else ([], l)
  | [] => ([], [])
  end.

(** [int(digits)], the empty text read as 0. *)
Definition digits_value (ds : list ascii) : N :=
  fold_left (fun acc c => (acc * 10 + (code c - 48))%N) ds 0%N.

Definition parse_sign (l : list ascii) : bool * list ascii :=
  match l with
  | "-"%char :: r => (true, r)
  | "+"%char :: r => (false, r)
  | _ => (false, l)
  end.

(** The exponent part, [E], an optional sign and digits, up to the end of
    the text. *)
Definition parse_exponent (l : list ascii) : option Z :=
  match l with
  | [] => Some 0
  | "e"%char :: r =>
      let (neg, r1) := parse_sign r in
      let (ds, rest) := span_digits r1 in
      match ds, rest with
      | _ :: _, [] =>
          let v := Z.of_N (digits_value ds) in
          Some (if neg then - v else v)
      | _, _ => None
      end
  | _ => None
  end.

(** The numeric alternative: digits, an optional point and more digits (at
    least one digit in all), an optional exponent. *)
Definition parse_number (sign : bool) (l : list ascii) : option Decimal :=
  let (intpart, r1) := span_digits l in
  let (fracpart, r2) :=
    match r1 with
    | "."%char :: r => span_digits r
    | _ => ([], r1)
    end in
  match (intpart ++ fracpart)%list with
  | [] => None
  | _ :: _ =>
      match parse_exponent r2 with
      | Some e =>
          Some (DFinite sign (digits_value (intpart ++ fracpart)%list)
                  (e - Z.of_nat (List.length fracpart)))
      | None => None
      end
  end.

(** The special alternatives: [Inf], [Infinity], and [NaN] or [sNaN] with
    optional diagnostic digits. *)
Definition parse_special (sign : bool) (l : list ascii) : option Decimal :=
  if list_eqb l (chars "inf") || list_eqb l (chars "infinity")
  then Some (DInf sign)
  else
    let (signaling, r) :=
      match l with
      | "s"%char :: r' => (true, r')
      | _ => (false, l)
      end in
    match r with
    | "n"%char :: "a"%char :: "n"%char :: diag =>
        let (ds, rest) := span_digits diag in
        match rest with
        | [] => Some (DNaN sign signaling (digits_value ds))
        | _ :: _ => None
        end
    | _ => None
    end.

(** The widest exponents of the C module (a 64-bit build): a literal is
    converted exactly, and one whose adjusted exponent is above [MAX_EMAX]
    or whose exponent is below [MIN_ETINY] is a conversion error. *)
Definition MAX_EMAX : Z := 999999999999999999.
Definition MIN_ETINY : Z := - 1999999999999999997.

Definition exact_literal (d : Decimal) : bool :=
  match d with
  | DFinite _ c e => (adjusted c e <=? MAX_EMAX) && (MIN_ETINY <=? e)
  | _ => true
  end.

(** [Decimal(text)] for an ASCII text: surrounding white space and
    underscores are dropped, letters match in either case; anything else is
    a conversion error. *)
Definition Decimal_of_chars (value : list ascii) : result Decimal :=
  let body := lower (replace_char "_" [] (strip value)) in
  let (sign, rest) := parse_sign body in
  match parse_number sign rest with
  | Some d => if exact_literal d then Ok d else Raise InvalidOperation
  | None =>
      match parse_special sign rest with
      | Some d => Ok d
      | None => Raise InvalidOperation
      end
  end.

(** [Decimal(n)] for an [int]. *)
Definition Decimal_of_int (n : Z) : Decimal :=
  DFinite (n <? 0) (Z.abs_N n) 0.

(** A Python [float]: zero, infinity, NaN, or [(-1)^s * m * 2^e]. *)
Inductive pyfloat : Type :=
| FZero (sign : bool)
| FInf (sign : bool)
| FNaN
| FFinite (sign : bool) (m : positive) (e : Z).

(** [abs(f).as_integer_ratio()] on [m * 2^e] with [e < 0]: the numerator
    and the power of two left in the denominator. *)
Fixpoint reduce_ratio (m : positive) (k : nat) : positive * nat :=
  match k, m with
  | S k', xO m' => reduce_ratio m' k'
  | _, _ => (m, k)
  end.

(** [Decimal.from_float], exact. *)
Definition Decimal_of_float (f : pyfloat) : Decimal :=
  match f with
  | FZero s => DFinite s 0 0
  | FInf s => DInf s
  | FNaN => DNaN false false 0
  | FFinite s m e =>
      if 0 <=? e then DFinite s (Npos m * 2 ^ Z.to_N e) 0
      else
        let (n, k) := reduce_ratio m (Z.to_nat (- e)) in
        DFinite s (Npos n * 5 ^ N.of_nat k) (- Z.of_nat k)
  end.

(* ================================================================== *)
(** ** [app.py]: [parse_decimal] *)

Inductive PyValue : Type :=
| PyNone
| PyInt (n : Z)
| PyFloat (f : pyfloat)
| PyDecimal (d : Decimal)
| PyStr (s : string).

(** [Decimal("0.01")] and [Decimal("0.00")]. *)
Definition cent : Decimal := DFinite false 1 (-2).
Definition zero_00 : Decimal := DFinite false 0 (-2).

(** [value.strip().replace(".", "").replace(",", ".")]. *)
Definition clean (value : string) : list ascii :=
  replace_char "," ["."%char] (replace_char "." [] (strip (chars value))).

Definition parse_decimal (value : PyValue) (default : Decimal) : result Decimal :=
  match value with
  | PyNone => Ok default
  | PyInt n => quantize (Decimal_of_int n) cent
  | PyFloat f => quantize (Decimal_of_float f) cent
  | PyDecimal d => quantize d cent
  | PyStr s =>
      match (d <- Decimal_of_chars (clean s) ;; quantize d cent) with
      | Ok r => Ok r
      | Raise InvalidOperation => Ok default
      | Raise ValueError => Ok default
      | Raise e => Raise e
      end
  end.

(* ================================================================== *)
(** ** [models/]: the five tables

    A row is a record of its columns ([created_at] left out); a table is
    the list of its rows in rowid order.  A [Numeric(10, 2)] column holds a
    whole number of cents. *)

Module Turma.
Record t : Type := mk {
  id : Z;
  nome : string;
  categoria : string;
  dias_horario : string;
  local_treino : string
}.
End Turma.

Module Aluno.
Record t : Type := mk {
  id : Z;
  nome : string;
  idade : Z;
  responsavel : string;
  telefone : string;
  status : string;
  observacoes : string;
  data_nascimento : option date;
  turma_id : option Z;
  valor_mensalidade : Z;
  projeto_social : bool
}.
End Aluno.

Module Pagamento.
Record t : Type := mk {
  id : Z;
  competencia : date;
  pago : bool;
  data_pagamento : option date;
  observacao : string;
  valor : Z;
  aluno_id : Z
}.

Definition set_valor (p : t) (v : Z) : t :=
  mk (id p) (competencia p) (pago p) (data_pagamento p) (observacao p) v
     (aluno_id p).

(** [marcar_pago] on a day [hoje], and [marcar_pendente]. *)
Definition marcar_pago (p : t) (hoje : date) : t :=
  mk (id p) (competencia p) true (Some hoje) (observacao p) (valor p)
     (aluno_id p).

Definition marcar_pendente (p : t) : t :=
  mk (id p) (competencia p) false None (observacao p) (valor p) (aluno_id p).
End Pagamento.

Module Presenca.
Record t : Type := mk {
  id : Z;
  data : date;
  presente : bool;
  aluno_id : Z;
  turma_id : Z
}.
End Presenca.

Module User.
Record t : Type := mk {
  id : Z;
  username : string;
  password_hash : string;
  role : string
}.

Definition set_role (u : t) (r : string) : t :=
  mk (id u) (username u) (password_hash u) r.

Definition ROLE_CHOICES : list string := ["admin"; "gestor"; "instrutor"].

(** [ROLE_PERMISSIONS.get(role, set())]. *)
Definition ROLE_PERMISSIONS (r : string) : list string :=
  if (r =? "admin")%string
  then ["dashboard"; "alunos"; "turmas"; "presencas"; "pagamentos"; "config"; "users"]
  else if (r =? "gestor")%string
  then ["dashboard"; "alunos"; "turmas"; "pagamentos"]
  else if (r =? "instrutor")%string
  then ["dashboard"; "presencas"]
  else [].

Definition has_permission (u : t) (permission : string) : bool :=
  if (role u =? "admin")%string then true
  else existsb (String.eqb permission) (ROLE_PERMISSIONS (role u)).
End User.

Record Database : Type := mkdb {
  turmas : list Turma.t;
  alunos : list Aluno.t;
  presencas : list Presenca.t;
  pagamentos : list Pagamento.t;
  users : list User.t
}.

(** *** Query helpers *)

(** A loop whose body may raise. *)
Fixpoint for_each {A S : Type} (body : S -> A -> result S) (l : list A) (s : S)
  : result S :=
  match l with
  | [] => Ok s
  | x :: r => s' <- body s x ;; for_each body r s'
  end.

(** [session.delete] of the row a [.first()] query returned. *)
Fixpoint delete_first {A : Type} (f : A -> bool) (l : list A) : list A :=
  match l with
  | [] => []
  | x :: r => if f x then r else x :: delete_first f r
  end.

(** Attribute assignment on the row a [.first()] query returned. *)
Fixpoint update_first {A : Type} (f : A -> bool) (g : A -> A) (l : list A)
  : list A :=
  match l with
  | [] => []
  | x :: r => if f x then g x :: r else x :: update_first f g r
  end.

(** The rowid SQLite gives to the next inserted row. *)
Definition next_id (ids : list Z) : Z := 1 + fold_right Z.max 0 ids.

(** A stable sort by key: [ORDER BY] on the rows in rowid order, and
    [list.sort(key=...)]. *)
Fixpoint insert_by {A K : Type} (leb : K -> K -> bool) (key : A -> K)
  (x : A) (l : list A) : list A :=
  match l with
  | [] => [x]
  | y :: r => if leb (key x) (key y) then x :: y :: r
              else y :: insert_by leb key x r
  end.

Fixpoint sort_by {A K : Type} (leb : K -> K -> bool) (key : A -> K)
  (l : list A) : list A :=
  match l with
  | [] => []
  | x :: r => insert_by leb key x (sort_by leb key r)
  end.

(** [Turma.query.get_or_404(id)]. *)
Definition get_turma_or_404 (db : Database) (id : Z) : result Turma.t :=
  match find (fun t => Turma.id t =? id) (turmas db) with
  | Some t => Ok t
  | None => Raise NotFound
  end.

(** The [aluno.turma] relationship. *)
Definition aluno_turma (db : Database) (a : Aluno.t) : option Turma.t :=
  match Aluno.turma_id a with
  | Some tid => find (fun t => Turma.id t =? tid) (turmas db)
  | None => None
  end.

(** The [turma.alunos] relationship. *)
Definition turma_alunos (db : Database) (t : Turma.t) : list Aluno.t :=
  filter (fun a => match Aluno.turma_id a with
                   | Some tid => tid =? Turma.id t
                   | None => false
                   end) (alunos db).

(* ================================================================== *)
(** ** [models/aluno.py] and [app.py]: birthdays *)

Definition dias_para_aniversario (self : Aluno.t) (referencia : date)
  : result (option Z) :=
  match Aluno.data_nascimento self with
  | None => Ok None
  | Some nascimento =>
      proximo <- replace nascimento (Some (year referencia)) None None ;;
      proximo <- (if date_ltb proximo referencia
                  then replace proximo (Some (year referencia + 1)) None None
                  else Ok proximo) ;;
      Ok (Some (date_sub_days proximo referencia))
  end.

(** One entry of the list [upcoming_birthdays] returns. *)
Record Aniversario : Type := mkaniv {
  aniv_nome : string;
  aniv_data : option date;
  aniv_dias_para_aniversario : Z;
  aniv_turma : string
}.

Definition upcoming_birthdays (db : Database) (hoje : date)
  (alunos : list Aluno.t) : result (list Aniversario) :=
  proximos <-
    for_each
      (fun (proximos : list Aniversario) (aluno : Aluno.t) =>
         dias <- dias_para_aniversario aluno hoje ;;
         match dias with
         | None => Ok proximos
         | Some dias =>
             if 45 <? dias then Ok proximos
             else Ok (proximos ++
                      [mkaniv (Aluno.nome aluno) (Aluno.data_nascimento aluno) dias
                         (match aluno_turma db aluno with
                          | Some t => Turma.nome t
                          | None => "Sem turma"
                          end)])%list
         end)
      alunos [] ;;
  Ok (firstn 6 (sort_by Z.leb aniv_dias_para_aniversario proximos)).

(* ================================================================== *)
(** ** [app.py]: monthly payment reconciliation *)

(** What a [Numeric(10, 2)] column yields for a number of cents, and the
    number of cents it keeps for a [Decimal] written to it. *)
Definition Decimal_of_cents (c : Z) : Decimal :=
  DFinite (c <? 0) (Z.abs_N c) (-2).

Definition cents_of_Decimal (d : Decimal) : result Z :=
  match d with
  | DFinite s c e =>
      if e =? -2 then Ok (if s then - Z.of_N c else Z.of_N c)
      else Raise IntegrityError
  | _ => Raise IntegrityError
  end.

(** At most ten significant digits. *)
Definition numeric_10_2 (c : Z) : Prop := ndigits (Z.abs_N c) <= 10.

(** [parse_decimal(column, Decimal("0.00"))] on a column value. *)
Definition parse_decimal_column (c : Z) : result Z :=
  d <- parse_decimal (PyDecimal (Decimal_of_cents c)) zero_00 ;;
  cents_of_Decimal d.

(** The value of [sum(...)] over decimals of two places: the [int] it
    starts from, or a [Decimal] counted in cents.  Decimal addition is exact
    below 28 digits, which ten-digit values reach only after 10^17 rows. *)
Inductive Total : Type :=
| TInt (n : Z)
| TDec (cents : Z).

Definition total_add (t : Total) (v : Z) : Total :=
  match t with
  | TInt n => TDec (n * 100 + v)
  | TDec c => TDec (c + v)
  end.

Definition total_sub (a b : Total) : Total :=
  match a, b with
  | TInt x, TInt y => TInt (x - y)
  | TInt x, TDec c => TDec (x * 100 - c)
  | TDec c, TInt y => TDec (c - y * 100)
  | TDec c, TDec c' => TDec (c - c')
  end.


(** The float [percentual]: the literal [0.0], or
    [round((pagos / n) * 100, 1)] kept as the expression it is. *)
Inductive Percentual : Type :=
| PctZero
| PctRound1 (pagos n : Z).

Record Resumo : Type := mkresumo {
  pagos : Z;
  pendentes : Z;
  percentual : Percentual;
  valor_previsto : Total;
  valor_pago : Total;
  valor_pendente : Total
}.

(** [filter_by(aluno_id=..., competencia=...)]. *)
Definition pagamento_do_aluno (aluno_id : Z) (referencia : date)
  (p : Pagamento.t) : bool :=
  (Pagamento.aluno_id p =? aluno_id) && date_eqb (Pagamento.competencia p) referencia.

(** The body of the loop over the students: the table and [registros].
    [registros] holds each row as the loop leaves it: with distinct student
    ids no later iteration touches a row again, and the new row gets its id,
    [pago = False] and the empty note when it is flushed. *)
Definition reconciliar_aluno (referencia : date)
  (st : list Pagamento.t * list Pagamento.t) (aluno : Aluno.t)
  : result (list Pagamento.t * list Pagamento.t) :=
  let (tabela, registros) := st in
  let filtro := pagamento_do_aluno (Aluno.id aluno) referencia in
  let pagamento := find filtro tabela in
  if Aluno.projeto_social aluno then
    match pagamento with
    | Some _ => Ok (delete_first filtro tabela, registros)
    | None => Ok (tabela, registros)
    end
  else
    valor <- parse_decimal_column (Aluno.valor_mensalidade aluno) ;;
    match pagamento with
    | Some p =>
        Ok (update_first filtro (fun q => Pagamento.set_valor q valor) tabela,
            (registros ++ [Pagamento.set_valor p valor])%list)
    | None =>
        let novo :=
          Pagamento.mk (next_id (map Pagamento.id tabela)) referencia false None
            EmptyString valor (Aluno.id aluno) in
        Ok ((tabela ++ [novo])%list, (registros ++ [novo])%list)
    end.

(** [sum(parse_decimal(registro.valor) for registro in ...)]. *)
Definition soma_valores (registros : list Pagamento.t) : result Total :=
  for_each
    (fun (acc : Total) (registro : Pagamento.t) =>
       v <- parse_decimal_column (Pagamento.valor registro) ;;
       Ok (total_add acc v))
    registros (TInt 0).

Definition resumo_de (registros : list Pagamento.t) : result Resumo :=
  let pagos := Z.of_nat (List.length (filter Pagamento.pago registros)) in
  let pendentes := Z.of_nat (List.length registros) - pagos in
  let percentual :=
    match registros with
    | [] => PctZero
    | _ :: _ => PctRound1 pagos (Z.of_nat (List.length registros))
    end in
  valor_previsto <- soma_valores registros ;;
  valor_pago <- soma_valores (filter Pagamento.pago registros) ;;
  let valor_pendente := total_sub valor_previsto valor_pago in
  Ok (mkresumo pagos pendentes percentual valor_previsto valor_pago valor_pendente).

Definition set_pagamentos (db : Database) (tabela : list Pagamento.t) : Database :=
  mkdb (turmas db) (alunos db) (presencas db) tabela (users db).

(** Returns the committed database, [registros] and [resumo]. *)
Definition pagamentos_do_mes_referencia (db : Database) (referencia : date)
  : result (Database * list Pagamento.t * Resumo) :=
  let alunos := sort_by String.leb Aluno.nome (alunos db) in
  st <- for_each (reconciliar_aluno referencia) alunos (pagamentos db, []) ;;
  let (tabela, registros) := st in
  resumo <- resumo_de registros ;;
  Ok (set_pagamentos db tabela, registros, resumo).

(* ================================================================== *)
(** ** What a handler answers *)

Inductive Response : Type :=
| Redirect (endpoint : string) (message category : string)
    (* [flash(message, category)], then [redirect(url_for(endpoint))] *)
| Unauthorized.
    (* [login_manager.unauthorized()] *)

(* ================================================================== *)
(** ** [app.py]: attendance submission (the POST branch of [presencas]) *)

(** [filter_by(aluno_id=..., data=...)]. *)
Definition presenca_do_aluno (aluno_id : Z) (data : date) (p : Presenca.t)
  : bool :=
  (Presenca.aluno_id p =? aluno_id) && date_eqb (Presenca.data p) data.

Definition registrar_presenca (turma : Turma.t) (data_registro : date)
  (presentes_ids : list Z) (tabela : list Presenca.t) (aluno : Aluno.t)
  : list Presenca.t :=
  let filtro := presenca_do_aluno (Aluno.id aluno) data_registro in
  let presente := existsb (Z.eqb (Aluno.id aluno)) presentes_ids in
  match find filtro tabela with
  | Some _ =>
      update_first filtro
        (fun p => Presenca.mk (Presenca.id p) (Presenca.data p) presente
                    (Presenca.aluno_id p) (Turma.id turma))
        tabela
  | None =>
      (tabela ++ [Presenca.mk (next_id (map Presenca.id tabela)) data_registro
                    presente (Aluno.id aluno) (Turma.id turma)])%list
  end.

Definition set_presencas (db : Database) (tabela : list Presenca.t) : Database :=
  mkdb (turmas db) (alunos db) tabela (pagamentos db) (users db).

Section Presentes.
(** [text.isdigit()] and [int(text)]. *)
Variable isdigit : string -> bool.
Variable py_int : string -> result Z.

(** The set [presentes_ids]: [int(aluno_id)] of each submitted value that
    [isdigit] accepts, in the order of the form and outside any [try]. *)
Fixpoint presentes_ids (getlist_presencas : list string) : result (list Z) :=
  match getlist_presencas with
  | [] => Ok []
  | aluno_id :: rest =>
      if isdigit aluno_id then
        n <- py_int aluno_id ;;
        ids <- presentes_ids rest ;;
        Ok (n :: ids)
      else presentes_ids rest
  end.

(** The commit cannot fail on [uq_presenca_aluno_data]: the loop inserts a
    row only where the query found none, so the [except IntegrityError]
    branch is not reached and the handler flashes its success message. *)
Definition presencas_post (db : Database) (turma_id : Z)
  (data_registro : date) (getlist_presencas : list string)
  : result (Database * Response) :=
  turma <- get_turma_or_404 db turma_id ;;
  ids <- presentes_ids getlist_presencas ;;
  Ok (set_presencas db
        (fold_left (registrar_presenca turma data_registro ids)
           (turma_alunos db turma) (presencas db)),
      Redirect "presencas" "Presenças registradas!" "success").
End Presentes.

(* ================================================================== *)
(** ** [app.py]: user management (the POST branch of [manage_users]) *)

(** The two actions that can take the admin role away from an account. *)
Inductive UserAction : Type :=
| UpdateRole (user_id : Z) (role : string)
| Delete (user_id : Z).

Definition get_user_or_404 (db : Database) (id : Z) : result User.t :=
  match find (fun u => User.id u =? id) (users db) with
  | Some u => Ok u
  | None => Raise NotFound
  end.

(** [User.query.filter_by(role="admin").count()]. *)
Definition admin_count (db : Database) : Z :=
  Z.of_nat (List.length (filter (fun u => (User.role u =? "admin")%string) (users db))).

Definition set_users (db : Database) (tabela : list User.t) : Database :=
  mkdb (turmas db) (alunos db) (presencas db) (pagamentos db) tabela.

Definition manage_users_post (db : Database) (current_user : User.t)
  (action : UserAction) : result (Database * Response) :=
  match action with
  | UpdateRole user_id role =>
      usuario <- get_user_or_404 db user_id ;;
      if negb (existsb (String.eqb role) User.ROLE_CHOICES) then
        Ok (db, Redirect "manage_users" "Selecione um perfil válido." "error")
      else if (User.id usuario =? User.id current_user)
              && negb (role =? "admin")%string
              && (admin_count db =? 1) then
        Ok (db, Redirect "manage_users"
                  "Não é possível remover o último administrador." "error")
      else
        Ok (set_users db
              (update_first (fun u => User.id u =? User.id usuario)
                 (fun u => User.set_role u role) (users db)),
            Redirect "manage_users" "Perfil atualizado." "success")
  | Delete user_id =>
      usuario <- get_user_or_404 db user_id ;;
      if list_eqb (lower (chars (User.username usuario))) (chars "admin") then
        Ok (db, Redirect "manage_users"
                  "O usuário padrão 'admin' não pode ser removido." "error")
      else if User.id usuario =? User.id current_user then
        Ok (db, Redirect "manage_users"
                  "Não é possível remover o usuário logado." "error")
      else if (User.role usuario =? "admin")%string && (admin_count db =? 1) then
        Ok (db, Redirect "manage_users"
                  "Não é possível remover o último administrador." "error")
      else
        Ok (set_users db
              (delete_first (fun u => User.id u =? User.id usuario) (users db)),
            Redirect "manage_users" "Usuário removido." "success")
  end.

(** The [permission_required] decorator around a view. *)
Definition permission_required (permission : string)
  (view : Database -> User.t -> result (Database * Response))
  (db : Database) (current_user : option User.t)
  : result (Database * Response) :=
  match current_user with
  | None => Ok (db, Unauthorized)
  | Some u =>
      if negb (User.has_permission u permission) then
        Ok (db, Redirect "dashboard"
                  "Você não tem permissão para acessar este módulo." "error")
      else view db u
  end.

Definition manage_users (db : Database) (current_user : option User.t)
  (action : UserAction) : result (Database * Response) :=
  permission_required "users"
    (fun db u => manage_users_post db u action) db current_user.

(* ================================================================== *)
(** ** Vocabulary of the statements *)

(** The order of dates, as a proposition. *)
Definition date_lt (a b : date) : Prop :=
  year a < year b
  \/ (year a = year b
      /\ (month a < month b \/ (month a = month b /\ day a < day b))).

(** Exactly two decimal places. *)
Definition two_places (d : Decimal) : Prop :=
  match d with
  | DFinite _ _ e => e = -2
  | _ => False
  end.

Definition is_nan (d : Decimal) : Prop :=
  match d with
  | DNaN _ _ _ => True
  | _ => False
  end.

(** A text of ASCII characters. *)
Definition texto_ascii (s : string) : Prop :=
  Forall (fun c => (code c < 128)%N) (chars s).



(** The birthday of [nasc] falls before [ref] within the year of [ref]. *)
Definition birthday_passed (nasc ref : date) : Prop :=
  month nasc < month ref \/ (month nasc = month ref /\ day nasc < day ref).

(** Ascending by days remaining. *)
Definition dias_le (x y : Aniversario) : Prop :=
  aniv_dias_para_aniversario x <= aniv_dias_para_aniversario y.

(** The birthday of the student comes within 45 days of [hoje]. *)
Definition em_45_dias (hoje : date) (a : Aluno.t) : Prop :=
  exists n, dias_para_aniversario a hoje = Ok (Some n) /\ n <= 45.

(** The entry of the student in the birthday list of [hoje]. *)
Definition aniversario_de (db : Database) (hoje : date) (a : Aluno.t)
  (e : Aniversario) : Prop :=
  dias_para_aniversario a hoje = Ok (Some (aniv_dias_para_aniversario e))
  /\ aniv_nome e = Aluno.nome a
  /\ aniv_data e = Aluno.data_nascimento a
  /\ aniv_turma e = match aluno_turma db a with
                    | Some t => Turma.nome t
                    | None => "Sem turma"
                    end.

(* ================================================================== *)
(** ** Sample rows *)

Definition turma_sub11 : Turma.t :=
  Turma.mk 1 "Sub-11" "Infantil" "Ter/Qui 18h" "Campo 2".

(** Born on 19 July, the 200th day of a common year. *)
Definition aluno_ana : Aluno.t :=
  Aluno.mk 1 "Ana" 13 "Carla" "11 99999-0000" "ativo" EmptyString
    (Some (mkdate 2010 7 19)) (Some 1) 15000 false.

(** Born on 1 January. *)
Definition aluno_bruno : Aluno.t :=
  Aluno.mk 2 "Bruno" 12 "Davi" "11 98888-0000" "inativo" EmptyString
    (Some (mkdate 2011 1 1)) (Some 1) 12000 false.

(** A scholarship student, born on 29 February. *)
Definition aluno_caio : Aluno.t :=
  Aluno.mk 3 "Caio" 11 "Elaine" "11 97777-0000" "ativo" EmptyString
    (Some (mkdate 2012 2 29)) None 0 true.

(* ================================================================== *)
(** ** Constraints of the schema and vocabulary of the reconciliation *)

(** Primary key of [alunos]. *)
Definition alunos_pk (db : Database) : Prop :=
  NoDup (map Aluno.id (alunos db)).

(** [uq_pagamento_competencia]: one row per student and month. *)
Definition chave_pagamento (p : Pagamento.t) : Z * date :=
  (Pagamento.aluno_id p, Pagamento.competencia p).

Definition uq_pagamento_competencia (tabela : list Pagamento.t) : Prop :=
  NoDup (map chave_pagamento tabela).

(** [valor_mensalidade] is a [Numeric(10, 2)] column. *)
Definition mensalidades_numeric (alunos : list Aluno.t) : Prop :=
  Forall (fun a => numeric_10_2 (Aluno.valor_mensalidade a)) alunos.

Definition db_wf (db : Database) : Prop :=
  alunos_pk db
  /\ uq_pagamento_competencia (pagamentos db)
  /\ mensalidades_numeric (alunos db).

(** The loop body once the fee is known to parse to itself. *)
Definition reconciliar_puro (referencia : date)
  (st : list Pagamento.t * list Pagamento.t) (aluno : Aluno.t)
  : list Pagamento.t * list Pagamento.t :=
  let (tabela, registros) := st in
  let filtro := pagamento_do_aluno (Aluno.id aluno) referencia in
  let valor := Aluno.valor_mensalidade aluno in
  if Aluno.projeto_social aluno then
    match find filtro tabela with
    | Some _ => (delete_first filtro tabela, registros)
    | None => (tabela, registros)
    end
  else
    match find filtro tabela with
    | Some p =>
        (update_first filtro (fun q => Pagamento.set_valor q valor) tabela,
         (registros ++ [Pagamento.set_valor p valor])%list)
    | None =>
        let novo :=
          Pagamento.mk (next_id (map Pagamento.id tabela)) referencia false None
            EmptyString valor (Aluno.id aluno) in
        ((tabela ++ [novo])%list, (registros ++ [novo])%list)
    end.

(** The row reconciliation leaves for a student that is charged, given the
    row found before. *)
Definition linha_reconciliada (referencia : date) (aluno : Aluno.t)
  (antes : option Pagamento.t) (p : Pagamento.t) : Prop :=
  match antes with
  | Some q => p = Pagamento.set_valor q (Aluno.valor_mensalidade aluno)
  | None =>
      exists i, p = Pagamento.mk i referencia false None EmptyString
                      (Aluno.valor_mensalidade aluno) (Aluno.id aluno)
  end.

Definition opt_list {A : Type} (o : option A) : list A :=
  match o with Some x => [x] | None => [] end.

(** The rows of the table that [registros] holds, student by student. *)
Definition registros_de (referencia : date) (tabela : list Pagamento.t)
  (alunos : list Aluno.t) : list Pagamento.t :=
  flat_map (fun a => if Aluno.projeto_social a then []
                     else opt_list (find (pagamento_do_aluno (Aluno.id a) referencia)
                                      tabela))
    alunos.


(** The students in the order of [order_by(Aluno.nome)]. *)
Definition alunos_por_nome (db : Database) : list Aluno.t :=
  sort_by String.leb Aluno.nome (alunos db).

Definition cobrado (a : Aluno.t) : bool := negb (Aluno.projeto_social a).

(** The summary once every value is known to parse to itself. *)
Definition total_de (valores : list Z) : Total :=
  fold_left total_add valores (TInt 0).

Definition resumo_puro (registros : list Pagamento.t) : Resumo :=
  let pagos := Z.of_nat (List.length (filter Pagamento.pago registros)) in
  let previsto := total_de (map Pagamento.valor registros) in
  let pago := total_de (map Pagamento.valor (filter Pagamento.pago registros)) in
  mkresumo pagos
    (Z.of_nat (List.length registros) - pagos)
    (match registros with
     | [] => PctZero
     | _ :: _ => PctRound1 pagos (Z.of_nat (List.length registros))
     end)
    previsto pago (total_sub previsto pago).

(** The table and [registros] the loop ends with. *)
Definition reconciliado (db : Database) (referencia : date)
  : list Pagamento.t * list Pagamento.t :=
  fold_left (reconciliar_puro referencia) (alunos_por_nome db) (pagamentos db, []).

(** March 2024 for a paid row of Ana at an older fee, a row of the
    scholarship student Caio, and no row of Bruno; February is untouched. *)
Definition marco_2024 : date := mkdate 2024 3 1.

Definition pagamento_ana_marco : Pagamento.t :=
  Pagamento.mk 1 marco_2024 true (Some (mkdate 2024 3 5)) EmptyString 10000 1.

Definition pagamento_caio_marco : Pagamento.t :=
  Pagamento.mk 2 marco_2024 false None EmptyString 0 3.

Definition pagamento_ana_fevereiro : Pagamento.t :=
  Pagamento.mk 3 (mkdate 2024 2 1) false None EmptyString 10000 1.

Definition db_exemplo : Database :=
  mkdb [turma_sub11] [aluno_bruno; aluno_caio; aluno_ana] []
    [pagamento_ana_marco; pagamento_caio_marco; pagamento_ana_fevereiro] [].

(** [uq_presenca_aluno_data]: one row per date and student. *)
Definition chave_presenca (p : Presenca.t) : date * Z :=
  (Presenca.data p, Presenca.aluno_id p).

Definition uq_presenca_aluno_data (tabela : list Presenca.t) : Prop :=
  NoDup (map chave_presenca tabela).

(** Class 1 with Ana and Bruno; Ana was marked present on 12 March.  The
    rows are in rowid order. *)
Definition presenca_ana_12 : Presenca.t :=
  Presenca.mk 1 (mkdate 2024 3 12) true 1 1.

Definition db_presencas : Database :=
  mkdb [turma_sub11] [aluno_ana; aluno_bruno; aluno_caio] [presenca_ana_12] [] [].

(** A request that changed nothing and told the user so: a flash message
    of category [error], or the login manager's refusal (which flashes its
    [login_message] with [login_message_category = "error"]). *)
Definition rejected (r : Response) : Prop :=
  match r with
  | Redirect _ _ category => category = "error"
  | Unauthorized => True
  end.

(** The seeded account, demoted, and the only administrator. *)
Definition user_admin : User.t := User.mk 1 "admin" "$2b$12$seed" "gestor".
Definition user_maria : User.t := User.mk 2 "Maria" "$2b$12$maria" "admin".

Definition db_users : Database :=
  mkdb [] [] [] [] [user_admin; user_maria].

(** The rows of the other months. *)
Definition outro_mes (referencia : date) (p : Pagamento.t) : bool :=
  negb (date_eqb (Pagamento.competencia p) referencia).

(** The row a submission leaves for a student, given the row found. *)
Definition presenca_marcada (turma : Turma.t) (data_registro : date)
  (presentes_ids : list Z) (a : Aluno.t) (antes : option Presenca.t)
  (p : Presenca.t) : Prop :=
  Presenca.presente p = existsb (Z.eqb (Aluno.id a)) presentes_ids
  /\ Presenca.turma_id p = Turma.id turma
  /\ Presenca.aluno_id p = Aluno.id a
  /\ Presenca.data p = data_registro
  /\ (forall q, antes = Some q -> Presenca.id p = Presenca.id q).

(* ================================================================== *)
(** ** [app.py]: [calcular_idade] *)

(** [(hoje.month, hoje.day) < (nascimento.month, nascimento.day)]. *)
Definition month_day_ltb (a b : date) : bool :=
  (month a <? month b) || ((month a =? month b) && (day a <? day b)).

Definition calcular_idade (data_nascimento hoje : date) : Z :=
  year hoje - year data_nascimento
  - (if month_day_ltb hoje data_nascimento then 1 else 0).

Definition MIN_IDADE : Z := 4.
Definition MAX_IDADE : Z := 18.

(* ================================================================== *)
(** ** What a view raises *)

(** Beside the exceptions of [exn] the views can raise [AttributeError],
    where a relationship is [None] and an attribute of it is read, and
    [OverflowError], where an [int] does not fit the 64 bits of an INTEGER
    column. *)
Inductive pyexn : Type :=
| Exn (e : exn)
| AttributeError
| OverflowError.

Inductive outcome (A : Type) : Type :=
| Returns (a : A)
| Raises (e : pyexn).

Arguments Returns {A} a.
Arguments Raises {A} e.

Definition of_result {A : Type} (c : result A) : outcome A :=
  match c with
  | Ok a => Returns a
  | Raise e => Raises (Exn e)
  end.

Definition bind_outcome {A B : Type} (c : outcome A) (k : A -> outcome B)
  : outcome B :=
  match c with
  | Returns a => k a
  | Raises e => Raises e
  end.

Fixpoint for_each_outcome {A S : Type} (body : S -> A -> outcome S)
  (l : list A) (s : S) : outcome S :=
  match l with
  | [] => Returns s
  | x :: r => bind_outcome (body s x) (for_each_outcome body r)
  end.

(* ================================================================== *)
(** ** [app.py]: marking a payment (the POST branch of [pagamentos]) *)

(** [Aluno.query.get_or_404(id)]. *)
Definition get_aluno_or_404 (db : Database) (id : Z) : result Aluno.t :=
  match find (fun a => Aluno.id a =? id) (alunos db) with
  | Some a => Ok a
  | None => Raise NotFound
  end.

(** [status == "pago"], for a form field that may be missing. *)
Definition status_pago (status : option string) : bool :=
  match status with
  | Some s => (s =? "pago")%string
  | None => false
  end.

(** [marcar_pago()] or [marcar_pendente()], on the day [hoje]. *)
Definition marcar (status : option string) (hoje : date) (p : Pagamento.t)
  : Pagamento.t :=
  if status_pago status then Pagamento.marcar_pago p hoje
  else Pagamento.marcar_pendente p.

Definition pagamentos_post (db : Database) (hoje competencia : date)
  (aluno_id : Z) (status : option string) : result (Database * Response) :=
  aluno <- get_aluno_or_404 db aluno_id ;;
  let filtro := pagamento_do_aluno (Aluno.id aluno) competencia in
  let pagamento := find filtro (pagamentos db) in
  valor <- parse_decimal_column (Aluno.valor_mensalidade aluno) ;;
  let tabela :=
    match pagamento with
    | Some _ =>
        update_first filtro
          (fun p => marcar status hoje (Pagamento.set_valor p valor))
          (pagamentos db)
    | None =>
        (pagamentos db ++
         [marcar status hoje
            (Pagamento.mk (next_id (map Pagamento.id (pagamentos db)))
               competencia false None EmptyString valor (Aluno.id aluno))])%list
    end in
  Ok (set_pagamentos db tabela,
      Redirect "pagamentos" "Pagamento atualizado." "success").

(* ================================================================== *)
(** ** [app.py]: [delete_aluno] and [delete_turma] *)

(** The [cascade="all, delete-orphan"] relationships take the student's
    attendance and payment rows along. *)
Definition delete_aluno (db : Database) (aluno_id : Z)
  : result (Database * Response) :=
  aluno <- get_aluno_or_404 db aluno_id ;;
  Ok (mkdb (turmas db)
        (delete_first (fun a => Aluno.id a =? Aluno.id aluno) (alunos db))
        (filter (fun p => negb (Presenca.aluno_id p =? Aluno.id aluno))
           (presencas db))
        (filter (fun p => negb (Pagamento.aluno_id p =? Aluno.id aluno))
           (pagamentos db))
        (users db),
      Redirect "list_alunos" "Aluno removido." "success").

Definition aluno_set_turma_id (a : Aluno.t) (t : option Z) : Aluno.t :=
  Aluno.mk (Aluno.id a) (Aluno.nome a) (Aluno.idade a) (Aluno.responsavel a)
    (Aluno.telefone a) (Aluno.status a) (Aluno.observacoes a)
    (Aluno.data_nascimento a) t (Aluno.valor_mensalidade a)
    (Aluno.projeto_social a).

Definition aluno_da_turma (t : Turma.t) (a : Aluno.t) : bool :=
  match Aluno.turma_id a with
  | Some tid => tid =? Turma.id t
  | None => false
  end.

(** The students of the class lose their class; the class row goes.  The
    [ondelete="CASCADE"] of [presencas.turma_id] is the database's to apply:
    it does so only where foreign keys are enforced ([foreign_keys]). *)
Definition delete_turma (foreign_keys : bool) (db : Database) (turma_id : Z)
  : result (Database * Response) :=
  turma <- get_turma_or_404 db turma_id ;;
  Ok (mkdb
        (delete_first (fun t => Turma.id t =? Turma.id turma) (turmas db))
        (map (fun a => if aluno_da_turma turma a
                       then aluno_set_turma_id a None else a)
           (alunos db))
        (if foreign_keys
         then filter (fun p => negb (Presenca.turma_id p =? Turma.id turma))
                (presencas db)
         else presencas db)
        (pagamentos db)
        (users db),
      Redirect "list_turmas"
        "Turma removida. Alunos permanecem cadastrados." "success").

(* ================================================================== *)
(** ** [app.py]: the attendance sheet (the GET branch of [presencas]) *)

(** [registros]: each student of the class with
    [presenca.presente if presenca else False]. *)
Definition presencas_get (db : Database) (turma_id : Z) (data_registro : date)
  : result (list (Aluno.t * bool)) :=
  turma <- get_turma_or_404 db turma_id ;;
  Ok (map (fun aluno =>
             (aluno,
              match find (presenca_do_aluno (Aluno.id aluno) data_registro)
                      (presencas db) with
              | Some presenca => Presenca.presente presenca
              | None => false
              end))
        (turma_alunos db turma)).

(* ================================================================== *)
(** ** [app.py]: the student form (the POST branches of [list_alunos] and
    [edit_aluno]) *)

(** [request.form]: the fields as they were sent, [None] for a field that
    was not. *)
Record FormAluno : Type := mkform {
  form_nome : option string;
  form_idade : option string;
  form_responsavel : option string;
  form_telefone : option string;
  form_turma_id : option string;
  form_status : option string;
  form_observacoes : option string;
  form_data_nascimento : option string;
  form_valor_mensalidade : option string;
  form_projeto_social : option string
}.

(** [request.form.get(key, default)]. *)
Definition form_get (field : option string) (default : string) : string :=
  match field with
  | Some v => v
  | None => default
  end.

(** [text.strip()]. *)
Definition strip_string (s : string) : string :=
  string_of_list_ascii (strip (chars s)).

(** [not text]. *)
Definition vazio (s : string) : bool :=
  match s with
  | EmptyString => true
  | String _ _ => false
  end.

(** A character of the class [0-9+()\s-]. *)
Definition telefone_char (c : ascii) : bool :=
  is_digit c || Ascii.eqb c "+" || Ascii.eqb c "(" || Ascii.eqb c ")"
  || is_space c || Ascii.eqb c "-".

(** [TELEFONE_REGEX.match(text)]: eight characters of the class, or more,
    at the start. *)
Definition TELEFONE_REGEX_match (s : string) : bool :=
  (8 <=? List.length (chars s))%nat && forallb telefone_char (firstn 8 (chars s)).

(** [d < 0] for a [Decimal]: a comparison with a NaN signals. *)
Definition Decimal_lt_0 (d : Decimal) : result bool :=
  match d with
  | DNaN _ _ _ => Raise InvalidOperation
  | DInf s => Ok s
  | DFinite s c _ => Ok (s && negb (c =? 0)%N)
  end.

(** An [int] an INTEGER column takes. *)
Definition int64 (n : Z) : bool := (- 2 ^ 63 <=? n) && (n <? 2 ^ 63).

(** The fields of a form that passed the checks. *)
Record CamposAluno : Type := mkcampos {
  campo_nome : string;
  campo_idade : Z;
  campo_responsavel : string;
  campo_telefone : string;
  campo_turma_id : string;
  campo_status : string;
  campo_observacoes : string;
  campo_data_nascimento : option date;
  campo_valor_mensalidade : Decimal;
  campo_projeto_social : bool
}.

Section Formulario.
(** What the views take from outside: [int(text)];
    [datetime.strptime(text, "%Y-%m-%d").date()], [None] where it raises
    [ValueError]; and the cents a [Numeric(10, 2)] column keeps of a
    [Decimal] written to it. *)
Variable py_int : string -> result Z.
Variable strptime_Ymd : string -> option date.
Variable numeric_store : Decimal -> Z.

Definition parse_date (value : option string) : option date :=
  match value with
  | None => None
  | Some text => if vazio text then None else strptime_Ymd text
  end.

(** The fields are read and checked, the same way in both views: the flash
    message of the check that fails, or the fields to store. *)
Definition campos_aluno (hoje : date) (form : FormAluno)
  : result (string + CamposAluno) :=
  let nome := strip_string (form_get (form_nome form) EmptyString) in
  let idade := strip_string (form_get (form_idade form) EmptyString) in
  let responsavel :=
    strip_string (form_get (form_responsavel form) EmptyString) in
  let telefone := strip_string (form_get (form_telefone form) EmptyString) in
  let turma_id := form_turma_id form in
  let status := form_get (form_status form) "ativo" in
  let observacoes :=
    strip_string (form_get (form_observacoes form) EmptyString) in
  let data_nascimento := parse_date (form_data_nascimento form) in
  valor_mensalidade <-
    parse_decimal
      (match form_valor_mensalidade form with
       | Some text => PyStr text
       | None => PyNone
       end) zero_00 ;;
  let projeto_social :=
    match form_projeto_social form with
    | Some text => (text =? "on")%string
    | None => false
    end in
  if vazio nome || vazio responsavel || vazio telefone
     || match turma_id with
        | Some text => vazio text
        | None => true
        end
     || (vazio idade
         && match data_nascimento with
            | Some _ => false
            | None => true
            end)
  then Ok (inl "Preencha todos os campos obrigatórios.")
  else if negb (TELEFONE_REGEX_match telefone)
  then Ok (inl "Informe um telefone válido (apenas números, espaço, +, -, parênteses).")
  else
    negativo <- Decimal_lt_0 valor_mensalidade ;;
    if (negativo : bool)
    then Ok (inl "O valor da mensalidade deve ser maior ou igual a zero.")
    else
      let valor_mensalidade :=
        if projeto_social then zero_00 else valor_mensalidade in
      let campos idade_final :=
        mkcampos nome idade_final responsavel telefone
          (form_get turma_id EmptyString) status observacoes
          data_nascimento valor_mensalidade projeto_social in
      match data_nascimento with
      | Some nascimento =>
          let idade_calculada := calcular_idade nascimento hoje in
          if (idade_calculada <? MIN_IDADE) || (MAX_IDADE <? idade_calculada)
          then Ok (inl "A idade calculada deve estar entre 4 e 18 anos.")
          else Ok (inr (campos idade_calculada))
      | None =>
          match py_int idade with
          | Raise ValueError => Ok (inl "Idade inválida.")
          | Raise e => Raise e
          | Ok idade_final =>
              if (idade_final <? MIN_IDADE) || (MAX_IDADE <? idade_final)
              then Ok (inl "A idade deve estar entre 4 e 18 anos.")
              else Ok (inr (campos idade_final))
          end
      end.

(** The row of a student with the fields of the form. *)
Definition aluno_de_campos (id turma_id : Z) (c : CamposAluno) : Aluno.t :=
  Aluno.mk id (campo_nome c) (campo_idade c) (campo_responsavel c)
    (campo_telefone c) (campo_status c) (campo_observacoes c)
    (campo_data_nascimento c) (Some turma_id)
    (numeric_store (campo_valor_mensalidade c)) (campo_projeto_social c).

(** [int(turma_id)] inside the [try], and the row written at the commit. *)
Definition salvar_aluno (db : Database) (id : Z) (c : CamposAluno)
  (tabela : Aluno.t -> list Aluno.t) (erro sucesso : Response)
  : outcome (Database * Response) :=
  match py_int (campo_turma_id c) with
  | Raise ValueError => Returns (db, erro)
  | Raise e => Raises (Exn e)
  | Ok turma_id =>
      if int64 turma_id
      then Returns
             (mkdb (turmas db) (tabela (aluno_de_campos id turma_id c))
                (presencas db) (pagamentos db) (users db),
              sucesso)
      else Raises OverflowError
  end.

Definition list_alunos_post (db : Database) (hoje : date) (form : FormAluno)
  : outcome (Database * Response) :=
  match sort_by String.leb Turma.nome (turmas db) with
  | [] =>
      Returns (db, Redirect "list_alunos"
                     "Cadastre uma turma antes de incluir alunos." "error")
  | _ :: _ =>
      bind_outcome (of_result (campos_aluno hoje form)) (fun r =>
        match r with
        | inl message => Returns (db, Redirect "list_alunos" message "error")
        | inr c =>
            salvar_aluno db (next_id (map Aluno.id (alunos db))) c
              (fun aluno => (alunos db ++ [aluno])%list)
              (Redirect "list_alunos" "Idade inválida." "error")
              (Redirect "list_alunos" "Aluno cadastrado com sucesso!"
                 "success")
        end)
  end.

Definition edit_aluno_post (db : Database) (hoje : date) (aluno_id : Z)
  (form : FormAluno) : outcome (Database * Response) :=
  bind_outcome (of_result (get_aluno_or_404 db aluno_id)) (fun aluno =>
  bind_outcome (of_result (campos_aluno hoje form)) (fun r =>
    match r with
    | inl message => Returns (db, Redirect "edit_aluno" message "error")
    | inr c =>
        salvar_aluno db (Aluno.id aluno) c
          (fun novo =>
             update_first (fun a => Aluno.id a =? Aluno.id aluno)
               (fun _ => novo) (alunos db))
          (Redirect "edit_aluno" "Idade inválida." "error")
          (Redirect "list_alunos" "Aluno atualizado com sucesso!" "success")
    end)).
End Formulario.

(* ================================================================== *)
(** ** [app.py]: accounts ([login], the actions [create] and
    [reset_password] of [manage_users], the password form of
    [configuracoes], the default account of [bootstrap]) *)

(** [text.lower()] of an ASCII text, and [lower(text)] of SQLite, which
    changes the ASCII letters alone. *)
Definition lower_string (s : string) : string :=
  string_of_list_ascii (lower (chars s)).

(** [User.query.filter(func.lower(User.username) == username).first()]. *)
Definition user_by_lower_name (db : Database) (username : string)
  : option User.t :=
  find (fun u => (lower_string (User.username u) =? username)%string)
    (users db).

(** What [login] answers: a redirect, or the login page again, with the
    message flashed. *)
Inductive LoginResponse : Type :=
| LoginRedirect (endpoint : string) (flash : option (string * string))
| LoginPage (flash : option (string * string)).

Definition set_password_hash (u : User.t) (h : string) : User.t :=
  User.mk (User.id u) (User.username u) h (User.role u).

(** The [login_required] decorator around a view. *)
Definition login_required
  (view : Database -> User.t -> result (Database * Response))
  (db : Database) (current_user : option User.t)
  : result (Database * Response) :=
  match current_user with
  | None => Ok (db, Unauthorized)
  | Some u => view db u
  end.

Section Contas.
(** [bcrypt.check_password_hash(hash, password)] and
    [bcrypt.generate_password_hash(password).decode("utf-8")], as the
    request finds them. *)
Variable check_password_hash : string -> string -> result bool.
Variable generate_password_hash : string -> result string.

(** The POST branch of [login]: who is logged in afterwards, and the
    answer. *)
Definition login_post (db : Database) (current_user : option User.t)
  (form_username form_password : option string)
  : result (option User.t * LoginResponse) :=
  match current_user with
  | Some u => Ok (Some u, LoginRedirect "dashboard" None)
  | None =>
      let username :=
        lower_string (strip_string (form_get form_username EmptyString)) in
      let password := form_get form_password EmptyString in
      let falha :=
        Ok (None, LoginPage (Some ("Usuário ou senha inválidos.", "error"))) in
      match user_by_lower_name db username with
      | Some user =>
          confere <- check_password_hash (User.password_hash user) password ;;
          if (confere : bool)
          then Ok (Some user,
                   LoginRedirect "dashboard"
                     (Some ("Bem-vindo de volta!", "success")))
          else falha
      | None => falha
      end
  end.

(** The action [create] of [manage_users]. *)
Definition manage_users_create (db : Database)
  (form_username form_password form_confirm_password form_role
   : option string) : result (Database * Response) :=
  let username :=
    lower_string (strip_string (form_get form_username EmptyString)) in
  let senha := form_get form_password EmptyString in
  let confirmacao := form_get form_confirm_password EmptyString in
  let role := form_get form_role "gestor" in
  let erro message := Ok (db, Redirect "manage_users" message "error") in
  if vazio username || vazio senha
  then erro "Informe usuário e senha."
  else if negb (senha =? confirmacao)%string
  then erro "A confirmação de senha não confere."
  else if (String.length senha <? 6)%nat
  then erro "A senha deve ter ao menos 6 caracteres."
  else if negb (existsb (String.eqb role) User.ROLE_CHOICES)
  then erro "Selecione um perfil válido."
  else
    match user_by_lower_name db username with
    | Some _ => erro "Já existe um usuário com esse nome."
    | None =>
        h <- generate_password_hash senha ;;
        Ok (set_users db
              (users db
               ++ [User.mk (next_id (map User.id (users db))) username h
                     role])%list,
            Redirect "manage_users" "Usuário criado com sucesso!" "success")
    end.

(** The action [reset_password]. *)
Definition manage_users_reset_password (db : Database) (user_id : Z)
  (form_password form_confirm_password : option string)
  : result (Database * Response) :=
  let senha := form_get form_password EmptyString in
  let confirmacao := form_get form_confirm_password EmptyString in
  usuario <- get_user_or_404 db user_id ;;
  if (String.length senha <? 6)%nat
  then Ok (db, Redirect "manage_users"
                 "A nova senha deve ter ao menos 6 caracteres." "error")
  else if negb (senha =? confirmacao)%string
  then Ok (db, Redirect "manage_users"
                 "A confirmação de senha não confere." "error")
  else
    h <- generate_password_hash senha ;;
    Ok (set_users db
          (update_first (fun u => User.id u =? User.id usuario)
             (fun u => set_password_hash u h) (users db)),
        Redirect "manage_users" "Senha atualizada." "success").

(** The POST branch of [configuracoes]: the account logged in changes its
    password. *)
Definition configuracoes_post (db : Database) (current_user : option User.t)
  (form_senha_atual form_nova_senha form_confirmacao_senha : option string)
  : result (Database * Response) :=
  login_required
    (fun db current_user =>
       let senha_atual := form_get form_senha_atual EmptyString in
       let nova_senha := form_get form_nova_senha EmptyString in
       let confirmacao := form_get form_confirmacao_senha EmptyString in
       confere <- check_password_hash (User.password_hash current_user)
                    senha_atual ;;
       if negb confere
       then Ok (db, Redirect "configuracoes" "Senha atual incorreta." "error")
       else if negb (nova_senha =? confirmacao)%string
       then Ok (db, Redirect "configuracoes" "A confirmação não confere."
                      "error")
       else if (String.length nova_senha <? 6)%nat
       then Ok (db, Redirect "configuracoes"
                      "A nova senha deve ter ao menos 6 caracteres." "error")
       else
         h <- generate_password_hash nova_senha ;;
         Ok (set_users db
               (update_first (fun u => User.id u =? User.id current_user)
                  (fun u => set_password_hash u h) (users db)),
             Redirect "configuracoes" "Senha alterada com sucesso!"
               "success"))
    db current_user.

(** The default account of [bootstrap]: created where no account is named
    [admin]. *)
Definition bootstrap_admin (db : Database) : result Database :=
  match find (fun u => (User.username u =? "admin")%string) (users db) with
  | Some _ => Ok db
  | None =>
      h <- generate_password_hash "admin123" ;;
      Ok (set_users db
            (users db
             ++ [User.mk (next_id (map User.id (users db))) "admin" h
                   "admin"])%list)
  end.

(** A request to [manage_users] by the account logged in. *)
Inductive UserRequest : Type :=
| Create (form_username form_password form_confirm_password form_role
          : option string)
| ResetPassword (user_id : Z) (form_password form_confirm_password
                               : option string)
| Other (action : UserAction).

Definition manage_users_request (db : Database) (current_user : option User.t)
  (request : UserRequest) : result (Database * Response) :=
  match request with
  | Create u p c r =>
      permission_required "users"
        (fun db _ => manage_users_create db u p c r) db current_user
  | ResetPassword i p c =>
      permission_required "users"
        (fun db _ => manage_users_reset_password db i p c) db current_user
  | Other action => manage_users db current_user action
  end.
End Contas.

(* ================================================================== *)
(** ** [app.py]: the due and overdue lists of [financeiro] *)

(** One entry of [vencendo_semana] or [vencidas]; the key [dias] is set in
    the first list only and [dias_atraso] in the second only. *)
Record Pendencia : Type := mkpend {
  pend_aluno : string;
  pend_turma : string;
  pend_valor : Decimal;
  pend_vencimento : date;
  pend_competencia : date;
  pend_dias : option Z;
  pend_dias_atraso : option Z
}.

(** [date.__le__]. *)
Definition date_leb (a b : date) : bool := negb (date_ltb b a).

(** The [registro.aluno] relationship. *)
Definition pagamento_aluno (db : Database) (p : Pagamento.t) : option Aluno.t :=
  find (fun a => Aluno.id a =? Pagamento.aluno_id p) (alunos db).

(** [Pagamento.query.filter_by(pago=False).order_by(competencia.asc())]. *)
Definition pendencias (db : Database) : list Pagamento.t :=
  sort_by date_leb Pagamento.competencia
    (filter (fun p => negb (Pagamento.pago p)) (pagamentos db)).

(** The body of the loop over [pendencias]. *)
Definition registrar_pendencia (db : Database) (hoje : date)
  (st : list Pendencia * list Pendencia) (registro : Pagamento.t)
  : outcome (list Pendencia * list Pendencia) :=
  let (vencendo_semana, vencidas) := st in
  bind_outcome
    (of_result (calcular_vencimento (Pagamento.competencia registro)
                  DIA_VENCIMENTO_PADRAO))
    (fun vencimento =>
       let dias := date_sub_days vencimento hoje in
       match pagamento_aluno db registro with
       | None => Raises AttributeError
       | Some aluno =>
           let turma := match aluno_turma db aluno with
                        | Some t => Turma.nome t
                        | None => "Sem turma"
                        end in
           bind_outcome
             (of_result
                (parse_decimal
                   (PyDecimal (Decimal_of_cents (Pagamento.valor registro)))
                   zero_00))
             (fun valor =>
                let info := mkpend (Aluno.nome aluno) turma valor vencimento
                              (Pagamento.competencia registro) in
                if (0 <=? dias) && (dias <=? 7) then
                  Returns ((vencendo_semana ++ [info (Some dias) None])%list,
                           vencidas)
                else if dias <? 0 then
                  Returns (vencendo_semana,
                           (vencidas ++ [info None (Some (Z.abs dias))])%list)
                else Returns (vencendo_semana, vencidas))
       end).

(** [vencendo_semana] and [vencidas] as the handler passes them to the
    template: sorted by [item.get("dias", 0)], and by
    [item.get("dias_atraso", 0)] with [reverse=True]. *)
Definition financeiro_pendencias (db : Database) (hoje : date)
  : outcome (list Pendencia * list Pendencia) :=
  bind_outcome
    (for_each_outcome (registrar_pendencia db hoje) (pendencias db) ([], []))
    (fun st =>
       let (vencendo_semana, vencidas) := st in
       Returns
         (sort_by Z.leb (fun item => from_opt (pend_dias item) 0)
            vencendo_semana,
          sort_by (fun a b => b <=? a)
            (fun item => from_opt (pend_dias_atraso item) 0) vencidas)).

(** [dt - relativedelta(months=months)] for [0 <= months <= 11], where the
    constructor leaves the months as they are: the month moves back, into
    the year before where it must, and the day is cut to the month's
    length. *)
Definition sub_relativedelta_months (dt : date) (months : Z) : result date :=
  let year := year dt in
  let month := month dt - months in
  let (year, month) :=
    if 12 <? month then (year + 1, month - 12)
    else if month <? 1 then (year - 1, month + 12)
    else (year, month) in
  mr <- monthrange year month ;;
  let day := Z.min (snd mr) (day dt) in
  replace dt (Some year) (Some month) (Some day).

(** [str(n)] for a natural number: its decimal digits, the last one first
    to be found.  One more than the number of bits is fuel enough. *)
Fixpoint digits_of (fuel : nat) (n : N) (acc : list ascii) : list ascii :=
  match fuel with
  | O => acc
  | S fuel' =>
      let acc' := ascii_of_N (48 + n mod 10) :: acc in
      if (n <? 10)%N then acc' else digits_of fuel' (n / 10) acc'
  end.

Definition str_of_N (n : N) : list ascii :=
  digits_of (S (N.to_nat (N.size n))) n [].

Definition digit_char (n : Z) : ascii := ascii_of_N (48 + Z.to_N n).

(** [referencia.strftime("%m/%Y")] as the C library of Linux writes it: the
    month with two digits, the year with the digits it has (999 for the
    year 999). *)
Definition strftime_m_Y (d : date) : string :=
  string_of_list_ascii
    ([digit_char (month d / 10); digit_char (month d mod 10); "/"%char]
     ++ str_of_N (Z.to_N (year d)))%list.

(** One entry of [historico]. *)
Record Historico : Type := mkhist {
  hist_mes : date;
  hist_label : string;
  hist_valor_previsto : Total;
  hist_valor_pago : Total;
  hist_valor_pendente : Total;
  hist_percentual : Percentual
}.

(** The body of the loop over [range(5, -1, -1)]: the month is reconciled
    and its summary kept. *)
Definition registrar_historico (mes_atual : date)
  (st : Database * list Historico) (offset : Z)
  : result (Database * list Historico) :=
  let (db, historico) := st in
  referencia <- sub_relativedelta_months mes_atual offset ;;
  r <- pagamentos_do_mes_referencia db referencia ;;
  let '(db1, _, resumo) := r in
  Ok (db1,
      (historico ++
       [mkhist referencia (strftime_m_Y referencia) (valor_previsto resumo)
          (valor_pago resumo) (valor_pendente resumo) (percentual resumo)])%list).

(** [date.__le__] where both dates are set. *)
Definition opt_date_leb (a b : option date) : bool :=
  match a, b with
  | Some x, Some y => date_leb x y
  | _, _ => true
  end.

(** The paid rows of students who are charged, latest payment first. *)
Definition entradas_recentes (db : Database) : list Pagamento.t :=
  firstn 8
    (sort_by (fun a b => opt_date_leb b a) Pagamento.data_pagamento
       (filter (fun p =>
                  Pagamento.pago p
                  && match Pagamento.data_pagamento p with
                     | Some _ => true
                     | None => false
                     end
                  && match pagamento_aluno db p with
                     | Some a => negb (Aluno.projeto_social a)
                     | None => false
                     end)
          (pagamentos db))).

(** What the view hands to its template. *)
Record Financeiro : Type := mkfin {
  fin_total_previsto : Total;
  fin_total_pago : Total;
  fin_total_pendente : Total;
  fin_vencendo_semana : list Pendencia;
  fin_vencidas : list Pendencia;
  fin_historico : list Historico;
  fin_entradas_recentes : list Pagamento.t;
  fin_mes_atual : date;
  fin_alunos_projeto : list Aluno.t
}.

(** The view [financeiro] on the day [hoje]: the database it commits and
    the template's arguments. *)
Definition financeiro (db : Database) (hoje : date)
  : outcome (Database * Financeiro) :=
  bind_outcome (of_result (first_day_of_month hoje)) (fun mes_atual =>
  bind_outcome (of_result (pagamentos_do_mes_referencia db mes_atual)) (fun r =>
  let '(db1, _, resumo_mes) := r in
  bind_outcome (financeiro_pendencias db1 hoje) (fun listas =>
  let (vencendo_semana, vencidas) := listas in
  bind_outcome
    (of_result
       (for_each (registrar_historico mes_atual) [5; 4; 3; 2; 1; 0] (db1, [])))
    (fun st =>
       let (db2, historico) := st in
       Returns
         (db2,
          mkfin (valor_previsto resumo_mes) (valor_pago resumo_mes)
            (valor_pendente resumo_mes) vencendo_semana vencidas historico
            (entradas_recentes db2) mes_atual
            (sort_by String.leb Aluno.nome
               (filter Aluno.projeto_social (alunos db2)))))))).

(* ================================================================== *)
(** ** [app.py]: the birth date limits of [inject_now] *)

(** [dt - relativedelta(years=years)]: the same month and day that many
    years earlier, the day cut to the month's length. *)
Definition sub_relativedelta_years (dt : date) (years : Z) : result date :=
  let year := year dt - years in
  mr <- monthrange year (month dt) ;;
  let day := Z.min (snd mr) (day dt) in
  replace dt (Some year) (Some (month dt)) (Some day).

(** [idade_limits]: the [min] and the [max] the forms give the birth date
    field. *)
Definition idade_limits (hoje : date) : result (date * date) :=
  min <- sub_relativedelta_years hoje MAX_IDADE ;;
  max <- sub_relativedelta_years hoje MIN_IDADE ;;
  Ok (min, max).

(* ================================================================== *)
(** ** [app.py]: [ultimas_pendencias] *)

(** [.limit(n)]: SQLite reads a negative limit as no limit. *)
Definition limit_rows {A : Type} (n : Z) (l : list A) : list A :=
  if n <? 0 then l else firstn (Z.to_nat n) l.

(** One entry of the list [ultimas_pendencias] returns. *)
Record Pendente : Type := mkpendente {
  pdt_aluno : string;
  pdt_turma : string;
  pdt_mes : string;
  pdt_valor : Decimal
}.

(** [join(Aluno).filter(Pagamento.pago.is_(False),
    Aluno.projeto_social.is_(False))]. *)
Definition pendente_cobrado (db : Database) (p : Pagamento.t) : bool :=
  negb (Pagamento.pago p)
  && match pagamento_aluno db p with
     | Some a => negb (Aluno.projeto_social a)
     | None => false
     end.

(** The body of the loop over the rows. *)
Definition registrar_pendente (db : Database) (resultado : list Pendente)
  (registro : Pagamento.t) : outcome (list Pendente) :=
  match pagamento_aluno db registro with
  | None => Raises AttributeError
  | Some aluno =>
      let turma := match aluno_turma db aluno with
                   | Some t => Turma.nome t
                   | None => "Sem turma"
                   end in
      bind_outcome
        (of_result
           (parse_decimal
              (PyDecimal (Decimal_of_cents (Pagamento.valor registro)))
              zero_00))
        (fun valor =>
           Returns
             (resultado ++
              [mkpendente (Aluno.nome aluno) turma
                 (strftime_m_Y (Pagamento.competencia registro)) valor])%list)
  end.

Definition ultimas_pendencias (db : Database) (limit : Z)
  : outcome (list Pendente) :=
  let pendencias :=
    limit_rows limit
      (sort_by (fun a b => date_leb b a) Pagamento.competencia
         (filter (pendente_cobrado db) (pagamentos db))) in
  for_each_outcome (registrar_pendente db) pendencias [].

(* ================================================================== *)
(** ** [app.py]: the class form (the POST branches of [list_turmas] and
    [edit_turma]) *)

Record FormTurma : Type := mkformturma {
  form_turma_nome : option string;
  form_categoria : option string;
  form_dias_horario : option string;
  form_local_treino : option string
}.

(** The four fields, stripped, when none is empty. *)
Definition campos_turma (id : Z) (form : FormTurma) : option Turma.t :=
  let nome := strip_string (form_get (form_turma_nome form) EmptyString) in
  let categoria :=
    strip_string (form_get (form_categoria form) EmptyString) in
  let dias_horario :=
    strip_string (form_get (form_dias_horario form) EmptyString) in
  let local_treino :=
    strip_string (form_get (form_local_treino form) EmptyString) in
  if vazio nome || vazio categoria || vazio dias_horario
     || vazio local_treino
  then None
  else Some (Turma.mk id nome categoria dias_horario local_treino).

Definition set_turmas (db : Database) (tabela : list Turma.t) : Database :=
  mkdb tabela (alunos db) (presencas db) (pagamentos db) (users db).

Definition list_turmas_post (db : Database) (form : FormTurma)
  : result (Database * Response) :=
  match campos_turma (next_id (map Turma.id (turmas db))) form with
  | None =>
      Ok (db, Redirect "list_turmas" "Preencha todos os campos." "error")
  | Some turma =>
      Ok (set_turmas db (turmas db ++ [turma])%list,
          Redirect "list_turmas" "Turma cadastrada com sucesso!" "success")
  end.

Definition edit_turma_post (db : Database) (turma_id : Z) (form : FormTurma)
  : result (Database * Response) :=
  turma <- get_turma_or_404 db turma_id ;;
  match campos_turma (Turma.id turma) form with
  | None =>
      Ok (db, Redirect "edit_turma" "Preencha todos os campos." "error")
  | Some nova =>
      Ok (set_turmas db
            (update_first (fun t => Turma.id t =? Turma.id turma)
               (fun _ => nova) (turmas db)),
          Redirect "list_turmas" "Turma atualizada!" "success")
  end.

(* ================================================================== *)
(** ** [app.py]: [parse_month] *)

(** [text.split(sep)] for a separator of one character. *)
Fixpoint split_char (sep : ascii) (l : list ascii) : list (list ascii) :=
  match l with
  | [] => [[]]
  | c :: r =>
      if Ascii.eqb c sep then [] :: split_char sep r
      else
        match split_char sep r with
        | part :: parts => (c :: part) :: parts
        | [] => [[c]]
        end
  end.

(** The range of a C [int], to which [date] converts its arguments before
    it checks them: outside of it the conversion raises [OverflowError]. *)
Definition c_int (n : Z) : bool := (- 2 ^ 31 <=? n) && (n <? 2 ^ 31).

(** [competencia.strftime("%Y-%m")] for a year from 1000 on, which is
    written with its four digits. *)
Definition strftime_Y_m (d : date) : string :=
  string_of_list_ascii
    [digit_char (year d / 1000); digit_char (year d / 100 mod 10);
     digit_char (year d / 10 mod 10); digit_char (year d mod 10); "-"%char;
     digit_char (month d / 10); digit_char (month d mod 10)].

Section Competencia.
(** [int(text)]. *)
Variable py_int : string -> result Z.

(** The month a request names, on the day [hoje]: the first day of the
    current month stands for a missing, empty or malformed value. *)
Definition parse_month (value : option string) (hoje : date)
  : outcome date :=
  let padrao := of_result (first_day_of_month hoje) in
  match value with
  | None => padrao
  | Some text =>
      if vazio text then padrao
      else
        match split_char "-" (chars text) with
        | [year; month] =>
            match py_int (string_of_list_ascii year) with
            | Raise ValueError => padrao
            | Raise e => Raises (Exn e)
            | Ok y =>
                match py_int (string_of_list_ascii month) with
                | Raise ValueError => padrao
                | Raise e => Raises (Exn e)
                | Ok m =>
                    if c_int y && c_int m then
                      match date_new y m 1 with
                      | Ok d => Returns d
                      | Raise ValueError => padrao
                      | Raise e => Raises (Exn e)
                      end
                    else Raises OverflowError
                end
            end
        | _ => padrao
        end
  end.
End Competencia.

(* ================================================================== *)
(** ** [app.py]: [format_currency] *)

(** The option [,] of a format specification, on the digits from the last
    to the first: a comma after every three digits that others follow. *)
Fixpoint insert_thousands_sep (reversed : list ascii) : list ascii :=
  match reversed with
  | a :: b :: c :: ((_ :: _) as r) =>
      a :: b :: c :: ","%char :: insert_thousands_sep r
  | _ => reversed
  end.

Definition format_sign (sign : bool) : list ascii :=
  if sign then ["-"%char] else [].

(** [format(d, ",.2f")] for a [Decimal]: a finite value is rounded to two
    places with the context's rounding, its integer digits are grouped and
    its two decimal digits follow the point; a special value is written by
    name, with its diagnostic digits. *)
Definition Decimal_format_2f (d : Decimal) : list ascii :=
  match d with
  | DFinite s c e =>
      let c' := match _rescale s c e (-2) with
                | DFinite _ c' _ => c'
                | _ => 0%N
                end in
      (format_sign s
       ++ rev (insert_thousands_sep (rev (str_of_N (c' / 100))))
       ++ ["."%char; ascii_of_N (48 + c' / 10 mod 10);
           ascii_of_N (48 + c' mod 10)])%list
  | DInf s => (format_sign s ++ chars "Infinity")%list
  | DNaN s signaling payload =>
      (format_sign s
       ++ chars (if signaling then "sNaN" else "NaN")
       ++ (if (payload =? 0)%N then [] else str_of_N payload))%list
  end.

Definition format_currency (value : PyValue) : result string :=
  quantia <- parse_decimal value zero_00 ;;
  let form := Decimal_format_2f quantia in
  let form :=
    replace_char "X" ["."%char]
      (replace_char "." [","%char] (replace_char "," ["X"%char] form)) in
  Ok (string_of_list_ascii (chars "R$ " ++ form)%list).

(* ================================================================== *)
(** ** Vocabulary of the further statements *)

(** A payment date is set exactly on the paid rows. *)
Definition data_sse_pago (p : Pagamento.t) : Prop :=
  Pagamento.pago p = true <-> Pagamento.data_pagamento p <> None.

(** Every payment and attendance row belongs to a student of the table. *)
Definition fk_alunos (db : Database) : Prop :=
  (forall p, In p (pagamentos db) ->
             exists a, In a (alunos db) /\ Aluno.id a = Pagamento.aluno_id p)
  /\ (forall p, In p (presencas db) ->
                exists a, In a (alunos db) /\ Aluno.id a = Presenca.aluno_id p).

(** Some account has the role [admin]. *)
Definition has_admin (db : Database) : Prop :=
  exists u, In u (users db) /\ User.role u = "admin".

(** Primary key of [turmas]. *)
Definition turmas_pk (db : Database) : Prop :=
  NoDup (map Turma.id (turmas db)).

(** The due date of a month: its tenth day. *)
Definition vencimento_de (competencia : date) : date :=
  mkdate (year competencia) (month competencia) DIA_VENCIMENTO_PADRAO.

(** Days from [hoje] to the due date of the row. *)
Definition dias_ate (hoje : date) (p : Pagamento.t) : Z :=
  toordinal (vencimento_de (Pagamento.competencia p)) - toordinal hoje.

(** An unpaid row with a valid month, a value of the column's precision and
    a student in the table. *)
Definition pendencia_ok (db : Database) (p : Pagamento.t) : Prop :=
  valid_date (Pagamento.competencia p)
  /\ numeric_10_2 (Pagamento.valor p)
  /\ exists a, pagamento_aluno db p = Some a.

(** The entry that stands for the row [p] of the student [a]. *)
Definition entrada_de (db : Database) (p : Pagamento.t) (a : Aluno.t)
  (item : Pendencia) : Prop :=
  pend_aluno item = Aluno.nome a
  /\ pend_turma item = match aluno_turma db a with
                       | Some t => Turma.nome t
                       | None => "Sem turma"
                       end
  /\ pend_valor item = Decimal_of_cents (Pagamento.valor p)
  /\ pend_vencimento item = vencimento_de (Pagamento.competencia p)
  /\ pend_competencia item = Pagamento.competencia p.

(** Due today or within seven days; past its due date. *)
Definition vence_na_semana (hoje : date) (p : Pagamento.t) : bool :=
  (0 <=? dias_ate hoje p) && (dias_ate hoje p <=? 7).

Definition vencida (hoje : date) (p : Pagamento.t) : bool :=
  dias_ate hoje p <? 0.

(** The entry of [vencendo_semana], and of [vencidas], for the row [p]. *)
Definition entrada_vencendo (db : Database) (hoje : date) (p : Pagamento.t)
  (item : Pendencia) : Prop :=
  exists a, pagamento_aluno db p = Some a
            /\ entrada_de db p a item
            /\ pend_dias item = Some (dias_ate hoje p)
            /\ pend_dias_atraso item = None.

Definition entrada_vencida (db : Database) (hoje : date) (p : Pagamento.t)
  (item : Pendencia) : Prop :=
  exists a, pagamento_aluno db p = Some a
            /\ entrada_de db p a item
            /\ pend_dias item = None
            /\ pend_dias_atraso item = Some (- dias_ate hoje p).

(** The first day of the month [k] months before the month of [d]. *)
Definition mes_anterior (d : date) (k : Z) : date :=
  let t := year d * 12 + (month d - 1) - k in
  mkdate (t / 12) (t mod 12 + 1) 1.

(** What reconciling the month [m] leaves for the student [a], given the
    table [antes] the request started from. *)
Definition mes_reconciliado (antes depois : list Pagamento.t) (m : date)
  (a : Aluno.t) : Prop :=
  if Aluno.projeto_social a
  then forall p, In p depois -> pagamento_do_aluno (Aluno.id a) m p = false
  else exists p,
         filter (pagamento_do_aluno (Aluno.id a) m) depois = [p]
         /\ linha_reconciliada m a
              (find (pagamento_do_aluno (Aluno.id a) m) antes) p.



(** What the column keeps of a two-place [Decimal] of at most ten digits:
    its cents. *)
Definition store_exact (numeric_store : Decimal -> Z) : Prop :=
  forall (s : bool) (c : N),
    ndigits c <= 10 ->
    numeric_store (DFinite s c (-2)) = (if s then - Z.of_N c else Z.of_N c).

(** And of one that is not negative, nothing negative. *)
Definition store_sign (numeric_store : Decimal -> Z) : Prop :=
  forall c : N, 0 <= numeric_store (DFinite false c (-2)).

(** The row holds what the checks of the form let through. *)
Definition ficha_valida (a : Aluno.t) : Prop :=
  vazio (Aluno.nome a) = false
  /\ vazio (Aluno.responsavel a) = false
  /\ TELEFONE_REGEX_match (Aluno.telefone a) = true
  /\ MIN_IDADE <= Aluno.idade a <= MAX_IDADE
  /\ 0 <= Aluno.valor_mensalidade a
  /\ (Aluno.projeto_social a = true -> Aluno.valor_mensalidade a = 0).

(** The row holds the fields of the form [form], read on the day [hoje]. *)
Definition ficha_do_formulario (py_int : string -> result Z)
  (strptime_Ymd : string -> option date) (hoje : date) (form : FormAluno)
  (a : Aluno.t) : Prop :=
  Aluno.nome a = strip_string (form_get (form_nome form) EmptyString)
  /\ Aluno.responsavel a
     = strip_string (form_get (form_responsavel form) EmptyString)
  /\ Aluno.telefone a
     = strip_string (form_get (form_telefone form) EmptyString)
  /\ Aluno.observacoes a
     = strip_string (form_get (form_observacoes form) EmptyString)
  /\ Aluno.status a = form_get (form_status form) "ativo"
  /\ Aluno.data_nascimento a
     = parse_date strptime_Ymd (form_data_nascimento form)
  /\ (forall d, Aluno.data_nascimento a = Some d ->
                Aluno.idade a = calcular_idade d hoje)
  /\ (Aluno.data_nascimento a = None ->
      py_int (strip_string (form_get (form_idade form) EmptyString))
      = Ok (Aluno.idade a))
  /\ (exists n, Aluno.turma_id a = Some n
                /\ py_int (form_get (form_turma_id form) EmptyString) = Ok n)
  /\ Aluno.projeto_social a
     = match form_projeto_social form with
       | Some text => (text =? "on")%string
       | None => false
       end.

(** No two accounts share a name up to the case of its letters. *)
Definition nomes_unicos (db : Database) : Prop :=
  NoDup (map (fun u => lower_string (User.username u)) (users db)).

(** The account [alvo] has a new password in [db']: the text has six
    characters or more and its hash is in the row, the other rows are as
    in [db]; [login] with the name of the account, in any case, lets it in
    with a password the hash accepts and lets nobody in with one it
    refuses, and for any other name answers as on [db]. *)
Definition senha_trocada (check_password_hash : string -> string -> result bool)
  (generate_password_hash : string -> result string)
  (db db' : Database) (alvo : User.t) (senha : string) : Prop :=
  exists h,
    generate_password_hash senha = Ok h
    /\ (6 <= String.length senha)%nat
    /\ db' = set_users db
               (update_first (fun u => User.id u =? User.id alvo)
                  (fun u => set_password_hash u h) (users db))
    /\ (forall name password,
          texto_ascii name ->
          lower_string (strip_string name)
          = lower_string (User.username alvo) ->
          check_password_hash h password = Ok true ->
          login_post check_password_hash db' None (Some name) (Some password)
          = Ok (Some (set_password_hash alvo h),
                LoginRedirect "dashboard"
                  (Some ("Bem-vindo de volta!", "success"))))
    /\ (forall name password,
          texto_ascii name ->
          lower_string (strip_string name)
          = lower_string (User.username alvo) ->
          check_password_hash h password = Ok false ->
          login_post check_password_hash db' None (Some name) (Some password)
          = Ok (None,
                LoginPage (Some ("Usuário ou senha inválidos.", "error"))))
    /\ (forall name password,
          texto_ascii name ->
          lower_string (strip_string name)
          <> lower_string (User.username alvo) ->
          login_post check_password_hash db' None (Some name) password
          = login_post check_password_hash db None (Some name) password).

(** The class row holds the four fields of the form, stripped, and none
    is empty. *)
Definition turma_do_formulario (form : FormTurma) (t : Turma.t) : Prop :=
  Turma.nome t = strip_string (form_get (form_turma_nome form) EmptyString)
  /\ Turma.categoria t
     = strip_string (form_get (form_categoria form) EmptyString)
  /\ Turma.dias_horario t
     = strip_string (form_get (form_dias_horario form) EmptyString)
  /\ Turma.local_treino t
     = strip_string (form_get (form_local_treino form) EmptyString)
  /\ vazio (Turma.nome t) = false /\ vazio (Turma.categoria t) = false
  /\ vazio (Turma.dias_horario t) = false
  /\ vazio (Turma.local_treino t) = false.

(** [int] reads a text of decimal digits, below its limit of 4300 digits,
    as the number they write; and what it raises is a [ValueError]. *)
Definition int_decimal (py_int : string -> result Z) : Prop :=
  forall ds : list ascii,
    ds <> [] -> (List.length ds <= 4300)%nat ->
    Forall (fun c => is_digit c = true) ds ->
    py_int (string_of_list_ascii ds) = Ok (Z.of_N (digits_value ds)).

Definition int_ValueError (py_int : string -> result Z) : Prop :=
  forall (text : string) (e : exn), py_int text = Raise e -> e = ValueError.

(** The name and the password typed in a request are ASCII texts. *)
Definition pedido_ascii (request : UserRequest) : Prop :=
  match request with
  | Create u p _ _ =>
      texto_ascii (form_get u EmptyString)
      /\ texto_ascii (form_get p EmptyString)
  | ResetPassword _ p _ => texto_ascii (form_get p EmptyString)
  | Other _ => True
  end.

(** [db'] is what a request to [manage_users] leaves of [db], for an
    account of the table or with nobody logged in, and texts typed in
    ASCII. *)
Definition pedido_contas (generate_password_hash : string -> result string)
  (db db' : Database) : Prop :=
  exists (current_user : option User.t) (request : UserRequest)
         (resp : Response),
    (forall u, current_user = Some u -> In u (users db))
    /\ pedido_ascii request
    /\ manage_users_request generate_password_hash db current_user request
       = Ok (db', resp).

(** [db'] is what some requests to [manage_users], one after the other,
    leave of [db]. *)
Inductive apos_pedidos (generate_password_hash : string -> result string)
  (db : Database) : Database -> Prop :=
| apos_nenhum : apos_pedidos generate_password_hash db db
| apos_mais (db1 db2 : Database) :
    apos_pedidos generate_password_hash db db1 ->
    pedido_contas generate_password_hash db1 db2 ->
    apos_pedidos generate_password_hash db db2.

(* ================================================================== *)
(** ** Sample rows of the further statements *)

(** Ana has a paid March row and an attendance row; the class has two
    students. *)
Definition db_escola : Database :=
  mkdb [turma_sub11] [aluno_bruno; aluno_caio; aluno_ana] [presenca_ana_12]
    [pagamento_ana_marco; pagamento_caio_marco; pagamento_ana_fevereiro] [].

(** A pending row of April 2024 of Bruno, and one of May. *)
Definition pagamento_bruno_abril : Pagamento.t :=
  Pagamento.mk 4 (mkdate 2024 4 1) false None EmptyString 12000 2.

Definition pagamento_bruno_maio : Pagamento.t :=
  Pagamento.mk 5 (mkdate 2024 5 1) false None EmptyString 12000 2.

Definition db_financeiro : Database :=
  mkdb [turma_sub11] [aluno_bruno; aluno_caio; aluno_ana] []
    [pagamento_ana_marco; pagamento_bruno_maio; pagamento_bruno_abril;
     pagamento_ana_fevereiro] [].

(** The white space of C, which [int] skips around an ASCII text. *)
Definition is_c_space (c : ascii) : bool :=
  let n := code c in ((9 <=? n) && (n <=? 13) || (n =? 32))%N.

Fixpoint lstrip_c (l : list ascii) : list ascii :=
  match l with
  | c :: r => if is_c_space c then lstrip_c r else l
  | [] => []
  end.

Definition strip_c (l : list ascii) : list ascii :=
  rev (lstrip_c (rev (lstrip_c l))).

(** [text.isdigit()] for ASCII text: not empty, and digits alone. *)
Definition isdigit_ascii (text : string) : bool :=
  negb (vazio text) && forallb is_digit (chars text).

(** [text.isdigit()] on ASCII text and on the superscript two, which is a
    digit for [isdigit] and no number for [int]. *)
Definition isdigit_exemplo (text : string) : bool :=
  isdigit_ascii text || (text =? "²")%string.

(** [int(text)] for ASCII text below the limit on the digits of a number:
    white space around, a sign, then digits with single underscores between
    them. *)
Fixpoint int_digits (l : list ascii) (acc : N) : option N :=
  match l with
  | [] => Some acc
  | c :: r =>
      if is_digit c then int_digits r (acc * 10 + (code c - 48))%N
      else if Ascii.eqb c "_" then
        match r with
        | d :: r' =>
            if is_digit d then int_digits r' (acc * 10 + (code d - 48))%N
            else None
        | [] => None
        end
      else None
  end.

Definition int_ascii (text : string) : result Z :=
  let (negative, r) := parse_sign (strip_c (chars text)) in
  match r with
  | c :: r' =>
      if is_digit c then
        match int_digits r' (code c - 48)%N with
        | Some n => Ok (if negative then - Z.of_N n else Z.of_N n)
        | None => Raise ValueError
        end
      else Raise ValueError
  | [] => Raise ValueError
  end.

Definition digit_value (c : ascii) : Z := Z.of_N (code c - 48).

(** The month of the pattern, [1[0-2]|0[1-9]|[1-9]], and the hyphen. *)
Definition strptime_month (l : list ascii) : option (Z * list ascii) :=
  match l with
  | a :: "-"%char :: r =>
      if is_digit a && (1 <=? digit_value a) then Some (digit_value a, r)
      else None
  | a :: b :: "-"%char :: r =>
      if (Ascii.eqb a "1" && is_digit b && (digit_value b <=? 2))
         || (Ascii.eqb a "0" && is_digit b && (1 <=? digit_value b))
      then Some (10 * digit_value a + digit_value b, r)
      else None
  | _ => None
  end.

(** The day of the pattern, [3[01]|[12]\d|0[1-9]|[1-9]| [1-9]], with nothing
    left after it. *)
Definition strptime_day (l : list ascii) : option Z :=
  match l with
  | [a] => if is_digit a && (1 <=? digit_value a) then Some (digit_value a)
           else None
  | [a; b] =>
      if Ascii.eqb a "3" && is_digit b && (digit_value b <=? 1)
      then Some (30 + digit_value b)
      else if (Ascii.eqb a "1" || Ascii.eqb a "2") && is_digit b
      then Some (10 * digit_value a + digit_value b)
      else if (Ascii.eqb a "0" || Ascii.eqb a " ")
              && is_digit b && (1 <=? digit_value b)
      then Some (digit_value b)
      else None
  | _ => None
  end.

(** [datetime.strptime(text, "%Y-%m-%d").date()] for ASCII text, [None]
    where it raises [ValueError]. *)
Definition strptime_Ymd_ascii (text : string) : option date :=
  match chars text with
  | y1 :: y2 :: y3 :: y4 :: "-"%char :: r =>
      if is_digit y1 && is_digit y2 && is_digit y3 && is_digit y4 then
        match strptime_month r with
        | Some (m, r') =>
            match strptime_day r' with
            | Some d =>
                match date_new (1000 * digit_value y1 + 100 * digit_value y2
                                + 10 * digit_value y3 + digit_value y4) m d with
                | Ok data => Some data
                | Raise _ => None
                end
            | None => None
            end
        | None => None
        end
      else None
  | _ => None
  end.

(** A column that keeps the cents it is given. *)
Definition store_cents (d : Decimal) : Z :=
  match d with
  | DFinite s c _ => if s then - Z.of_N c else Z.of_N c
  | _ => 0
  end.

(** A form for Davi, born on 10 March 2014. *)
Definition form_davi : FormAluno :=
  mkform (Some " Davi ") (Some EmptyString) (Some "Eva")
    (Some "(11) 95555-0000") (Some "1") None None (Some "2014-03-10")
    (Some "1.250,50") None.

(** Stand-ins for the two functions of bcrypt in the examples: a hash that
    can be read, and its check. *)
Definition hash_exemplo (password : string) : result string :=
  Ok ("hash:" ++ password)%string.

Definition check_exemplo (h password : string) : result bool :=
  Ok (h =? "hash:" ++ password)%string.

(** A table with the default account alone. *)
Definition db_contas : Database :=
  mkdb [] [] [] [] [User.mk 1 "admin" "hash:admin123" "admin"].

(* ================================================================== *)
(** * Properties *)

(** ** Results *)

Lemma bind_Ok {A B : Type} (c : result A) (k : A -> result B) (b : B) :
  bind c k = Ok b -> exists a, c = Ok a /\ k a = Ok b.
Proof.
  destruct c as [a | e]; simpl; intros H; [ exists a; auto | discriminate ].
Qed.

Lemma Ok_inj {A : Type} (a b : A) : Ok a = Ok b -> a = b.
Proof. congruence. Qed.

(** ** Dates *)

Lemma check_date_fields_spec (y m d : Z) :
  check_date_fields y m d = true <->
  (MINYEAR <= y <= MAXYEAR /\ 1 <= m <= 12 /\ 1 <= d <= _days_in_month y m).
Proof.
  unfold check_date_fields.
  rewrite !andb_true_iff, !Z.leb_le. tauto.
Qed.

Lemma month_cases (m : Z) :
  1 <= m <= 12 ->
  m = 1 \/ m = 2 \/ m = 3 \/ m = 4 \/ m = 5 \/ m = 6 \/
  m = 7 \/ m = 8 \/ m = 9 \/ m = 10 \/ m = 11 \/ m = 12.
Proof. lia. Qed.

Ltac each_month m H :=
  let C := fresh "Hm" in
  pose proof (month_cases m H) as C;
  repeat (destruct C as [C | C]); subst m.

Lemma _days_in_month_bounds (y m : Z) :
  1 <= m <= 12 -> 28 <= _days_in_month y m <= 31.
Proof.
  intros H. unfold _days_in_month.
  each_month m H; simpl; destruct (isleap y); simpl; lia.
Qed.

Lemma monthrange_Ok (y m : Z) :
  1 <= m <= 12 ->
  monthrange y m = Ok (weekday y m 1, _days_in_month y m).
Proof.
  intros H. unfold monthrange, _days_in_month.
  replace ((1 <=? m) && (m <=? 12)) with true
    by (symmetry; rewrite andb_true_iff, !Z.leb_le; lia).
  destruct ((m =? 2) && isleap y) eqn:E.
  - apply andb_true_iff in E. destruct E as [E _].
    apply Z.eqb_eq in E. subst m. reflexivity.
  - now rewrite Z.add_0_r.
Qed.

Lemma date_new_Ok (y m d : Z) :
  MINYEAR <= y <= MAXYEAR -> 1 <= m <= 12 -> 1 <= d <= _days_in_month y m ->
  date_new y m d = Ok (mkdate y m d).
Proof.
  intros Hy Hm Hd. unfold date_new.
  now rewrite (proj2 (check_date_fields_spec y m d)).
Qed.

Lemma date_new_valid (y m d : Z) (r : date) :
  date_new y m d = Ok r -> r = mkdate y m d /\ valid_date r.
Proof.
  unfold date_new, valid_date.
  destruct (check_date_fields y m d) eqn:E; [ | discriminate ].
  intros H. injection H as <-. auto.
Qed.

(** C6. For a competence date [C] and a due-day [d] (a day of the month, so
    at least 1), [calcular_vencimento C d] returns the date of [C]'s year and
    month whose day is the smaller of [d] and the last day of that month;
    with due-day 10 a 30-day month gives day 10, and with due-day 31 a 28-day
    month gives day 28. *)
Theorem calcular_vencimento_clamps :
  forall (C : date) (d : Z),
    valid_date C -> 1 <= d ->
    calcular_vencimento C d
    = Ok (mkdate (year C) (month C) (Z.min d (_days_in_month (year C) (month C))))
    /\ (_days_in_month (year C) (month C) = 30 ->
        calcular_vencimento C DIA_VENCIMENTO_PADRAO
        = Ok (mkdate (year C) (month C) 10))
    /\ (_days_in_month (year C) (month C) = 28 ->
        calcular_vencimento C 31 = Ok (mkdate (year C) (month C) 28)).
Proof.
  intros C d HC Hd.
  apply check_date_fields_spec in HC. destruct HC as (Hy & Hm & Hday).
  pose proof (_days_in_month_bounds (year C) (month C) Hm) as Hb.
  assert (G : forall k, 1 <= k ->
            calcular_vencimento C k
            = Ok (mkdate (year C) (month C)
                    (Z.min k (_days_in_month (year C) (month C))))).
  { intros k Hk. unfold calcular_vencimento.
    rewrite (monthrange_Ok _ _ Hm). simpl.
    unfold replace. simpl. apply date_new_Ok; lia. }
  split; [ now apply G | split ]; intros E.
  - unfold DIA_VENCIMENTO_PADRAO. rewrite G by lia. rewrite E. reflexivity.
  - rewrite G by lia. rewrite E. reflexivity.
Qed.

(** A 30-day and a 28-day month: April 2024 and February 2023. *)
Lemma calcular_vencimento_clamps_witness :
  calcular_vencimento (mkdate 2024 4 1) 10 = Ok (mkdate 2024 4 10)
  /\ calcular_vencimento (mkdate 2023 2 1) 31 = Ok (mkdate 2023 2 28).
Proof.
  split.
  - apply (proj1 (proj2 (calcular_vencimento_clamps (mkdate 2024 4 1) 10
                           eq_refl ltac:(lia)))).
    reflexivity.
  - apply (proj2 (proj2 (calcular_vencimento_clamps (mkdate 2023 2 1) 31
                           eq_refl ltac:(lia)))).
    reflexivity.
Defined.

(** Outside the days of a month the replacement is refused. *)
Lemma calcular_vencimento_day_below_1 (C : date) (d : Z) :
  valid_date C -> - 2 ^ 31 <= d < 1 ->
  calcular_vencimento C d = Raise ValueError.
Proof.
  intros HC [_ Hd].
  apply check_date_fields_spec in HC. destruct HC as (Hy & Hm & Hday).
  pose proof (_days_in_month_bounds (year C) (month C) Hm) as Hb.
  unfold calcular_vencimento. rewrite (monthrange_Ok _ _ Hm). simpl.
  unfold replace, date_new. simpl.
  destruct (check_date_fields _ _ _) eqn:E; [ | reflexivity ].
  apply check_date_fields_spec in E. lia.
Qed.

(** ** Ordinals and the order of dates *)

Lemma isleap_spec (y : Z) :
  isleap y = true <-> (y mod 4 = 0 /\ (y mod 100 <> 0 \/ y mod 400 = 0)).
Proof.
  unfold isleap.
  rewrite andb_true_iff, orb_true_iff, negb_true_iff, !Z.eqb_eq, Z.eqb_neq.
  tauto.
Qed.

Lemma _days_before_year_succ (y : Z) :
  _days_before_year (y + 1)
  = _days_before_year y + 365 + (if isleap y then 1 else 0).
Proof.
  unfold _days_before_year.
  destruct (isleap y) eqn:E.
  - apply isleap_spec in E. Z.div_mod_to_equations. lia.
  - assert (N : ~ (y mod 4 = 0 /\ (y mod 100 <> 0 \/ y mod 400 = 0))).
    { intros H. apply isleap_spec in H. congruence. }
    Z.div_mod_to_equations. lia.
Qed.

Lemma _days_before_year_mono (y k : Z) :
  0 <= k -> _days_before_year y + 365 * k <= _days_before_year (y + k).
Proof.
  intros Hk. revert y.
  pattern k. apply natlike_ind; [ | | exact Hk ].
  - intros y. replace (y + 0) with y by lia. lia.
  - intros n Hn IH y.
    replace (y + Z.succ n) with ((y + n) + 1) by lia.
    rewrite _days_before_year_succ. specialize (IH y).
    destruct (isleap (y + n)); lia.
Qed.

Ltac month_tables :=
  cbv beta iota delta
    [mdays _DAYS_BEFORE_MONTH andb Z.eqb Z.ltb Z.compare Pos.eqb Pos.compare
     Pos.compare_cont] in *.

(** The day of the year of a valid date lies in the year. *)
Lemma day_of_year_bounds (y m d : Z) :
  1 <= m <= 12 -> 1 <= d <= _days_in_month y m ->
  1 <= _days_before_month y m + d <= 365 + (if isleap y then 1 else 0).
Proof.
  intros Hm Hd. unfold _days_before_month, _days_in_month in *.
  each_month m Hm; destruct (isleap y); month_tables; lia.
Qed.

Lemma day_of_year_lt (y m1 d1 m2 d2 : Z) :
  1 <= m1 <= 12 -> 1 <= d1 <= _days_in_month y m1 ->
  1 <= m2 <= 12 -> 1 <= d2 <= _days_in_month y m2 ->
  m1 < m2 ->
  _days_before_month y m1 + d1 < _days_before_month y m2 + d2.
Proof.
  intros Hm1 Hd1 Hm2 Hd2 Hlt.
  unfold _days_before_month, _days_in_month in *.
  each_month m1 Hm1; each_month m2 Hm2; try lia;
    destruct (isleap y); month_tables; lia.
Qed.

Lemma date_ltb_spec (a b : date) : date_ltb a b = true <-> date_lt a b.
Proof.
  unfold date_ltb, date_lt.
  repeat (rewrite orb_true_iff || rewrite andb_true_iff).
  rewrite !Z.ltb_lt, !Z.eqb_eq. tauto.
Qed.

Lemma toordinal_lt (a b : date) :
  valid_date a -> valid_date b -> date_lt a b -> toordinal a < toordinal b.
Proof.
  intros Ha Hb Hlt.
  apply check_date_fields_spec in Ha. destruct Ha as (Hya & Hma & Hda).
  apply check_date_fields_spec in Hb. destruct Hb as (Hyb & Hmb & Hdb).
  unfold toordinal, _ymd2ord.
  pose proof (day_of_year_bounds _ _ _ Hma Hda) as Ba.
  pose proof (day_of_year_bounds _ _ _ Hmb Hdb) as Bb.
  destruct Hlt as [Hy | [Hy [Hm | [Hm Hd]]]].
  - pose proof (_days_before_year_mono (year a + 1) (year b - (year a + 1))
                  ltac:(lia)) as M.
    replace (year a + 1 + (year b - (year a + 1))) with (year b) in M by lia.
    rewrite _days_before_year_succ in M.
    destruct (isleap (year a)); lia.
  - rewrite Hy in *.
    pose proof (day_of_year_lt _ _ _ _ _ Hma Hda Hmb Hdb Hm). lia.
  - rewrite Hy, Hm. lia.
Qed.

Lemma toordinal_le (a b : date) :
  valid_date a -> valid_date b -> ~ date_lt b a -> toordinal a <= toordinal b.
Proof.
  intros Ha Hb Hn.
  assert (T : date_lt a b \/ (year a = year b /\ month a = month b /\ day a = day b)).
  { unfold date_lt in *. lia. }
  destruct T as [T | (Ey & Em & Ed)].
  - pose proof (toordinal_lt a b Ha Hb T). lia.
  - unfold toordinal. rewrite Ey, Em, Ed. lia.
Qed.

(** ** Loops *)

Lemma for_each_inv {A S : Type} (body : S -> A -> result S) (I : S -> Prop)
  (l : list A) :
  (forall s x s', In x l -> I s -> body s x = Ok s' -> I s') ->
  forall s r, I s -> for_each body l s = Ok r -> I r.
Proof.
  induction l as [ | x l IH ]; intros Hstep s r Hs Hr; simpl in Hr.
  - now injection Hr as <-.
  - apply bind_Ok in Hr. destruct Hr as (s' & Hb & Hr).
    apply IH with (s := s'); auto.
    + intros s0 y s0' Hy. apply Hstep. now right.
    + apply (Hstep s x s'); auto. now left.
Qed.

Lemma for_each_total {A S : Type} (body : S -> A -> result S) (l : list A) :
  (forall s x, In x l -> exists s', body s x = Ok s') ->
  forall s, exists r, for_each body l s = Ok r.
Proof.
  induction l as [ | x l IH ]; intros Hb s; simpl.
  - now exists s.
  - destruct (Hb s x (or_introl eq_refl)) as (s' & E). rewrite E. simpl.
    apply IH. intros s0 y Hy. apply Hb. now right.
Qed.

Lemma for_each_raise {A S : Type} (body : S -> A -> result S) (E : exn)
  (l : list A) (bad : A) :
  (forall s x e, body s x = Raise e -> e = E) ->
  In bad l -> (forall s, body s bad = Raise E) ->
  forall s, for_each body l s = Raise E.
Proof.
  intros Honly Hin Hbad.
  induction l as [ | x l IH ]; intros s; simpl in *; [ contradiction | ].
  destruct (body s x) as [s' | e] eqn:B; simpl.
  - destruct Hin as [-> | Hin]; [ rewrite Hbad in B; discriminate | now apply IH ].
  - now rewrite (Honly _ _ _ B).
Qed.

(** ** The stable sort *)

Section SortBy.
Context {A K : Type} (leb : K -> K -> bool) (key : A -> K).
Hypothesis leb_total : forall a b, leb a b = false -> leb b a = true.

Local Abbreviation le := (fun x y : A => leb (key x) (key y) = true).

Lemma insert_by_perm (x : A) (l : list A) :
  Permutation (insert_by leb key x l) (x :: l).
Proof.
  induction l as [ | y l IH ]; simpl; [ reflexivity | ].
  destruct (leb (key x) (key y)); [ reflexivity | ].
  rewrite IH. apply perm_swap.
Qed.

Lemma sort_by_perm (l : list A) : Permutation (sort_by leb key l) l.
Proof.
  induction l as [ | x l IH ]; simpl; [ reflexivity | ].
  rewrite insert_by_perm. now constructor.
Qed.

Lemma insert_by_sorted (x : A) (l : list A) :
  Sorted le l -> Sorted le (insert_by leb key x l).
Proof.
  induction 1 as [ | y l Hs IH Hhd ]; simpl.
  - repeat constructor.
  - destruct (leb (key x) (key y)) eqn:E.
    + constructor; [ now constructor | now constructor ].
    + constructor; [ exact IH | ].
      destruct l as [ | z l ]; simpl.
      * constructor. now apply leb_total.
      * destruct (leb (key x) (key z)); constructor.
        -- now apply leb_total.
        -- now inversion Hhd.
Qed.

Lemma sort_by_sorted (l : list A) : Sorted le (sort_by leb key l).
Proof.
  induction l as [ | x l IH ]; simpl; [ constructor | ].
  now apply insert_by_sorted.
Qed.
End SortBy.

Lemma Sorted_impl {A : Type} (R R' : A -> A -> Prop) (l : list A) :
  (forall x y, R x y -> R' x y) -> Sorted R l -> Sorted R' l.
Proof.
  intros Himp. induction 1 as [ | x l Hs IH Hhd ]; constructor; auto.
  destruct Hhd; constructor. now apply Himp.
Qed.

Lemma Sorted_firstn {A : Type} (R : A -> A -> Prop) (n : nat) (l : list A) :
  Sorted R l -> Sorted R (firstn n l).
Proof.
  revert l. induction n as [ | n IH ]; intros l Hs; simpl; [ constructor | ].
  destruct Hs as [ | x l Hs Hhd ]; [ constructor | ].
  constructor; [ now apply IH | ].
  destruct Hhd as [ | y l Hxy ]; destruct n; simpl; constructor. exact Hxy.
Qed.

Lemma Forall_firstn {A : Type} (P : A -> Prop) (n : nat) (l : list A) :
  Forall P l -> Forall P (firstn n l).
Proof.
  intros H. rewrite Forall_forall in *. intros x Hx. apply H.
  rewrite <- (firstn_skipn n l). apply in_or_app. now left.
Qed.

Lemma Forall2_In_l {A B : Type} (R : A -> B -> Prop) (l1 : list A)
  (l2 : list B) (a : A) :
  Forall2 R l1 l2 -> In a l1 -> exists b, In b l2 /\ R a b.
Proof.
  induction 1 as [ | x y l1 l2 Hxy _ IH ]; intros Ha; [ contradiction | ].
  destruct Ha as [<- | Ha].
  - exists y. split; [ now left | exact Hxy ].
  - destruct (IH Ha) as (b & Ib & Rb). exists b. split; [ now right | exact Rb ].
Qed.


Lemma Forall2_In_r {A B : Type} (R : A -> B -> Prop) (l1 : list A)
  (l2 : list B) (b : B) :
  Forall2 R l1 l2 -> In b l2 -> exists a, In a l1 /\ R a b.
Proof.
  induction 1 as [ | x y l1 l2 Hxy _ IH ]; intros Hb; [ contradiction | ].
  destruct Hb as [<- | Hb].
  - exists x. split; [ now left | exact Hxy ].
  - destruct (IH Hb) as (a & Ia & Ra). exists a. split; [ now right | exact Ra ].
Qed.


Lemma StronglySorted_app_cross {A : Type} (R : A -> A -> Prop)
  (l1 l2 : list A) :
  StronglySorted R (l1 ++ l2)%list ->
  forall x y, In x l1 -> In y l2 -> R x y.
Proof.
  induction l1 as [ | a l1 IH ]; intros H x y Hx Hy; [ contradiction | ].
  simpl in H. inversion H as [ | ? ? Hs Hall ]; subst.
  destruct Hx as [<- | Hx].
  - rewrite Forall_forall in Hall. apply Hall. apply in_or_app. now right.
  - now apply IH.
Qed.

(** ** Birthdays *)

(** A month and day other than 29 February exist in every year. *)
Lemma month_day_in_year (nasc : date) (y : Z) :
  valid_date nasc -> ~ (month nasc = 2 /\ day nasc = 29) ->
  MINYEAR <= y <= MAXYEAR ->
  date_new y (month nasc) (day nasc) = Ok (mkdate y (month nasc) (day nasc)).
Proof.
  intros Hv Hn Hy.
  apply check_date_fields_spec in Hv. destruct Hv as (_ & Hm & Hd).
  apply date_new_Ok; auto.
  unfold _days_in_month in *.
  destruct ((month nasc =? 2) && isleap (year nasc)) eqn:E1.
  - apply andb_true_iff in E1. destruct E1 as [E1 _]. apply Z.eqb_eq in E1.
    rewrite E1 in *. simpl. destruct (isleap y); simpl; lia.
  - destruct ((month nasc =? 2) && isleap y) eqn:E2; [ | lia ].
    apply andb_true_iff in E2. destruct E2 as [E2 _]. apply Z.eqb_eq in E2.
    rewrite E2 in *. simpl in *. lia.
Qed.

Lemma dias_para_aniversario_next (a : Aluno.t) (nasc ref : date) :
  Aluno.data_nascimento a = Some nasc ->
  valid_date nasc -> valid_date ref ->
  ~ (month nasc = 2 /\ day nasc = 29) ->
  (birthday_passed nasc ref -> year ref < MAXYEAR) ->
  exists occ : date,
    dias_para_aniversario a ref = Ok (Some (toordinal occ - toordinal ref))
    /\ valid_date occ /\ month occ = month nasc /\ day occ = day nasc
    /\ (birthday_passed nasc ref -> year occ = year ref + 1)
    /\ (~ birthday_passed nasc ref -> year occ = year ref)
    /\ toordinal ref <= toordinal occ
    /\ (forall x : date,
          valid_date x -> month x = month nasc -> day x = day nasc ->
          toordinal ref <= toordinal x -> toordinal occ <= toordinal x).
Proof.
  intros Hdn Hv Hr Hn Hmax.
  pose proof Hr as Hr'. apply check_date_fields_spec in Hr'.
  destruct Hr' as (Hy & _ & _).
  unfold dias_para_aniversario. rewrite Hdn.
  unfold replace at 1. simpl.
  rewrite (month_day_in_year nasc (year ref) Hv Hn Hy). simpl.
  set (p := mkdate (year ref) (month nasc) (day nasc)).
  assert (Vp : valid_date p).
  { apply (date_new_valid (year ref) (month nasc) (day nasc)).
    now apply month_day_in_year. }
  assert (Hlt : date_lt p ref <-> birthday_passed nasc ref).
  { unfold date_lt, birthday_passed, p. simpl. lia. }
  destruct (date_ltb p ref) eqn:E.
  - apply date_ltb_spec in E. pose proof (proj1 Hlt E) as Hp.
    specialize (Hmax Hp). unfold MINYEAR, MAXYEAR in *.
    unfold replace. simpl.
    rewrite (month_day_in_year nasc (year ref + 1) Hv Hn)
      by (unfold MINYEAR, MAXYEAR; lia).
    simpl. unfold date_sub_days.
    set (q := mkdate (year ref + 1) (month nasc) (day nasc)).
    assert (Vq : valid_date q).
    { apply (date_new_valid (year ref + 1) (month nasc) (day nasc)).
      apply month_day_in_year; auto. unfold MINYEAR, MAXYEAR. lia. }
    exists q. repeat split; auto.
    + intros Hc. contradiction.
    + apply Z.lt_le_incl. apply toordinal_lt; auto.
      unfold date_lt, q. simpl. lia.
    + intros x Vx Mx Dx Hle.
      apply toordinal_le; auto. intros Hxq.
      assert (Hxr : date_lt x ref).
      { unfold date_lt, birthday_passed, q in *. simpl in *. lia. }
      pose proof (toordinal_lt x ref Vx Hr Hxr). lia.
  - assert (Np : ~ date_lt p ref).
    { intros H. apply date_ltb_spec in H. congruence. }
    simpl. unfold date_sub_days.
    exists p. repeat split; auto.
    + intros Hc. apply Hlt in Hc. contradiction.
    + apply toordinal_le; auto.
    + intros x Vx Mx Dx Hle.
      apply toordinal_le; auto. intros Hxp.
      assert (Hxr : date_lt x ref).
      { unfold date_lt, birthday_passed, p in *. simpl in *. lia. }
      pose proof (toordinal_lt x ref Vx Hr Hxr). lia.
Qed.

(** On the birthday itself no day remains. *)
Lemma dias_para_aniversario_today (a : Aluno.t) (nasc ref : date) :
  Aluno.data_nascimento a = Some nasc ->
  valid_date ref -> month nasc = month ref -> day nasc = day ref ->
  dias_para_aniversario a ref = Ok (Some 0).
Proof.
  intros Hdn Hr Hm Hd.
  unfold dias_para_aniversario. rewrite Hdn.
  unfold replace. simpl. rewrite Hm, Hd.
  unfold date_new. rewrite Hr. simpl.
  replace (date_ltb (mkdate (year ref) (month ref) (day ref)) ref) with false.
  - simpl. unfold date_sub_days, toordinal. simpl. f_equal. f_equal. lia.
  - symmetry. destruct (date_ltb _ ref) eqn:E; [ | reflexivity ].
    apply date_ltb_spec in E. unfold date_lt in E. simpl in E. lia.
Qed.

(** 29 February does not exist in a common year. *)
Lemma dias_para_aniversario_feb29 (a : Aluno.t) (nasc ref : date) :
  Aluno.data_nascimento a = Some nasc ->
  month nasc = 2 -> day nasc = 29 -> isleap (year ref) = false ->
  dias_para_aniversario a ref = Raise ValueError.
Proof.
  intros Hdn Hm Hd Hl.
  unfold dias_para_aniversario. rewrite Hdn.
  unfold replace, date_new. simpl. rewrite Hm, Hd.
  destruct (check_date_fields (year ref) 2 29) eqn:E; [ | reflexivity ].
  apply check_date_fields_spec in E. unfold _days_in_month in E.
  rewrite Hl in E. simpl in E. lia.
Qed.

Lemma dias_para_aniversario_only_ValueError (a : Aluno.t) (ref : date) (e : exn) :
  dias_para_aniversario a ref = Raise e -> e = ValueError.
Proof.
  unfold dias_para_aniversario, replace, date_new.
  destruct (Aluno.data_nascimento a) as [nasc | ]; [ | discriminate ].
  simpl.
  destruct (check_date_fields (year ref) (month nasc) (day nasc)); simpl;
    [ | congruence ].
  destruct (date_ltb _ ref); simpl; [ | discriminate ].
  destruct (check_date_fields (year ref + 1) (month nasc) (day nasc)); simpl;
    congruence.
Qed.

(** What the loop of [upcoming_birthdays] keeps. *)
Lemma upcoming_birthdays_entries (db : Database) (hoje : date)
  (alunos : list Aluno.t) (l : list Aniversario) :
  upcoming_birthdays db hoje alunos = Ok l ->
  Forall (fun e =>
            aniv_dias_para_aniversario e <= 45
            /\ exists a, In a alunos
                 /\ dias_para_aniversario a hoje
                    = Ok (Some (aniv_dias_para_aniversario e))
                 /\ aniv_nome e = Aluno.nome a
                 /\ aniv_data e = Aluno.data_nascimento a) l.
Proof.
  unfold upcoming_birthdays. intros H.
  apply bind_Ok in H. destruct H as (proximos & Hloop & Hret).
  apply Ok_inj in Hret. subst l.
  apply Forall_firstn.
  eapply Permutation_Forall;
    [ apply Permutation_sym, sort_by_perm | ].
  revert Hloop. apply for_each_inv; [ | constructor ].
  intros s a s' Hin Hs Hbody.
  apply bind_Ok in Hbody. destruct Hbody as ([dias | ] & Hd & Hk).
  - destruct (45 <? dias) eqn:E; injection Hk as <-; [ exact Hs | ].
    apply Forall_app. split; [ exact Hs | ].
    constructor; [ | constructor ]. simpl.
    apply Z.ltb_ge in E. split; [ exact E | ].
    exists a. auto.
  - now injection Hk as <-.
Qed.

Lemma upcoming_birthdays_shape (db : Database) (hoje : date)
  (alunos : list Aluno.t) (l : list Aniversario) :
  upcoming_birthdays db hoje alunos = Ok l ->
  (List.length l <= 6)%nat /\ Sorted dias_le l.
Proof.
  unfold upcoming_birthdays. intros H.
  apply bind_Ok in H. destruct H as (proximos & _ & Hret).
  apply Ok_inj in Hret. subst l. split.
  - rewrite length_firstn. apply Nat.le_min_l.
  - apply Sorted_firstn.
    eapply Sorted_impl;
      [ | apply (sort_by_sorted Z.leb aniv_dias_para_aniversario) ].
    + intros x y Hxy. unfold dias_le. now apply Z.leb_le.
    + intros x y Hxy. apply Z.leb_gt in Hxy. apply Z.leb_le. lia.
Qed.

Lemma upcoming_birthdays_total (db : Database) (hoje : date)
  (alunos : list Aluno.t) :
  (forall a, In a alunos -> exists r, dias_para_aniversario a hoje = Ok r) ->
  exists l, upcoming_birthdays db hoje alunos = Ok l.
Proof.
  intros Hall. unfold upcoming_birthdays.
  match goal with
  | |- context [for_each ?body alunos []] =>
      destruct (for_each_total body alunos) with (s := @nil Aniversario)
        as (r & Hr)
  end.
  - intros s a Hin. destruct (Hall a Hin) as (d & Hd). rewrite Hd. simpl.
    destruct d as [dias | ]; [ destruct (45 <? dias) | ]; eauto.
  - rewrite Hr. simpl. eauto.
Qed.

Lemma upcoming_birthdays_feb29 (db : Database) (hoje : date)
  (alunos : list Aluno.t) (a : Aluno.t) (nasc : date) :
  In a alunos -> Aluno.data_nascimento a = Some nasc ->
  month nasc = 2 -> day nasc = 29 -> isleap (year hoje) = false ->
  upcoming_birthdays db hoje alunos = Raise ValueError.
Proof.
  intros Hin Hdn Hm Hd Hl. unfold upcoming_birthdays.
  match goal with
  | |- context [for_each ?body alunos []] =>
      rewrite (for_each_raise body ValueError alunos a)
  end; auto.
  - intros s x e. destruct (dias_para_aniversario x hoje) as [d | e'] eqn:E; simpl.
    + destruct d as [dias | ]; [ destruct (45 <? dias) | ]; discriminate.
    + intros H. injection H as <-.
      now apply dias_para_aniversario_only_ValueError in E.
  - intros s. now rewrite (dias_para_aniversario_feb29 a nasc hoje).
Qed.

(** C10, as stated, fails on the last year of the calendar: on 31 December
    9999 the birthday 1 January has passed, and year 10000 is no date. *)
Lemma dias_para_aniversario_year_9999 :
  Aluno.data_nascimento aluno_bruno = Some (mkdate 2011 1 1)
  /\ valid_date (mkdate 2011 1 1)
  /\ valid_date (mkdate 9999 12 31)
  /\ ~ (month (mkdate 2011 1 1) = 2 /\ day (mkdate 2011 1 1) = 29)
  /\ dias_para_aniversario aluno_bruno (mkdate 9999 12 31) = Raise ValueError.
Proof.
  repeat split; try reflexivity.
  simpl. intros [H _]. discriminate.
Qed.

(** The key of an entry among those of a sorted list: the sort is stable. *)
Lemma insert_by_filter_key {A : Type} (key : A -> Z) (k : Z) (x : A)
  (l : list A) :
  filter (fun e => key e =? k) (insert_by Z.leb key x l)
  = filter (fun e => key e =? k) (x :: l).
Proof.
  induction l as [ | y l IH ]; [ reflexivity | ].
  cbn [insert_by]. destruct (Z.leb_spec (key x) (key y)) as [Le | Gt];
    [ reflexivity | ].
  cbn [filter] in *. rewrite IH.
  destruct (Z.eqb_spec (key x) k) as [Ex | Nx]; [ | reflexivity ].
  replace (key y =? k) with false; [ reflexivity | ].
  symmetry. apply Z.eqb_neq. lia.
Qed.

Lemma sort_by_filter_key {A : Type} (key : A -> Z) (k : Z) (l : list A) :
  filter (fun e => key e =? k) (sort_by Z.leb key l)
  = filter (fun e => key e =? k) l.
Proof.
  induction l as [ | x l IH ]; [ reflexivity | ].
  cbn [sort_by]. rewrite insert_by_filter_key. cbn [filter]. now rewrite IH.
Qed.

(** The entries the loop of [upcoming_birthdays] adds: one for each student
    within 45 days, in the order of the students. *)
Lemma upcoming_birthdays_loop (db : Database) (hoje : date)
  (body : list Aniversario -> Aluno.t -> result (list Aniversario))
  (f : Aluno.t -> bool) :
  body = (fun (proximos : list Aniversario) (aluno : Aluno.t) =>
            dias <- dias_para_aniversario aluno hoje ;;
            match dias with
            | None => Ok proximos
            | Some dias =>
                if 45 <? dias then Ok proximos
                else Ok (proximos ++
                         [mkaniv (Aluno.nome aluno) (Aluno.data_nascimento aluno)
                            dias
                            (match aluno_turma db aluno with
                             | Some t => Turma.nome t
                             | None => "Sem turma"
                             end)])%list
            end) ->
  f = (fun a => match dias_para_aniversario a hoje with
                | Ok (Some n) => n <=? 45
                | _ => false
                end) ->
  forall (L : list Aluno.t) (acc r : list Aniversario),
    for_each body L acc = Ok r ->
    exists novos, r = (acc ++ novos)%list
                  /\ Forall2 (aniversario_de db hoje) (filter f L) novos.
Proof.
  intros -> ->. induction L as [ | a L IH ]; intros acc r H.
  - injection H as <-. exists []. split; [ now rewrite app_nil_r | constructor ].
  - cbn [for_each] in H. apply bind_Ok in H. destruct H as (acc' & Hb & H).
    destruct (IH acc' r H) as (novos & -> & F2). cbn [filter].
    destruct (dias_para_aniversario a hoje) as [[n | ] | e] eqn:D;
      cbn [bind] in Hb; [ | | discriminate ].
    + destruct (Z.ltb_spec 45 n) as [Gt | Le].
      * injection Hb as <-.
        replace (n <=? 45) with false by (symmetry; apply Z.leb_gt; lia).
        exists novos. auto.
      * injection Hb as <-.
        replace (n <=? 45) with true by (symmetry; apply Z.leb_le; lia).
        eexists. split; [ now rewrite <- app_assoc | ].
        constructor; [ | exact F2 ].
        unfold aniversario_de. cbn. auto.
    + injection Hb as <-. exists novos. auto.
Qed.

(** C10 (amended). For a student whose birth date is not 29 February, and a
    reference date that is not in year 9999 after the birthday,
    [dias_para_aniversario] returns the non-negative number of days up to the
    next date with that month and day: 0 on the birthday itself, a date of
    the next year once the birthday has passed.  A list that
    [upcoming_birthdays] returns is the first six of the entries of the
    students whose birthday comes within 45 days, one entry for each such
    student of the input, put in ascending order of days remaining, those
    with the same number of days in the order of the students: so it has at
    most 6 entries, each with at most 45 days remaining, and a student within
    45 days is left out only when six entries with no more days remaining
    are returned.  It does return a list when every birth date is as above.
    For a birth date of 29 February and a reference date in a common year
    [dias_para_aniversario] raises [ValueError], and so does
    [upcoming_birthdays] over any list that holds such a student. *)
Theorem birthdays_next_occurrence :
  (forall (a : Aluno.t) (nasc ref : date),
      Aluno.data_nascimento a = Some nasc ->
      valid_date nasc -> valid_date ref ->
      ~ (month nasc = 2 /\ day nasc = 29) ->
      (birthday_passed nasc ref -> year ref < MAXYEAR) ->
      exists (occ : date) (n : Z),
        dias_para_aniversario a ref = Ok (Some n)
        /\ 0 <= n
        /\ n = toordinal occ - toordinal ref
        /\ valid_date occ /\ month occ = month nasc /\ day occ = day nasc
        /\ (forall x : date,
              valid_date x -> month x = month nasc -> day x = day nasc ->
              toordinal ref <= toordinal x -> toordinal occ <= toordinal x)
        /\ (month nasc = month ref /\ day nasc = day ref -> n = 0)
        /\ (birthday_passed nasc ref -> year occ = year ref + 1)
        /\ (~ birthday_passed nasc ref -> year occ = year ref))
  /\ (forall (db : Database) (hoje : date) (alunos : list Aluno.t)
        (l : list Aniversario),
        upcoming_birthdays db hoje alunos = Ok l ->
        (List.length l <= 6)%nat
        /\ Sorted dias_le l
        /\ Forall (fun e =>
                     aniv_dias_para_aniversario e <= 45
                     /\ exists a, In a alunos
                          /\ dias_para_aniversario a hoje
                             = Ok (Some (aniv_dias_para_aniversario e))
                          /\ aniv_nome e = Aluno.nome a
                          /\ aniv_data e = Aluno.data_nascimento a) l
        /\ (exists (f : Aluno.t -> bool) (proximos todos : list Aniversario),
               (forall a, f a = true <-> em_45_dias hoje a)
               /\ Forall2 (aniversario_de db hoje) (filter f alunos) proximos
               /\ Permutation todos proximos
               /\ Sorted dias_le todos
               /\ (forall k,
                     filter (fun e => aniv_dias_para_aniversario e =? k) todos
                     = filter (fun e => aniv_dias_para_aniversario e =? k)
                         proximos)
               /\ l = firstn 6 todos)
        /\ (forall a n,
              In a alunos -> dias_para_aniversario a hoje = Ok (Some n) ->
              n <= 45 ->
              (exists e, In e l /\ aniversario_de db hoje a e)
              \/ (List.length l = 6%nat
                  /\ forall e, In e l -> aniv_dias_para_aniversario e <= n)))
  /\ (forall (db : Database) (hoje : date) (alunos : list Aluno.t),
        valid_date hoje ->
        (forall a nasc, In a alunos -> Aluno.data_nascimento a = Some nasc ->
                        valid_date nasc
                        /\ ~ (month nasc = 2 /\ day nasc = 29)
                        /\ (birthday_passed nasc hoje -> year hoje < MAXYEAR)) ->
        exists l, upcoming_birthdays db hoje alunos = Ok l)
  /\ (forall (a : Aluno.t) (nasc ref : date),
        Aluno.data_nascimento a = Some nasc ->
        month nasc = 2 -> day nasc = 29 -> isleap (year ref) = false ->
        dias_para_aniversario a ref = Raise ValueError)
  /\ (forall (db : Database) (hoje : date) (alunos : list Aluno.t)
        (a : Aluno.t) (nasc : date),
        In a alunos -> Aluno.data_nascimento a = Some nasc ->
        month nasc = 2 -> day nasc = 29 -> isleap (year hoje) = false ->
        upcoming_birthdays db hoje alunos = Raise ValueError).
Proof.
  split; [ | split; [ | split; [ | split ] ] ].
  - intros a nasc ref Hdn Hv Hr Hn Hmax.
    destruct (dias_para_aniversario_next a nasc ref Hdn Hv Hr Hn Hmax)
      as (occ & Hd & Vo & Mo & Do & Hp & Hnp & Hle & Hmin).
    exists occ, (toordinal occ - toordinal ref).
    repeat split; auto; try lia.
    intros [Em Ed].
    rewrite (dias_para_aniversario_today a nasc ref Hdn Hr Em Ed) in Hd.
    congruence.
  - intros db hoje alunos l H.
    destruct (upcoming_birthdays_shape db hoje alunos l H) as [Hlen Hs].
    split; [ exact Hlen | ]. split; [ exact Hs | ].
    split; [ now apply upcoming_birthdays_entries with (db := db) | ].
    (* the entries of the loop, then their order *)
    pose proof H as Run. unfold upcoming_birthdays in Run.
    apply bind_Ok in Run. destruct Run as (proximos & Hloop & Hret).
    apply Ok_inj in Hret.
    set (f := fun a => match dias_para_aniversario a hoje with
                       | Ok (Some n) => n <=? 45
                       | _ => false
                       end).
    destruct (upcoming_birthdays_loop db hoje _ f eq_refl eq_refl alunos []
                proximos Hloop) as (novos & E & F2).
    cbn [app] in E. subst novos.
    set (todos := sort_by Z.leb aniv_dias_para_aniversario proximos) in *.
    assert (Fspec : forall a, f a = true <-> em_45_dias hoje a).
    { intros a. unfold f, em_45_dias. split.
      - destruct (dias_para_aniversario a hoje) as [[n | ] | e];
          try discriminate.
        intros Le. apply Z.leb_le in Le. eauto.
      - intros (n & -> & Le). now apply Z.leb_le. }
    assert (Perm : Permutation todos proximos) by apply sort_by_perm.
    assert (Srt : Sorted dias_le todos).
    { eapply Sorted_impl;
        [ | apply (sort_by_sorted Z.leb aniv_dias_para_aniversario) ].
      - intros x y Hxy. unfold dias_le. now apply Z.leb_le.
      - intros x y Hxy. apply Z.leb_gt in Hxy. apply Z.leb_le. lia. }
    split.
    { exists f, proximos, todos.
      split; [ exact Fspec | ]. split; [ exact F2 | ].
      split; [ exact Perm | ]. split; [ exact Srt | ].
      split; [ intros k; apply sort_by_filter_key | now symmetry ]. }
    intros a n Ia Da Le.
    assert (Fa : In a (filter f alunos)).
    { apply filter_In. split; [ exact Ia | ]. apply Fspec. exists n. auto. }
    destruct (Forall2_In_l _ _ _ a F2 Fa) as (e & Ie & Re).
    assert (It : In e todos)
      by (apply (Permutation_in _ (Permutation_sym Perm)); exact Ie).
    rewrite <- (firstn_skipn 6 todos) in It.
    apply in_app_or in It. destruct It as [It | It].
    + left. exists e. subst l. auto.
    + right. subst l. split.
      * rewrite length_firstn. apply Nat.min_l.
        destruct (Nat.le_gt_cases 6 (List.length todos)) as [G | L];
          [ exact G | ].
        rewrite skipn_all2 in It by lia. contradiction.
      * intros e' Ie'.
        assert (SS : StronglySorted dias_le (firstn 6 todos ++ skipn 6 todos)).
        { rewrite firstn_skipn. apply Sorted_StronglySorted; [ | exact Srt ].
          intros x y z. unfold dias_le. lia. }
        pose proof (StronglySorted_app_cross _ _ _ SS e' e Ie' It) as Hle.
        unfold dias_le in Hle. destruct Re as (De & _).
        rewrite Da in De. injection De as De. lia.
  - intros db hoje alunos Hh Hall.
    apply upcoming_birthdays_total.
    intros a Hin.
    destruct (Aluno.data_nascimento a) as [nasc | ] eqn:E.
    + destruct (Hall a nasc Hin E) as (Hv & Hn & Hmax).
      destruct (dias_para_aniversario_next a nasc hoje E Hv Hh Hn Hmax)
        as (occ & Hd & _).
      eauto.
    + unfold dias_para_aniversario. rewrite E. eauto.
  - exact dias_para_aniversario_feb29.
  - exact upcoming_birthdays_feb29.
Qed.

(** The example of the specification: born on day 200 of the year, seen on
    day 160 (9 June 2023), 40 days remain, and the list over the students
    born on 19 July and 1 January shows the first of them alone; a student
    born on 29 February seen in 2023. *)
Lemma birthdays_next_occurrence_witness :
  (exists (occ : date) (n : Z),
      dias_para_aniversario aluno_ana (mkdate 2023 6 9) = Ok (Some n)
      /\ 0 <= n
      /\ n = toordinal occ - toordinal (mkdate 2023 6 9)
      /\ valid_date occ /\ month occ = 7 /\ day occ = 19
      /\ (forall x : date,
            valid_date x -> month x = 7 -> day x = 19 ->
            toordinal (mkdate 2023 6 9) <= toordinal x ->
            toordinal occ <= toordinal x)
      /\ (7 = 6 /\ 19 = 9 -> n = 0)
      /\ (birthday_passed (mkdate 2010 7 19) (mkdate 2023 6 9) ->
          year occ = 2023 + 1)
      /\ (~ birthday_passed (mkdate 2010 7 19) (mkdate 2023 6 9) ->
          year occ = 2023))
  /\ (upcoming_birthdays (mkdb [turma_sub11] [aluno_ana; aluno_bruno] [] [] [])
        (mkdate 2023 6 9) [aluno_ana; aluno_bruno]
      = Ok [mkaniv "Ana" (Some (mkdate 2010 7 19)) 40 "Sub-11"]
      /\ ((exists e,
              In e [mkaniv "Ana" (Some (mkdate 2010 7 19)) 40 "Sub-11"]
              /\ aniversario_de
                   (mkdb [turma_sub11] [aluno_ana; aluno_bruno] [] [] [])
                   (mkdate 2023 6 9) aluno_ana e)
          \/ (List.length [mkaniv "Ana" (Some (mkdate 2010 7 19)) 40 "Sub-11"]
              = 6%nat
              /\ forall e,
                   In e [mkaniv "Ana" (Some (mkdate 2010 7 19)) 40 "Sub-11"] ->
                   aniv_dias_para_aniversario e <= 40)))
  /\ dias_para_aniversario aluno_caio (mkdate 2023 6 9) = Raise ValueError
  /\ upcoming_birthdays (mkdb [] [aluno_ana; aluno_caio] [] [] [])
       (mkdate 2023 6 9) [aluno_ana; aluno_caio] = Raise ValueError.
Proof.
  destruct birthdays_next_occurrence as (H1 & H2 & _ & H4 & H5).
  split; [ | split; [ | split ] ].
  - apply (H1 aluno_ana (mkdate 2010 7 19) (mkdate 2023 6 9));
      try reflexivity.
    simpl. lia.
  - split; [ reflexivity | ].
    destruct (H2 (mkdb [turma_sub11] [aluno_ana; aluno_bruno] [] [] [])
                (mkdate 2023 6 9) [aluno_ana; aluno_bruno]
                [mkaniv "Ana" (Some (mkdate 2010 7 19)) 40 "Sub-11"] eq_refl)
      as (_ & _ & _ & _ & Kept).
    apply (Kept aluno_ana 40); [ now left | reflexivity | lia ].
  - apply (H4 aluno_caio (mkdate 2012 2 29)); reflexivity.
  - apply (H5 _ _ _ aluno_caio (mkdate 2012 2 29)); try reflexivity.
    simpl. auto.
Defined.

Example upcoming_birthdays_day_160 :
  upcoming_birthdays (mkdb [turma_sub11] [aluno_ana; aluno_bruno] [] [] [])
    (mkdate 2023 6 9) [aluno_ana; aluno_bruno]
  = Ok [mkaniv "Ana" (Some (mkdate 2010 7 19)) 40 "Sub-11"].
Proof. reflexivity. Qed.

Example upcoming_birthdays_day_100 :
  upcoming_birthdays (mkdb [turma_sub11] [aluno_ana; aluno_bruno] [] [] [])
    (mkdate 2023 4 10) [aluno_ana; aluno_bruno]
  = Ok [].
Proof. reflexivity. Qed.

(** ** Decimals *)

Lemma count_digits_spec (fuel : nat) (c : N) :
  (c < 2 ^ N.of_nat fuel)%N -> (0 < c)%N ->
  10 ^ (count_digits fuel c - 1) <= Z.of_N c < 10 ^ count_digits fuel c
  /\ 1 <= count_digits fuel c.
Proof.
  revert c. induction fuel as [ | fuel IH ]; intros c Hb Hc.
  - simpl in Hb. lia.
  - cbn [count_digits]. destruct (N.ltb_spec c 10) as [Hlt | Hge].
    + simpl. lia.
    + assert (Hq : (0 < c / 10)%N).
      { apply N.div_str_pos. lia. }
      assert (Hb' : (c / 10 < 2 ^ N.of_nat fuel)%N).
      { rewrite Nat2N.inj_succ, N.pow_succ_r' in Hb.
        apply N.Div0.div_lt_upper_bound. lia. }
      destruct (IH (c / 10)%N Hb' Hq) as [[Hlo Hhi] H1].
      set (k := count_digits fuel (c / 10)) in *.
      replace (1 + k - 1) with k by lia.
      replace (1 + k) with (Z.succ k) by lia.
      rewrite Z.pow_succ_r by lia.
      assert (Ek : 10 ^ k = 10 * 10 ^ (k - 1)).
      { rewrite <- Z.pow_succ_r by lia. f_equal. lia. }
      pose proof (N.div_mod c 10 ltac:(lia)) as Hdm.
      pose proof (N.mod_lt c 10 ltac:(lia)) as Hm.
      rewrite N2Z.inj_div in *. 
      assert (Z.of_N c = 10 * (Z.of_N c / 10) + Z.of_N c mod 10)
        by (apply Z.div_mod; lia).
      assert (0 <= Z.of_N c mod 10 < 10) by (apply Z.mod_pos_bound; lia).
      lia.
Qed.

Lemma ndigits_spec (c : N) :
  (0 < c)%N ->
  10 ^ (ndigits c - 1) <= Z.of_N c < 10 ^ ndigits c /\ 1 <= ndigits c.
Proof.
  intros Hc. unfold ndigits. apply count_digits_spec; auto.
  rewrite N2Nat.id. apply N.size_gt.
Qed.

Lemma ndigits_0 : ndigits 0 = 1.
Proof. reflexivity. Qed.

Lemma ndigits_pos (c : N) : 1 <= ndigits c.
Proof.
  destruct (N.eq_dec c 0) as [-> | Hc]; [ rewrite ndigits_0; lia | ].
  apply ndigits_spec. lia.
Qed.




(** What quantizing to [Decimal("0.01")] can yield. *)
Lemma _rescale_exp (s : bool) (c : N) (e target : Z) :
  exists c', _rescale s c e target = DFinite s c' target.
Proof.
  unfold _rescale.
  destruct (c =? 0)%N; [ eauto | ].
  destruct (target <=? e); [ eauto | ].
  destruct (ndigits c + e - target <? 0); eauto.
Qed.

Lemma quantize_cent_Ok (x r : Decimal) :
  quantize x cent = Ok r -> two_places r \/ (is_nan x /\ is_nan r).
Proof.
  unfold quantize, cent.
  destruct x as [s c e | s | s [ | ] p ]; try discriminate.
  - destruct (negb _); [ discriminate | ].
    destruct (c =? 0)%N; [ intros H; injection H as <-; now left | ].
    destruct (Emax <? adjusted c e); [ discriminate | ].
    destruct (prec <? adjusted c e - -2 + 1); [ discriminate | ].
    destruct (_rescale_exp s c e (-2)) as (c' & ->).
    destruct (Emax <? adjusted c' (-2)); [ discriminate | ].
    destruct (prec <? ndigits c'); [ discriminate | ].
    intros H. injection H as <-. now left.
  - intros H. injection H as <-. right. unfold _fix_nan.
    destruct (prec <? ndigits p); simpl; auto.
Qed.

Lemma quantize_Raise (x y : Decimal) (e : exn) :
  quantize x y = Raise e -> e = InvalidOperation.
Proof.
  unfold quantize.
  destruct x as [s c ex | s | s [ | ] p ], y as [s' c' ey | s' | s' [ | ] p' ];
    try congruence.
  destruct (negb _); [ congruence | ].
  destruct (c =? 0)%N; [ congruence | ].
  destruct (Emax <? adjusted c ex); [ congruence | ].
  destruct (prec <? adjusted c ex - ey + 1); [ congruence | ].
  destruct (_rescale_exp s c ex ey) as (c'' & ->).
  destruct (Emax <? adjusted c'' ey); [ congruence | ].
  destruct (prec <? ndigits c''); congruence.
Qed.

Lemma Decimal_of_chars_Raise (l : list ascii) (e : exn) :
  Decimal_of_chars l = Raise e -> e = InvalidOperation.
Proof.
  unfold Decimal_of_chars.
  destruct (parse_sign _) as [sign rest].
  destruct (parse_number sign rest) as [d | ];
    [ destruct (exact_literal d); congruence | ].
  destruct (parse_special sign rest); congruence.
Qed.

(** Only NaN texts parse to a NaN. *)
Lemma quantize_cent_two_places (x r : Decimal) :
  ~ is_nan x -> quantize x cent = Ok r -> two_places r.
Proof.
  intros Hn H. destruct (quantize_cent_Ok x r H) as [T | [N _]]; tauto.
Qed.

(** On text [parse_decimal] never raises. *)
Lemma parse_decimal_str_total (s : string) (d : Decimal) :
  exists r, parse_decimal (PyStr s) d = Ok r
    /\ match Decimal_of_chars (clean s) with
       | Raise _ => r = d
       | Ok x => r = d \/ quantize x cent = Ok r
       end.
Proof.
  unfold parse_decimal.
  destruct (Decimal_of_chars (clean s)) as [x | e] eqn:E; simpl.
  - destruct (quantize x cent) as [r | e] eqn:Q.
    + exists r. auto.
    + rewrite (quantize_Raise _ _ _ Q). exists d. auto.
  - rewrite (Decimal_of_chars_Raise _ _ E). exists d. auto.
Qed.



(** A column value comes back as it is. *)
Lemma quantize_cents (c : Z) :
  ndigits (Z.abs_N c) <= prec ->
  quantize (Decimal_of_cents c) cent = Ok (Decimal_of_cents c).
Proof.
  intros Hd. unfold Decimal_of_cents, quantize, cent.
  change (negb ((Etiny <=? -2) && (-2 <=? Emax))) with false. cbv iota.
  destruct (N.eqb_spec (Z.abs_N c) 0) as [E0 | N0].
  - now rewrite E0.
  - pose proof (ndigits_pos (Z.abs_N c)) as Hp.
    unfold adjusted, prec, Emax in *.
    replace (999999 <? -2 + ndigits (Z.abs_N c) - 1) with false
      by (symmetry; apply Z.ltb_ge; lia).
    replace (28 <? -2 + ndigits (Z.abs_N c) - 1 - -2 + 1) with false
      by (symmetry; apply Z.ltb_ge; lia).
    unfold _rescale.
    replace (Z.abs_N c =? 0)%N with false by (symmetry; now apply N.eqb_neq).
    change (-2 <=? -2) with true. cbv iota.
    change (10 ^ Z.to_N (-2 - -2))%N with 1%N. rewrite N.mul_1_r.
    replace (999999 <? -2 + ndigits (Z.abs_N c) - 1) with false
      by (symmetry; apply Z.ltb_ge; lia).
    replace (28 <? ndigits (Z.abs_N c)) with false
      by (symmetry; apply Z.ltb_ge; lia).
    reflexivity.
Qed.

Lemma cents_of_Decimal_of_cents (c : Z) :
  cents_of_Decimal (Decimal_of_cents c) = Ok c.
Proof.
  unfold cents_of_Decimal, Decimal_of_cents. simpl. f_equal.
  destruct (Z.ltb_spec c 0); rewrite N2Z.inj_abs_N; lia.
Qed.

Lemma parse_decimal_column_Ok (c : Z) :
  numeric_10_2 c -> parse_decimal_column c = Ok c.
Proof.
  unfold numeric_10_2, parse_decimal_column, parse_decimal. intros H.
  rewrite quantize_cents by (unfold prec; lia). simpl.
  apply cents_of_Decimal_of_cents.
Qed.







Example parse_decimal_brazilian :
  parse_decimal (PyStr "1.234,56") zero_00 = Ok (DFinite false 123456 (-2)).
Proof. reflexivity. Qed.

Example parse_decimal_half_even :
  parse_decimal (PyFloat (FFinite false 1 (-3))) zero_00
  = Ok (DFinite false 12 (-2)).
Proof. reflexivity. Qed.

Example parse_decimal_27_digits_text :
  parse_decimal (PyStr "1e26") zero_00 = Ok zero_00.
Proof. reflexivity. Qed.

(** ** Rows found, updated and deleted *)

Section FirstMatch.
Context {A : Type}.
Implicit Types (f h : A -> bool) (g : A -> A) (l : list A).

Lemma find_update_first_other f h g l :
  (forall x, f x = true -> h x = false /\ h (g x) = false) ->
  find h (update_first f g l) = find h l.
Proof.
  intros H. induction l as [ | x l IH ]; simpl; [ reflexivity | ].
  destruct (f x) eqn:F; simpl.
  - destruct (H x F) as [-> ->]. reflexivity.
  - now rewrite IH.
Qed.

Lemma find_update_first_same f g l p :
  find f l = Some p -> f (g p) = true ->
  find f (update_first f g l) = Some (g p).
Proof.
  induction l as [ | x l IH ]; simpl; [ discriminate | ].
  destruct (f x) eqn:F; simpl.
  - intros E Hg. injection E as ->. now rewrite Hg.
  - intros E Hg. rewrite F. now apply IH.
Qed.

Lemma update_first_id f g l p :
  find f l = Some p -> g p = p -> update_first f g l = l.
Proof.
  induction l as [ | x l IH ]; simpl; [ discriminate | ].
  destruct (f x) eqn:F.
  - intros E Hg. injection E as ->. now rewrite Hg.
  - intros E Hg. f_equal. now apply IH.
Qed.

Lemma find_delete_first_other f h l :
  (forall x, f x = true -> h x = false) ->
  find h (delete_first f l) = find h l.
Proof.
  intros H. induction l as [ | x l IH ]; simpl; [ reflexivity | ].
  destruct (f x) eqn:F; simpl.
  - now rewrite (H x F).
  - now rewrite IH.
Qed.

Lemma find_app_last f l x :
  find f (l ++ [x]) = match find f l with
                      | Some y => Some y
                      | None => if f x then Some x else None
                      end.
Proof.
  induction l as [ | y l IH ]; simpl; [ reflexivity | ].
  destruct (f y); [ reflexivity | exact IH ].
Qed.

Lemma find_none_iff f l :
  find f l = None <-> forall x, In x l -> f x = false.
Proof.
  split.
  - intros H x Hx. now apply (find_none f l H).
  - induction l as [ | y l IH ]; simpl; intros H; [ reflexivity | ].
    rewrite (H y (or_introl eq_refl)). apply IH. intros x Hx. apply H. now right.
Qed.

Lemma map_update_first {K : Type} (k : A -> K) f g l :
  (forall x, k (g x) = k x) -> map k (update_first f g l) = map k l.
Proof.
  intros H. induction l as [ | x l IH ]; simpl; [ reflexivity | ].
  destruct (f x); simpl; [ now rewrite H | now rewrite IH ].
Qed.

Lemma delete_first_incl f l x : In x (delete_first f l) -> In x l.
Proof.
  induction l as [ | y l IH ]; simpl; [ auto | ].
  destruct (f y); simpl; [ auto | ]. intros [-> | H]; auto.
Qed.

Lemma NoDup_map_delete_first {K : Type} (k : A -> K) f l :
  NoDup (map k l) -> NoDup (map k (delete_first f l)).
Proof.
  induction l as [ | y l IH ]; simpl; [ auto | ].
  intros H. inversion H as [ | ? ? Hn Hd ]; subst.
  destruct (f y); simpl; [ exact Hd | ].
  constructor; [ | now apply IH ].
  intros Hin. apply Hn. apply in_map_iff in Hin.
  destruct Hin as (x & E & Hx). apply in_map_iff. exists x.
  split; [ exact E | ]. now apply delete_first_incl in Hx.
Qed.

(** With one row per key at most, nothing matches once the row is gone. *)
Lemma find_delete_first_same {K : Type} (k : A -> K) f l :
  NoDup (map k l) ->
  (forall x y, f x = true -> f y = true -> k x = k y) ->
  find f (delete_first f l) = None.
Proof.
  intros Hnd Hk. induction l as [ | y l IH ]; simpl; [ reflexivity | ].
  inversion Hnd as [ | ? ? Hn Hd ]; subst.
  destruct (f y) eqn:F; simpl.
  - apply find_none_iff. intros x Hx.
    destruct (f x) eqn:Fx; [ | reflexivity ].
    exfalso. apply Hn. rewrite (Hk y x F Fx). now apply in_map.
  - rewrite F. now apply IH.
Qed.

Lemma filter_update_first_other f h g l :
  (forall x, f x = true -> h x = false /\ h (g x) = false) ->
  filter h (update_first f g l) = filter h l.
Proof.
  intros H. induction l as [ | x l IH ]; simpl; [ reflexivity | ].
  destruct (f x) eqn:F; simpl.
  - destruct (H x F) as [-> ->]. reflexivity.
  - now rewrite IH.
Qed.

Lemma filter_delete_first_other f h l :
  (forall x, f x = true -> h x = false) ->
  filter h (delete_first f l) = filter h l.
Proof.
  intros H. induction l as [ | x l IH ]; simpl; [ reflexivity | ].
  destruct (f x) eqn:F; simpl.
  - now rewrite (H x F).
  - now rewrite IH.
Qed.
End FirstMatch.

Lemma date_eqb_eq (a b : date) : date_eqb a b = true <-> a = b.
Proof.
  unfold date_eqb. rewrite !andb_true_iff, !Z.eqb_eq.
  destruct a, b; simpl. split.
  - intros [[-> ->] ->]. reflexivity.
  - intros H. injection H as -> -> ->. auto.
Qed.

Lemma date_eqb_refl (a : date) : date_eqb a a = true.
Proof. now apply date_eqb_eq. Qed.

Lemma pagamento_do_aluno_spec (i : Z) (m : date) (p : Pagamento.t) :
  pagamento_do_aluno i m p = true <-> chave_pagamento p = (i, m).
Proof.
  unfold pagamento_do_aluno, chave_pagamento.
  rewrite andb_true_iff, Z.eqb_eq, date_eqb_eq. split.
  - intros [-> ->]. reflexivity.
  - intros H. injection H as -> ->. auto.
Qed.

Lemma pagamento_do_aluno_set_valor (i : Z) (m : date) (p : Pagamento.t) (v : Z) :
  pagamento_do_aluno i m (Pagamento.set_valor p v) = pagamento_do_aluno i m p.
Proof. reflexivity. Qed.

Lemma pagamento_do_aluno_other (i j : Z) (m : date) (p : Pagamento.t) :
  i <> j -> pagamento_do_aluno i m p = true -> pagamento_do_aluno j m p = false.
Proof.
  unfold pagamento_do_aluno. intros Hij H.
  apply andb_true_iff in H. destruct H as [H _]. apply Z.eqb_eq in H.
  apply andb_false_iff. left. apply Z.eqb_neq. lia.
Qed.

(** ** One step of the reconciliation *)

Section Step.
Variable referencia : date.
Local Abbreviation f i := (pagamento_do_aluno i referencia).
Local Abbreviation outro_mes := (outro_mes referencia).

Lemma f_outro_mes (i : Z) (p : Pagamento.t) :
  f i p = true -> outro_mes p = false.
Proof.
  unfold outro_mes, pagamento_do_aluno. intros H.
  apply andb_true_iff in H. destruct H as [_ ->]. reflexivity.
Qed.

Lemma reconciliar_puro_uq (T R : list Pagamento.t) (a : Aluno.t) :
  uq_pagamento_competencia T ->
  uq_pagamento_competencia (fst (reconciliar_puro referencia (T, R) a)).
Proof.
  unfold uq_pagamento_competencia, reconciliar_puro. intros Hu.
  destruct (Aluno.projeto_social a);
    destruct (find _ T) as [q | ] eqn:E; simpl; auto.
  - now apply NoDup_map_delete_first.
  - rewrite map_update_first; auto.
  - rewrite map_app. simpl.
    apply NoDup_app_remove_l with (l := @nil (Z * date)). simpl.
    apply Permutation_NoDup with (l := (Aluno.id a, referencia) :: map chave_pagamento T).
    + apply Permutation_cons_append.
    + constructor; [ | exact Hu ].
      intros Hin. apply in_map_iff in Hin. destruct Hin as (x & Kx & Hx).
      apply pagamento_do_aluno_spec in Kx.
      rewrite (proj1 (find_none_iff _ _) E x Hx) in Kx. discriminate.
Qed.

Lemma reconciliar_puro_other (T R : list Pagamento.t) (a : Aluno.t) (i : Z) :
  i <> Aluno.id a ->
  find (f i) (fst (reconciliar_puro referencia (T, R) a)) = find (f i) T.
Proof.
  intros Hi. unfold reconciliar_puro.
  assert (O : forall x, f (Aluno.id a) x = true -> f i x = false).
  { intros x. apply pagamento_do_aluno_other. auto. }
  destruct (Aluno.projeto_social a);
    destruct (find _ T) as [q | ] eqn:E; simpl; auto.
  - now apply find_delete_first_other.
  - apply find_update_first_other. intros x Fx. split; [ now apply O | ].
    rewrite pagamento_do_aluno_set_valor. now apply O.
  - rewrite find_app_last. destruct (find (f i) T); [ reflexivity | ].
    unfold pagamento_do_aluno. simpl.
    replace (Aluno.id a =? i) with false by (symmetry; apply Z.eqb_neq; lia).
    reflexivity.
Qed.

Lemma reconciliar_puro_frame (T R : list Pagamento.t) (a : Aluno.t) :
  filter outro_mes (fst (reconciliar_puro referencia (T, R) a))
  = filter outro_mes T.
Proof.
  unfold reconciliar_puro.
  destruct (Aluno.projeto_social a);
    destruct (find _ T) as [q | ] eqn:E; simpl; auto.
  - apply filter_delete_first_other. apply f_outro_mes.
  - apply filter_update_first_other. intros x Fx.
    split; apply (f_outro_mes (Aluno.id a)); auto.
  - rewrite filter_app. simpl. unfold outro_mes at 2. simpl.
    rewrite date_eqb_refl. simpl. apply app_nil_r.
Qed.

Lemma reconciliar_puro_bolsista (T R : list Pagamento.t) (a : Aluno.t) :
  uq_pagamento_competencia T -> Aluno.projeto_social a = true ->
  find (f (Aluno.id a)) (fst (reconciliar_puro referencia (T, R) a)) = None
  /\ snd (reconciliar_puro referencia (T, R) a) = R.
Proof.
  intros Hu Hs. unfold reconciliar_puro. rewrite Hs.
  destruct (find _ T) as [q | ] eqn:E; simpl; split; auto.
  apply (find_delete_first_same chave_pagamento); auto.
  intros x y Fx Fy. apply pagamento_do_aluno_spec in Fx, Fy. congruence.
Qed.

Lemma reconciliar_puro_cobrado (T R : list Pagamento.t) (a : Aluno.t) :
  Aluno.projeto_social a = false ->
  exists p,
    find (f (Aluno.id a)) (fst (reconciliar_puro referencia (T, R) a)) = Some p
    /\ linha_reconciliada referencia a (find (f (Aluno.id a)) T) p
    /\ snd (reconciliar_puro referencia (T, R) a) = (R ++ [p])%list.
Proof.
  intros Hs. unfold reconciliar_puro. rewrite Hs.
  destruct (find (f (Aluno.id a)) T) as [q | ] eqn:E; simpl.
  - exists (Pagamento.set_valor q (Aluno.valor_mensalidade a)).
    repeat split.
    apply (find_update_first_same (f (Aluno.id a))
             (fun q0 => Pagamento.set_valor q0 (Aluno.valor_mensalidade a))
             T q E).
    rewrite pagamento_do_aluno_set_valor.
    apply (find_some _ _ E).
  - eexists. repeat split.
    + rewrite find_app_last, E. unfold pagamento_do_aluno. simpl.
      now rewrite Z.eqb_refl, date_eqb_refl.
    + eexists. reflexivity.
Qed.

(** ** The whole loop *)

Lemma reconciliar_loop (L : list Aluno.t) :
  NoDup (map Aluno.id L) ->
  forall T R,
    uq_pagamento_competencia T ->
    let st := fold_left (reconciliar_puro referencia) L (T, R) in
    uq_pagamento_competencia (fst st)
    /\ filter outro_mes (fst st) = filter outro_mes T
    /\ (forall i, ~ In i (map Aluno.id L) -> find (f i) (fst st) = find (f i) T)
    /\ (forall a, In a L -> Aluno.projeto_social a = true ->
                  find (f (Aluno.id a)) (fst st) = None)
    /\ (forall a, In a L -> Aluno.projeto_social a = false ->
                  exists p, find (f (Aluno.id a)) (fst st) = Some p
                    /\ linha_reconciliada referencia a (find (f (Aluno.id a)) T) p)
    /\ snd st = (R ++ registros_de referencia (fst st) L)%list.
Proof.
  induction L as [ | a L IH ]; intros Hnd T R Hu; cbn [fold_left].
  - simpl. repeat split; auto; try contradiction. now rewrite app_nil_r.
  - inversion Hnd as [ | ? ? Hna HndL ]; subst.
    destruct (reconciliar_puro referencia (T, R) a) as [T1 R1] eqn:S1.
    pose proof (reconciliar_puro_uq T R a Hu) as U1.
    pose proof (reconciliar_puro_frame T R a) as F1.
    pose proof (reconciliar_puro_other T R a) as O1.
    rewrite S1 in U1, F1, O1. simpl in U1, F1, O1.
    destruct (IH HndL T1 R1 U1) as (U & Fr & Oth & Bol & Cob & Reg).
    set (st := fold_left (reconciliar_puro referencia) L (T1, R1)) in *.
    assert (Own : find (f (Aluno.id a)) (fst st) = find (f (Aluno.id a)) T1).
    { apply Oth. exact Hna. }
    assert (Ne : forall b, In b L -> Aluno.id b <> Aluno.id a).
    { intros b Hb E. apply Hna. rewrite <- E. now apply in_map. }
    split; [ exact U | ].
    split; [ congruence | ].
    split; [ | split; [ | split ] ].
    + intros i Hi. simpl in Hi. rewrite Oth by tauto. apply O1.
      intros E. apply Hi. left. now rewrite E.
    + intros b [<- | Hb] Hs.
      * rewrite Own.
        pose proof (reconciliar_puro_bolsista T R a Hu Hs) as [B _].
        now rewrite S1 in B.
      * now apply Bol.
    + intros b [<- | Hb] Hs.
      * rewrite Own.
        destruct (reconciliar_puro_cobrado T R a Hs) as (p & P1 & P2 & _).
        rewrite S1 in P1. eauto.
      * destruct (Cob b Hb Hs) as (p & P1 & P2). exists p.
        split; [ exact P1 | ]. rewrite O1 in P2; auto.
    + rewrite Reg. unfold registros_de at 2. simpl.
      fold (registros_de referencia (fst st) L).
      rewrite Own. destruct (Aluno.projeto_social a) eqn:Hs.
      * pose proof (reconciliar_puro_bolsista T R a Hu Hs) as [_ B].
        rewrite S1 in B. simpl in B. now rewrite B.
      * destruct (reconciliar_puro_cobrado T R a Hs) as (p & P1 & _ & P3).
        rewrite S1 in P1, P3. simpl in P1, P3.
        rewrite P1, P3. simpl. now rewrite <- app_assoc.
Qed.

(** A second pass over a reconciled table changes nothing. *)
Lemma reconciliar_loop_fixpoint (L : list Aluno.t) (T : list Pagamento.t) :
  (forall a, In a L -> Aluno.projeto_social a = true ->
             find (f (Aluno.id a)) T = None) ->
  (forall a, In a L -> Aluno.projeto_social a = false ->
             exists p, find (f (Aluno.id a)) T = Some p
               /\ Pagamento.valor p = Aluno.valor_mensalidade a) ->
  forall R,
    fold_left (reconciliar_puro referencia) L (T, R)
    = (T, (R ++ registros_de referencia T L)%list).
Proof.
  induction L as [ | a L IH ]; intros Hb Hc R; cbn [fold_left].
  - simpl. now rewrite app_nil_r.
  - assert (S1 : reconciliar_puro referencia (T, R) a
                 = (T, (R ++ registros_de referencia T [a])%list)).
    { unfold reconciliar_puro, registros_de. simpl.
      destruct (Aluno.projeto_social a) eqn:Hs.
      - rewrite (Hb a (or_introl eq_refl) Hs). simpl. now rewrite app_nil_r.
      - destruct (Hc a (or_introl eq_refl) Hs) as (p & P1 & P2).
        rewrite P1. simpl.
        assert (Ep : Pagamento.set_valor p (Aluno.valor_mensalidade a) = p).
        { rewrite <- P2. destruct p. reflexivity. }
        rewrite Ep. f_equal.
        apply update_first_id with (p := p); auto. }
    rewrite S1, IH.
    + f_equal. rewrite <- app_assoc. f_equal.
      unfold registros_de. simpl. now rewrite app_nil_r.
    + intros b Hin. apply Hb. now right.
    + intros b Hin. apply Hc. now right.
Qed.
End Step.

(** ** From the loop that may raise to the one that does not *)

Lemma for_each_pure {A S : Type} (body : S -> A -> result S) (g : S -> A -> S)
  (l : list A) :
  (forall s x, In x l -> body s x = Ok (g s x)) ->
  forall s, for_each body l s = Ok (fold_left g l s).
Proof.
  induction l as [ | x l IH ]; intros H s; simpl; [ reflexivity | ].
  rewrite (H s x (or_introl eq_refl)). simpl.
  apply IH. intros s' y Hy. apply H. now right.
Qed.


Lemma reconciliar_aluno_puro (referencia : date)
  (st : list Pagamento.t * list Pagamento.t) (a : Aluno.t) :
  numeric_10_2 (Aluno.valor_mensalidade a) ->
  reconciliar_aluno referencia st a = Ok (reconciliar_puro referencia st a).
Proof.
  intros Hn. unfold reconciliar_aluno, reconciliar_puro.
  destruct st as [T R].
  destruct (Aluno.projeto_social a).
  - destruct (find _ T); reflexivity.
  - rewrite (parse_decimal_column_Ok _ Hn). simpl.
    destruct (find _ T); reflexivity.
Qed.

Lemma quantize_cents_inv (c : Z) (r : Decimal) :
  quantize (Decimal_of_cents c) cent = Ok r -> r = Decimal_of_cents c.
Proof.
  unfold Decimal_of_cents, quantize, cent.
  change (negb ((Etiny <=? -2) && (-2 <=? Emax))) with false. cbv iota.
  destruct (N.eqb_spec (Z.abs_N c) 0) as [E0 | N0].
  - rewrite E0. congruence.
  - destruct (Emax <? _); [ discriminate | ].
    destruct (prec <? _); [ discriminate | ].
    unfold _rescale.
    replace (Z.abs_N c =? 0)%N with false by (symmetry; now apply N.eqb_neq).
    change (-2 <=? -2) with true. cbv iota.
    change (10 ^ Z.to_N (-2 - -2))%N with 1%N. rewrite N.mul_1_r.
    destruct (Emax <? _); [ discriminate | ].
    destruct (prec <? _); [ discriminate | ].
    congruence.
Qed.

Lemma parse_decimal_column_inv (c v : Z) :
  parse_decimal_column c = Ok v -> v = c.
Proof.
  unfold parse_decimal_column, parse_decimal. intros H.
  apply bind_Ok in H. destruct H as (d & Q & C).
  apply quantize_cents_inv in Q. subst d.
  rewrite cents_of_Decimal_of_cents in C. congruence.
Qed.

(** ** The summary *)

Lemma soma_valores_Ok (rs : list Pagamento.t) :
  Forall (fun p => numeric_10_2 (Pagamento.valor p)) rs ->
  soma_valores rs = Ok (total_de (map Pagamento.valor rs)).
Proof.
  intros H. unfold soma_valores, total_de.
  rewrite for_each_pure with (g := fun acc r => total_add acc (Pagamento.valor r)).
  - f_equal. generalize (TInt 0).
    induction rs as [ | r rs IH ]; intros t; simpl; [ reflexivity | ].
    apply IH. now inversion H.
  - intros s x Hx. rewrite Forall_forall in H.
    now rewrite (parse_decimal_column_Ok _ (H x Hx)).
Qed.


Lemma Forall_filter {A : Type} (P : A -> Prop) (f : A -> bool) (l : list A) :
  Forall P l -> Forall P (filter f l).
Proof.
  rewrite !Forall_forall. intros H x Hx. apply filter_In in Hx. now apply H.
Qed.

Lemma resumo_de_Ok (rs : list Pagamento.t) :
  Forall (fun p => numeric_10_2 (Pagamento.valor p)) rs ->
  resumo_de rs = Ok (resumo_puro rs).
Proof.
  intros H. unfold resumo_de, resumo_puro.
  rewrite (soma_valores_Ok rs H). simpl.
  rewrite (soma_valores_Ok _ (Forall_filter _ Pagamento.pago rs H)). reflexivity.
Qed.





(** ** The reconciliation as a whole *)

Lemma alunos_por_nome_perm (db : Database) :
  Permutation (alunos_por_nome db) (alunos db).
Proof. apply sort_by_perm. Qed.

Lemma alunos_por_nome_In (db : Database) (a : Aluno.t) :
  In a (alunos_por_nome db) <-> In a (alunos db).
Proof.
  split; apply Permutation_in;
    [ | apply Permutation_sym ]; apply alunos_por_nome_perm.
Qed.

Lemma alunos_por_nome_pk (db : Database) :
  alunos_pk db -> NoDup (map Aluno.id (alunos_por_nome db)).
Proof.
  unfold alunos_pk. apply Permutation_NoDup.
  apply Permutation_map, Permutation_sym, alunos_por_nome_perm.
Qed.

Lemma NoDup_map_inj {A K : Type} (k : A -> K) (l : list A) (a b : A) :
  NoDup (map k l) -> In a l -> In b l -> k a = k b -> a = b.
Proof.
  induction l as [ | x l IH ]; simpl; [ contradiction | ].
  intros H. inversion H as [ | ? ? Hn Hd ]; subst.
  intros [-> | Ha] [-> | Hb] E; auto.
  - exfalso. apply Hn. rewrite E. now apply in_map.
  - exfalso. apply Hn. rewrite <- E. now apply in_map.
Qed.

Lemma NoDup_map_filter {A K : Type} (k : A -> K) (f : A -> bool) (l : list A) :
  NoDup (map k l) -> NoDup (map k (filter f l)).
Proof.
  induction l as [ | x l IH ]; simpl; [ auto | ].
  intros H. inversion H as [ | ? ? Hn Hd ]; subst.
  destruct (f x); simpl; [ | now apply IH ].
  constructor; [ | now apply IH ].
  intros Hin. apply Hn. apply in_map_iff in Hin.
  destruct Hin as (y & E & Hy). apply filter_In in Hy.
  apply in_map_iff. exists y. tauto.
Qed.

Lemma filter_uq_find {A K : Type} (k : A -> K) (f : A -> bool) (l : list A) :
  NoDup (map k l) ->
  (forall x y, f x = true -> f y = true -> k x = k y) ->
  filter f l = opt_list (find f l).
Proof.
  intros Hnd Hk. induction l as [ | x l IH ]; simpl; [ reflexivity | ].
  inversion Hnd as [ | ? ? Hn Hd ]; subst.
  destruct (f x) eqn:F; simpl; [ | now apply IH ].
  f_equal. rewrite IH by assumption.
  replace (find f l) with (@None A); [ reflexivity | ].
  symmetry. apply find_none_iff. intros y Hy.
  destruct (f y) eqn:Fy; [ | reflexivity ].
  exfalso. apply Hn. rewrite (Hk x y F Fy). now apply in_map.
Qed.

Lemma length_filter_count (l : list Pagamento.t) (i : Z) :
  List.length (filter (fun p => Pagamento.aluno_id p =? i) l)
  = count_occ Z.eq_dec (map Pagamento.aluno_id l) i.
Proof.
  induction l as [ | p l IH ]; simpl; [ reflexivity | ].
  destruct (Z.eqb_spec (Pagamento.aluno_id p) i) as [E | N];
    destruct (Z.eq_dec (Pagamento.aluno_id p) i); try contradiction; simpl;
    now rewrite IH.
Qed.

Lemma linha_reconciliada_valor (m : date) (a : Aluno.t)
  (o : option Pagamento.t) (p : Pagamento.t) :
  linha_reconciliada m a o p -> Pagamento.valor p = Aluno.valor_mensalidade a.
Proof.
  destruct o as [q | ]; simpl; [ intros -> | intros (i & ->) ]; reflexivity.
Qed.

Lemma registros_de_In (m : date) (T : list Pagamento.t) (L : list Aluno.t)
  (p : Pagamento.t) :
  In p (registros_de m T L) <->
  exists a, In a L /\ Aluno.projeto_social a = false
            /\ find (pagamento_do_aluno (Aluno.id a) m) T = Some p.
Proof.
  unfold registros_de. rewrite in_flat_map. split.
  - intros (a & Ha & Hp). exists a.
    destruct (Aluno.projeto_social a); [ contradiction | ].
    destruct (find _ T) as [q | ]; simpl in Hp; [ | contradiction ].
    destruct Hp as [-> | []]. auto.
  - intros (a & Ha & Hs & Hf). exists a. rewrite Hs, Hf. simpl. auto.
Qed.

Lemma registros_de_ids (m : date) (T : list Pagamento.t) (L : list Aluno.t) :
  (forall a, In a L -> Aluno.projeto_social a = false ->
             exists p, find (pagamento_do_aluno (Aluno.id a) m) T = Some p) ->
  map Pagamento.aluno_id (registros_de m T L)
  = map Aluno.id (filter cobrado L).
Proof.
  unfold registros_de, cobrado.
  induction L as [ | a L IH ]; intros H; simpl; [ reflexivity | ].
  rewrite map_app, IH by (intros b Hb; apply H; now right).
  destruct (Aluno.projeto_social a) eqn:Hs; simpl; [ reflexivity | ].
  destruct (H a (or_introl eq_refl) Hs) as (p & Hp). rewrite Hp. simpl.
  f_equal. apply find_some in Hp. destruct Hp as [_ Hp].
  apply pagamento_do_aluno_spec in Hp. unfold chave_pagamento in Hp. congruence.
Qed.

(** What a run over a well-formed database returns and leaves. *)
Lemma reconciliado_spec (db : Database) (m : date) :
  db_wf db ->
  let T := fst (reconciliado db m) in
  let R := snd (reconciliado db m) in
  pagamentos_do_mes_referencia db m = Ok (set_pagamentos db T, R, resumo_puro R)
  /\ uq_pagamento_competencia T
  /\ filter (outro_mes m) T
     = filter (outro_mes m) (pagamentos db)
  /\ (forall a, In a (alunos db) -> Aluno.projeto_social a = true ->
                find (pagamento_do_aluno (Aluno.id a) m) T = None)
  /\ (forall a, In a (alunos db) -> Aluno.projeto_social a = false ->
                exists p, find (pagamento_do_aluno (Aluno.id a) m) T = Some p
                  /\ linha_reconciliada m a
                       (find (pagamento_do_aluno (Aluno.id a) m) (pagamentos db)) p)
  /\ R = registros_de m T (alunos_por_nome db).
Proof.
  intros (Hpk & Huq & Hnum) T R.
  destruct (reconciliar_loop m (alunos_por_nome db) (alunos_por_nome_pk db Hpk)
              (pagamentos db) [] Huq)
    as (U & Fr & _ & Bol & Cob & Reg).
  fold (reconciliado db m) in U, Fr, Bol, Cob, Reg. fold T in U, Fr, Bol, Cob, Reg.
  fold R in Reg. simpl in Reg.
  assert (Hnum' : forall a, In a (alunos_por_nome db) ->
                            numeric_10_2 (Aluno.valor_mensalidade a)).
  { intros a Ha. apply alunos_por_nome_In in Ha.
    unfold mensalidades_numeric in Hnum. rewrite Forall_forall in Hnum. auto. }
  split; [ | split; [ exact U | split; [ exact Fr | split; [ | split ] ] ] ].
  - unfold pagamentos_do_mes_referencia.
    rewrite for_each_pure with (g := reconciliar_puro m)
      by (intros s x Hx; apply reconciliar_aluno_puro; auto).
    fold (alunos_por_nome db). fold (reconciliado db m). simpl.
    destruct (reconciliado db m) as [T0 R0] eqn:E. simpl in T, R. subst T R.
    rewrite resumo_de_Ok; [ reflexivity | ].
    apply Forall_forall. intros p Hp. rewrite Reg in Hp.
    apply registros_de_In in Hp. destruct Hp as (a & Ha & Hs & Hf).
    destruct (Cob a Ha Hs) as (p' & Hf' & Hl).
    assert (p' = p) by congruence. subst p'.
    rewrite (linha_reconciliada_valor _ _ _ _ Hl). auto.
  - intros a Ha. apply Bol. now apply alunos_por_nome_In.
  - intros a Ha. apply Cob. now apply alunos_por_nome_In.
  - exact Reg.
Qed.

Lemma db_exemplo_wf : db_wf db_exemplo.
Proof.
  unfold db_wf, alunos_pk, uq_pagamento_competencia, mensalidades_numeric.
  split; [ | split ].
  - repeat constructor; simpl; intuition discriminate.
  - repeat constructor; simpl; intuition discriminate.
  - repeat constructor; unfold numeric_10_2; vm_compute; discriminate.
Defined.

(** C1. On a database that meets the constraints of its schema, running
    [pagamentos_do_mes_referencia] for a month and then again on the database
    it committed returns the same rows in the same order (same ids, students,
    month, value and paid flag), the same summary, and leaves the database as
    the first run left it. *)
Theorem reconciliation_idempotent :
  forall (db : Database) (m : date),
    db_wf db ->
    exists (db1 : Database) (registros : list Pagamento.t) (resumo : Resumo),
      pagamentos_do_mes_referencia db m = Ok (db1, registros, resumo)
      /\ pagamentos_do_mes_referencia db1 m = Ok (db1, registros, resumo).
Proof.
  intros db m Hwf.
  destruct (reconciliado_spec db m Hwf) as (Run & U & _ & Bol & Cob & Reg).
  destruct Hwf as (Hpk & Huq & Hnum).
  set (T := fst (reconciliado db m)) in *.
  set (R := snd (reconciliado db m)) in *.
  exists (set_pagamentos db T), R, (resumo_puro R).
  split; [ exact Run | ].
  assert (Hwf1 : db_wf (set_pagamentos db T)) by (repeat split; assumption).
  destruct (reconciliado_spec (set_pagamentos db T) m Hwf1) as (Run1 & _).
  rewrite Run1.
  assert (Fix : reconciliado (set_pagamentos db T) m = (T, R)).
  { unfold reconciliado. simpl. fold (alunos_por_nome db).
    rewrite reconciliar_loop_fixpoint.
    - simpl. now rewrite Reg.
    - intros a Ha. apply Bol. now apply alunos_por_nome_In.
    - intros a Ha Hs. apply alunos_por_nome_In in Ha.
      destruct (Cob a Ha Hs) as (p & Hp & Hl). exists p.
      split; [ exact Hp | ]. now apply linha_reconciliada_valor in Hl. }
  rewrite Fix. reflexivity.
Qed.

Lemma reconciliation_idempotent_witness :
  exists (db1 : Database) (registros : list Pagamento.t) (resumo : Resumo),
    pagamentos_do_mes_referencia db_exemplo marco_2024 = Ok (db1, registros, resumo)
    /\ pagamentos_do_mes_referencia db1 marco_2024 = Ok (db1, registros, resumo).
Proof.
  apply (reconciliation_idempotent db_exemplo marco_2024). exact db_exemplo_wf.
Defined.

Example reconciliation_exemplo :
  pagamentos_do_mes_referencia db_exemplo marco_2024
  = Ok (mkdb [turma_sub11] [aluno_bruno; aluno_caio; aluno_ana] []
          [Pagamento.mk 1 marco_2024 true (Some (mkdate 2024 3 5)) EmptyString 15000 1;
           pagamento_ana_fevereiro;
           Pagamento.mk 4 marco_2024 false None EmptyString 12000 2] [],
        [Pagamento.mk 1 marco_2024 true (Some (mkdate 2024 3 5)) EmptyString 15000 1;
         Pagamento.mk 4 marco_2024 false None EmptyString 12000 2],
        mkresumo 1 1 (PctRound1 1 2) (TDec 27000) (TDec 15000) (TDec 12000)).
Proof. vm_compute. reflexivity. Defined.

(** C2, as stated, fails: Bruno is inactive and not on scholarship, and the
    run creates and returns a row for him. *)
Lemma reconciliation_charges_inactive :
  Aluno.status aluno_bruno = "inativo"
  /\ Aluno.projeto_social aluno_bruno = false
  /\ pagamentos_do_mes_referencia (mkdb [] [aluno_bruno] [] [] []) marco_2024
     = Ok (mkdb [] [aluno_bruno] []
             [Pagamento.mk 1 marco_2024 false None EmptyString 12000 2] [],
           [Pagamento.mk 1 marco_2024 false None EmptyString 12000 2],
           mkresumo 0 1 (PctRound1 0 1) (TDec 12000) (TInt 0) (TDec 12000)).
Proof.
  split; [ reflexivity | split; [ reflexivity | ] ].
  vm_compute. reflexivity.
Qed.

(** C2 (amended). After a run for month [m] the returned rows are, in the
    order of the students' names, exactly one row of month [m] per student
    that is not on scholarship, whatever the student's status, and none for
    a scholarship student; each returned row is a row of the committed table,
    which holds exactly one row of month [m] for each such student. *)
Theorem reconciliation_one_row_per_charged_student :
  forall (db : Database) (m : date),
    db_wf db ->
    exists (db1 : Database) (registros : list Pagamento.t) (resumo : Resumo),
      pagamentos_do_mes_referencia db m = Ok (db1, registros, resumo)
      /\ map Pagamento.aluno_id registros
         = map Aluno.id (filter cobrado (alunos_por_nome db))
      /\ Forall (fun p => Pagamento.competencia p = m
                          /\ In p (pagamentos db1)) registros
      /\ (forall a, In a (alunos db) -> Aluno.projeto_social a = false ->
            List.length (filter (fun p => Pagamento.aluno_id p =? Aluno.id a)
                           registros) = 1%nat
            /\ List.length (filter (pagamento_do_aluno (Aluno.id a) m)
                              (pagamentos db1)) = 1%nat)
      /\ (forall a, In a (alunos db) -> Aluno.projeto_social a = true ->
            List.length (filter (fun p => Pagamento.aluno_id p =? Aluno.id a)
                           registros) = 0%nat
            /\ List.length (filter (pagamento_do_aluno (Aluno.id a) m)
                              (pagamentos db1)) = 0%nat).
Proof.
  intros db m Hwf.
  destruct (reconciliado_spec db m Hwf) as (Run & U & _ & Bol & Cob & Reg).
  destruct Hwf as (Hpk & Huq & Hnum).
  set (T := fst (reconciliado db m)) in *.
  set (R := snd (reconciliado db m)) in *.
  exists (set_pagamentos db T), R, (resumo_puro R).
  assert (Ids : map Pagamento.aluno_id R
                = map Aluno.id (filter cobrado (alunos_por_nome db))).
  { rewrite Reg. apply registros_de_ids. intros a Ha Hs.
    apply alunos_por_nome_In in Ha.
    destruct (Cob a Ha Hs) as (p & Hp & _). eauto. }
  assert (Nd : NoDup (map Aluno.id (filter cobrado (alunos_por_nome db)))).
  { apply NoDup_map_filter. now apply alunos_por_nome_pk. }
  assert (Hk : forall i x y, pagamento_do_aluno i m x = true ->
                             pagamento_do_aluno i m y = true ->
                             chave_pagamento x = chave_pagamento y).
  { intros i x y Fx Fy. apply pagamento_do_aluno_spec in Fx, Fy. congruence. }
  split; [ exact Run | split; [ exact Ids | split; [ | split ] ] ].
  - apply Forall_forall. intros p Hp. rewrite Reg in Hp.
    apply registros_de_In in Hp. destruct Hp as (a & _ & _ & Hf).
    apply find_some in Hf. destruct Hf as [Hin Hf]. split; [ | exact Hin ].
    apply pagamento_do_aluno_spec in Hf. unfold chave_pagamento in Hf. congruence.
  - intros a Ha Hs. split.
    + rewrite length_filter_count, Ids.
      apply NoDup_count_occ'; [ exact Nd | ].
      apply in_map. apply filter_In. split.
      * now apply alunos_por_nome_In.
      * unfold cobrado. now rewrite Hs.
    + simpl. rewrite (filter_uq_find chave_pagamento) by (auto; apply Hk).
      destruct (Cob a Ha Hs) as (p & Hp & _). now rewrite Hp.
  - intros a Ha Hs. split.
    + rewrite length_filter_count, Ids.
      apply count_occ_not_In. intros Hin.
      apply in_map_iff in Hin. destruct Hin as (b & E & Hb).
      apply filter_In in Hb. destruct Hb as [Hb Cb].
      assert (b = a).
      { apply (NoDup_map_inj Aluno.id (alunos_por_nome db)); auto.
        - now apply alunos_por_nome_pk.
        - now apply alunos_por_nome_In. }
      subst b. unfold cobrado in Cb. rewrite Hs in Cb. discriminate.
    + simpl. rewrite (filter_uq_find chave_pagamento) by (auto; apply Hk).
      now rewrite (Bol a Ha Hs).
Qed.

Lemma reconciliation_one_row_per_charged_student_witness :
  exists (db1 : Database) (registros : list Pagamento.t) (resumo : Resumo),
    pagamentos_do_mes_referencia db_exemplo marco_2024 = Ok (db1, registros, resumo)
    /\ map Pagamento.aluno_id registros
       = map Aluno.id (filter cobrado (alunos_por_nome db_exemplo))
    /\ Forall (fun p => Pagamento.competencia p = marco_2024
                        /\ In p (pagamentos db1)) registros
    /\ (forall a, In a (alunos db_exemplo) -> Aluno.projeto_social a = false ->
          List.length (filter (fun p => Pagamento.aluno_id p =? Aluno.id a)
                         registros) = 1%nat
          /\ List.length (filter (pagamento_do_aluno (Aluno.id a) marco_2024)
                            (pagamentos db1)) = 1%nat)
    /\ (forall a, In a (alunos db_exemplo) -> Aluno.projeto_social a = true ->
          List.length (filter (fun p => Pagamento.aluno_id p =? Aluno.id a)
                         registros) = 0%nat
          /\ List.length (filter (pagamento_do_aluno (Aluno.id a) marco_2024)
                            (pagamentos db1)) = 0%nat).
Proof.
  apply (reconciliation_one_row_per_charged_student db_exemplo marco_2024).
  exact db_exemplo_wf.
Defined.

(** C3. For a student on scholarship, after a run for month [m] the
    committed table holds no row of that student for [m], whether or not one
    was there before, and no returned row belongs to the student. *)
Theorem reconciliation_scholarship_no_row :
  forall (db : Database) (m : date) (a : Aluno.t),
    db_wf db -> In a (alunos db) -> Aluno.projeto_social a = true ->
    exists (db1 : Database) (registros : list Pagamento.t) (resumo : Resumo),
      pagamentos_do_mes_referencia db m = Ok (db1, registros, resumo)
      /\ (forall p, In p (pagamentos db1) ->
                    ~ (Pagamento.aluno_id p = Aluno.id a
                       /\ Pagamento.competencia p = m))
      /\ (forall p, In p registros -> Pagamento.aluno_id p <> Aluno.id a).
Proof.
  intros db m a Hwf Ha Hs.
  destruct (reconciliado_spec db m Hwf) as (Run & U & _ & Bol & Cob & Reg).
  destruct Hwf as (Hpk & Huq & Hnum).
  set (T := fst (reconciliado db m)) in *.
  set (R := snd (reconciliado db m)) in *.
  exists (set_pagamentos db T), R, (resumo_puro R).
  split; [ exact Run | split ].
  - simpl. intros p Hp [Ei Em].
    pose proof (proj1 (find_none_iff _ _) (Bol a Ha Hs) p Hp) as F.
    assert (pagamento_do_aluno (Aluno.id a) m p = true).
    { apply pagamento_do_aluno_spec. unfold chave_pagamento. congruence. }
    congruence.
  - intros p Hp E. rewrite Reg in Hp.
    apply registros_de_In in Hp. destruct Hp as (b & Hb & Hsb & Hf).
    apply find_some in Hf. destruct Hf as [_ Hf].
    apply pagamento_do_aluno_spec in Hf. unfold chave_pagamento in Hf.
    assert (b = a).
    { apply (NoDup_map_inj Aluno.id (alunos_por_nome db)); auto.
      - now apply alunos_por_nome_pk.
      - now apply alunos_por_nome_In.
      - congruence. }
    subst b. congruence.
Qed.

Lemma reconciliation_scholarship_no_row_witness :
  exists (db1 : Database) (registros : list Pagamento.t) (resumo : Resumo),
    pagamentos_do_mes_referencia db_exemplo marco_2024 = Ok (db1, registros, resumo)
    /\ (forall p, In p (pagamentos db1) ->
                  ~ (Pagamento.aluno_id p = Aluno.id aluno_caio
                     /\ Pagamento.competencia p = marco_2024))
    /\ (forall p, In p registros -> Pagamento.aluno_id p <> Aluno.id aluno_caio).
Proof.
  apply (reconciliation_scholarship_no_row db_exemplo marco_2024 aluno_caio).
  - exact db_exemplo_wf.
  - simpl. auto.
  - reflexivity.
Defined.

(** C4. For a student that is not on scholarship, a run for month [m] leaves
    one row for the student and [m], which is returned and carries the
    student's current fee.  When a row was there before, it is that row with
    only [valor] replaced: id, month, paid flag, payment date, note and
    student are the same, whatever the old value and whether or not it was
    paid.  When none was there, the row is new and unpaid.  Rows of other
    months and the other tables are left as they were. *)
Theorem reconciliation_overwrites_valor_only :
  forall (db : Database) (m : date) (a : Aluno.t),
    db_wf db -> In a (alunos db) -> Aluno.projeto_social a = false ->
    exists (db1 : Database) (registros : list Pagamento.t) (resumo : Resumo)
           (p : Pagamento.t),
      pagamentos_do_mes_referencia db m = Ok (db1, registros, resumo)
      /\ find (pagamento_do_aluno (Aluno.id a) m) (pagamentos db1) = Some p
      /\ In p registros
      /\ Pagamento.valor p = Aluno.valor_mensalidade a
      /\ (forall q,
            find (pagamento_do_aluno (Aluno.id a) m) (pagamentos db) = Some q ->
            p = Pagamento.set_valor q (Aluno.valor_mensalidade a)
            /\ Pagamento.id p = Pagamento.id q
            /\ Pagamento.competencia p = Pagamento.competencia q
            /\ Pagamento.pago p = Pagamento.pago q
            /\ Pagamento.data_pagamento p = Pagamento.data_pagamento q
            /\ Pagamento.observacao p = Pagamento.observacao q
            /\ Pagamento.aluno_id p = Pagamento.aluno_id q)
      /\ (find (pagamento_do_aluno (Aluno.id a) m) (pagamentos db) = None ->
            Pagamento.competencia p = m
            /\ Pagamento.pago p = false
            /\ Pagamento.data_pagamento p = None
            /\ Pagamento.aluno_id p = Aluno.id a)
      /\ filter (outro_mes m) (pagamentos db1)
         = filter (outro_mes m) (pagamentos db)
      /\ turmas db1 = turmas db /\ alunos db1 = alunos db
      /\ presencas db1 = presencas db /\ users db1 = users db.
Proof.
  intros db m a Hwf Ha Hs.
  destruct (reconciliado_spec db m Hwf) as (Run & U & Fr & Bol & Cob & Reg).
  set (T := fst (reconciliado db m)) in *.
  set (R := snd (reconciliado db m)) in *.
  destruct (Cob a Ha Hs) as (p & Hp & Hl).
  exists (set_pagamentos db T), R, (resumo_puro R), p.
  split; [ exact Run | split; [ exact Hp | split; [ | split; [ | split ] ] ] ].
  - rewrite Reg. apply registros_de_In. exists a.
    split; [ now apply alunos_por_nome_In | auto ].
  - now apply linha_reconciliada_valor in Hl.
  - intros q Hq. rewrite Hq in Hl. simpl in Hl. subst p. repeat split.
  - split; [ | repeat split; exact Fr ].
    intros Hn. rewrite Hn in Hl. simpl in Hl. destruct Hl as (i & ->).
    repeat split.
Qed.

(** Ana's March row was paid at 100.00 and her fee is now 150.00; Bruno had
    no row. *)
Lemma reconciliation_overwrites_valor_only_witness :
  (exists (db1 : Database) (registros : list Pagamento.t) (resumo : Resumo)
          (p : Pagamento.t),
      pagamentos_do_mes_referencia db_exemplo marco_2024
      = Ok (db1, registros, resumo)
      /\ find (pagamento_do_aluno 1 marco_2024) (pagamentos db1) = Some p
      /\ In p registros
      /\ Pagamento.valor p = 15000
      /\ (forall q,
            find (pagamento_do_aluno 1 marco_2024) (pagamentos db_exemplo) = Some q ->
            p = Pagamento.set_valor q 15000
            /\ Pagamento.id p = Pagamento.id q
            /\ Pagamento.competencia p = Pagamento.competencia q
            /\ Pagamento.pago p = Pagamento.pago q
            /\ Pagamento.data_pagamento p = Pagamento.data_pagamento q
            /\ Pagamento.observacao p = Pagamento.observacao q
            /\ Pagamento.aluno_id p = Pagamento.aluno_id q)
      /\ (find (pagamento_do_aluno 1 marco_2024) (pagamentos db_exemplo) = None ->
            Pagamento.competencia p = marco_2024
            /\ Pagamento.pago p = false
            /\ Pagamento.data_pagamento p = None
            /\ Pagamento.aluno_id p = 1)
      /\ filter (outro_mes marco_2024) (pagamentos db1)
         = filter (outro_mes marco_2024) (pagamentos db_exemplo)
      /\ turmas db1 = turmas db_exemplo /\ alunos db1 = alunos db_exemplo
      /\ presencas db1 = presencas db_exemplo /\ users db1 = users db_exemplo).
Proof.
  apply (reconciliation_overwrites_valor_only db_exemplo marco_2024 aluno_ana).
  - exact db_exemplo_wf.
  - simpl. auto.
  - reflexivity.
Defined.



(** ** Attendance *)

Lemma presenca_do_aluno_spec (i : Z) (d : date) (p : Presenca.t) :
  presenca_do_aluno i d p = true <-> chave_presenca p = (d, i).
Proof.
  unfold presenca_do_aluno, chave_presenca.
  rewrite andb_true_iff, Z.eqb_eq, date_eqb_eq. split.
  - intros [-> ->]. reflexivity.
  - intros H. injection H as -> ->. auto.
Qed.

Lemma presenca_do_aluno_other (i j : Z) (d : date) (p : Presenca.t) :
  i <> j -> presenca_do_aluno i d p = true -> presenca_do_aluno j d p = false.
Proof.
  unfold presenca_do_aluno. intros Hij H.
  apply andb_true_iff in H. destruct H as [H _]. apply Z.eqb_eq in H.
  apply andb_false_iff. left. apply Z.eqb_neq. lia.
Qed.

Lemma length_update_first {A : Type} (f : A -> bool) (g : A -> A) (l : list A) :
  List.length (update_first f g l) = List.length l.
Proof.
  induction l as [ | x l IH ]; simpl; [ reflexivity | ].
  destruct (f x); simpl; [ reflexivity | now rewrite IH ].
Qed.

Section Chamada.
Variables (turma : Turma.t) (data_registro : date) (presentes_ids : list Z).
Local Abbreviation g i := (presenca_do_aluno i data_registro).
Local Abbreviation passo := (registrar_presenca turma data_registro presentes_ids).
Local Abbreviation marcada := (presenca_marcada turma data_registro presentes_ids).

Lemma registrar_presenca_uq (T : list Presenca.t) (a : Aluno.t) :
  uq_presenca_aluno_data T -> uq_presenca_aluno_data (passo T a).
Proof.
  unfold uq_presenca_aluno_data, registrar_presenca. intros Hu.
  destruct (find _ T) as [q | ] eqn:E.
  - rewrite map_update_first; auto.
  - rewrite map_app. simpl.
    apply Permutation_NoDup
      with (l := (data_registro, Aluno.id a) :: map chave_presenca T).
    + apply Permutation_cons_append.
    + constructor; [ | exact Hu ].
      intros Hin. apply in_map_iff in Hin. destruct Hin as (x & Kx & Hx).
      apply presenca_do_aluno_spec in Kx.
      rewrite (proj1 (find_none_iff _ _) E x Hx) in Kx. discriminate.
Qed.

Lemma registrar_presenca_other (T : list Presenca.t) (a : Aluno.t) (i : Z) :
  i <> Aluno.id a -> find (g i) (passo T a) = find (g i) T.
Proof.
  intros Hi. unfold registrar_presenca.
  assert (O : forall x, g (Aluno.id a) x = true -> g i x = false).
  { intros x. apply presenca_do_aluno_other. auto. }
  destruct (find _ T) as [q | ] eqn:E.
  - apply find_update_first_other. intros x Fx. split; [ now apply O | ].
    specialize (O x Fx). unfold presenca_do_aluno in *. exact O.
  - rewrite find_app_last. destruct (find (g i) T); [ reflexivity | ].
    unfold presenca_do_aluno. simpl.
    replace (Aluno.id a =? i) with false by (symmetry; apply Z.eqb_neq; lia).
    reflexivity.
Qed.

Lemma registrar_presenca_own (T : list Presenca.t) (a : Aluno.t) :
  exists p, find (g (Aluno.id a)) (passo T a) = Some p
    /\ marcada a (find (g (Aluno.id a)) T) p.
Proof.
  unfold registrar_presenca.
  destruct (find (g (Aluno.id a)) T) as [q | ] eqn:E.
  - pose proof (find_some _ _ E) as [_ Fq].
    pose proof Fq as Kq. apply presenca_do_aluno_spec in Kq.
    unfold chave_presenca in Kq.
    eexists. split.
    + apply find_update_first_same; [ exact E | exact Fq ].
    + unfold presenca_marcada. simpl. repeat split; try congruence.
  - eexists. split.
    + rewrite find_app_last, E. unfold presenca_do_aluno. simpl.
      now rewrite Z.eqb_refl, date_eqb_refl.
    + unfold presenca_marcada. simpl. repeat split. discriminate.
Qed.

Lemma registrar_presenca_length (T : list Presenca.t) (a : Aluno.t) :
  find (g (Aluno.id a)) T <> None ->
  List.length (passo T a) = List.length T.
Proof.
  unfold registrar_presenca.
  destruct (find (g (Aluno.id a)) T); [ | congruence ].
  intros _. apply length_update_first.
Qed.

Lemma chamada_loop (L : list Aluno.t) :
  NoDup (map Aluno.id L) ->
  forall T,
    uq_presenca_aluno_data T ->
    uq_presenca_aluno_data (fold_left passo L T)
    /\ (forall i, ~ In i (map Aluno.id L) ->
                  find (g i) (fold_left passo L T) = find (g i) T)
    /\ (forall a, In a L ->
          exists p, find (g (Aluno.id a)) (fold_left passo L T) = Some p
            /\ marcada a (find (g (Aluno.id a)) T) p)
    /\ ((forall a, In a L -> find (g (Aluno.id a)) T <> None) ->
        List.length (fold_left passo L T) = List.length T).
Proof.
  induction L as [ | a L IH ]; intros Hnd T Hu; cbn [fold_left].
  - repeat split; auto; contradiction.
  - inversion Hnd as [ | ? ? Hna HndL ]; subst.
    destruct (IH HndL (passo T a) (registrar_presenca_uq T a Hu))
      as (U & Oth & Own & Len).
    split; [ exact U | split; [ | split ] ].
    + intros i Hi. simpl in Hi. rewrite Oth by tauto.
      apply registrar_presenca_other. intros E. apply Hi. left. now rewrite E.
    + intros b [<- | Hb].
      * rewrite Oth by exact Hna. apply registrar_presenca_own.
      * destruct (Own b Hb) as (p & Hp & Hm). exists p.
        split; [ exact Hp | ].
        rewrite registrar_presenca_other in Hm; [ exact Hm | ].
        intros E. apply Hna. rewrite <- E. now apply in_map.
    + intros Hall. rewrite Len.
      * apply registrar_presenca_length. apply Hall. now left.
      * intros b Hb. rewrite registrar_presenca_other.
        -- apply Hall. now right.
        -- intros E. apply Hna. rewrite <- E. now apply in_map.
Qed.
End Chamada.

Lemma existsb_Zeqb_In (i : Z) (ids : list Z) :
  existsb (Z.eqb i) ids = true <-> In i ids.
Proof.
  rewrite existsb_exists. split.
  - intros (x & Hx & E). apply Z.eqb_eq in E. now subst x.
  - intros H. exists i. split; [ exact H | apply Z.eqb_refl ].
Qed.

Section Presentes.
Variable isdigit : string -> bool.
Variable py_int : string -> result Z.

Local Abbreviation ler := (presentes_ids isdigit py_int).
Local Abbreviation post := (presencas_post isdigit py_int).

(** The ids read are those of the values that [isdigit] accepts; the
    first of these that [int] refuses ends the request. *)
Lemma presentes_ids_Ok (form : list string) (ids : list Z) :
  ler form = Ok ids ->
  forall n, In n ids
            <-> exists x, In x form /\ isdigit x = true /\ py_int x = Ok n.
Proof.
  revert ids. induction form as [ | x form IH ]; intros ids H; simpl in H.
  - injection H as <-. intros n. split; [ contradiction | ].
    intros (y & [] & _).
  - destruct (isdigit x) eqn:D.
    + apply bind_Ok in H. destruct H as (k & Ik & H).
      apply bind_Ok in H. destruct H as (rest & Hr & H).
      injection H as <-. intros n. specialize (IH rest Hr n). split.
      * intros [<- | Hn]; [ exists x; simpl; auto | ].
        apply IH in Hn. destruct Hn as (y & Iy & Dy & Py).
        exists y. simpl. auto.
      * intros (y & [<- | Iy] & Dy & Py).
        -- left. congruence.
        -- right. apply IH. eauto.
    + intros n. specialize (IH ids H n). split.
      * intros Hn. apply IH in Hn. destruct Hn as (y & Iy & Dy & Py).
        exists y. simpl. auto.
      * intros (y & [<- | Iy] & Dy & Py); [ congruence | ].
        apply IH. eauto.
Qed.

Lemma presentes_ids_Raise (form : list string) (e : exn) :
  ler form = Raise e ->
  exists x, In x form /\ isdigit x = true /\ py_int x = Raise e.
Proof.
  induction form as [ | x form IH ]; simpl; [ discriminate | ].
  destruct (isdigit x) eqn:D.
  - destruct (py_int x) as [k | e'] eqn:Ik; simpl.
    + destruct (ler form) as [rest | e'] eqn:Hr; simpl; [ discriminate | ].
      intros H. injection H as <-.
      destruct (IH eq_refl) as (y & Iy & Dy & Py). exists y. auto.
    + intros H. injection H as <-. exists x. auto.
  - intros H. destruct (IH H) as (y & Iy & Dy & Py). exists y. auto.
Qed.

Lemma turma_alunos_In (db : Database) (t : Turma.t) (a : Aluno.t) :
  In a (turma_alunos db t)
  <-> In a (alunos db) /\ Aluno.turma_id a = Some (Turma.id t).
Proof.
  unfold turma_alunos. rewrite filter_In. split; intros [Ia Ta].
  - split; [ exact Ia | ]. destruct (Aluno.turma_id a); [ | discriminate ].
    apply Z.eqb_eq in Ta. now subst.
  - split; [ exact Ia | ]. rewrite Ta. apply Z.eqb_refl.
Qed.

Lemma presencas_post_spec (db : Database) (turma_id : Z)
  (data_registro : date) (form : list string) (ids : list Z) (t : Turma.t) :
  alunos_pk db -> uq_presenca_aluno_data (presencas db) ->
  get_turma_or_404 db turma_id = Ok t ->
  ler form = Ok ids ->
  exists db1,
    post db turma_id data_registro form
    = Ok (db1, Redirect "presencas" "Presenças registradas!" "success")
    /\ turmas db1 = turmas db /\ alunos db1 = alunos db
    /\ uq_presenca_aluno_data (presencas db1)
    /\ (forall a, In a (alunos db) ->
          Aluno.turma_id a = Some (Turma.id t) ->
          exists p,
            filter (presenca_do_aluno (Aluno.id a) data_registro)
              (presencas db1) = [p]
            /\ (Presenca.presente p = true <-> In (Aluno.id a) ids)
            /\ Presenca.turma_id p = Turma.id t
            /\ (forall q,
                  find (presenca_do_aluno (Aluno.id a) data_registro)
                    (presencas db) = Some q ->
                  Presenca.id p = Presenca.id q))
    /\ (forall a, In a (alunos db) ->
          Aluno.turma_id a <> Some (Turma.id t) ->
          find (presenca_do_aluno (Aluno.id a) data_registro) (presencas db1)
          = find (presenca_do_aluno (Aluno.id a) data_registro)
              (presencas db))
    /\ ((forall a, In a (alunos db) ->
           Aluno.turma_id a = Some (Turma.id t) ->
           find (presenca_do_aluno (Aluno.id a) data_registro) (presencas db)
           <> None) ->
        List.length (presencas db1) = List.length (presencas db)).
Proof.
  intros Hpk Hu Ht Hids. unfold presencas_post. rewrite Ht, Hids. simpl.
  eexists. split; [ reflexivity | ]. simpl.
  assert (Nd : NoDup (map Aluno.id (turma_alunos db t))).
  { unfold turma_alunos. now apply NoDup_map_filter. }
  destruct (chamada_loop t data_registro ids (turma_alunos db t) Nd
              (presencas db) Hu) as (U & Oth & Own & Len).
  split; [ reflexivity | ]. split; [ reflexivity | ].
  split; [ exact U | ]. split; [ | split ].
  - intros a Ia Ta.
    assert (Ha : In a (turma_alunos db t)) by (now apply turma_alunos_In).
    destruct (Own a Ha) as (p & Hp & Hpres & Htid & _ & _ & Hid).
    exists p. split; [ | split; [ | split ] ]; auto.
    + rewrite (filter_uq_find chave_presenca); auto.
      * now rewrite Hp.
      * intros x y Fx Fy. apply presenca_do_aluno_spec in Fx, Fy. congruence.
    + rewrite Hpres. apply existsb_Zeqb_In.
  - intros a Ia Ta. apply Oth. intros Hin.
    apply in_map_iff in Hin. destruct Hin as (b & Eb & Ib).
    pose proof Ib as Ib'. apply turma_alunos_In in Ib'.
    destruct Ib' as [Ib' Tb].
    assert (b = a) by (now apply (NoDup_map_inj Aluno.id (alunos db))).
    subst b. contradiction.
  - intros Hall. apply Len. intros a Ha.
    apply turma_alunos_In in Ha. destruct Ha as [Ia Ta]. now apply Hall.
Qed.
End Presentes.

(** C7. Submitting attendance for an existing class and a date, with values
    that [int] reads wherever [isdigit] accepts them: the ids submitted are
    the numbers read, and for every student of the table whose class is that
    class there is afterwards exactly one [Presenca] row of that student and
    date, the row that was there, updated, or a new one.  Its [presente] flag
    is true exactly when the student's id is among the submitted ids, so an
    absent student has a row that says false; the rows of that date of the
    students of other classes are as they were.  A second submission for
    the same class and date adds no row: every student of the class still
    has exactly one, now with the flags of the second submission.  When
    [int] refuses a value that [isdigit] accepted the handler raises what
    [int] raised, and nothing is written. *)
Theorem attendance_upsert_one_row_per_student :
  forall (isdigit : string -> bool) (py_int : string -> result Z)
         (db : Database) (turma_id : Z) (data_registro : date)
         (form : list string) (t : Turma.t),
    alunos_pk db -> uq_presenca_aluno_data (presencas db) ->
    get_turma_or_404 db turma_id = Ok t ->
    (forall ids : list Z,
        presentes_ids isdigit py_int form = Ok ids ->
        (forall n, In n ids
                   <-> exists x, In x form /\ isdigit x = true
                                 /\ py_int x = Ok n)
        /\ exists db1,
             presencas_post isdigit py_int db turma_id data_registro form
             = Ok (db1, Redirect "presencas" "Presenças registradas!" "success")
             /\ uq_presenca_aluno_data (presencas db1)
             /\ (forall a, In a (alunos db) ->
                   Aluno.turma_id a = Some (Turma.id t) ->
                   exists p,
                     filter (presenca_do_aluno (Aluno.id a) data_registro)
                       (presencas db1) = [p]
                     /\ (Presenca.presente p = true <-> In (Aluno.id a) ids)
                     /\ Presenca.turma_id p = Turma.id t
                     /\ (forall q,
                           find (presenca_do_aluno (Aluno.id a) data_registro)
                             (presencas db) = Some q ->
                           Presenca.id p = Presenca.id q))
             /\ (forall a, In a (alunos db) ->
                   Aluno.turma_id a <> Some (Turma.id t) ->
                   find (presenca_do_aluno (Aluno.id a) data_registro)
                     (presencas db1)
                   = find (presenca_do_aluno (Aluno.id a) data_registro)
                       (presencas db))
             /\ (forall (form' : list string) (ids' : list Z),
                   presentes_ids isdigit py_int form' = Ok ids' ->
                   exists db2,
                     presencas_post isdigit py_int db1 turma_id data_registro
                       form'
                     = Ok (db2,
                           Redirect "presencas" "Presenças registradas!"
                             "success")
                     /\ List.length (presencas db2)
                        = List.length (presencas db1)
                     /\ uq_presenca_aluno_data (presencas db2)
                     /\ (forall a, In a (alunos db) ->
                           Aluno.turma_id a = Some (Turma.id t) ->
                           exists p,
                             filter
                               (presenca_do_aluno (Aluno.id a) data_registro)
                               (presencas db2) = [p]
                             /\ (Presenca.presente p = true
                                 <-> In (Aluno.id a) ids'))))
    /\ (forall e : exn,
          presentes_ids isdigit py_int form = Raise e ->
          presencas_post isdigit py_int db turma_id data_registro form
          = Raise e
          /\ exists x, In x form /\ isdigit x = true /\ py_int x = Raise e).
Proof.
  intros isdigit py_int db turma_id data_registro form t Hpk Hu Ht. split.
  - intros ids Hids.
    split; [ now apply presentes_ids_Ok | ].
    destruct (presencas_post_spec isdigit py_int db turma_id data_registro
                form ids t Hpk Hu Ht Hids)
      as (db1 & Run & Et & Ea & U1 & One & Others & _).
    exists db1. split; [ exact Run | ]. split; [ exact U1 | ].
    split; [ exact One | ]. split; [ exact Others | ].
    intros form' ids' Hids'.
    assert (Hpk1 : alunos_pk db1) by (unfold alunos_pk; now rewrite Ea).
    assert (Ht1 : get_turma_or_404 db1 turma_id = Ok t).
    { unfold get_turma_or_404 in *. now rewrite Et. }
    destruct (presencas_post_spec isdigit py_int db1 turma_id data_registro
                form' ids' t Hpk1 U1 Ht1 Hids')
      as (db2 & Run2 & _ & _ & U2 & One2 & _ & Len2).
    rewrite Ea in One2, Len2.
    exists db2. split; [ exact Run2 | split; [ | split; [ exact U2 | ] ] ].
    + apply Len2. intros a Ia Ta.
      destruct (One a Ia Ta) as (p & Hp & _).
      rewrite (filter_uq_find chave_presenca) in Hp; auto.
      * destruct (find _ (presencas db1)); [ discriminate | discriminate Hp ].
      * intros x y Fx Fy. apply presenca_do_aluno_spec in Fx, Fy. congruence.
    + intros a Ia Ta.
      destruct (One2 a Ia Ta) as (p & Hp & Hpres & _). eauto.
  - intros e Hids. split.
    + unfold presencas_post. rewrite Ht, Hids. reflexivity.
    + now apply presentes_ids_Raise.
Qed.

Lemma db_presencas_constraints :
  alunos_pk db_presencas /\ uq_presenca_aluno_data (presencas db_presencas).
Proof.
  split.
  - unfold alunos_pk. repeat constructor; simpl; intuition discriminate.
  - unfold uq_presenca_aluno_data. repeat constructor; simpl; intuition.
Defined.

(** Bruno is present on 12 March 2024; Ana, marked present before, is not:
    her row now says so, and Bruno has a new one.  With a superscript two
    among the values the request fails. *)
Lemma attendance_upsert_one_row_per_student_witness :
  (exists db1,
      presencas_post isdigit_exemplo int_ascii db_presencas 1 (mkdate 2024 3 12)
        ["2"; "x"]
      = Ok (db1, Redirect "presencas" "Presenças registradas!" "success")
      /\ uq_presenca_aluno_data (presencas db1)
      /\ (forall a, In a (alunos db_presencas) ->
            Aluno.turma_id a = Some (Turma.id turma_sub11) ->
            exists p,
              filter (presenca_do_aluno (Aluno.id a) (mkdate 2024 3 12))
                (presencas db1) = [p]
              /\ (Presenca.presente p = true <-> In (Aluno.id a) [2])
              /\ Presenca.turma_id p = Turma.id turma_sub11
              /\ (forall q,
                    find (presenca_do_aluno (Aluno.id a) (mkdate 2024 3 12))
                      (presencas db_presencas) = Some q ->
                    Presenca.id p = Presenca.id q)))
  /\ presencas_post isdigit_exemplo int_ascii db_presencas 1 (mkdate 2024 3 12)
       ["2"; "²"]
     = Raise ValueError.
Proof.
  split.
  - destruct (attendance_upsert_one_row_per_student isdigit_exemplo int_ascii
                db_presencas 1 (mkdate 2024 3 12) ["2"; "x"] turma_sub11
                (proj1 db_presencas_constraints)
                (proj2 db_presencas_constraints) eq_refl) as [Sub _].
    destruct (Sub [2] eq_refl) as (_ & db1 & Run & U & One & _).
    exists db1. split; [ exact Run | split; [ exact U | exact One ] ].
  - destruct (attendance_upsert_one_row_per_student isdigit_exemplo int_ascii
                db_presencas 1 (mkdate 2024 3 12) ["2"; "²"] turma_sub11
                (proj1 db_presencas_constraints)
                (proj2 db_presencas_constraints) eq_refl) as [_ Falha].
    exact (proj1 (Falha ValueError eq_refl)).
Defined.

Example presencas_post_exemplo :
  presencas_post isdigit_ascii int_ascii db_presencas 1 (mkdate 2024 3 12)
    ["2"; "x"]
  = Ok (mkdb [turma_sub11] [aluno_ana; aluno_bruno; aluno_caio]
          [Presenca.mk 1 (mkdate 2024 3 12) false 1 1;
           Presenca.mk 2 (mkdate 2024 3 12) true 2 1] [] [],
        Redirect "presencas" "Presenças registradas!" "success").
Proof. reflexivity. Qed.

Example presencas_post_404 :
  presencas_post isdigit_ascii int_ascii db_presencas 7 (mkdate 2024 3 12)
    ["2"]
  = Raise NotFound.
Proof. reflexivity. Qed.

(** The superscript two passes [isdigit] and [int] refuses it: nothing is
    written. *)
Example presencas_post_sobrescrito :
  isdigit_exemplo "²" = true
  /\ int_ascii "²" = Raise ValueError
  /\ presencas_post isdigit_exemplo int_ascii db_presencas 1 (mkdate 2024 3 12)
       ["²"]
     = Raise ValueError.
Proof. repeat split. Qed.

(** ** User management *)

Lemma has_permission_users (u : User.t) :
  User.has_permission u "users" = true -> User.role u = "admin".
Proof.
  unfold User.has_permission, User.ROLE_PERMISSIONS.
  destruct (String.eqb_spec (User.role u) "admin") as [E | N]; [ auto | ].
  destruct (User.role u =? "gestor")%string; [ discriminate | ].
  destruct (User.role u =? "instrutor")%string; discriminate.
Qed.

Lemma get_user_or_404_In (db : Database) (u : User.t) :
  NoDup (map User.id (users db)) -> In u (users db) ->
  get_user_or_404 db (User.id u) = Ok u.
Proof.
  intros Hnd Hin. unfold get_user_or_404.
  destruct (find _ (users db)) as [x | ] eqn:E.
  - apply find_some in E. destruct E as [Hx Ex]. apply Z.eqb_eq in Ex.
    f_equal. now apply (NoDup_map_inj User.id (users db)).
  - apply (proj1 (find_none_iff _ _)) with (x := u) in E; auto.
    rewrite Z.eqb_refl in E. discriminate.
Qed.

Lemma sole_admin (db : Database) (u v : User.t) :
  admin_count db = 1 -> In u (users db) -> In v (users db) ->
  User.role u = "admin" -> User.role v = "admin" -> u = v.
Proof.
  unfold admin_count. intros Hc Hu Hv Ru Rv.
  set (adm := filter (fun w => (User.role w =? "admin")%string) (users db)) in *.
  assert (Iu : In u adm) by (apply filter_In; rewrite Ru; auto).
  assert (Iv : In v adm) by (apply filter_In; rewrite Rv; auto).
  destruct adm as [ | x [ | y adm ] ]; simpl in *; try lia.
  intuition congruence.
Qed.

Lemma manage_users_gate (db : Database) (cuo : option User.t)
  (action : UserAction) :
  (exists resp, manage_users db cuo action = Ok (db, resp) /\ rejected resp)
  \/ (exists cu, cuo = Some cu /\ User.role cu = "admin"
        /\ manage_users db cuo action = manage_users_post db cu action).
Proof.
  unfold manage_users, permission_required.
  destruct cuo as [cu | ].
  - destruct (User.has_permission cu "users") eqn:P; simpl.
    + right. exists cu. repeat split. now apply has_permission_users.
    + left. eexists. split; [ reflexivity | reflexivity ].
  - left. eexists. split; [ reflexivity | exact I ].
Qed.

(** C8. With the accounts' ids distinct and the logged-in account a row of
    the table: when exactly one account has the role [admin], a request to
    delete it, or to give it another role, changes nothing and answers with
    an error message; a request of the logged-in account to delete itself,
    and a request to delete an account named [admin], change nothing and
    answer with an error message. *)
Theorem last_admin_protected :
  forall (db : Database) (current_user : option User.t),
    NoDup (map User.id (users db)) ->
    (forall cu, current_user = Some cu -> In cu (users db)) ->
    (forall (u : User.t) (action : UserAction),
        In u (users db) -> User.role u = "admin" -> admin_count db = 1 ->
        (action = Delete (User.id u)
         \/ exists r, r <> "admin" /\ action = UpdateRole (User.id u) r) ->
        exists resp,
          manage_users db current_user action = Ok (db, resp) /\ rejected resp)
    /\ (forall cu : User.t,
          current_user = Some cu ->
          exists resp,
            manage_users db current_user (Delete (User.id cu)) = Ok (db, resp)
            /\ rejected resp)
    /\ (forall u : User.t,
          In u (users db) ->
          lower (chars (User.username u)) = chars "admin" ->
          exists resp,
            manage_users db current_user (Delete (User.id u)) = Ok (db, resp)
            /\ rejected resp).
Proof.
  intros db cuo Hnd Hcu. split; [ | split ].
  - intros u action Hu Ru Hc Hact.
    destruct (manage_users_gate db cuo action)
      as [Rej | (cu & Ecu & Rcu & Run)]; [ exact Rej | ].
    rewrite Run.
    assert (cu = u).
    { apply (sole_admin db); auto. }
    subst cu. unfold manage_users_post.
    destruct Hact as [-> | (r & Hr & ->)]; rewrite (get_user_or_404_In db u Hnd Hu);
      simpl.
    + destruct (list_eqb _ _); [ eexists; split; reflexivity | ].
      rewrite Z.eqb_refl. eexists; split; reflexivity.
    + match goal with
      | |- context [if negb ?c then _ else _] => destruct (negb c)
      end; [ eexists; split; reflexivity | ].
      rewrite Z.eqb_refl, Hc.
      replace (r =? "admin")%string with false
        by (symmetry; now apply String.eqb_neq).
      simpl. eexists; split; reflexivity.
  - intros cu Ecu.
    destruct (manage_users_gate db cuo (Delete (User.id cu)))
      as [Rej | (cu' & Ecu' & Rcu & Run)]; [ exact Rej | ].
    rewrite Run. assert (cu' = cu) by congruence. subst cu'.
    unfold manage_users_post.
    rewrite (get_user_or_404_In db cu Hnd (Hcu cu Ecu)). simpl.
    destruct (list_eqb _ _); [ eexists; split; reflexivity | ].
    rewrite Z.eqb_refl. eexists; split; reflexivity.
  - intros u Hu Hname.
    destruct (manage_users_gate db cuo (Delete (User.id u)))
      as [Rej | (cu & Ecu & Rcu & Run)]; [ exact Rej | ].
    rewrite Run. unfold manage_users_post.
    rewrite (get_user_or_404_In db u Hnd Hu). simpl.
    rewrite Hname. simpl. eexists; split; reflexivity.
Qed.

(** Maria is the only administrator and is logged in. *)
Lemma last_admin_protected_witness :
  (exists resp,
      manage_users db_users (Some user_maria) (UpdateRole 2 "gestor")
      = Ok (db_users, resp) /\ rejected resp)
  /\ (exists resp,
        manage_users db_users (Some user_maria) (Delete 2)
        = Ok (db_users, resp) /\ rejected resp)
  /\ (exists resp,
        manage_users db_users (Some user_maria) (Delete 1)
        = Ok (db_users, resp) /\ rejected resp).
Proof.
  assert (Hnd : NoDup (map User.id (users db_users))).
  { repeat constructor; simpl; intuition discriminate. }
  assert (Hcu : forall cu, Some user_maria = Some cu -> In cu (users db_users)).
  { intros cu E. injection E as <-. simpl. auto. }
  destruct (last_admin_protected db_users (Some user_maria) Hnd Hcu)
    as (H1 & H2 & H3).
  split; [ | split ].
  - apply (H1 user_maria (UpdateRole 2 "gestor")); try reflexivity.
    + simpl. auto.
    + right. exists "gestor". split; [ discriminate | reflexivity ].
  - apply (H2 user_maria). reflexivity.
  - apply (H3 user_admin); [ simpl; auto | reflexivity ].
Defined.

Example manage_users_demote_sole_admin :
  manage_users db_users (Some user_maria) (UpdateRole 2 "gestor")
  = Ok (db_users,
        Redirect "manage_users"
          "Não é possível remover o último administrador." "error").
Proof. reflexivity. Qed.

Example manage_users_gestor_has_no_access :
  manage_users db_users (Some user_admin) (Delete 2)
  = Ok (db_users,
        Redirect "dashboard"
          "Você não tem permissão para acessar este módulo." "error").
Proof. reflexivity. Qed.

(* ================================================================== *)
(** * Further properties *)

(** ** Age *)

Lemma month_day_ltb_spec (a b : date) :
  month_day_ltb a b = true
  <-> month a < month b \/ (month a = month b /\ day a < day b).
Proof.
  unfold month_day_ltb.
  rewrite orb_true_iff, andb_true_iff, !Z.ltb_lt, Z.eqb_eq. tauto.
Qed.

(** X1. [calcular_idade] counts the birthdays that have come: the birthday
    of that many years after birth is not after [hoje], the next one is,
    and no other number has both properties; the age is negative exactly
    when [hoje] is before the birth date. *)
Theorem calcular_idade_counts_birthdays :
  forall (nasc hoje : date),
    let aniversario k := mkdate (year nasc + k) (month nasc) (day nasc) in
    ~ date_lt hoje (aniversario (calcular_idade nasc hoje))
    /\ date_lt hoje (aniversario (calcular_idade nasc hoje + 1))
    /\ (forall k, ~ date_lt hoje (aniversario k) ->
                  date_lt hoje (aniversario (k + 1)) ->
                  k = calcular_idade nasc hoje)
    /\ (calcular_idade nasc hoje < 0 <-> date_lt hoje nasc).
Proof.
  intros nasc hoje aniversario. unfold aniversario, calcular_idade, date_lt.
  simpl.
  destruct (month_day_ltb hoje nasc) eqn:E.
  - apply month_day_ltb_spec in E. repeat split; intros; lia.
  - assert (N : ~ (month hoje < month nasc
                   \/ (month hoje = month nasc /\ day hoje < day nasc))).
    { intros H. apply month_day_ltb_spec in H. congruence. }
    repeat split; intros; lia.
Qed.

Example calcular_idade_day_before_birthday :
  calcular_idade (mkdate 2010 7 19) (mkdate 2024 7 18) = 13
  /\ calcular_idade (mkdate 2010 7 19) (mkdate 2024 7 19) = 14.
Proof. split; reflexivity. Qed.

(** ** Who may manage users *)

Lemma has_permission_spec (u : User.t) (permission : string) :
  User.has_permission u permission = true
  <-> User.role u = "admin"
      \/ (User.role u = "gestor"
          /\ In permission ["dashboard"; "alunos"; "turmas"; "pagamentos"])
      \/ (User.role u = "instrutor"
          /\ In permission ["dashboard"; "presencas"]).
Proof.
  unfold User.has_permission, User.ROLE_PERMISSIONS.
  destruct (String.eqb_spec (User.role u) "admin") as [E | N]; [ tauto | ].
  destruct (String.eqb_spec (User.role u) "gestor") as [Eg | Ng].
  - rewrite existsb_exists. split.
    + intros (x & Hx & Ex). apply String.eqb_eq in Ex. subst x. auto.
    + intros [H | [[_ H] | [H _]]]; [ contradiction | | congruence ].
      exists permission. split; [ exact H | apply String.eqb_refl ].
  - destruct (String.eqb_spec (User.role u) "instrutor") as [Ei | Ni].
    + rewrite existsb_exists. split.
      * intros (x & Hx & Ex). apply String.eqb_eq in Ex. subst x. auto.
      * intros [H | [[H _] | [_ H]]]; [ contradiction | congruence | ].
        exists permission. split; [ exact H | apply String.eqb_refl ].
    + simpl. split; [ discriminate | ]. tauto.
Qed.

(** X2. The permission table: an [admin] has every permission, a [gestor]
    exactly dashboard, alunos, turmas and pagamentos, an [instrutor] exactly
    dashboard and presencas, any other role none.  So a logged-in account
    whose role is not [admin] cannot change anything through
    [manage_users]: its request is answered with an error and the database
    is the same.  A request without a login is answered unauthorized, and
    the database is the same too. *)
Theorem only_admin_manages_users :
  (forall (u : User.t) (permission : string),
      User.has_permission u permission = true
      <-> User.role u = "admin"
          \/ (User.role u = "gestor"
              /\ In permission ["dashboard"; "alunos"; "turmas"; "pagamentos"])
          \/ (User.role u = "instrutor"
              /\ In permission ["dashboard"; "presencas"]))
  /\ (forall (db : Database) (cu : User.t) (action : UserAction),
        User.role cu <> "admin" ->
        manage_users db (Some cu) action
        = Ok (db, Redirect "dashboard"
                    "Você não tem permissão para acessar este módulo." "error"))
  /\ (forall (db : Database) (action : UserAction),
        manage_users db None action = Ok (db, Unauthorized)).
Proof.
  split; [ exact has_permission_spec | split ].
  - intros db cu action Hr. unfold manage_users, permission_required.
    destruct (User.has_permission cu "users") eqn:P; [ | reflexivity ].
    apply has_permission_users in P. contradiction.
  - intros db action. unfold manage_users, permission_required. reflexivity.
Qed.

Lemma only_admin_manages_users_witness :
  manage_users db_users (Some user_admin) (UpdateRole 1 "admin")
  = Ok (db_users, Redirect "dashboard"
                    "Você não tem permissão para acessar este módulo." "error")
  /\ manage_users db_users None (UpdateRole 1 "admin")
     = Ok (db_users, Unauthorized).
Proof.
  destruct only_admin_manages_users as (_ & Hrole & Hlogin). split.
  - apply (Hrole db_users user_admin). discriminate.
  - apply Hlogin.
Defined.

Example manage_users_sem_login :
  manage_users db_users None (Delete 2) = Ok (db_users, Unauthorized).
Proof. reflexivity. Qed.

(** ** An administrator always remains *)

Lemma In_update_first_other {A : Type} (f : A -> bool) (g : A -> A)
  (l : list A) (v : A) :
  In v l -> f v = false -> In v (update_first f g l).
Proof.
  induction l as [ | x l IH ]; simpl; [ auto | ].
  intros [-> | Hv] Fv.
  - rewrite Fv. now left.
  - destruct (f x); simpl; auto.
Qed.

Lemma In_delete_first_other {A : Type} (f : A -> bool) (l : list A) (v : A) :
  In v l -> f v = false -> In v (delete_first f l).
Proof.
  induction l as [ | x l IH ]; simpl; [ auto | ].
  intros [-> | Hv] Fv.
  - rewrite Fv. now left.
  - destruct (f x); simpl; auto.
Qed.

Lemma In_update_first_same {A : Type} (f : A -> bool) (g : A -> A)
  (l : list A) (p : A) :
  find f l = Some p -> In (g p) (update_first f g l).
Proof.
  induction l as [ | x l IH ]; simpl; [ discriminate | ].
  destruct (f x); simpl.
  - intros E. injection E as ->. now left.
  - intros E. right. now apply IH.
Qed.

Lemma has_admin_count (db : Database) : has_admin db <-> 1 <= admin_count db.
Proof.
  unfold has_admin, admin_count. split.
  - intros (u & Hu & Ru).
    assert (I : In u (filter (fun w => (User.role w =? "admin")%string) (users db))).
    { apply filter_In. rewrite Ru. auto. }
    destruct (filter _ (users db)); [ contradiction | simpl; lia ].
  - intros H.
    destruct (filter (fun w => (User.role w =? "admin")%string) (users db))
      as [ | u l ] eqn:E; [ simpl in H; lia | ].
    assert (I : In u (filter (fun w => (User.role w =? "admin")%string) (users db))).
    { rewrite E. now left. }
    apply filter_In in I. destruct I as [Hu Ru]. apply String.eqb_eq in Ru. eauto.
Qed.

Lemma another_admin (db : Database) (cu : User.t) :
  NoDup (map User.id (users db)) -> In cu (users db) ->
  User.role cu = "admin" -> admin_count db <> 1 ->
  exists v, In v (users db) /\ User.role v = "admin" /\ User.id v <> User.id cu.
Proof.
  unfold admin_count. intros Hnd Hcu Rcu Hc.
  set (adm := filter (fun w => (User.role w =? "admin")%string) (users db)) in *.
  assert (Icu : In cu adm) by (apply filter_In; rewrite Rcu; auto).
  assert (Nadm : NoDup adm).
  { apply NoDup_filter. now apply NoDup_map_inv in Hnd. }
  assert (Ex : exists v, In v adm /\ v <> cu).
  { destruct adm as [ | x [ | y adm ] ]; simpl in *; [ contradiction | lia | ].
    inversion Nadm as [ | ? ? Hn _ ]; subst.
    destruct (Icu) as [-> | Icu'].
    - exists y. split; [ auto | ]. intros ->. apply Hn. now left.
    - exists x. split; [ auto | ]. intros ->. contradiction. }
  destruct Ex as (v & Iv & Nv). apply filter_In in Iv. destruct Iv as [Hv Rv].
  apply String.eqb_eq in Rv. exists v. repeat split; auto.
  intros E. apply Nv. now apply (NoDup_map_inj User.id (users db)).
Qed.

Lemma In_update_first_image {A : Type} (f : A -> bool) (g : A -> A)
  (l : list A) (v : A) :
  In v l -> In v (update_first f g l) \/ In (g v) (update_first f g l).
Proof.
  induction l as [ | x l IH ]; simpl; [ auto | ].
  intros [-> | Hv].
  - destruct (f v); simpl; auto.
  - destruct (f x); simpl; [ auto | ]. destruct (IH Hv); auto.
Qed.

(** What a request of an administrator of the table leaves: an
    administrator, distinct ids, names as distinct as they were, and the
    account named [admin]. *)
Lemma manage_users_post_inv (db db' : Database) (cu : User.t)
  (action : UserAction) (resp : Response) :
  NoDup (map User.id (users db)) -> In cu (users db) ->
  User.role cu = "admin" ->
  manage_users_post db cu action = Ok (db', resp) ->
  has_admin db'
  /\ NoDup (map User.id (users db'))
  /\ (nomes_unicos db -> nomes_unicos db')
  /\ (forall u, In u (users db) -> User.username u = "admin" ->
                exists u', In u' (users db') /\ User.id u' = User.id u
                           /\ User.username u' = "admin")
  /\ turmas db' = turmas db /\ alunos db' = alunos db
  /\ presencas db' = presencas db /\ pagamentos db' = pagamentos db.
Proof.
  intros Hnd Icu Rcu Run.
  assert (Same : forall r, Ok (db, r) = Ok (db', resp) ->
            has_admin db'
            /\ NoDup (map User.id (users db'))
            /\ (nomes_unicos db -> nomes_unicos db')
            /\ (forall u, In u (users db) -> User.username u = "admin" ->
                  exists u', In u' (users db') /\ User.id u' = User.id u
                             /\ User.username u' = "admin")
            /\ turmas db' = turmas db /\ alunos db' = alunos db
            /\ presencas db' = presencas db /\ pagamentos db' = pagamentos db).
  { intros r E. injection E as <- <-.
    split; [ exists cu; auto | ]. split; [ exact Hnd | ].
    split; [ auto | ]. split; [ intros u Iu Nu; exists u; auto | auto ]. }
  unfold manage_users_post in Run. destruct action as [uid r | uid].
  - apply bind_Ok in Run. destruct Run as (usuario & Get & Run).
    unfold get_user_or_404 in Get.
    destruct (find _ (users db)) as [x | ] eqn:F; [ | discriminate ].
    injection Get as ->. pose proof (find_some _ _ F) as [Iu _].
    match type of Run with
    | (if negb ?c then _ else _) = _ => destruct (negb c)
    end; [ now apply Same in Run | ].
    destruct ((User.id usuario =? User.id cu) && negb (r =? "admin")%string
              && (admin_count db =? 1)) eqn:G; [ now apply Same in Run | ].
    injection Run as <- <-. cbn [users turmas alunos presencas pagamentos set_users].
    split; [ | split; [ now rewrite map_update_first
                      | split; [ | split; [ | auto ] ] ] ].
    + unfold has_admin. cbn [users set_users].
      assert (Self : find (fun u => User.id u =? User.id usuario) (users db)
                     = Some usuario).
      { pose proof (get_user_or_404_In db usuario Hnd Iu) as G'.
        unfold get_user_or_404 in G'.
        destruct (find (fun u => User.id u =? User.id usuario) (users db));
          congruence. }
      destruct (Z.eqb_spec (User.id usuario) (User.id cu)) as [Eid | Nid].
      * (* the logged-in administrator changes its own role *)
        destruct (String.eqb_spec r "admin") as [-> | Nr].
        -- exists (User.set_role usuario "admin"). split; [ | reflexivity ].
           apply (In_update_first_same
                    (fun u => User.id u =? User.id usuario)
                    (fun u => User.set_role u "admin") (users db) usuario Self).
        -- simpl in G. apply Z.eqb_neq in G.
           destruct (another_admin db cu Hnd Icu Rcu G) as (v & Iv & Rv & Nv).
           exists v. split; [ | exact Rv ].
           apply In_update_first_other; auto. apply Z.eqb_neq. congruence.
      * exists cu. split; [ | exact Rcu ].
        apply In_update_first_other; auto. apply Z.eqb_neq. congruence.
    + unfold nomes_unicos. cbn [users set_users].
      now rewrite map_update_first.
    + intros u Hu Nu.
      destruct (In_update_first_image
                  (fun w => User.id w =? User.id usuario)
                  (fun w => User.set_role w r) (users db) u Hu) as [H | H].
      * exists u. auto.
      * exists (User.set_role u r). auto.
  - apply bind_Ok in Run. destruct Run as (usuario & Get & Run).
    unfold get_user_or_404 in Get.
    destruct (find _ (users db)) as [x | ] eqn:F; [ | discriminate ].
    injection Get as ->. pose proof (find_some _ _ F) as [Iu _].
    destruct (list_eqb _ _) eqn:Adm; [ now apply Same in Run | ].
    destruct (Z.eqb_spec (User.id usuario) (User.id cu)) as [Eid | Nid];
      [ now apply Same in Run | ].
    destruct ((User.role usuario =? "admin")%string && (admin_count db =? 1));
      [ now apply Same in Run | ].
    injection Run as <- <-. cbn [users turmas alunos presencas pagamentos set_users].
    split; [ | split; [ now apply NoDup_map_delete_first
                      | split; [ | split; [ | auto ] ] ] ].
    + exists cu. split; [ | exact Rcu ].
      cbn [users set_users]. apply In_delete_first_other; auto.
      apply Z.eqb_neq. congruence.
    + unfold nomes_unicos. cbn [users set_users].
      apply NoDup_map_delete_first.
    + intros u Hu Nu. exists u. split; [ | auto ].
      apply In_delete_first_other; [ exact Hu | ].
      apply Z.eqb_neq. intros E.
      assert (u = usuario) by (now apply (NoDup_map_inj User.id (users db))).
      subst u. rewrite Nu in Adm. discriminate Adm.
Qed.

(** X3. Whatever request [manage_users] serves, if some account had the
    role [admin] before, some account has it after: the last administrator
    cannot be lost through deletions or changes of role.  The ids of the
    accounts stay distinct and the other tables are not touched. *)
Theorem manage_users_keeps_an_admin :
  forall (db db' : Database) (current_user : option User.t)
         (action : UserAction) (resp : Response),
    NoDup (map User.id (users db)) ->
    (forall cu, current_user = Some cu -> In cu (users db)) ->
    manage_users db current_user action = Ok (db', resp) ->
    (1 <= admin_count db -> 1 <= admin_count db')
    /\ NoDup (map User.id (users db'))
    /\ turmas db' = turmas db /\ alunos db' = alunos db
    /\ presencas db' = presencas db /\ pagamentos db' = pagamentos db.
Proof.
  intros db db' cuo action resp Hnd Hcu Run.
  destruct (manage_users_gate db cuo action)
    as [(r & Rej & _) | (cu & Ecu & Rcu & Post)].
  - (* refused: nobody logged in, or not an administrator *)
    rewrite Rej in Run. injection Run as <- <-. auto 10.
  - (* an administrator of the table *)
    rewrite Post in Run.
    destruct (manage_users_post_inv db db' cu action resp Hnd (Hcu cu Ecu)
                Rcu Run) as (Adm & Ids & _ & _ & Rest).
    split; [ intros _; now apply has_admin_count | ].
    split; [ exact Ids | exact Rest ].
Qed.

(** Maria, the only administrator, gives the seeded account the role
    [admin]: the request goes through and two administrators are left. *)
Lemma manage_users_keeps_an_admin_witness :
  (1 <= admin_count db_users ->
   1 <= admin_count
          (mkdb [] [] [] []
             [User.set_role user_admin "admin"; user_maria]))
  /\ NoDup (map User.id [User.set_role user_admin "admin"; user_maria]).
Proof.
  assert (Hnd : NoDup (map User.id (users db_users))).
  { repeat constructor; simpl; intuition discriminate. }
  assert (Hcu : forall cu, Some user_maria = Some cu -> In cu (users db_users)).
  { intros cu E. injection E as <-. simpl. auto. }
  destruct (manage_users_keeps_an_admin db_users
              (mkdb [] [] [] [] [User.set_role user_admin "admin"; user_maria])
              (Some user_maria) (UpdateRole 1 "admin")
              (Redirect "manage_users" "Perfil atualizado." "success")
              Hnd Hcu eq_refl) as (H1 & H2 & _).
  exact (conj H1 H2).
Defined.

(** ** Marking a payment *)

Lemma get_aluno_or_404_In (db : Database) (a : Aluno.t) :
  alunos_pk db -> In a (alunos db) -> get_aluno_or_404 db (Aluno.id a) = Ok a.
Proof.
  intros Hnd Hin. unfold get_aluno_or_404.
  destruct (find _ (alunos db)) as [x | ] eqn:E.
  - apply find_some in E. destruct E as [Hx Ex]. apply Z.eqb_eq in Ex.
    f_equal. now apply (NoDup_map_inj Aluno.id (alunos db)).
  - apply (proj1 (find_none_iff _ _)) with (x := a) in E; auto.
    rewrite Z.eqb_refl in E. discriminate.
Qed.

Lemma get_aluno_or_404_Ok (db : Database) (i : Z) (a : Aluno.t) :
  get_aluno_or_404 db i = Ok a -> In a (alunos db) /\ Aluno.id a = i.
Proof.
  unfold get_aluno_or_404.
  destruct (find _ (alunos db)) as [x | ] eqn:E; [ | discriminate ].
  intros H. injection H as <-. apply find_some in E.
  destruct E as [Hx Ex]. apply Z.eqb_eq in Ex. auto.
Qed.

Lemma pagamento_do_aluno_other_key (i j : Z) (m n : date) (p : Pagamento.t) :
  (i, m) <> (j, n) ->
  pagamento_do_aluno i m p = true -> pagamento_do_aluno j n p = false.
Proof.
  intros Hk H. apply pagamento_do_aluno_spec in H.
  destruct (pagamento_do_aluno j n p) eqn:E; [ | reflexivity ].
  apply pagamento_do_aluno_spec in E. congruence.
Qed.

Lemma pagamento_do_aluno_marcar (i : Z) (m : date) (status : option string)
  (hoje : date) (p : Pagamento.t) :
  pagamento_do_aluno i m (marcar status hoje p) = pagamento_do_aluno i m p.
Proof. unfold marcar. destruct (status_pago status); reflexivity. Qed.

Lemma chave_pagamento_marcar (status : option string) (hoje : date)
  (p : Pagamento.t) (v : Z) :
  chave_pagamento (marcar status hoje (Pagamento.set_valor p v))
  = chave_pagamento p.
Proof. unfold marcar. destruct (status_pago status); reflexivity. Qed.

(** What the handler leaves, spelled out on the table. *)
Lemma pagamentos_post_tabela (db db1 : Database) (hoje m : date) (i : Z)
  (status : option string) (resp : Response) :
  pagamentos_post db hoje m i status = Ok (db1, resp) ->
  exists a,
    In a (alunos db) /\ Aluno.id a = i
    /\ resp = Redirect "pagamentos" "Pagamento atualizado." "success"
    /\ turmas db1 = turmas db /\ alunos db1 = alunos db
    /\ presencas db1 = presencas db /\ users db1 = users db
    /\ pagamentos db1
       = match find (pagamento_do_aluno i m) (pagamentos db) with
         | Some _ =>
             update_first (pagamento_do_aluno i m)
               (fun p => marcar status hoje
                           (Pagamento.set_valor p (Aluno.valor_mensalidade a)))
               (pagamentos db)
         | None =>
             (pagamentos db ++
              [marcar status hoje
                 (Pagamento.mk (next_id (map Pagamento.id (pagamentos db))) m
                    false None EmptyString (Aluno.valor_mensalidade a) i)])%list
         end.
Proof.
  unfold pagamentos_post. intros H.
  apply bind_Ok in H. destruct H as (a & Get & H).
  apply get_aluno_or_404_Ok in Get. destruct Get as [Ia Ea].
  apply bind_Ok in H. destruct H as (v & Pv & H).
  apply parse_decimal_column_inv in Pv. subst v.
  injection H as <- <-. exists a. rewrite Ea. simpl. repeat split; auto.
Qed.

Lemma pagamentos_post_find (db db1 : Database) (hoje m : date) (i : Z)
  (status : option string) (resp : Response) :
  pagamentos_post db hoje m i status = Ok (db1, resp) ->
  exists (a : Aluno.t) (p : Pagamento.t),
    In a (alunos db) /\ Aluno.id a = i
    /\ find (pagamento_do_aluno i m) (pagamentos db1) = Some p
    /\ Pagamento.pago p = status_pago status
    /\ Pagamento.data_pagamento p
       = (if status_pago status then Some hoje else None)
    /\ Pagamento.valor p = Aluno.valor_mensalidade a
    /\ (forall q,
          find (pagamento_do_aluno i m) (pagamentos db) = Some q ->
          Pagamento.id p = Pagamento.id q
          /\ Pagamento.observacao p = Pagamento.observacao q)
    /\ (uq_pagamento_competencia (pagamentos db) ->
        uq_pagamento_competencia (pagamentos db1)).
Proof.
  intros Run.
  destruct (pagamentos_post_tabela _ _ _ _ _ _ _ Run)
    as (a & Ia & Ea & _ & _ & _ & _ & _ & Etab).
  set (f := pagamento_do_aluno i m) in *.
  set (g := fun p => marcar status hoje
                       (Pagamento.set_valor p (Aluno.valor_mensalidade a))) in *.
  exists a.
  destruct (find f (pagamentos db)) as [q | ] eqn:F.
  - pose proof (find_some _ _ F) as [_ Fq].
    exists (g q). split; [ exact Ia | split; [ exact Ea | split ] ].
    { rewrite Etab. apply find_update_first_same; auto.
      unfold g, f. now rewrite pagamento_do_aluno_marcar. }
    assert (U : uq_pagamento_competencia (pagamentos db) ->
                uq_pagamento_competencia (pagamentos db1)).
    { unfold uq_pagamento_competencia. rewrite Etab, map_update_first; auto.
      intros x. apply chave_pagamento_marcar. }
    unfold g, marcar. destruct (status_pago status); simpl;
      repeat split; auto; congruence.
  - set (novo := marcar status hoje
                   (Pagamento.mk (next_id (map Pagamento.id (pagamentos db))) m
                      false None EmptyString (Aluno.valor_mensalidade a) i)) in *.
    assert (Fn : f novo = true).
    { unfold novo, f. rewrite pagamento_do_aluno_marcar.
      unfold pagamento_do_aluno. simpl. now rewrite Z.eqb_refl, date_eqb_refl. }
    exists novo. split; [ exact Ia | split; [ exact Ea | split ] ].
    { rewrite Etab, find_app_last, F, Fn. reflexivity. }
    assert (U : uq_pagamento_competencia (pagamentos db) ->
                uq_pagamento_competencia (pagamentos db1)).
    { unfold uq_pagamento_competencia. intros Huq. rewrite Etab, map_app. simpl.
      apply Permutation_NoDup
        with (l := chave_pagamento novo :: map chave_pagamento (pagamentos db)).
      - apply Permutation_cons_append.
      - constructor; [ | exact Huq ].
        intros Hin. apply in_map_iff in Hin. destruct Hin as (x & Kx & Hx).
        assert (Fx : f x = true).
        { apply pagamento_do_aluno_spec. rewrite Kx.
          now apply pagamento_do_aluno_spec. }
        rewrite (proj1 (find_none_iff _ _) F x Hx) in Fx. discriminate. }
    unfold novo, marcar. destruct (status_pago status); simpl;
      repeat split; auto; try discriminate.
Qed.

Lemma get_aluno_or_404_NotFound (db : Database) (i : Z) :
  (forall a, In a (alunos db) -> Aluno.id a <> i) ->
  get_aluno_or_404 db i = Raise NotFound.
Proof.
  intros H. unfold get_aluno_or_404.
  replace (find (fun a => Aluno.id a =? i) (alunos db)) with (@None Aluno.t);
    [ reflexivity | ].
  symmetry. apply find_none_iff. intros a Ia. apply Z.eqb_neq. auto.
Qed.

Lemma pagamentos_post_Ok (db : Database) (hoje m : date) (a : Aluno.t)
  (status : option string) :
  alunos_pk db -> In a (alunos db) -> numeric_10_2 (Aluno.valor_mensalidade a) ->
  exists db1,
    pagamentos_post db hoje m (Aluno.id a) status
    = Ok (db1, Redirect "pagamentos" "Pagamento atualizado." "success").
Proof.
  intros Hpk Ia Hn. unfold pagamentos_post.
  rewrite (get_aluno_or_404_In db a Hpk Ia). simpl.
  rewrite (parse_decimal_column_Ok _ Hn). simpl. eauto.
Qed.

(** X4. Marking a payment for a student and month leaves exactly one row
    for them: paid with today's date when the status is [pago], unpaid with
    no date otherwise, at the student's current fee; a row that was there
    keeps its id and note.  Rows of other students or months are the same
    and the unique constraint still holds.  An id that no student has is
    answered with 404, whatever the month and the status. *)
Theorem pagamentos_post_marks_one_row :
  (forall (db : Database) (hoje m : date) (a : Aluno.t) (status : option string),
      alunos_pk db -> uq_pagamento_competencia (pagamentos db) ->
      In a (alunos db) -> numeric_10_2 (Aluno.valor_mensalidade a) ->
      exists (db1 : Database) (p : Pagamento.t),
        pagamentos_post db hoje m (Aluno.id a) status
        = Ok (db1, Redirect "pagamentos" "Pagamento atualizado." "success")
        /\ filter (pagamento_do_aluno (Aluno.id a) m) (pagamentos db1) = [p]
        /\ Pagamento.pago p = status_pago status
        /\ Pagamento.data_pagamento p
           = (if status_pago status then Some hoje else None)
        /\ Pagamento.valor p = Aluno.valor_mensalidade a
        /\ (forall q,
              find (pagamento_do_aluno (Aluno.id a) m) (pagamentos db) = Some q ->
              Pagamento.id p = Pagamento.id q
              /\ Pagamento.observacao p = Pagamento.observacao q)
        /\ uq_pagamento_competencia (pagamentos db1)
        /\ (forall (j : Z) (n : date),
              (Aluno.id a, m) <> (j, n) ->
              filter (pagamento_do_aluno j n) (pagamentos db1)
              = filter (pagamento_do_aluno j n) (pagamentos db))
        /\ turmas db1 = turmas db /\ alunos db1 = alunos db
        /\ presencas db1 = presencas db /\ users db1 = users db)
  /\ (forall (db : Database) (hoje m : date) (i : Z) (status : option string),
        (forall a, In a (alunos db) -> Aluno.id a <> i) ->
        pagamentos_post db hoje m i status = Raise NotFound).
Proof.
  split.
  2: { intros db hoje m i status H. unfold pagamentos_post.
       rewrite (get_aluno_or_404_NotFound db i H). reflexivity. }
  intros db hoje m a status Hpk Huq Ia Hn.
  destruct (pagamentos_post_Ok db hoje m a status Hpk Ia Hn) as (db1 & Run).
  destruct (pagamentos_post_find _ _ _ _ _ _ _ Run)
    as (a' & p & Ia' & Ea' & F1 & Hpago & Hdata & Hvalor & Hold & U).
  assert (a' = a) by (now apply (NoDup_map_inj Aluno.id (alunos db))).
  subst a'.
  destruct (pagamentos_post_tabela _ _ _ _ _ _ _ Run)
    as (a' & Ib & Eb & _ & Et & Eal & Epr & Eus & Etab).
  assert (a' = a) by (now apply (NoDup_map_inj Aluno.id (alunos db))).
  subst a'.
  assert (Hk : forall x y,
             pagamento_do_aluno (Aluno.id a) m x = true ->
             pagamento_do_aluno (Aluno.id a) m y = true ->
             chave_pagamento x = chave_pagamento y).
  { intros x y Fx Fy. apply pagamento_do_aluno_spec in Fx, Fy. congruence. }
  exists db1, p. split; [ exact Run | split ].
  { rewrite (filter_uq_find chave_pagamento _ _ (U Huq) Hk), F1. reflexivity. }
  repeat split; auto; try (now apply Hold).
  intros j n Hjn. rewrite Etab.
  destruct (find _ (pagamentos db)) as [q | ] eqn:F.
  - apply filter_update_first_other. intros x Fx.
    rewrite pagamento_do_aluno_marcar, pagamento_do_aluno_set_valor.
    split; apply (pagamento_do_aluno_other_key (Aluno.id a) j m n); auto.
  - rewrite filter_app. simpl. rewrite pagamento_do_aluno_marcar.
    replace (pagamento_do_aluno j n _) with false; [ apply app_nil_r | ].
    symmetry. apply (pagamento_do_aluno_other_key (Aluno.id a) j m n); auto.
    unfold pagamento_do_aluno. simpl. now rewrite Z.eqb_refl, date_eqb_refl.
Qed.

(** Ana's March row is marked unpaid again. *)
Lemma pagamentos_post_marks_one_row_witness :
  (exists (db1 : Database) (p : Pagamento.t),
      pagamentos_post db_exemplo (mkdate 2024 3 20) marco_2024 1 None
      = Ok (db1, Redirect "pagamentos" "Pagamento atualizado." "success")
      /\ filter (pagamento_do_aluno 1 marco_2024) (pagamentos db1) = [p]
      /\ Pagamento.pago p = false
      /\ Pagamento.data_pagamento p = None
      /\ Pagamento.valor p = 15000
      /\ (forall q,
            find (pagamento_do_aluno 1 marco_2024) (pagamentos db_exemplo) = Some q ->
            Pagamento.id p = Pagamento.id q
            /\ Pagamento.observacao p = Pagamento.observacao q)
      /\ uq_pagamento_competencia (pagamentos db1)
      /\ (forall (j : Z) (n : date),
            (1, marco_2024) <> (j, n) ->
            filter (pagamento_do_aluno j n) (pagamentos db1)
            = filter (pagamento_do_aluno j n) (pagamentos db_exemplo))
      /\ turmas db1 = turmas db_exemplo /\ alunos db1 = alunos db_exemplo
      /\ presencas db1 = presencas db_exemplo /\ users db1 = users db_exemplo)
  /\ pagamentos_post db_exemplo (mkdate 2024 3 20) marco_2024 7 (Some "pago")
     = Raise NotFound.
Proof.
  destruct db_exemplo_wf as (Hpk & Huq & Hnum).
  destruct pagamentos_post_marks_one_row as [Hmarca H404]. split.
  - apply (Hmarca db_exemplo (mkdate 2024 3 20) marco_2024 aluno_ana None Hpk Huq).
    + simpl. auto.
    + unfold numeric_10_2. vm_compute. discriminate.
  - apply H404. simpl. intros a [<- | [<- | [<- | []]]]; discriminate.
Defined.

(** No student of the sample has the id 7. *)
Example pagamentos_post_404 :
  pagamentos_post db_exemplo (mkdate 2024 3 20) marco_2024 7 (Some "pago")
  = Raise NotFound.
Proof. vm_compute. reflexivity. Qed.

Example pagamentos_post_exemplo :
  pagamentos_post db_exemplo (mkdate 2024 3 20) marco_2024 2 (Some "pago")
  = Ok (mkdb [turma_sub11] [aluno_bruno; aluno_caio; aluno_ana] []
          [pagamento_ana_marco; pagamento_caio_marco; pagamento_ana_fevereiro;
           Pagamento.mk 4 marco_2024 true (Some (mkdate 2024 3 20)) EmptyString
             12000 2] [],
        Redirect "pagamentos" "Pagamento atualizado." "success").
Proof. vm_compute. reflexivity. Defined.

(** ** Payment dates *)

Lemma Forall_update_first {A : Type} (P : A -> Prop) (f : A -> bool)
  (g : A -> A) (l : list A) :
  (forall x, P x -> P (g x)) -> Forall P l -> Forall P (update_first f g l).
Proof.
  intros Hg. induction 1 as [ | x l Px Hl IH ]; simpl; [ constructor | ].
  destruct (f x); constructor; auto.
Qed.

Lemma Forall_delete_first {A : Type} (P : A -> Prop) (f : A -> bool)
  (l : list A) :
  Forall P l -> Forall P (delete_first f l).
Proof.
  induction 1 as [ | x l Px Hl IH ]; simpl; [ constructor | ].
  destruct (f x); [ exact Hl | now constructor ].
Qed.

Lemma reconciliar_aluno_inv (m : date)
  (st st' : list Pagamento.t * list Pagamento.t) (a : Aluno.t) :
  reconciliar_aluno m st a = Ok st' -> st' = reconciliar_puro m st a.
Proof.
  unfold reconciliar_aluno, reconciliar_puro. destruct st as [T R].
  destruct (Aluno.projeto_social a).
  - destruct (find _ T); congruence.
  - intros H. apply bind_Ok in H. destruct H as (v & Pv & H).
    apply parse_decimal_column_inv in Pv. subst v.
    destruct (find _ T); congruence.
Qed.

(** A property of rows that [valor] does not bear on, and that a new unpaid
    row has, holds of the table and of [registros] after every step. *)
Lemma reconciliar_puro_Forall (P : Pagamento.t -> Prop) (m : date)
  (T R : list Pagamento.t) (a : Aluno.t) :
  (forall p v, P p -> P (Pagamento.set_valor p v)) ->
  (forall i v, P (Pagamento.mk i m false None EmptyString v (Aluno.id a))) ->
  Forall P T -> Forall P R ->
  Forall P (fst (reconciliar_puro m (T, R) a))
  /\ Forall P (snd (reconciliar_puro m (T, R) a)).
Proof.
  intros Hset Hnew HT HR. unfold reconciliar_puro.
  destruct (Aluno.projeto_social a);
    destruct (find _ T) as [q | ] eqn:F; simpl; auto.
  - split; [ now apply Forall_delete_first | exact HR ].
  - pose proof (find_some _ _ F) as [Iq _].
    assert (Pq : P q) by (rewrite Forall_forall in HT; auto).
    split.
    + apply Forall_update_first; auto.
    + apply Forall_app. split; [ exact HR | ]. constructor; auto.
  - split; apply Forall_app; split; auto; constructor; auto.
Qed.

Lemma pagamentos_do_mes_referencia_Forall (P : Pagamento.t -> Prop)
  (db db1 : Database) (m : date) (registros : list Pagamento.t)
  (resumo : Resumo) :
  (forall p v, P p -> P (Pagamento.set_valor p v)) ->
  (forall a i v, In a (alunos db) ->
                 P (Pagamento.mk i m false None EmptyString v (Aluno.id a))) ->
  pagamentos_do_mes_referencia db m = Ok (db1, registros, resumo) ->
  Forall P (pagamentos db) ->
  Forall P (pagamentos db1) /\ Forall P registros.
Proof.
  intros Hset Hnew Run HT. unfold pagamentos_do_mes_referencia in Run.
  apply bind_Ok in Run. destruct Run as ([T R] & Loop & Run).
  apply bind_Ok in Run. destruct Run as (r & _ & Run).
  injection Run as <- <- _. simpl.
  revert Loop.
  apply (for_each_inv (reconciliar_aluno m)
           (fun st => Forall P (fst st) /\ Forall P (snd st))).
  - intros [T0 R0] a st' Ia [H1 H2] Step.
    apply reconciliar_aluno_inv in Step. subst st'.
    apply reconciliar_puro_Forall; auto.
    intros i v. apply Hnew. now apply alunos_por_nome_In.
  - simpl. auto.
Qed.

Lemma data_sse_pago_marcar (status : option string) (hoje : date)
  (p : Pagamento.t) :
  data_sse_pago (marcar status hoje p).
Proof.
  unfold data_sse_pago, marcar.
  destruct (status_pago status); simpl; split; congruence.
Qed.

(** X5. A payment date is set exactly on the paid rows, and stays so: if
    that holds of every row of the table, it holds of every row after a
    payment is marked and after a reconciliation, and of every row the
    reconciliation returns. *)
Theorem payment_date_iff_paid_is_kept :
  (forall (db db1 : Database) (hoje m : date) (i : Z) (status : option string)
          (resp : Response),
      pagamentos_post db hoje m i status = Ok (db1, resp) ->
      Forall data_sse_pago (pagamentos db) ->
      Forall data_sse_pago (pagamentos db1))
  /\ (forall (db db1 : Database) (m : date) (registros : list Pagamento.t)
             (resumo : Resumo),
        pagamentos_do_mes_referencia db m = Ok (db1, registros, resumo) ->
        Forall data_sse_pago (pagamentos db) ->
        Forall data_sse_pago (pagamentos db1)
        /\ Forall data_sse_pago registros).
Proof.
  split.
  - intros db db1 hoje m i status resp Run H.
    destruct (pagamentos_post_tabela _ _ _ _ _ _ _ Run)
      as (a & _ & _ & _ & _ & _ & _ & _ & Etab).
    rewrite Etab. destruct (find _ (pagamentos db)).
    + apply Forall_update_first; auto.
      intros x _. apply data_sse_pago_marcar.
    + apply Forall_app. split; [ exact H | ].
      constructor; [ apply data_sse_pago_marcar | constructor ].
  - intros db db1 m registros resumo Run H.
    apply (pagamentos_do_mes_referencia_Forall data_sse_pago db db1 m
             registros resumo); [ | | exact Run | exact H ].
    + intros p v Hp. exact Hp.
    + intros a i v _. unfold data_sse_pago. simpl. split; congruence.
Qed.

Lemma payment_date_iff_paid_is_kept_witness :
  Forall data_sse_pago
    [pagamento_ana_marco; pagamento_caio_marco; pagamento_ana_fevereiro;
     Pagamento.mk 4 marco_2024 true (Some (mkdate 2024 3 20)) EmptyString 12000 2]
  /\ Forall data_sse_pago
       [Pagamento.mk 1 marco_2024 true (Some (mkdate 2024 3 5)) EmptyString 15000 1;
        pagamento_ana_fevereiro;
        Pagamento.mk 4 marco_2024 false None EmptyString 12000 2].
Proof.
  assert (H : Forall data_sse_pago (pagamentos db_exemplo)).
  { repeat constructor; simpl; congruence. }
  destruct payment_date_iff_paid_is_kept as [H1 H2]. split.
  - apply (H1 db_exemplo _ (mkdate 2024 3 20) marco_2024 2 (Some "pago") _
             pagamentos_post_exemplo H).
  - apply (H2 db_exemplo _ marco_2024 _ _ reconciliation_exemplo H).
Defined.

(** ** Marking, then reconciling *)

Lemma pagamentos_post_wf (db db1 : Database) (hoje m : date) (i : Z)
  (status : option string) (resp : Response) :
  pagamentos_post db hoje m i status = Ok (db1, resp) ->
  db_wf db -> db_wf db1.
Proof.
  intros Run (Hpk & Huq & Hnum).
  destruct (pagamentos_post_tabela _ _ _ _ _ _ _ Run)
    as (a & _ & _ & _ & _ & Eal & _ & _ & _).
  destruct (pagamentos_post_find _ _ _ _ _ _ _ Run)
    as (_ & _ & _ & _ & _ & _ & _ & _ & _ & U).
  unfold db_wf, alunos_pk. rewrite Eal. auto.
Qed.

(** X6. Mark a payment, then reconcile the same month.  For a student who
    is charged, the table keeps exactly one row for that student and month,
    returned by the reconciliation, with the mark as it was made (paid with
    its date, or unpaid) and the student's current fee.  For a scholarship
    student the row the marking made is deleted again: no row is left and
    none is returned. *)
Theorem mark_then_reconcile :
  forall (db : Database) (hoje m : date) (a : Aluno.t) (status : option string),
    db_wf db -> In a (alunos db) ->
    exists (db1 db2 : Database) (resp : Response)
           (registros : list Pagamento.t) (resumo : Resumo),
      pagamentos_post db hoje m (Aluno.id a) status = Ok (db1, resp)
      /\ pagamentos_do_mes_referencia db1 m = Ok (db2, registros, resumo)
      /\ (Aluno.projeto_social a = false ->
          exists p,
            filter (pagamento_do_aluno (Aluno.id a) m) (pagamentos db2) = [p]
            /\ In p registros
            /\ Pagamento.pago p = status_pago status
            /\ Pagamento.data_pagamento p
               = (if status_pago status then Some hoje else None)
            /\ Pagamento.valor p = Aluno.valor_mensalidade a)
      /\ (Aluno.projeto_social a = true ->
          filter (pagamento_do_aluno (Aluno.id a) m) (pagamentos db2) = []
          /\ forall p, In p registros -> Pagamento.aluno_id p <> Aluno.id a).
Proof.
  intros db hoje m a status Hwf Ia.
  pose proof Hwf as (Hpk & Huq & Hnum).
  assert (Hn : numeric_10_2 (Aluno.valor_mensalidade a)).
  { unfold mensalidades_numeric in Hnum. rewrite Forall_forall in Hnum. auto. }
  destruct (pagamentos_post_Ok db hoje m a status Hpk Ia Hn) as (db1 & Run).
  pose proof (pagamentos_post_wf _ _ _ _ _ _ _ Run Hwf) as Hwf1.
  destruct (pagamentos_post_tabela _ _ _ _ _ _ _ Run)
    as (_ & _ & _ & _ & _ & Eal & _ & _ & _).
  destruct (pagamentos_post_find _ _ _ _ _ _ _ Run)
    as (a' & q & Ia' & Ea' & F1 & Hpago & Hdata & _ & _ & _).
  destruct (reconciliado_spec db1 m Hwf1) as (Run2 & U2 & _ & Bol & Cob & Reg).
  set (T := fst (reconciliado db1 m)) in *.
  set (R := snd (reconciliado db1 m)) in *.
  assert (Ia1 : In a (alunos db1)) by (now rewrite Eal).
  assert (Hk : forall x y,
             pagamento_do_aluno (Aluno.id a) m x = true ->
             pagamento_do_aluno (Aluno.id a) m y = true ->
             chave_pagamento x = chave_pagamento y).
  { intros x y Fx Fy. apply pagamento_do_aluno_spec in Fx, Fy. congruence. }
  exists db1, (set_pagamentos db1 T),
    (Redirect "pagamentos" "Pagamento atualizado." "success"), R, (resumo_puro R).
  split; [ exact Run | split; [ exact Run2 | split ] ]; intros Hs.
  - destruct (Cob a Ia1 Hs) as (p & Fp & Hl).
    rewrite F1 in Hl. simpl in Hl. subst p.
    exists (Pagamento.set_valor q (Aluno.valor_mensalidade a)).
    split; [ | split; [ | auto ] ].
    + simpl. rewrite (filter_uq_find chave_pagamento _ _ U2 Hk), Fp. reflexivity.
    + rewrite Reg. apply registros_de_In. exists a.
      split; [ now apply alunos_por_nome_In | auto ].
  - split.
    + simpl. rewrite (filter_uq_find chave_pagamento _ _ U2 Hk).
      now rewrite (Bol a Ia1 Hs).
    + intros p Hp E. rewrite Reg in Hp.
      apply registros_de_In in Hp. destruct Hp as (b & Hb & Hsb & Hf).
      apply find_some in Hf. destruct Hf as [_ Hf].
      apply pagamento_do_aluno_spec in Hf. unfold chave_pagamento in Hf.
      destruct Hwf1 as (Hpk1 & _).
      assert (b = a).
      { apply (NoDup_map_inj Aluno.id (alunos_por_nome db1)); auto.
        - now apply alunos_por_nome_pk.
        - now apply alunos_por_nome_In.
        - congruence. }
      subst b. congruence.
Qed.

(** Bruno's March payment is marked paid on 20 March; Caio is on
    scholarship. *)
Lemma mark_then_reconcile_witness :
  (exists (db1 db2 : Database) (resp : Response)
          (registros : list Pagamento.t) (resumo : Resumo),
      pagamentos_post db_exemplo (mkdate 2024 3 20) marco_2024 2 (Some "pago")
      = Ok (db1, resp)
      /\ pagamentos_do_mes_referencia db1 marco_2024 = Ok (db2, registros, resumo)
      /\ (Aluno.projeto_social aluno_bruno = false ->
          exists p,
            filter (pagamento_do_aluno 2 marco_2024) (pagamentos db2) = [p]
            /\ In p registros
            /\ Pagamento.pago p = true
            /\ Pagamento.data_pagamento p = Some (mkdate 2024 3 20)
            /\ Pagamento.valor p = 12000)
      /\ (Aluno.projeto_social aluno_bruno = true ->
          filter (pagamento_do_aluno 2 marco_2024) (pagamentos db2) = []
          /\ forall p, In p registros -> Pagamento.aluno_id p <> 2))
  /\ (exists (db1 db2 : Database) (resp : Response)
             (registros : list Pagamento.t) (resumo : Resumo),
        pagamentos_post db_exemplo (mkdate 2024 3 20) marco_2024 3 (Some "pago")
        = Ok (db1, resp)
        /\ pagamentos_do_mes_referencia db1 marco_2024 = Ok (db2, registros, resumo)
        /\ (Aluno.projeto_social aluno_caio = false ->
            exists p,
              filter (pagamento_do_aluno 3 marco_2024) (pagamentos db2) = [p]
              /\ In p registros
              /\ Pagamento.pago p = true
              /\ Pagamento.data_pagamento p = Some (mkdate 2024 3 20)
              /\ Pagamento.valor p = 0)
        /\ (Aluno.projeto_social aluno_caio = true ->
            filter (pagamento_do_aluno 3 marco_2024) (pagamentos db2) = []
            /\ forall p, In p registros -> Pagamento.aluno_id p <> 3)).
Proof.
  split.
  - apply (mark_then_reconcile db_exemplo (mkdate 2024 3 20) marco_2024
             aluno_bruno (Some "pago") db_exemplo_wf). simpl. auto.
  - apply (mark_then_reconcile db_exemplo (mkdate 2024 3 20) marco_2024
             aluno_caio (Some "pago") db_exemplo_wf). simpl. auto.
Defined.

(** ** Removing a student *)

Lemma In_delete_first_uq {A K : Type} (k : A -> K) (f : A -> bool)
  (l : list A) (b : A) :
  NoDup (map k l) ->
  (forall x y, f x = true -> f y = true -> k x = k y) ->
  (In b (delete_first f l) <-> In b l /\ f b = false).
Proof.
  intros Hnd Hk. split.
  - intros Hb. split; [ now apply delete_first_incl in Hb | ].
    pose proof (find_delete_first_same k f l Hnd Hk) as N.
    now apply (proj1 (find_none_iff _ _) N).
  - intros [Hb Fb]. now apply In_delete_first_other.
Qed.

Lemma fold_left_inv {A S : Type} (g : S -> A -> S) (I : S -> Prop) (l : list A) :
  (forall s x, In x l -> I s -> I (g s x)) ->
  forall s, I s -> I (fold_left g l s).
Proof.
  induction l as [ | x l IH ]; intros H s Hs; simpl; [ exact Hs | ].
  apply IH.
  - intros s' y Hy. apply H. now right.
  - apply H; [ now left | exact Hs ].
Qed.

(** X7. Removing a student takes the student's payment and attendance rows
    along and nothing else: the other students and the rows of the other
    students are exactly those that were there, the classes and accounts
    are not touched, and the keys and unique constraints still hold.  An id
    that no student has is answered with 404. *)
Theorem delete_aluno_cascades :
  (forall (db : Database) (a : Aluno.t),
      alunos_pk db -> In a (alunos db) ->
      exists db1,
        delete_aluno db (Aluno.id a)
        = Ok (db1, Redirect "list_alunos" "Aluno removido." "success")
        /\ (forall b, In b (alunos db1)
                      <-> In b (alunos db) /\ Aluno.id b <> Aluno.id a)
        /\ (forall p, In p (pagamentos db1)
                      <-> In p (pagamentos db)
                          /\ Pagamento.aluno_id p <> Aluno.id a)
        /\ (forall p, In p (presencas db1)
                      <-> In p (presencas db)
                          /\ Presenca.aluno_id p <> Aluno.id a)
        /\ alunos_pk db1
        /\ (uq_pagamento_competencia (pagamentos db) ->
            uq_pagamento_competencia (pagamentos db1))
        /\ (uq_presenca_aluno_data (presencas db) ->
            uq_presenca_aluno_data (presencas db1))
        /\ turmas db1 = turmas db /\ users db1 = users db)
  /\ (forall (db : Database) (i : Z),
        (forall a, In a (alunos db) -> Aluno.id a <> i) ->
        delete_aluno db i = Raise NotFound).
Proof.
  split.
  - intros db a Hpk Ia. unfold delete_aluno.
    rewrite (get_aluno_or_404_In db a Hpk Ia). simpl.
    eexists. split; [ reflexivity | ]. simpl.
    split; [ | split; [ | split; [ | split; [ | split; [ | split ] ] ] ] ]; auto.
    + intros b.
      rewrite (In_delete_first_uq Aluno.id); auto.
      * rewrite Z.eqb_neq. tauto.
      * intros x y Fx Fy. apply Z.eqb_eq in Fx, Fy. congruence.
    + intros p. rewrite filter_In, negb_true_iff, Z.eqb_neq. tauto.
    + intros p. rewrite filter_In, negb_true_iff, Z.eqb_neq. tauto.
    + unfold alunos_pk. simpl. now apply NoDup_map_delete_first.
    + unfold uq_pagamento_competencia. apply NoDup_map_filter.
    + unfold uq_presenca_aluno_data. apply NoDup_map_filter.
  - intros db i H. unfold delete_aluno, get_aluno_or_404.
    replace (find (fun a => Aluno.id a =? i) (alunos db)) with (@None Aluno.t);
      [ reflexivity | ].
    symmetry. apply find_none_iff. intros a Ia. apply Z.eqb_neq. auto.
Qed.

Lemma db_escola_pk : alunos_pk db_escola /\ turmas_pk db_escola.
Proof.
  split.
  - unfold alunos_pk. repeat constructor; simpl; intuition discriminate.
  - unfold turmas_pk. repeat constructor; simpl; intuition.
Defined.

Lemma delete_aluno_cascades_witness :
  (exists db1,
      delete_aluno db_escola 1
      = Ok (db1, Redirect "list_alunos" "Aluno removido." "success")
      /\ (forall b, In b (alunos db1) <-> In b (alunos db_escola) /\ Aluno.id b <> 1)
      /\ (forall p, In p (pagamentos db1)
                    <-> In p (pagamentos db_escola) /\ Pagamento.aluno_id p <> 1)
      /\ (forall p, In p (presencas db1)
                    <-> In p (presencas db_escola) /\ Presenca.aluno_id p <> 1)
      /\ alunos_pk db1
      /\ (uq_pagamento_competencia (pagamentos db_escola) ->
          uq_pagamento_competencia (pagamentos db1))
      /\ (uq_presenca_aluno_data (presencas db_escola) ->
          uq_presenca_aluno_data (presencas db1))
      /\ turmas db1 = turmas db_escola /\ users db1 = users db_escola)
  /\ delete_aluno db_escola 9 = Raise NotFound.
Proof.
  destruct delete_aluno_cascades as [H1 H2]. split.
  - apply (H1 db_escola aluno_ana (proj1 db_escola_pk)). simpl. auto.
  - apply H2. simpl. intros a [<- | [<- | [<- | []]]]; discriminate.
Defined.

Example delete_aluno_exemplo :
  delete_aluno db_escola 1
  = Ok (mkdb [turma_sub11] [aluno_bruno; aluno_caio] []
          [pagamento_caio_marco] [],
        Redirect "list_alunos" "Aluno removido." "success").
Proof. reflexivity. Qed.

(** ** Removing a class *)

Lemma aluno_da_turma_spec (t : Turma.t) (a : Aluno.t) :
  aluno_da_turma t a = true <-> Aluno.turma_id a = Some (Turma.id t).
Proof.
  unfold aluno_da_turma. destruct (Aluno.turma_id a) as [ tid | ].
  - rewrite Z.eqb_eq. split; congruence.
  - split; discriminate.
Qed.

Lemma get_turma_or_404_In (db : Database) (t : Turma.t) :
  turmas_pk db -> In t (turmas db) ->
  get_turma_or_404 db (Turma.id t) = Ok t.
Proof.
  intros Hnd Hin. unfold get_turma_or_404.
  destruct (find _ (turmas db)) as [x | ] eqn:E.
  - apply find_some in E. destruct E as [Hx Ex]. apply Z.eqb_eq in Ex.
    f_equal. now apply (NoDup_map_inj Turma.id (turmas db)).
  - apply (proj1 (find_none_iff _ _)) with (x := t) in E; auto.
    rewrite Z.eqb_refl in E. discriminate.
Qed.

(** X8. Removing a class removes no student: the student table keeps its
    ids in their order, the students of the class stay with every field but
    the class reference, which is emptied, and the others stay as they are;
    afterwards no student refers to the removed class.  Only that class row
    leaves the class table; payments and accounts are untouched, and no
    attendance row of another class is lost.  An id that no class has is
    answered with 404. *)
Theorem delete_turma_keeps_students :
  (forall (foreign_keys : bool) (db : Database) (t : Turma.t),
      turmas_pk db -> In t (turmas db) ->
      exists db1,
        delete_turma foreign_keys db (Turma.id t)
        = Ok (db1, Redirect "list_turmas"
                     "Turma removida. Alunos permanecem cadastrados." "success")
        /\ map Aluno.id (alunos db1) = map Aluno.id (alunos db)
        /\ (forall a, In a (alunos db) ->
                      Aluno.turma_id a <> Some (Turma.id t) ->
                      In a (alunos db1))
        /\ (forall a, In a (alunos db) ->
                      Aluno.turma_id a = Some (Turma.id t) ->
                      In (aluno_set_turma_id a None) (alunos db1))
        /\ (forall b, In b (alunos db1) ->
                      Aluno.turma_id b <> Some (Turma.id t)
                      /\ exists a, In a (alunos db)
                                   /\ aluno_set_turma_id b None
                                      = aluno_set_turma_id a None)
        /\ (forall u, In u (turmas db1)
                      <-> In u (turmas db) /\ Turma.id u <> Turma.id t)
        /\ pagamentos db1 = pagamentos db
        /\ users db1 = users db
        /\ (forall p, In p (presencas db1) -> In p (presencas db))
        /\ (forall p, In p (presencas db) ->
                      Presenca.turma_id p <> Turma.id t ->
                      In p (presencas db1)))
  /\ (forall (foreign_keys : bool) (db : Database) (i : Z),
        (forall t, In t (turmas db) -> Turma.id t <> i) ->
        delete_turma foreign_keys db i = Raise NotFound).
Proof.
  split.
  - intros fk db t Hpk It. unfold delete_turma.
    rewrite (get_turma_or_404_In db t Hpk It). simpl.
    eexists. split; [ reflexivity | ]. simpl.
    repeat match goal with |- _ /\ _ => split end; auto.
    + rewrite map_map. apply map_ext. intros a.
      now destruct (aluno_da_turma t a).
    + intros a Ia Ha. apply in_map_iff. exists a. split; [ | exact Ia ].
      destruct (aluno_da_turma t a) eqn:E; [ | reflexivity ].
      apply aluno_da_turma_spec in E. contradiction.
    + intros a Ia Ha. apply in_map_iff. exists a. split; [ | exact Ia ].
      apply aluno_da_turma_spec in Ha. now rewrite Ha.
    + intros b Hb. apply in_map_iff in Hb. destruct Hb as [a [Eb Ia]].
      destruct (aluno_da_turma t a) eqn:E; subst b.
      * split; [ simpl; discriminate | ]. exists a. split; [ exact Ia | ].
        reflexivity.
      * split; [ | now exists a ].
        intros H. apply aluno_da_turma_spec in H. congruence.
    + intros u. rewrite (In_delete_first_uq Turma.id); auto.
      * rewrite Z.eqb_neq. tauto.
      * intros x y Fx Fy. apply Z.eqb_eq in Fx, Fy. congruence.
    + intros p Hp. destruct fk; [ | exact Hp ].
      now apply filter_In in Hp.
    + intros p Hp Hne. destruct fk; [ | exact Hp ].
      apply filter_In. split; [ exact Hp | ].
      apply negb_true_iff, Z.eqb_neq. exact Hne.
  - intros fk db i H. unfold delete_turma, get_turma_or_404.
    replace (find (fun t => Turma.id t =? i) (turmas db)) with (@None Turma.t);
      [ reflexivity | ].
    symmetry. apply find_none_iff. intros t It. apply Z.eqb_neq. auto.
Qed.

Lemma delete_turma_keeps_students_witness :
  (exists db1,
      delete_turma false db_escola (Turma.id turma_sub11)
      = Ok (db1, Redirect "list_turmas"
                   "Turma removida. Alunos permanecem cadastrados." "success")
      /\ map Aluno.id (alunos db1) = map Aluno.id (alunos db_escola)
      /\ (forall a, In a (alunos db_escola) ->
                    Aluno.turma_id a <> Some (Turma.id turma_sub11) ->
                    In a (alunos db1))
      /\ (forall a, In a (alunos db_escola) ->
                    Aluno.turma_id a = Some (Turma.id turma_sub11) ->
                    In (aluno_set_turma_id a None) (alunos db1))
      /\ (forall b, In b (alunos db1) ->
                    Aluno.turma_id b <> Some (Turma.id turma_sub11)
                    /\ exists a, In a (alunos db_escola)
                                 /\ aluno_set_turma_id b None
                                    = aluno_set_turma_id a None)
      /\ (forall u, In u (turmas db1)
                    <-> In u (turmas db_escola)
                        /\ Turma.id u <> Turma.id turma_sub11)
      /\ pagamentos db1 = pagamentos db_escola
      /\ users db1 = users db_escola
      /\ (forall p, In p (presencas db1) -> In p (presencas db_escola))
      /\ (forall p, In p (presencas db_escola) ->
                    Presenca.turma_id p <> Turma.id turma_sub11 ->
                    In p (presencas db1)))
  /\ delete_turma false db_escola 9 = Raise NotFound.
Proof.
  destruct delete_turma_keeps_students as [H1 H2]. split.
  - apply (H1 false db_escola turma_sub11 (proj2 db_escola_pk)). simpl. auto.
  - apply H2. simpl. intros t [<- | []]; discriminate.
Defined.

Example delete_turma_exemplo :
  delete_turma false db_escola 1
  = Ok (mkdb []
          [aluno_set_turma_id aluno_bruno None; aluno_caio;
           aluno_set_turma_id aluno_ana None]
          [presenca_ana_12]
          [pagamento_ana_marco; pagamento_caio_marco; pagamento_ana_fevereiro]
          [],
        Redirect "list_turmas"
          "Turma removida. Alunos permanecem cadastrados." "success").
Proof. reflexivity. Qed.

(** ** Rows and their students *)

Lemma fk_alunos_Forall (db : Database) :
  fk_alunos db
  <-> Forall (fun p => exists a, In a (alunos db)
                                 /\ Aluno.id a = Pagamento.aluno_id p)
        (pagamentos db)
      /\ Forall (fun p => exists a, In a (alunos db)
                                    /\ Aluno.id a = Presenca.aluno_id p)
           (presencas db).
Proof. unfold fk_alunos. now rewrite !Forall_forall. Qed.

Lemma registrar_presenca_Forall (P : Presenca.t -> Prop) (turma : Turma.t)
  (d : date) (ids : list Z) (tabela : list Presenca.t) (aluno : Aluno.t) :
  (forall p b, P p ->
               P (Presenca.mk (Presenca.id p) (Presenca.data p) b
                    (Presenca.aluno_id p) (Turma.id turma))) ->
  (forall i b, P (Presenca.mk i d b (Aluno.id aluno) (Turma.id turma))) ->
  Forall P tabela -> Forall P (registrar_presenca turma d ids tabela aluno).
Proof.
  intros Hupd Hnew HT. unfold registrar_presenca.
  destruct (find _ tabela).
  - apply Forall_update_first; auto.
  - apply Forall_app. split; [ exact HT | ]. constructor; [ apply Hnew | constructor ].
Qed.

(** X9. No handler leaves a payment or attendance row without its student:
    if every such row belongs to a student of the table, that is still so
    after a reconciliation, after a payment is marked, after an attendance
    sheet is submitted, after a student is removed and after a class is
    removed. *)
Theorem rows_keep_their_student :
  forall db : Database,
    fk_alunos db ->
    (forall (m : date) (db1 : Database) (registros : list Pagamento.t)
            (resumo : Resumo),
        pagamentos_do_mes_referencia db m = Ok (db1, registros, resumo) ->
        fk_alunos db1)
    /\ (forall (hoje m : date) (i : Z) (status : option string)
               (db1 : Database) (resp : Response),
          pagamentos_post db hoje m i status = Ok (db1, resp) ->
          fk_alunos db1)
    /\ (forall (isdigit : string -> bool) (py_int : string -> result Z)
               (turma_id : Z) (d : date) (form : list string)
               (db1 : Database) (resp : Response),
          presencas_post isdigit py_int db turma_id d form = Ok (db1, resp) ->
          fk_alunos db1)
    /\ (forall (i : Z) (db1 : Database) (resp : Response),
          delete_aluno db i = Ok (db1, resp) -> fk_alunos db1)
    /\ (forall (foreign_keys : bool) (i : Z) (db1 : Database)
               (resp : Response),
          delete_turma foreign_keys db i = Ok (db1, resp) -> fk_alunos db1).
Proof.
  intros db Hfk. pose proof (proj1 (fk_alunos_Forall db) Hfk) as [Hpg Hpr].
  repeat match goal with |- _ /\ _ => split end.
  - intros m db1 registros resumo Run.
    assert (Eal : alunos db1 = alunos db /\ presencas db1 = presencas db).
    { unfold pagamentos_do_mes_referencia in Run.
      apply bind_Ok in Run. destruct Run as ([T R] & _ & Run).
      apply bind_Ok in Run. destruct Run as (r & _ & Run).
      injection Run as <- _ _. simpl. auto. }
    destruct Eal as [Eal Epr].
    apply fk_alunos_Forall. rewrite Eal, Epr. split; [ | exact Hpr ].
    apply (pagamentos_do_mes_referencia_Forall _ db db1 m registros resumo);
      [ | | exact Run | exact Hpg ].
    + intros p v Hp. exact Hp.
    + intros a i v Ia. exists a. simpl. auto.
  - intros hoje m i status db1 resp Run.
    destruct (pagamentos_post_tabela _ _ _ _ _ _ _ Run)
      as (a & Ia & Ea & _ & _ & Eal & Epr & _ & Etab).
    apply fk_alunos_Forall. rewrite Eal, Epr, Etab. split; [ | exact Hpr ].
    destruct (find _ (pagamentos db)).
    + apply Forall_update_first; [ | exact Hpg ].
      intros x Hx. unfold marcar. now destruct (status_pago status).
    + apply Forall_app. split; [ exact Hpg | ].
      constructor; [ | constructor ].
      exists a. unfold marcar. now destruct (status_pago status).
  - intros isdigit py_int turma_id d form db1 resp Run.
    unfold presencas_post in Run.
    apply bind_Ok in Run. destruct Run as (t & _ & Run).
    apply bind_Ok in Run. destruct Run as (ids & _ & Run).
    injection Run as <- _. apply fk_alunos_Forall. simpl.
    split; [ exact Hpg | ].
    apply fold_left_inv; [ | exact Hpr ].
    intros tabela a Ia HT. apply registrar_presenca_Forall; auto.
    intros i b. exists a. split; [ | reflexivity ].
    unfold turma_alunos in Ia. now apply filter_In in Ia.
  - intros i db1 resp Run. unfold delete_aluno in Run.
    apply bind_Ok in Run. destruct Run as (x & _ & Run).
    injection Run as <- _. unfold fk_alunos. simpl. split.
    + intros p Hp. apply filter_In in Hp. destruct Hp as [Hp Ne].
      apply negb_true_iff in Ne.
      destruct (proj1 Hfk p Hp) as (a & Ia & Ea). exists a.
      split; [ | exact Ea ]. apply In_delete_first_other; [ exact Ia | ].
      now rewrite Ea.
    + intros p Hp. apply filter_In in Hp. destruct Hp as [Hp Ne].
      apply negb_true_iff in Ne.
      destruct (proj2 Hfk p Hp) as (a & Ia & Ea). exists a.
      split; [ | exact Ea ]. apply In_delete_first_other; [ exact Ia | ].
      now rewrite Ea.
  - intros fk i db1 resp Run. unfold delete_turma in Run.
    apply bind_Ok in Run. destruct Run as (t & _ & Run).
    injection Run as <- _. unfold fk_alunos. simpl.
    assert (K : forall a, In a (alunos db) ->
                exists b,
                  In b (map (fun a => if aluno_da_turma t a
                                      then aluno_set_turma_id a None else a)
                          (alunos db))
                  /\ Aluno.id b = Aluno.id a).
    { intros a Ia. eexists. split; [ apply in_map; exact Ia | ].
      now destruct (aluno_da_turma t a). }
    split.
    + intros p Hp. destruct (proj1 Hfk p Hp) as (a & Ia & Ea).
      destruct (K a Ia) as (b & Ib & Eb). exists b. split; congruence.
    + intros p Hp.
      assert (Hp' : In p (presencas db)).
      { destruct fk; [ now apply filter_In in Hp | exact Hp ]. }
      destruct (proj2 Hfk p Hp') as (a & Ia & Ea).
      destruct (K a Ia) as (b & Ib & Eb). exists b. split; congruence.
Qed.

Lemma db_escola_fk : fk_alunos db_escola.
Proof.
  apply fk_alunos_Forall. split.
  - repeat constructor;
      [ exists aluno_ana | exists aluno_caio | exists aluno_ana ];
      simpl; auto.
  - repeat constructor. exists aluno_ana. simpl. auto.
Defined.

Lemma rows_keep_their_student_witness :
  fk_alunos db_escola
  /\ fk_alunos
       (mkdb [turma_sub11] [aluno_bruno; aluno_caio] [] [pagamento_caio_marco] []).
Proof.
  split; [ exact db_escola_fk | ].
  destruct (rows_keep_their_student db_escola db_escola_fk)
    as (_ & _ & _ & H & _).
  apply (H 1 _ (Redirect "list_alunos" "Aluno removido." "success")).
  reflexivity.
Defined.

(** ** The attendance sheet *)

Lemma presenca_do_aluno_other_key (i j : Z) (d e : date) (p : Presenca.t) :
  (i, d) <> (j, e) ->
  presenca_do_aluno i d p = true -> presenca_do_aluno j e p = false.
Proof.
  intros Hne H. apply presenca_do_aluno_spec in H.
  destruct (presenca_do_aluno j e p) eqn:F; [ | reflexivity ].
  apply presenca_do_aluno_spec in F. exfalso. apply Hne. congruence.
Qed.

Lemma registrar_presenca_other_key (turma : Turma.t) (d e : date)
  (ids : list Z) (T : list Presenca.t) (a : Aluno.t) (i : Z) :
  (Aluno.id a, d) <> (i, e) ->
  find (presenca_do_aluno i e) (registrar_presenca turma d ids T a)
  = find (presenca_do_aluno i e) T.
Proof.
  intros Hne. unfold registrar_presenca.
  destruct (find (presenca_do_aluno (Aluno.id a) d) T) as [q | ] eqn:E.
  - apply find_update_first_other. intros x Fx.
    pose proof (presenca_do_aluno_other_key _ _ _ _ x Hne Fx) as O.
    split; [ exact O | ].
    unfold presenca_do_aluno in *. exact O.
  - rewrite find_app_last. destruct (find (presenca_do_aluno i e) T);
      [ reflexivity | ].
    match goal with |- (if ?c then _ else _) = _ => destruct c eqn:F end;
      [ | reflexivity ].
    apply presenca_do_aluno_spec in F. unfold chave_presenca in F. simpl in F.
    exfalso. apply Hne. congruence.
Qed.

Lemma chamada_other_key (turma : Turma.t) (d e : date) (ids : list Z)
  (L : list Aluno.t) (i : Z) :
  (forall a, In a L -> (Aluno.id a, d) <> (i, e)) ->
  forall T,
    find (presenca_do_aluno i e)
      (fold_left (registrar_presenca turma d ids) L T)
    = find (presenca_do_aluno i e) T.
Proof.
  induction L as [ | a L IH ]; intros H T; cbn [fold_left]; [ reflexivity | ].
  rewrite IH by (intros b Hb; apply H; now right).
  apply registrar_presenca_other_key. apply H. now left.
Qed.

Lemma get_turma_or_404_Ok (db : Database) (i : Z) (t : Turma.t) :
  get_turma_or_404 db i = Ok t -> In t (turmas db) /\ Turma.id t = i.
Proof.
  unfold get_turma_or_404. destruct (find _ (turmas db)) as [x | ] eqn:E;
    [ | discriminate ].
  intros H. injection H as <-. apply find_some in E.
  destruct E as [Hx Ex]. apply Z.eqb_eq in Ex. auto.
Qed.

(** X10. What the attendance page shows after a submission.  With values
    that [int] reads wherever [isdigit] accepts them, the sheet of the
    submitted class and date lists the students of the table whose class is
    that class, each once and in the order of the table, each with the flag
    that was submitted: present exactly for the ids read.  The sheet of any
    other class or any other date is what it was before. *)
Theorem presencas_sheet_after_submission :
  forall (isdigit : string -> bool) (py_int : string -> result Z)
         (db : Database) (turma_id : Z) (d : date) (form : list string)
         (ids : list Z) (t : Turma.t),
    alunos_pk db -> uq_presenca_aluno_data (presencas db) ->
    get_turma_or_404 db turma_id = Ok t ->
    presentes_ids isdigit py_int form = Ok ids ->
    exists (db1 : Database) (sheet : list (Aluno.t * bool)),
      presencas_post isdigit py_int db turma_id d form
      = Ok (db1, Redirect "presencas" "Presenças registradas!" "success")
      /\ presencas_get db1 turma_id d = Ok sheet
      /\ (exists f : Aluno.t -> bool,
             (forall a, f a = true <-> Aluno.turma_id a = Some turma_id)
             /\ map fst sheet = filter f (alunos db))
      /\ (forall a b,
            In (a, b) sheet
            <-> In a (alunos db) /\ Aluno.turma_id a = Some turma_id
                /\ b = existsb (Z.eqb (Aluno.id a)) ids)
      /\ (forall a b, In (a, b) sheet -> (b = true <-> In (Aluno.id a) ids))
      /\ (forall (turma_id' : Z) (d' : date),
            turma_id' <> turma_id \/ d' <> d ->
            presencas_get db1 turma_id' d' = presencas_get db turma_id' d').
Proof.
  intros isdigit py_int db turma_id d form ids t Hpk Hu Ht Hids.
  destruct (get_turma_or_404_Ok _ _ _ Ht) as [It Et].
  unfold presencas_post. rewrite Ht, Hids. simpl.
  assert (Nd : NoDup (map Aluno.id (turma_alunos db t))).
  { unfold turma_alunos. now apply NoDup_map_filter. }
  destruct (chamada_loop t d ids (turma_alunos db t) Nd (presencas db) Hu)
    as (_ & _ & Own & _).
  set (db1 := set_presencas db
                (fold_left (registrar_presenca t d ids) (turma_alunos db t)
                   (presencas db))).
  assert (Sheet : presencas_get db1 turma_id d
                  = Ok (map (fun a => (a, existsb (Z.eqb (Aluno.id a)) ids))
                          (turma_alunos db t))).
  { unfold presencas_get, get_turma_or_404. cbn [turmas set_presencas db1].
    fold (get_turma_or_404 db turma_id). rewrite Ht. simpl. f_equal.
    unfold turma_alunos at 1. cbn [alunos]. fold (turma_alunos db t).
    apply map_ext_in. intros a Ia.
    destruct (Own a Ia) as (p & Hp & Hm & _). rewrite Hp. now rewrite Hm. }
  exists db1, (map (fun a => (a, existsb (Z.eqb (Aluno.id a)) ids))
                 (turma_alunos db t)).
  split; [ reflexivity | ]. split; [ exact Sheet | ].
  assert (Mem : forall a b,
            In (a, b) (map (fun a => (a, existsb (Z.eqb (Aluno.id a)) ids))
                         (turma_alunos db t))
            <-> In a (alunos db) /\ Aluno.turma_id a = Some turma_id
                /\ b = existsb (Z.eqb (Aluno.id a)) ids).
  { intros a b. rewrite in_map_iff. split.
    - intros (x & E & Ix). injection E as -> <-.
      apply turma_alunos_In in Ix. destruct Ix as [Ia Ta].
      rewrite Et in Ta. auto.
    - intros (Ia & Ta & ->). exists a. split; [ reflexivity | ].
      apply turma_alunos_In. rewrite Et. auto. }
  split; [ | split; [ exact Mem | split ] ].
  - exists (fun a => match Aluno.turma_id a with
                     | Some tid => tid =? turma_id
                     | None => false
                     end).
    split.
    + intros a. destruct (Aluno.turma_id a) as [tid | ].
      * rewrite Z.eqb_eq. split; congruence.
      * split; discriminate.
    + rewrite map_map. cbn [fst]. rewrite map_id.
      unfold turma_alunos. now rewrite Et.
  - intros a b Hab. apply Mem in Hab. destruct Hab as (_ & _ & ->).
    apply existsb_Zeqb_In.
  - intros turma_id' d' Hne.
    unfold presencas_get, get_turma_or_404. cbn [turmas set_presencas db1].
    destruct (find (fun u => Turma.id u =? turma_id') (turmas db))
      as [t' | ] eqn:E; [ | reflexivity ].
    simpl. f_equal.
    unfold turma_alunos at 1. cbn [alunos]. fold (turma_alunos db t').
    apply map_ext_in. intros a Ia. f_equal.
    rewrite chamada_other_key; [ reflexivity | ].
    intros b Ib Hk. injection Hk as Eid Ed.
    destruct Hne as [Hne | Hne]; [ | congruence ].
    apply find_some in E. destruct E as [_ E]. apply Z.eqb_eq in E.
    apply turma_alunos_In in Ia, Ib.
    destruct Ia as [Ia Ta], Ib as [Ib Tb].
    assert (Eab : b = a)
      by (apply (NoDup_map_inj Aluno.id (alunos db)); auto).
    subst b. congruence.
Qed.

(** Bruno alone is sent in as present on 14 March 2024: the sheet of the
    day shows Ana absent and Bruno present. *)
Lemma presencas_sheet_after_submission_witness :
  exists (db1 : Database) (sheet : list (Aluno.t * bool)),
    presencas_post isdigit_ascii int_ascii db_presencas 1 (mkdate 2024 3 14)
      ["2"]
    = Ok (db1, Redirect "presencas" "Presenças registradas!" "success")
    /\ presencas_get db1 1 (mkdate 2024 3 14) = Ok sheet
    /\ (exists f : Aluno.t -> bool,
           (forall a, f a = true <-> Aluno.turma_id a = Some 1)
           /\ map fst sheet = filter f (alunos db_presencas))
    /\ (forall a b,
          In (a, b) sheet
          <-> In a (alunos db_presencas) /\ Aluno.turma_id a = Some 1
              /\ b = existsb (Z.eqb (Aluno.id a)) [2])
    /\ (forall a b, In (a, b) sheet -> (b = true <-> In (Aluno.id a) [2]))
    /\ (forall (turma_id' : Z) (d' : date),
          turma_id' <> 1 \/ d' <> mkdate 2024 3 14 ->
          presencas_get db1 turma_id' d'
          = presencas_get db_presencas turma_id' d').
Proof.
  apply (presencas_sheet_after_submission isdigit_ascii int_ascii db_presencas
           1 (mkdate 2024 3 14) ["2"] [2] turma_sub11).
  - exact (proj1 db_presencas_constraints).
  - exact (proj2 db_presencas_constraints).
  - reflexivity.
  - reflexivity.
Defined.

Example presencas_get_exemplo :
  presencas_get db_presencas 1 (mkdate 2024 3 12)
  = Ok [(aluno_ana, true); (aluno_bruno, false)]
  /\ presencas_get db_presencas 1 (mkdate 2024 3 14)
     = Ok [(aluno_ana, false); (aluno_bruno, false)]
  /\ presencas_get db_presencas 7 (mkdate 2024 3 12) = Raise NotFound
  /\ (p <- presencas_post isdigit_ascii int_ascii db_presencas 1
             (mkdate 2024 3 14) ["2"] ;;
      presencas_get (fst p) 1 (mkdate 2024 3 14))
     = Ok [(aluno_ana, false); (aluno_bruno, true)].
Proof. repeat split. Qed.

(** ** The due and overdue lists *)

Lemma calcular_vencimento_padrao (C : date) :
  valid_date C ->
  calcular_vencimento C DIA_VENCIMENTO_PADRAO = Ok (vencimento_de C).
Proof.
  intros HC. apply check_date_fields_spec in HC.
  destruct HC as (Hy & Hm & Hday).
  pose proof (_days_in_month_bounds (year C) (month C) Hm) as Hb.
  unfold calcular_vencimento, vencimento_de, DIA_VENCIMENTO_PADRAO.
  rewrite (monthrange_Ok _ _ Hm). simpl. unfold replace. simpl.
  rewrite Z.min_l by lia. apply date_new_Ok; lia.
Qed.

Lemma parse_decimal_cents (c : Z) :
  numeric_10_2 c ->
  parse_decimal (PyDecimal (Decimal_of_cents c)) zero_00
  = Ok (Decimal_of_cents c).
Proof.
  unfold numeric_10_2, parse_decimal. intros H.
  apply quantize_cents. unfold prec. lia.
Qed.

Lemma Permutation_filter {A : Type} (f : A -> bool) (l l' : list A) :
  Permutation l l' -> Permutation (filter f l) (filter f l').
Proof.
  induction 1 as [ | x l l' _ IH | x y l | l l' l'' _ IH1 _ IH2 ]; simpl.
  - constructor.
  - destruct (f x); [ now constructor | exact IH ].
  - destruct (f x), (f y); try reflexivity. apply perm_swap.
  - now transitivity (filter f l').
Qed.

Lemma filter_filter_andb {A : Type} (f g : A -> bool) (l : list A) :
  filter g (filter f l) = filter (fun x => f x && g x) l.
Proof.
  induction l as [ | x l IH ]; simpl; [ reflexivity | ].
  destruct (f x); simpl; [ | exact IH ].
  destruct (g x); now rewrite IH.
Qed.

Lemma Forall2_Permutation {A B : Type} (R : A -> B -> Prop)
  (l2 l2' : list B) :
  Permutation l2 l2' ->
  forall l1, Forall2 R l1 l2 ->
             exists l1', Permutation l1 l1' /\ Forall2 R l1' l2'.
Proof.
  induction 1 as [ | y l2 l2' _ IH | x y l2 | l2 l2' l2'' _ IH1 _ IH2 ];
    intros l1 H.
  - inversion H; subst. exists []. split; constructor.
  - inversion H as [ | a ? l1' ? Ha Hl ]; subst.
    destruct (IH _ Hl) as (m & Pm & Fm).
    exists (a :: m). split; [ now constructor | now constructor ].
  - inversion H as [ | a ? l1' ? Ha Hl ]; subst.
    inversion Hl as [ | b ? l1'' ? Hb Hl' ]; subst.
    exists (b :: a :: l1''). split; [ apply perm_swap | ].
    repeat constructor; assumption.
  - destruct (IH1 _ H) as (m & Pm & Fm).
    destruct (IH2 _ Fm) as (n & Pn & Fn).
    exists n. split; [ now transitivity m | exact Fn ].
Qed.

Lemma Forall2_Forall_r {A B : Type} (R : A -> B -> Prop) (Q : B -> Prop)
  (l1 : list A) (l2 : list B) :
  Forall2 R l1 l2 -> (forall a b, In a l1 -> R a b -> Q b) -> Forall Q l2.
Proof.
  induction 1 as [ | a b l1 l2 Hab _ IH ]; intros H; constructor.
  - apply (H a b); [ now left | exact Hab ].
  - apply IH. intros a' b' Ha'. apply H. now right.
Qed.

Section Pendencias.
Variables (db : Database) (hoje : date).
Local Abbreviation passo := (registrar_pendencia db hoje).

(** One step on a row that is in order: an entry is added to the list the
    row belongs to, or to none. *)
Lemma registrar_pendencia_ok (p : Pagamento.t)
  (V A : list Pendencia) :
  pendencia_ok db p ->
  exists v a,
    passo (V, A) p = Returns ((V ++ v)%list, (A ++ a)%list)
    /\ Forall2 (entrada_vencendo db hoje)
         (filter (vence_na_semana hoje) [p]) v
    /\ Forall2 (entrada_vencida db hoje) (filter (vencida hoje) [p]) a.
Proof.
  intros (Hd & Hn & s & Hs). unfold registrar_pendencia.
  rewrite (calcular_vencimento_padrao _ Hd). cbn [of_result bind_outcome].
  rewrite Hs. rewrite (parse_decimal_cents _ Hn).
  cbn [of_result bind_outcome].
  unfold vence_na_semana, vencida, date_sub_days. cbn [filter].
  fold (dias_ate hoje p).
  destruct ((0 <=? dias_ate hoje p) && (dias_ate hoje p <=? 7)) eqn:C1.
  - assert (C2 : (dias_ate hoje p <? 0) = false).
    { apply andb_true_iff in C1. destruct C1 as [C1 _].
      apply Z.leb_le in C1. apply Z.ltb_ge. exact C1. }
    match goal with
    | |- context [Returns ((V ++ ?x)%list, A)] => exists x, []
    end.
    rewrite app_nil_r.
    split; [ reflexivity | ]. split; [ | rewrite C2; constructor ].
    constructor; [ | constructor ].
    exists s. unfold entrada_de. simpl. repeat split; auto.
  - destruct (dias_ate hoje p <? 0) eqn:C2.
    + match goal with
      | |- context [Returns (V, (A ++ ?x)%list)] => exists [], x
      end.
      rewrite app_nil_r.
      split; [ reflexivity | ]. split; [ constructor | ].
      constructor; [ | constructor ].
      exists s. unfold entrada_de. simpl. repeat split; auto.
      f_equal. apply Z.ltb_lt in C2. lia.
    + exists [], []. rewrite !app_nil_r.
      split; [ reflexivity | ]. split; constructor.
Qed.

Lemma pendencias_loop (l : list Pagamento.t) :
  (forall p, In p l -> pendencia_ok db p) ->
  forall V A,
  exists v a,
    for_each_outcome passo l (V, A) = Returns ((V ++ v)%list, (A ++ a)%list)
    /\ Forall2 (entrada_vencendo db hoje) (filter (vence_na_semana hoje) l) v
    /\ Forall2 (entrada_vencida db hoje) (filter (vencida hoje) l) a.
Proof.
  induction l as [ | p l IH ]; intros Hl V A.
  - exists [], []. rewrite !app_nil_r. simpl. repeat split; constructor.
  - destruct (registrar_pendencia_ok p V A (Hl p (or_introl eq_refl)))
      as (v1 & a1 & E1 & F1 & G1).
    destruct (IH (fun q Hq => Hl q (or_intror Hq)) (V ++ v1)%list
                (A ++ a1)%list) as (v2 & a2 & E2 & F2 & G2).
    exists (v1 ++ v2)%list, (a1 ++ a2)%list.
    cbn [for_each_outcome]. rewrite E1. cbn [bind_outcome].
    rewrite E2, <- !app_assoc. split; [ reflexivity | ].
    change (p :: l) with ([p] ++ l)%list. rewrite !filter_app.
    split; apply Forall2_app; assumption.
Qed.

(** One step on a row without a student. *)
Lemma registrar_pendencia_sem_aluno (p : Pagamento.t)
  (st : list Pendencia * list Pendencia) :
  valid_date (Pagamento.competencia p) ->
  pagamento_aluno db p = None ->
  passo st p = Raises AttributeError.
Proof.
  intros Hd Hs. unfold registrar_pendencia. destruct st as [V A].
  rewrite (calcular_vencimento_padrao _ Hd). cbn [of_result bind_outcome].
  now rewrite Hs.
Qed.

Lemma pendencias_loop_sem_aluno (l : list Pagamento.t) :
  (forall p, In p l ->
             valid_date (Pagamento.competencia p)
             /\ numeric_10_2 (Pagamento.valor p)) ->
  (exists p, In p l /\ pagamento_aluno db p = None) ->
  forall st, for_each_outcome passo l st = Raises AttributeError.
Proof.
  induction l as [ | p l IH ]; intros Hl (bad & Ib & Hb) st.
  - contradiction.
  - cbn [for_each_outcome].
    destruct (Hl p (or_introl eq_refl)) as [Hd Hn].
    destruct (pagamento_aluno db p) as [s | ] eqn:Hs.
    + destruct st as [V A].
      destruct (registrar_pendencia_ok p V A) as (v & a & E & _).
      { repeat split; auto. now exists s. }
      rewrite E. cbn [bind_outcome]. apply IH.
      * intros q Hq. apply Hl. now right.
      * exists bad. split; [ | exact Hb ].
        destruct Ib as [-> | Ib]; [ congruence | exact Ib ].
    + now rewrite (registrar_pendencia_sem_aluno p st Hd Hs).
Qed.
End Pendencias.

Lemma pendencias_In (db : Database) (p : Pagamento.t) :
  In p (pendencias db) <-> In p (pagamentos db) /\ Pagamento.pago p = false.
Proof.
  unfold pendencias. split.
  - intros H. apply (Permutation_in _ (sort_by_perm _ _ _)) in H.
    apply filter_In in H. now rewrite negb_true_iff in H.
  - intros H. apply (Permutation_in _ (Permutation_sym (sort_by_perm _ _ _))).
    apply filter_In. now rewrite negb_true_iff.
Qed.

(** The two lists before they are told apart from the rows: each is the
    sorted list of the entries of the rows it stands for. *)
Lemma financeiro_pendencias_spec :
  forall (db : Database) (hoje : date),
    (forall p, In p (pagamentos db) -> Pagamento.pago p = false ->
               pendencia_ok db p) ->
    exists (v a : list Pendencia) (lv la : list Pagamento.t),
      financeiro_pendencias db hoje
      = Returns
          (sort_by Z.leb (fun item => from_opt (pend_dias item) 0) v,
           sort_by (fun x y => y <=? x)
             (fun item => from_opt (pend_dias_atraso item) 0) a)
      /\ Permutation
           (filter (fun p => negb (Pagamento.pago p) && vence_na_semana hoje p)
              (pagamentos db))
           lv
      /\ Forall2 (entrada_vencendo db hoje) lv
           (sort_by Z.leb (fun item => from_opt (pend_dias item) 0) v)
      /\ Permutation
           (filter (fun p => negb (Pagamento.pago p) && vencida hoje p)
              (pagamentos db))
           la
      /\ Forall2 (entrada_vencida db hoje) la
           (sort_by (fun x y => y <=? x)
              (fun item => from_opt (pend_dias_atraso item) 0) a).
Proof.
  intros db hoje Hok.
  destruct (pendencias_loop db hoje (pendencias db)) with (V := @nil Pendencia)
    (A := @nil Pendencia) as (v & a & Loop & Fv & Fa).
  { intros p Hp. apply pendencias_In in Hp. now apply Hok. }
  simpl in Loop.
  destruct (Forall2_Permutation _ _ _
              (Permutation_sym
                 (sort_by_perm Z.leb (fun item => from_opt (pend_dias item) 0) v))
              _ Fv) as (lv & Plv & Flv).
  destruct (Forall2_Permutation _ _ _
              (Permutation_sym
                 (sort_by_perm (fun x y => y <=? x)
                    (fun item => from_opt (pend_dias_atraso item) 0) a))
              _ Fa) as (la & Pla & Fla).
  assert (Pend : forall f,
             Permutation
               (filter (fun p => negb (Pagamento.pago p) && f p) (pagamentos db))
               (filter f (pendencias db))).
  { intros f. rewrite <- filter_filter_andb. symmetry.
    apply Permutation_filter. apply sort_by_perm. }
  exists v, a, lv, la.
  split; [ unfold financeiro_pendencias; now rewrite Loop | ].
  split; [ now rewrite Pend | ].
  split; [ exact Flv | ].
  split; [ now rewrite Pend | exact Fla ].
Qed.

(** X11. The lists of pending payments of the finance page.  When every
    unpaid row has a valid month, a value of the column's precision and its
    student, the page gets two lists.  The first has one entry for each
    unpaid row that is due today or within seven days, with the days left,
    in ascending order of those days; the second has one entry for each
    unpaid row past its due date, with the days late (at least one), the
    most overdue first.  The due date is the tenth of the row's month.  Paid
    rows and rows due in more than seven days are in neither list, and no
    row is in both. *)
Theorem financeiro_due_and_overdue :
  forall (db : Database) (hoje : date),
    (forall p, In p (pagamentos db) -> Pagamento.pago p = false ->
               pendencia_ok db p) ->
    exists (vencendo_semana vencidas : list Pendencia)
           (linhas_semana linhas_vencidas : list Pagamento.t),
      financeiro_pendencias db hoje = Returns (vencendo_semana, vencidas)
      /\ Permutation
           (filter (fun p => negb (Pagamento.pago p) && vence_na_semana hoje p)
              (pagamentos db))
           linhas_semana
      /\ Forall2 (entrada_vencendo db hoje) linhas_semana vencendo_semana
      /\ Permutation
           (filter (fun p => negb (Pagamento.pago p) && vencida hoje p)
              (pagamentos db))
           linhas_vencidas
      /\ Forall2 (entrada_vencida db hoje) linhas_vencidas vencidas
      /\ Sorted (fun x y => from_opt (pend_dias x) 0 <= from_opt (pend_dias y) 0)
           vencendo_semana
      /\ Sorted (fun x y => from_opt (pend_dias_atraso y) 0
                            <= from_opt (pend_dias_atraso x) 0)
           vencidas
      /\ Forall (fun item => exists d, pend_dias item = Some d /\ 0 <= d <= 7)
           vencendo_semana
      /\ Forall (fun item => exists d, pend_dias_atraso item = Some d /\ 1 <= d)
           vencidas
      /\ (forall p, vence_na_semana hoje p = true -> vencida hoje p = false).
Proof.
  intros db hoje Hok.
  destruct (financeiro_pendencias_spec db hoje Hok)
    as (v & a & lv & la & Run & Plv & Flv & Pla & Fla).
  eexists. eexists. exists lv, la.
  split; [ exact Run | ].
  split; [ exact Plv | ]. split; [ exact Flv | ].
  split; [ exact Pla | ]. split; [ exact Fla | ].
  split; [ | split; [ | split; [ | split ] ] ].
  - apply Sorted_impl
      with (R := fun x y => Z.leb (from_opt (pend_dias x) 0)
                              (from_opt (pend_dias y) 0) = true).
    + intros x y H. now apply Z.leb_le.
    + apply (sort_by_sorted Z.leb (fun item => from_opt (pend_dias item) 0)).
      intros x y H. apply Z.leb_le. apply Z.leb_gt in H. lia.
  - apply Sorted_impl
      with (R := fun x y => (fun a b => b <=? a)
                              (from_opt (pend_dias_atraso x) 0)
                              (from_opt (pend_dias_atraso y) 0) = true).
    + intros x y H. now apply Z.leb_le.
    + apply (sort_by_sorted (fun a b => b <=? a)
               (fun item => from_opt (pend_dias_atraso item) 0)).
      intros x y H. apply Z.leb_le. apply Z.leb_gt in H. lia.
  - apply (Forall2_Forall_r _ _ _ _ Flv). intros p item Ip R.
    destruct R as (s & _ & _ & Hd & _). exists (dias_ate hoje p).
    split; [ exact Hd | ].
    apply (Permutation_in _ (Permutation_sym Plv)) in Ip.
    apply filter_In in Ip. destruct Ip as [_ C].
    apply andb_true_iff in C. destruct C as [_ C].
    unfold vence_na_semana in C. apply andb_true_iff in C.
    rewrite !Z.leb_le in C. exact C.
  - apply (Forall2_Forall_r _ _ _ _ Fla). intros p item Ip R.
    destruct R as (s & _ & _ & _ & Hd). exists (- dias_ate hoje p).
    split; [ exact Hd | ].
    apply (Permutation_in _ (Permutation_sym Pla)) in Ip.
    apply filter_In in Ip. destruct Ip as [_ C].
    apply andb_true_iff in C. destruct C as [_ C].
    unfold vencida in C. apply Z.ltb_lt in C. lia.
  - intros p H. unfold vence_na_semana, vencida in *.
    apply andb_true_iff in H. destruct H as [H _]. apply Z.leb_le in H.
    now apply Z.ltb_ge.
Qed.

Lemma db_financeiro_ok :
  forall p, In p (pagamentos db_financeiro) -> Pagamento.pago p = false ->
            pendencia_ok db_financeiro p.
Proof.
  intros p Hp Hu. simpl in Hp.
  destruct Hp as [<- | [<- | [<- | [<- | []]]]]; try discriminate Hu;
    (split; [ reflexivity | split; [ | eexists; reflexivity ] ]);
    unfold numeric_10_2; vm_compute; discriminate.
Defined.

(** On 5 May 2024: May is due in five days, April and February are late. *)
Lemma financeiro_due_and_overdue_witness :
  exists (vencendo_semana vencidas : list Pendencia)
         (linhas_semana linhas_vencidas : list Pagamento.t),
    financeiro_pendencias db_financeiro (mkdate 2024 5 5)
    = Returns (vencendo_semana, vencidas)
    /\ Permutation
         (filter (fun p => negb (Pagamento.pago p)
                           && vence_na_semana (mkdate 2024 5 5) p)
            (pagamentos db_financeiro))
         linhas_semana
    /\ Forall2 (entrada_vencendo db_financeiro (mkdate 2024 5 5))
         linhas_semana vencendo_semana
    /\ Permutation
         (filter (fun p => negb (Pagamento.pago p)
                           && vencida (mkdate 2024 5 5) p)
            (pagamentos db_financeiro))
         linhas_vencidas
    /\ Forall2 (entrada_vencida db_financeiro (mkdate 2024 5 5))
         linhas_vencidas vencidas
    /\ Sorted (fun x y => from_opt (pend_dias x) 0 <= from_opt (pend_dias y) 0)
         vencendo_semana
    /\ Sorted (fun x y => from_opt (pend_dias_atraso y) 0
                          <= from_opt (pend_dias_atraso x) 0)
         vencidas
    /\ Forall (fun item => exists d, pend_dias item = Some d /\ 0 <= d <= 7)
         vencendo_semana
    /\ Forall (fun item => exists d, pend_dias_atraso item = Some d /\ 1 <= d)
         vencidas
    /\ (forall p, vence_na_semana (mkdate 2024 5 5) p = true ->
                  vencida (mkdate 2024 5 5) p = false).
Proof.
  exact (financeiro_due_and_overdue db_financeiro (mkdate 2024 5 5)
           db_financeiro_ok).
Defined.

Example financeiro_pendencias_exemplo :
  financeiro_pendencias db_financeiro (mkdate 2024 5 5)
  = Returns
      ([mkpend "Bruno" "Sub-11" (Decimal_of_cents 12000) (mkdate 2024 5 10)
          (mkdate 2024 5 1) (Some 5) None],
       [mkpend "Ana" "Sub-11" (Decimal_of_cents 10000) (mkdate 2024 2 10)
          (mkdate 2024 2 1) None (Some 85);
        mkpend "Bruno" "Sub-11" (Decimal_of_cents 12000) (mkdate 2024 4 10)
          (mkdate 2024 4 1) None (Some 25)]).
Proof. vm_compute. reflexivity. Qed.

(** X12. An unpaid row whose student is not in the table makes the finance
    page fail: with every unpaid row holding a valid month and a value of
    the column's precision, the loop over the pending rows raises
    [AttributeError] and no list is built. *)
Theorem financeiro_row_without_student :
  forall (db : Database) (hoje : date) (p : Pagamento.t),
    (forall q, In q (pagamentos db) -> Pagamento.pago q = false ->
               valid_date (Pagamento.competencia q)
               /\ numeric_10_2 (Pagamento.valor q)) ->
    In p (pagamentos db) -> Pagamento.pago p = false ->
    (forall a, In a (alunos db) -> Aluno.id a <> Pagamento.aluno_id p) ->
    financeiro_pendencias db hoje = Raises AttributeError.
Proof.
  intros db hoje p Hok Ip Up Hp. unfold financeiro_pendencias.
  rewrite (pendencias_loop_sem_aluno db hoje (pendencias db)); [ reflexivity | | ].
  - intros q Hq. apply pendencias_In in Hq. now apply Hok.
  - exists p. split; [ now apply pendencias_In | ].
    unfold pagamento_aluno. apply find_none_iff. intros a Ia.
    apply Z.eqb_neq. auto.
Qed.

(** Ana's rows after Ana's row has gone from the student table. *)
Lemma financeiro_row_without_student_witness :
  financeiro_pendencias
    (mkdb [turma_sub11] [aluno_bruno; aluno_caio] []
       (pagamentos db_financeiro) [])
    (mkdate 2024 5 5)
  = Raises AttributeError.
Proof.
  apply (financeiro_row_without_student _ _ pagamento_ana_fevereiro).
  - intros q Hq Hu. simpl in Hq.
    destruct Hq as [<- | [<- | [<- | [<- | []]]]]; try discriminate Hu;
      (split; [ reflexivity | ]); unfold numeric_10_2; vm_compute; discriminate.
  - simpl. auto.
  - reflexivity.
  - simpl. intros a [<- | [<- | []]]; discriminate.
Defined.

(** ** The finance page *)

Lemma mes_anterior_0 (d : date) :
  1 <= month d <= 12 -> mes_anterior d 0 = mkdate (year d) (month d) 1.
Proof.
  intros Hm. unfold mes_anterior. f_equal; Z.div_mod_to_equations; lia.
Qed.

Lemma first_day_of_month_Ok (hoje : date) :
  valid_date hoje ->
  first_day_of_month hoje = Ok (mes_anterior hoje 0)
  /\ valid_date (mes_anterior hoje 0).
Proof.
  intros H. apply check_date_fields_spec in H. destruct H as (Hy & Hm & Hd).
  pose proof (_days_in_month_bounds (year hoje) (month hoje) Hm) as Hb.
  rewrite (mes_anterior_0 _ Hm). split.
  - unfold first_day_of_month, replace. simpl. apply date_new_Ok; lia.
  - apply check_date_fields_spec. simpl. lia.
Qed.

Lemma mes_anterior_fields (d : date) (k : Z) :
  1 <= month d <= 12 -> 0 <= k <= 11 ->
  mes_anterior d k
  = if month d - k <? 1
    then mkdate (year d - 1) (month d - k + 12) 1
    else mkdate (year d) (month d - k) 1.
Proof.
  intros Hm Hk. unfold mes_anterior.
  destruct (Z.ltb_spec (month d - k) 1);
    f_equal; Z.div_mod_to_equations; lia.
Qed.

(** The months the loop of the view goes back to. *)
Lemma sub_relativedelta_months_Ok (hoje : date) (k : Z) :
  valid_date hoje -> 0 <= k <= 5 -> 6 <= month hoje \/ 1 < year hoje ->
  sub_relativedelta_months (mes_anterior hoje 0) k = Ok (mes_anterior hoje k)
  /\ valid_date (mes_anterior hoje k).
Proof.
  intros H Hk Hyr. apply check_date_fields_spec in H.
  destruct H as (Hy & Hm & Hd). unfold MINYEAR, MAXYEAR in Hy.
  rewrite (mes_anterior_0 _ Hm).
  rewrite (mes_anterior_fields hoje k Hm) by lia.
  unfold sub_relativedelta_months. cbn [year month day].
  replace (12 <? month hoje - k) with false by (symmetry; apply Z.ltb_ge; lia).
  destruct (Z.ltb_spec (month hoje - k) 1) as [Lt | Ge].
  - assert (Hm' : 1 <= month hoje - k + 12 <= 12) by lia.
    pose proof (_days_in_month_bounds (year hoje - 1) _ Hm') as Hb.
    rewrite (monthrange_Ok _ _ Hm'). cbn [bind snd].
    rewrite Z.min_r by lia. unfold replace. cbn [from_opt].
    split; [ apply date_new_Ok; unfold MINYEAR, MAXYEAR; lia | ].
    apply check_date_fields_spec. cbn [year month day].
    unfold MINYEAR, MAXYEAR. lia.
  - assert (Hm' : 1 <= month hoje - k <= 12) by lia.
    pose proof (_days_in_month_bounds (year hoje) _ Hm') as Hb.
    rewrite (monthrange_Ok _ _ Hm'). cbn [bind snd].
    rewrite Z.min_r by lia. unfold replace. cbn [from_opt].
    split; [ apply date_new_Ok; unfold MINYEAR, MAXYEAR; lia | ].
    apply check_date_fields_spec. cbn [year month day].
    unfold MINYEAR, MAXYEAR. lia.
Qed.

Lemma find_filter_imp {A : Type} (f g : A -> bool) (l : list A) :
  (forall x, f x = true -> g x = true) -> find f (filter g l) = find f l.
Proof.
  intros H. induction l as [ | x l IH ]; simpl; [ reflexivity | ].
  destruct (g x) eqn:G; simpl.
  - destruct (f x); [ reflexivity | exact IH ].
  - destruct (f x) eqn:F; [ | exact IH ].
    rewrite (H x F) in G. discriminate.
Qed.

Lemma pagamento_do_aluno_outro_mes (i : Z) (m n : date) (p : Pagamento.t) :
  m <> n -> pagamento_do_aluno i m p = true -> outro_mes n p = true.
Proof.
  intros Hmn H. apply pagamento_do_aluno_spec in H.
  unfold chave_pagamento in H. injection H as _ Hc.
  unfold outro_mes. apply negb_true_iff.
  destruct (date_eqb (Pagamento.competencia p) n) eqn:E; [ | reflexivity ].
  apply date_eqb_eq in E. congruence.
Qed.

Lemma set_valor_same (p : Pagamento.t) : Pagamento.set_valor p (Pagamento.valor p) = p.
Proof. now destruct p. Qed.

Lemma linha_reconciliada_again (m : date) (a : Aluno.t)
  (o : option Pagamento.t) (p q : Pagamento.t) :
  linha_reconciliada m a o p -> linha_reconciliada m a (Some p) q -> q = p.
Proof.
  intros Hp Hq. simpl in Hq. subst q.
  rewrite <- (linha_reconciliada_valor _ _ _ _ Hp). apply set_valor_same.
Qed.

Lemma date_eq_dec (x y : date) : {x = y} + {x <> y}.
Proof. decide equality; apply Z.eq_dec. Qed.

Lemma find_filter_hd {A : Type} (f : A -> bool) (l : list A) :
  find f l = hd_error (filter f l).
Proof.
  induction l as [ | x l IH ]; simpl; [ reflexivity | ].
  destruct (f x); [ reflexivity | exact IH ].
Qed.

Lemma pagamento_aluno_In (db : Database) (p : Pagamento.t) :
  (exists a, pagamento_aluno db p = Some a)
  <-> exists a, In a (alunos db) /\ Aluno.id a = Pagamento.aluno_id p.
Proof.
  unfold pagamento_aluno. split.
  - intros (a & Ha). apply find_some in Ha. destruct Ha as [Ia Ea].
    apply Z.eqb_eq in Ea. now exists a.
  - intros (a & Ia & Ea).
    destruct (find _ (alunos db)) as [b | ] eqn:F; [ now exists b | ].
    apply (proj1 (find_none_iff _ _)) with (x := a) in F; [ | exact Ia ].
    apply Z.eqb_neq in F. contradiction.
Qed.

Lemma set_pagamentos_same (db : Database) : set_pagamentos db (pagamentos db) = db.
Proof. now destruct db. Qed.

(** The months reconciled so far, in a table [T] of a request that started
    from the table of [db]. *)
Section Meses.
Variable db : Database.
Hypothesis Hpk : alunos_pk db.
Hypothesis Hnum : mensalidades_numeric (alunos db).

Local Abbreviation T0 := (pagamentos db).
Local Abbreviation inv D T :=
  (uq_pagamento_competencia T
   /\ (forall m a, In m D -> In a (alunos db) -> mes_reconciliado T0 T m a)
   /\ (forall i m, ~ In m D ->
         find (pagamento_do_aluno i m) T = find (pagamento_do_aluno i m) T0)
   /\ (forall p, ~ In (Pagamento.competencia p) D -> (In p T <-> In p T0))).

Lemma meses_inv_init : uq_pagamento_competencia T0 -> inv (@nil date) T0.
Proof.
  intros Hu. split; [ exact Hu | ]. split; [ contradiction | ].
  split; [ reflexivity | reflexivity ].
Qed.

Lemma mes_reconciliado_find (T : list Pagamento.t) (m : date) (a : Aluno.t) :
  uq_pagamento_competencia T ->
  (mes_reconciliado T0 T m a <->
   if Aluno.projeto_social a
   then find (pagamento_do_aluno (Aluno.id a) m) T = None
   else exists p,
          find (pagamento_do_aluno (Aluno.id a) m) T = Some p
          /\ linha_reconciliada m a
               (find (pagamento_do_aluno (Aluno.id a) m) T0) p).
Proof.
  intros Hu. unfold mes_reconciliado.
  destruct (Aluno.projeto_social a).
  - symmetry. apply find_none_iff.
  - rewrite (filter_uq_find chave_pagamento _ T Hu).
    + split; intros (p & Hp & Hl); exists p; split; auto.
      * destruct (find _ T) as [q | ]; simpl in Hp; congruence.
      * now rewrite Hp.
    + intros x y Fx Fy. apply pagamento_do_aluno_spec in Fx, Fy. congruence.
Qed.

(** Reconciling one more month. *)
Lemma meses_inv_step (D : list date) (T : list Pagamento.t) (m : date) :
  inv D T ->
  exists T' R,
    pagamentos_do_mes_referencia (set_pagamentos db T) m
    = Ok (set_pagamentos db T', R, resumo_puro R)
    /\ inv (m :: D) T'
    /\ R = registros_de m T' (alunos_por_nome db).
Proof.
  intros (Hu & Hdone & Hfind & Hin).
  assert (Hwf : db_wf (set_pagamentos db T)) by (repeat split; assumption).
  pose proof (reconciliado_spec (set_pagamentos db T) m Hwf) as Spec.
  cbv zeta in Spec. destruct Spec as (Run & U & Fr & Bol & Cob & Reg).
  set (T' := fst (reconciliado (set_pagamentos db T) m)) in *.
  set (R := snd (reconciliado (set_pagamentos db T) m)) in *.
  cbn [alunos pagamentos set_pagamentos] in Bol, Cob, Fr.
  assert (Other : forall i n, n <> m ->
            find (pagamento_do_aluno i n) T' = find (pagamento_do_aluno i n) T).
  { intros i n Hn.
    rewrite <- (find_filter_imp (pagamento_do_aluno i n) (outro_mes m) T')
      by (intros x; now apply pagamento_do_aluno_outro_mes).
    rewrite <- (find_filter_imp (pagamento_do_aluno i n) (outro_mes m) T)
      by (intros x; now apply pagamento_do_aluno_outro_mes).
    now rewrite Fr. }
  assert (InOther : forall p, Pagamento.competencia p <> m ->
                              (In p T' <-> In p T)).
  { intros p Hp.
    assert (O : outro_mes m p = true).
    { unfold outro_mes. apply negb_true_iff.
      destruct (date_eqb (Pagamento.competencia p) m) eqn:E; [ | reflexivity ].
      apply date_eqb_eq in E. contradiction. }
    split; intros H.
    - assert (H' : In p (filter (outro_mes m) T')) by (apply filter_In; auto).
      rewrite Fr in H'. now apply filter_In in H'.
    - assert (H' : In p (filter (outro_mes m) T)) by (apply filter_In; auto).
      rewrite <- Fr in H'. now apply filter_In in H'. }
  exists T', R. split; [ | split; [ | exact Reg ] ].
  - exact Run.
  - split; [ exact U | ]. split; [ | split ].
    + intros n a Hn Ha. apply (mes_reconciliado_find T' n a U).
      destruct (date_eqb n m) eqn:E.
      * apply date_eqb_eq in E. subst n.
        destruct (Aluno.projeto_social a) eqn:Hs; [ now apply Bol | ].
        destruct (Cob a Ha Hs) as (p & Hp & Hl). exists p.
        split; [ exact Hp | ].
        destruct (in_dec date_eq_dec m D) as [Hd | Hd].
        -- pose proof (proj1 (mes_reconciliado_find T m a Hu)
                         (Hdone m a Hd Ha)) as Old.
           rewrite Hs in Old. destruct Old as (p0 & Hp0 & Hl0).
           rewrite Hp0 in Hl.
           rewrite (linha_reconciliada_again _ _ _ _ _ Hl0 Hl). exact Hl0.
        -- now rewrite <- (Hfind (Aluno.id a) m Hd).
      * assert (Hne : n <> m).
        { intros ->. rewrite date_eqb_refl in E. discriminate. }
        destruct Hn as [Hn | Hn]; [ congruence | ].
        pose proof (proj1 (mes_reconciliado_find T n a Hu)
                      (Hdone n a Hn Ha)) as Old.
        rewrite (Other _ _ Hne). exact Old.
    + intros i n Hn. rewrite <- Hfind by (intros H; apply Hn; now right).
      apply Other. intros ->. apply Hn. now left.
    + intros p Hp. rewrite <- Hin by (intros H; apply Hp; now right).
      apply InOther. intros E. apply Hp. now left.
Qed.

Lemma meses_inv_ext (D D' : list date) (T : list Pagamento.t) :
  (forall m, In m D <-> In m D') -> inv D T -> inv D' T.
Proof.
  intros E (Hu & Hdone & Hfind & Hin).
  split; [ exact Hu | ]. split; [ | split ].
  - intros m a Hm. apply Hdone. now apply E.
  - intros i m Hm. apply Hfind. intros H. apply Hm. now apply E.
  - intros p Hp. apply Hin. intros H. apply Hp. now apply E.
Qed.

Variable hoje : date.
Hypothesis Hhoje : valid_date hoje.
Hypothesis Hyr : 6 <= month hoje \/ 1 < year hoje.

Local Abbreviation mes k := (mes_anterior hoje k).

(** The loop over the six months. *)
Lemma historico_loop (ks : list Z) :
  (forall k, In k ks -> 0 <= k <= 5) ->
  forall D T H,
    inv D T ->
    exists T' H',
      for_each (registrar_historico (mes 0)) ks (set_pagamentos db T, H)
      = Ok (set_pagamentos db T', (H ++ H')%list)
      /\ inv (rev (map (fun k => mes k) ks) ++ D)%list T'
      /\ map hist_mes H' = map (fun k => mes k) ks
      /\ (forall P : Pagamento.t -> Prop,
            (forall p v, P p -> P (Pagamento.set_valor p v)) ->
            (forall k a i v,
                In k ks -> In a (alunos db) ->
                P (Pagamento.mk i (mes k) false None EmptyString v
                     (Aluno.id a))) ->
            Forall P T -> Forall P T').
Proof.
  induction ks as [ | k ks IH ]; intros Hks D T H Hinv.
  - exists T, []. rewrite app_nil_r. cbn [for_each map rev app].
    split; [ reflexivity | ].
    split; [ exact Hinv | ]. split; [ reflexivity | auto ].
  - destruct (meses_inv_step D T (mes k) Hinv) as (T1 & R1 & Run & Inv1 & _).
    destruct (IH (fun j Hj => Hks j (or_intror Hj)) (mes k :: D) T1
                (H ++ [mkhist (mes k) (strftime_m_Y (mes k))
                         (valor_previsto (resumo_puro R1))
                         (valor_pago (resumo_puro R1))
                         (valor_pendente (resumo_puro R1))
                         (percentual (resumo_puro R1))])%list Inv1)
      as (T2 & H2 & Loop & Inv2 & Hm & HP).
    exists T2. eexists. split; [ | split; [ | split ] ].
    + cbn [for_each]. unfold registrar_historico at 1.
      rewrite (proj1 (sub_relativedelta_months_Ok hoje k Hhoje
                        (Hks k (or_introl eq_refl)) Hyr)).
      cbn [bind]. rewrite Run. cbn [bind].
      rewrite Loop. rewrite <- app_assoc. reflexivity.
    + cbn [map rev]. rewrite <- app_assoc. exact Inv2.
    + simpl. now rewrite Hm.
    + intros P Hset Hnew HT. apply HP; auto.
      * intros j a i v Hj. apply Hnew. now right.
      * apply (pagamentos_do_mes_referencia_Forall P (set_pagamentos db T)
                 (set_pagamentos db T1) (mes k) R1 (resumo_puro R1));
          auto.
        intros a i v Ha. apply Hnew; auto. now left.
Qed.

Local Abbreviation tem_aluno :=
  (fun p : Pagamento.t =>
     Pagamento.pago p = false ->
     valid_date (Pagamento.competencia p)
     /\ exists a, In a (alunos db) /\ Aluno.id a = Pagamento.aluno_id p).

Lemma pendencias_ok_inv (D : list date) (T : list Pagamento.t) :
  inv D T -> Forall tem_aluno T ->
  (forall p, In p T0 -> Pagamento.pago p = false -> pendencia_ok db p) ->
  forall p, In p T -> Pagamento.pago p = false ->
            pendencia_ok (set_pagamentos db T) p.
Proof.
  intros (Hu & Hdone & _ & Hin) HF H0 p Hp Up.
  rewrite Forall_forall in HF. destruct (HF p Hp Up) as (Hv & a & Ia & Ea).
  split; [ exact Hv | ]. split.
  - destruct (in_dec date_eq_dec (Pagamento.competencia p) D) as [Hd | Hd].
    + pose proof (Hdone _ a Hd Ia) as Rec. unfold mes_reconciliado in Rec.
      assert (Fp : pagamento_do_aluno (Aluno.id a) (Pagamento.competencia p) p
                   = true).
      { apply pagamento_do_aluno_spec. unfold chave_pagamento.
        now rewrite Ea. }
      destruct (Aluno.projeto_social a).
      * rewrite (Rec p Hp) in Fp. discriminate.
      * destruct Rec as (q & Fq & Hl).
        assert (Iq : In p (filter (pagamento_do_aluno (Aluno.id a)
                                     (Pagamento.competencia p)) T))
          by (apply filter_In; auto).
        rewrite Fq in Iq. destruct Iq as [<- | []].
        rewrite (linha_reconciliada_valor _ _ _ _ Hl).
        unfold mensalidades_numeric in Hnum. rewrite Forall_forall in Hnum.
        now apply Hnum.
    + apply Hin in Hp; [ | exact Hd ].
      now destruct (H0 p Hp Up) as (_ & Hn & _).
  - apply pagamento_aluno_In. exists a. auto.
Qed.

Hypothesis Huq : uq_pagamento_competencia T0.
Hypothesis Hok :
  forall p, In p T0 -> Pagamento.pago p = false -> pendencia_ok db p.

(** The view, step by step. *)
Lemma financeiro_spec :
  exists (T1 R1 T2 : list Pagamento.t) (H : list Historico)
         (listas : list Pendencia * list Pendencia),
    inv [mes 0] T1
    /\ (forall p, In p T1 -> Pagamento.pago p = false ->
                  pendencia_ok (set_pagamentos db T1) p)
    /\ financeiro_pendencias (set_pagamentos db T1) hoje = Returns listas
    /\ inv (rev (map (fun k => mes k) [5; 4; 3; 2; 1; 0]) ++ [mes 0])%list T2
    /\ map hist_mes H = map (fun k => mes k) [5; 4; 3; 2; 1; 0]
    /\ financeiro db hoje
       = Returns
           (set_pagamentos db T2,
            mkfin (valor_previsto (resumo_puro R1))
              (valor_pago (resumo_puro R1))
              (valor_pendente (resumo_puro R1))
              (fst listas) (snd listas) H
              (entradas_recentes (set_pagamentos db T2)) (mes 0)
              (sort_by String.leb Aluno.nome
                 (filter Aluno.projeto_social (alunos db)))).
Proof.
  destruct (first_day_of_month_Ok hoje Hhoje) as [Efd Vfd].
  destruct (meses_inv_step [] T0 (mes 0) (meses_inv_init Huq))
    as (T1 & R1 & Run1 & Inv1 & _).
  rewrite set_pagamentos_same in Run1.
  assert (F0 : Forall tem_aluno T0).
  { apply Forall_forall. intros p Hp Up.
    destruct (Hok p Hp Up) as (Hv & _ & Ha). split; [ exact Hv | ].
    now apply pagamento_aluno_In. }
  assert (F1 : Forall tem_aluno T1).
  { apply (pagamentos_do_mes_referencia_Forall tem_aluno db
             (set_pagamentos db T1) (mes 0) R1 (resumo_puro R1));
      [ | | exact Run1 | exact F0 ].
    - intros p v Hp. exact Hp.
    - intros a i v Ia _. split; [ exact Vfd | ]. exists a. auto. }
  pose proof (pendencias_ok_inv [mes 0] T1 Inv1 F1 Hok) as Ok1.
  destruct (financeiro_pendencias_spec (set_pagamentos db T1) hoje Ok1)
    as (v & a & _ & _ & Pend & _).
  destruct (historico_loop [5; 4; 3; 2; 1; 0]) with (D := [mes 0]) (T := T1)
    (H := @nil Historico) as (T2 & H & Loop & Inv2 & Hm & _).
  { simpl. intros k Hk. lia. }
  { exact Inv1. }
  exists T1, R1, T2, H.
  eexists.
  split; [ exact Inv1 | ]. split; [ exact Ok1 | ].
  split; [ exact Pend | ]. split; [ exact Inv2 | ]. split; [ exact Hm | ].
  unfold financeiro. rewrite Efd. cbn [of_result bind_outcome].
  rewrite Run1. cbn [of_result bind_outcome].
  rewrite Pend. cbn [of_result bind_outcome].
  rewrite Loop. reflexivity.
Qed.
End Meses.

Lemma mes_anterior_range (hoje : date) (k : Z) :
  0 <= k <= 5 ->
  In (mes_anterior hoje k)
    (rev (map (fun k => mes_anterior hoje k) [5; 4; 3; 2; 1; 0])
     ++ [mes_anterior hoje 0])%list.
Proof.
  intros Hk.
  assert (C : k = 0 \/ k = 1 \/ k = 2 \/ k = 3 \/ k = 4 \/ k = 5) by lia.
  simpl. repeat (destruct C as [C | C]; [ subst k; tauto | ]). subst k. tauto.
Qed.

(** X13. Opening the finance page reconciles the six months that end with
    the current one.  On a database that meets its constraints, on a day
    from June of year 1 on, with every unpaid row in order, the view
    returns; its history has one entry for each of the six months, oldest
    first; and in the table it commits, for each of these months every
    student who is charged has exactly one row, the row that was there with
    the student's current fee as its value or a new unpaid row, and no
    scholarship student has one.  The rows of all other months, and the
    other tables, are as they were. *)
Theorem financeiro_reconciles_six_months :
  forall (db : Database) (hoje : date),
    db_wf db -> valid_date hoje -> 6 <= month hoje \/ 1 < year hoje ->
    (forall p, In p (pagamentos db) -> Pagamento.pago p = false ->
               pendencia_ok db p) ->
    exists (db2 : Database) (ctx : Financeiro),
      financeiro db hoje = Returns (db2, ctx)
      /\ turmas db2 = turmas db /\ alunos db2 = alunos db
      /\ presencas db2 = presencas db /\ users db2 = users db
      /\ uq_pagamento_competencia (pagamentos db2)
      /\ fin_mes_atual ctx = mes_anterior hoje 0
      /\ map hist_mes (fin_historico ctx)
         = map (mes_anterior hoje) [5; 4; 3; 2; 1; 0]
      /\ (forall k a, 0 <= k <= 5 -> In a (alunos db) ->
                      mes_reconciliado (pagamentos db) (pagamentos db2)
                        (mes_anterior hoje k) a)
      /\ (forall p, (forall k, 0 <= k <= 5 ->
                               Pagamento.competencia p <> mes_anterior hoje k) ->
                    (In p (pagamentos db2) <-> In p (pagamentos db))).
Proof.
  intros db hoje (Hpk & Huq & Hnum) Hhoje Hyr Hok.
  destruct (financeiro_spec db Hpk Hnum hoje Hhoje Hyr Huq Hok)
    as (T1 & R1 & T2 & H & listas & _ & _ & _ & Inv2 & Hm & Run).
  destruct Inv2 as (U2 & Done & _ & Other).
  eexists. eexists. split; [ exact Run | ].
  cbn [turmas alunos presencas users pagamentos set_pagamentos
       fin_mes_atual fin_historico].
  repeat match goal with |- _ /\ _ => split end;
    try reflexivity; try assumption.
  - intros k a Hk Ha. apply Done; [ | exact Ha ].
    now apply mes_anterior_range.
  - intros p Hp. apply Other. intros Hin. simpl in Hin.
    destruct Hin as [E | [E | [E | [E | [E | [E | [E | []]]]]]]];
      symmetry in E; revert E; apply Hp; lia.
Qed.

Lemma db_financeiro_wf : db_wf db_financeiro.
Proof.
  unfold db_wf, alunos_pk, uq_pagamento_competencia, mensalidades_numeric.
  split; [ | split ].
  - repeat constructor; simpl; intuition discriminate.
  - repeat constructor; simpl; intuition discriminate.
  - repeat constructor; unfold numeric_10_2; vm_compute; discriminate.
Defined.

(** On 5 May 2024: the months from December 2023 to May 2024. *)
Lemma financeiro_reconciles_six_months_witness :
  exists (db2 : Database) (ctx : Financeiro),
    financeiro db_financeiro (mkdate 2024 5 5) = Returns (db2, ctx)
    /\ turmas db2 = turmas db_financeiro /\ alunos db2 = alunos db_financeiro
    /\ presencas db2 = presencas db_financeiro
    /\ users db2 = users db_financeiro
    /\ uq_pagamento_competencia (pagamentos db2)
    /\ fin_mes_atual ctx = mes_anterior (mkdate 2024 5 5) 0
    /\ map hist_mes (fin_historico ctx)
       = map (mes_anterior (mkdate 2024 5 5)) [5; 4; 3; 2; 1; 0]
    /\ (forall k a, 0 <= k <= 5 -> In a (alunos db_financeiro) ->
                    mes_reconciliado (pagamentos db_financeiro) (pagamentos db2)
                      (mes_anterior (mkdate 2024 5 5) k) a)
    /\ (forall p, (forall k, 0 <= k <= 5 ->
                             Pagamento.competencia p
                             <> mes_anterior (mkdate 2024 5 5) k) ->
                  (In p (pagamentos db2) <-> In p (pagamentos db_financeiro))).
Proof.
  apply (financeiro_reconciles_six_months db_financeiro (mkdate 2024 5 5)).
  - exact db_financeiro_wf.
  - reflexivity.
  - right. simpl. lia.
  - exact db_financeiro_ok.
Defined.

(** The months of the history on 5 May 2024, and the rows the page adds:
    eight new unpaid rows beside the four that were there. *)
Example financeiro_exemplo :
  match financeiro db_financeiro (mkdate 2024 5 5) with
  | Returns (db2, ctx) =>
      map hist_label (fin_historico ctx)
      = ["12/2023"; "01/2024"; "02/2024"; "03/2024"; "04/2024"; "05/2024"]
      /\ List.length (pagamentos db2) = 12%nat
      /\ List.length (filter Pagamento.pago (pagamentos db2)) = 1%nat
  | _ => False
  end.
Proof. vm_compute. repeat split. Qed.

Lemma dias_ate_mes_atual (hoje : date) (p : Pagamento.t) :
  1 <= month hoje <= 12 ->
  Pagamento.competencia p = mes_anterior hoje 0 ->
  dias_ate hoje p = 10 - day hoje.
Proof.
  intros Hm E. unfold dias_ate. rewrite E, (mes_anterior_0 _ Hm).
  unfold vencimento_de, toordinal, _ymd2ord, DIA_VENCIMENTO_PADRAO.
  cbn [year month day]. lia.
Qed.

(** X14. The current month on the finance page.  For a student who is
    charged and has no paid row for the current month, the page lists the
    month's fee as due this week from the 3rd to the 10th, with the days
    left to the 10th, and as overdue from the 11th on, with the days since
    the 10th; on the 1st and 2nd the current month is in neither list, for
    any student. *)
Theorem financeiro_lists_current_month :
  forall (db : Database) (hoje : date) (a : Aluno.t),
    db_wf db -> valid_date hoje -> 6 <= month hoje \/ 1 < year hoje ->
    (forall p, In p (pagamentos db) -> Pagamento.pago p = false ->
               pendencia_ok db p) ->
    In a (alunos db) -> Aluno.projeto_social a = false ->
    (forall p, In p (pagamentos db) ->
               pagamento_do_aluno (Aluno.id a) (mes_anterior hoje 0) p = true ->
               Pagamento.pago p = false) ->
    exists (db2 : Database) (ctx : Financeiro),
      financeiro db hoje = Returns (db2, ctx)
      /\ (3 <= day hoje <= 10 ->
          exists item,
            In item (fin_vencendo_semana ctx)
            /\ pend_aluno item = Aluno.nome a
            /\ pend_competencia item = mes_anterior hoje 0
            /\ pend_vencimento item = mkdate (year hoje) (month hoje) 10
            /\ pend_valor item = Decimal_of_cents (Aluno.valor_mensalidade a)
            /\ pend_dias item = Some (10 - day hoje))
      /\ (10 < day hoje ->
          exists item,
            In item (fin_vencidas ctx)
            /\ pend_aluno item = Aluno.nome a
            /\ pend_competencia item = mes_anterior hoje 0
            /\ pend_vencimento item = mkdate (year hoje) (month hoje) 10
            /\ pend_valor item = Decimal_of_cents (Aluno.valor_mensalidade a)
            /\ pend_dias_atraso item = Some (day hoje - 10))
      /\ (day hoje < 3 ->
          forall item,
            In item (fin_vencendo_semana ctx) \/ In item (fin_vencidas ctx) ->
            pend_competencia item <> mes_anterior hoje 0).
Proof.
  intros db hoje a (Hpk & Huq & Hnum) Hhoje Hyr Hok Ia Hs Hunpaid.
  destruct (financeiro_spec db Hpk Hnum hoje Hhoje Hyr Huq Hok)
    as (T1 & R1 & T2 & H & listas & Inv1 & Ok1 & Pend & _ & _ & Run).
  pose proof Hhoje as Hf. apply check_date_fields_spec in Hf.
  destruct Hf as (_ & Hm & _).
  destruct (financeiro_pendencias_spec (set_pagamentos db T1) hoje Ok1)
    as (v & a0 & lv & la & Pend' & Pv & Fv & Pa & Fa).
  rewrite Pend in Pend'. injection Pend' as ->.
  cbn [fst snd pagamentos set_pagamentos] in *.
  destruct Inv1 as (U1 & Done & _ & _).
  pose proof (Done (mes_anterior hoje 0) a (or_introl eq_refl) Ia) as Rec.
  unfold mes_reconciliado in Rec. rewrite Hs in Rec.
  destruct Rec as (p & Fp & Hl).
  assert (Ip : In p T1 /\ pagamento_do_aluno (Aluno.id a) (mes_anterior hoje 0) p
                         = true).
  { apply filter_In. rewrite Fp. now left. }
  destruct Ip as [Ip Kp]. apply pagamento_do_aluno_spec in Kp.
  unfold chave_pagamento in Kp. injection Kp as Eid Ec.
  pose proof (linha_reconciliada_valor _ _ _ _ Hl) as Ev.
  assert (Up : Pagamento.pago p = false).
  { destruct (find _ (pagamentos db)) as [q | ] eqn:Fq; simpl in Hl.
    - subst p. simpl. apply find_some in Fq. destruct Fq as [Iq Kq].
      now apply Hunpaid.
    - destruct Hl as (i & ->). reflexivity. }
  pose proof (dias_ate_mes_atual hoje p Hm Ec) as Dp.
  assert (Aluno_p : forall a', pagamento_aluno (set_pagamentos db T1) p = Some a' ->
                               a' = a).
  { intros a' Ha'. unfold pagamento_aluno in Ha'. apply find_some in Ha'.
    cbn [alunos set_pagamentos] in Ha'. destruct Ha' as [Ia' Ea'].
    apply Z.eqb_eq in Ea'.
    apply (NoDup_map_inj Aluno.id (alunos db)); auto. congruence. }
  eexists. eexists. split; [ exact Run | ].
  cbn [fin_vencendo_semana fin_vencidas].
  split; [ | split ].
  - intros Hd.
    assert (Ilv : In p lv).
    { apply (Permutation_in _ Pv). apply filter_In. split; [ exact Ip | ].
      rewrite Up. unfold vence_na_semana. rewrite Dp. cbn [negb andb].
      apply andb_true_iff. rewrite !Z.leb_le. lia. }
    destruct (Forall2_In_l _ _ _ _ Fv Ilv) as (item & Iitem & Ritem).
    destruct Ritem as (a' & Ha' & (E1 & _ & E3 & E4 & E5) & E6 & _).
    apply Aluno_p in Ha'. subst a'.
    exists item. rewrite E1, E5, E4, E3, E6, Ec, Ev, Dp.
    rewrite (mes_anterior_0 _ Hm). repeat split; auto.
  - intros Hd.
    assert (Ila : In p la).
    { apply (Permutation_in _ Pa). apply filter_In. split; [ exact Ip | ].
      rewrite Up. unfold vencida. rewrite Dp. cbn [negb andb].
      apply Z.ltb_lt. lia. }
    destruct (Forall2_In_l _ _ _ _ Fa Ila) as (item & Iitem & Ritem).
    destruct Ritem as (a' & Ha' & (E1 & _ & E3 & E4 & E5) & _ & E6).
    apply Aluno_p in Ha'. subst a'.
    exists item. rewrite E1, E5, E4, E3, E6, Ec, Ev, Dp.
    rewrite (mes_anterior_0 _ Hm). repeat split; auto. f_equal. lia.
  - intros Hd item [Iitem | Iitem] Ecomp.
    + destruct (Forall2_In_r _ _ _ _ Fv Iitem) as (q & Iq & Rq).
      apply (Permutation_in _ (Permutation_sym Pv)) in Iq.
      apply filter_In in Iq. destruct Iq as [_ Cq].
      destruct Rq as (_ & _ & (_ & _ & _ & _ & E5) & _).
      rewrite E5 in Ecomp.
      apply andb_true_iff in Cq. destruct Cq as [_ Cq].
      unfold vence_na_semana in Cq.
      rewrite (dias_ate_mes_atual hoje q Hm Ecomp) in Cq.
      apply andb_true_iff in Cq. rewrite !Z.leb_le in Cq. lia.
    + destruct (Forall2_In_r _ _ _ _ Fa Iitem) as (q & Iq & Rq).
      apply (Permutation_in _ (Permutation_sym Pa)) in Iq.
      apply filter_In in Iq. destruct Iq as [_ Cq].
      destruct Rq as (_ & _ & (_ & _ & _ & _ & E5) & _).
      rewrite E5 in Ecomp.
      apply andb_true_iff in Cq. destruct Cq as [_ Cq].
      unfold vencida in Cq.
      rewrite (dias_ate_mes_atual hoje q Hm Ecomp) in Cq.
      apply Z.ltb_lt in Cq. lia.
Qed.

(** Bruno on 5 May 2024: May is due in five days. *)
Lemma financeiro_lists_current_month_witness :
  exists (db2 : Database) (ctx : Financeiro),
    financeiro db_financeiro (mkdate 2024 5 5) = Returns (db2, ctx)
    /\ (3 <= 5 <= 10 ->
        exists item,
          In item (fin_vencendo_semana ctx)
          /\ pend_aluno item = "Bruno"
          /\ pend_competencia item = mes_anterior (mkdate 2024 5 5) 0
          /\ pend_vencimento item = mkdate 2024 5 10
          /\ pend_valor item = Decimal_of_cents 12000
          /\ pend_dias item = Some (10 - 5))
    /\ (10 < 5 ->
        exists item,
          In item (fin_vencidas ctx)
          /\ pend_aluno item = "Bruno"
          /\ pend_competencia item = mes_anterior (mkdate 2024 5 5) 0
          /\ pend_vencimento item = mkdate 2024 5 10
          /\ pend_valor item = Decimal_of_cents 12000
          /\ pend_dias_atraso item = Some (5 - 10))
    /\ (5 < 3 ->
        forall item,
          In item (fin_vencendo_semana ctx) \/ In item (fin_vencidas ctx) ->
          pend_competencia item <> mes_anterior (mkdate 2024 5 5) 0).
Proof.
  apply (financeiro_lists_current_month db_financeiro (mkdate 2024 5 5)
           aluno_bruno).
  - exact db_financeiro_wf.
  - reflexivity.
  - right. simpl. lia.
  - exact db_financeiro_ok.
  - simpl. auto.
  - reflexivity.
  - intros p Hp Kp. simpl in Hp.
    destruct Hp as [<- | [<- | [<- | [<- | []]]]];
      try reflexivity; discriminate Kp.
Defined.

(** ** The latest pending payments *)





(** Of the three pending rows the two latest, May before April. *)
Example ultimas_pendencias_exemplo :
  ultimas_pendencias db_financeiro 2
  = Returns
      [mkpendente "Bruno" "Sub-11" "05/2024" (Decimal_of_cents 12000);
       mkpendente "Bruno" "Sub-11" "04/2024" (Decimal_of_cents 12000)].
Proof. vm_compute. reflexivity. Qed.

(** The label has the digits of the year as they are: a row of January of
    the year 999, which the month filter of the finance page can create, is
    shown as [01/999]. *)
Example ultimas_pendencias_ano_999 :
  strftime_m_Y (mkdate 2024 5 1) = "05/2024"
  /\ strftime_m_Y (mkdate 999 1 1) = "01/999"
  /\ ultimas_pendencias
       (mkdb [turma_sub11] [aluno_bruno] []
          [Pagamento.mk 1 (mkdate 999 1 1) false None EmptyString 12000 2] [])
       5
     = Returns [mkpendente "Bruno" "Sub-11" "01/999" (Decimal_of_cents 12000)].
Proof. vm_compute. repeat split. Qed.

(** ** The limits of the birth date field *)

Lemma sub_relativedelta_years_Ok (hoje : date) (n : Z) :
  valid_date hoje -> 0 <= n < year hoje ->
  exists L,
    sub_relativedelta_years hoje n = Ok L
    /\ valid_date L
    /\ year L = year hoje - n
    /\ forall d, valid_date d ->
                 (~ date_lt L d <-> n <= calcular_idade d hoje).
Proof.
  intros H Hn. apply check_date_fields_spec in H.
  destruct H as (Hy & Hm & Hd). unfold MINYEAR, MAXYEAR in Hy.
  pose proof (_days_in_month_bounds (year hoje - n) (month hoje) Hm) as Hb.
  exists (mkdate (year hoje - n) (month hoje)
            (Z.min (_days_in_month (year hoje - n) (month hoje)) (day hoje))).
  split; [ | split; [ | split; [ reflexivity | ] ] ].
  - unfold sub_relativedelta_years. rewrite (monthrange_Ok _ _ Hm).
    cbn [bind snd]. unfold replace. cbn [from_opt].
    apply date_new_Ok; unfold MINYEAR, MAXYEAR; lia.
  - apply check_date_fields_spec. cbn [year month day].
    unfold MINYEAR, MAXYEAR. lia.
  - intros d Vd. apply check_date_fields_spec in Vd.
    destruct Vd as (Hyd & Hmd & Hdd).
    unfold calcular_idade, date_lt. cbn [year month day].
    pose proof (month_day_ltb_spec hoje d) as S.
    destruct (month_day_ltb hoje d).
    + assert (S' : month hoje < month d
                   \/ (month hoje = month d /\ day hoje < day d))
        by (now apply S).
      destruct (Z.eq_dec (year d) (year hoje - n)) as [Ey | Ny]; [ | lia ].
      destruct (Z.eq_dec (month d) (month hoje)) as [Em | Nm]; [ | lia ].
      rewrite <- Ey, <- Em in *. lia.
    + assert (S' : ~ (month hoje < month d
                      \/ (month hoje = month d /\ day hoje < day d))).
      { intros X. apply S in X. discriminate. }
      destruct (Z.eq_dec (year d) (year hoje - n)) as [Ey | Ny]; [ | lia ].
      destruct (Z.eq_dec (month d) (month hoje)) as [Em | Nm]; [ | lia ].
      rewrite <- Ey, <- Em in *. lia.
Qed.

(** X16. The limits the forms give the birth date field, against the age
    check of the server.  From year 19 on [idade_limits] returns two valid
    dates.  A valid birth date is not after [max] exactly when the age it
    gives today is at least [MIN_IDADE], and not after [min] exactly when
    that age is at least [MAX_IDADE]; so every birth date from [min] to
    [max] passes the age check, and a birth date before [min] is that of a
    student of 18 or more, whom the check still admits at 18.  Up to year 18
    the limits cannot be computed: the year before year 1 is refused. *)
Theorem idade_limits_sound :
  (forall hoje : date,
      valid_date hoje -> MAX_IDADE < year hoje ->
      exists lo hi,
        idade_limits hoje = Ok (lo, hi)
        /\ valid_date lo /\ valid_date hi
        /\ forall d, valid_date d ->
             (~ date_lt hi d <-> MIN_IDADE <= calcular_idade d hoje)
             /\ (~ date_lt lo d <-> MAX_IDADE <= calcular_idade d hoje)
             /\ (~ date_lt d lo -> calcular_idade d hoje <= MAX_IDADE)
             /\ (~ date_lt d lo -> ~ date_lt hi d ->
                 MIN_IDADE <= calcular_idade d hoje <= MAX_IDADE))
  /\ (forall hoje : date,
        valid_date hoje -> year hoje <= MAX_IDADE ->
        idade_limits hoje = Raise ValueError).
Proof.
  split.
  - intros hoje Hv Hy. unfold MAX_IDADE, MIN_IDADE in *.
    destruct (sub_relativedelta_years_Ok hoje 18 Hv) as (lo & Elo & Vlo & Ylo & Hlo);
      [ pose proof (proj1 (check_date_fields_spec _ _ _) Hv) as X;
        unfold MINYEAR in X; lia | ].
    destruct (sub_relativedelta_years_Ok hoje 4 Hv) as (hi & Ehi & Vhi & Yhi & Hhi);
      [ lia | ].
    exists lo, hi. unfold idade_limits, MAX_IDADE, MIN_IDADE.
    rewrite Elo, Ehi. split; [ reflexivity | ].
    split; [ exact Vlo | ]. split; [ exact Vhi | ].
    intros d Vd.
    assert (Up : ~ date_lt d lo -> calcular_idade d hoje <= 18).
    { intros N. unfold calcular_idade. unfold date_lt in N.
      destruct (month_day_ltb hoje d); lia. }
    split; [ now apply Hhi | ]. split; [ now apply Hlo | ].
    split; [ exact Up | ].
    intros N1 N2. split; [ now apply Hhi | now apply Up ].
  - intros hoje Hv Hy. apply check_date_fields_spec in Hv.
    destruct Hv as (Hyr & Hm & Hd). unfold MAX_IDADE in *.
    unfold idade_limits, sub_relativedelta_years, MAX_IDADE.
    rewrite (monthrange_Ok _ _ Hm). cbn [bind snd].
    unfold replace, date_new. cbn [from_opt].
    destruct (check_date_fields _ _ _) eqn:E; [ | reflexivity ].
    apply check_date_fields_spec in E. unfold MINYEAR in E. lia.
Qed.

Lemma idade_limits_sound_witness :
  (exists lo hi,
      idade_limits (mkdate 2024 2 29) = Ok (lo, hi)
      /\ valid_date lo /\ valid_date hi
      /\ forall d, valid_date d ->
           (~ date_lt hi d <-> MIN_IDADE <= calcular_idade d (mkdate 2024 2 29))
           /\ (~ date_lt lo d
               <-> MAX_IDADE <= calcular_idade d (mkdate 2024 2 29))
           /\ (~ date_lt d lo -> calcular_idade d (mkdate 2024 2 29) <= MAX_IDADE)
           /\ (~ date_lt d lo -> ~ date_lt hi d ->
               MIN_IDADE <= calcular_idade d (mkdate 2024 2 29) <= MAX_IDADE))
  /\ idade_limits (mkdate 18 12 31) = Raise ValueError.
Proof.
  destruct idade_limits_sound as [H1 H2]. split.
  - apply (H1 (mkdate 2024 2 29)); [ reflexivity | unfold MAX_IDADE; simpl; lia ].
  - apply (H2 (mkdate 18 12 31)); [ reflexivity | unfold MAX_IDADE; simpl; lia ].
Defined.

(** On 29 February 2024 the limits are 28 February 2006 and 29 February
    2020; a student born on 27 February 2006 is 18, and outside them. *)
Example idade_limits_exemplo :
  idade_limits (mkdate 2024 2 29) = Ok (mkdate 2006 2 28, mkdate 2020 2 29)
  /\ calcular_idade (mkdate 2006 2 27) (mkdate 2024 2 29) = 18
  /\ date_lt (mkdate 2006 2 27) (mkdate 2006 2 28).
Proof. repeat split. unfold date_lt. simpl. lia. Qed.

(** ** The student form *)

Lemma parse_decimal_form (value : option string) (r : Decimal) :
  parse_decimal (match value with
                 | Some text => PyStr text
                 | None => PyNone
                 end) zero_00 = Ok r ->
  two_places r \/ is_nan r.
Proof.
  destruct value as [text | ]; simpl.
  - intros H. destruct (parse_decimal_str_total text zero_00) as (r' & E & C).
    unfold parse_decimal in E. rewrite E in H. injection H as <-.
    destruct (Decimal_of_chars (clean text)) as [x | e].
    + destruct C as [-> | Q]; [ left; reflexivity | ].
      destruct (quantize_cent_Ok x r' Q) as [T | [_ N]]; auto.
    + subst r'. left. reflexivity.
  - intros H. injection H as <-. left. reflexivity.
Qed.

Lemma Decimal_lt_0_false (d : Decimal) :
  two_places d \/ is_nan d -> Decimal_lt_0 d = Ok false ->
  exists s c, d = DFinite s c (-2) /\ (s = true -> c = 0%N).
Proof.
  intros [T | N] H; destruct d as [s c e | s | s sg p]; simpl in *;
    try contradiction; try discriminate.
  subst e. exists s, c. split; [ reflexivity | ].
  intros ->. simpl in H. injection H as H. apply negb_false_iff in H.
  now apply N.eqb_eq in H.
Qed.

Section Formulario.
Variable py_int : string -> result Z.
Variable strptime_Ymd : string -> option date.
Variable numeric_store : Decimal -> Z.
Hypothesis Hexact : store_exact numeric_store.
Hypothesis Hsign : store_sign numeric_store.

Local Abbreviation campos := (campos_aluno py_int strptime_Ymd).
Local Abbreviation ficha_de := (ficha_do_formulario py_int strptime_Ymd).
Local Abbreviation linha := (aluno_de_campos numeric_store).

(** What the fields that pass the checks are. *)
Lemma campos_aluno_inr (hoje : date) (form : FormAluno) (c : CamposAluno)
  (id n : Z) :
  campos hoje form = Ok (inr c) ->
  py_int (campo_turma_id c) = Ok n ->
  ficha_valida (linha id n c) /\ ficha_de hoje form (linha id n c).
Proof.
  unfold campos_aluno. intros H Hn.
  apply bind_Ok in H. destruct H as (v & Pv & H).
  apply parse_decimal_form in Pv.
  destruct (_ || _ || _ || _ || _) eqn:Req in H; [ discriminate | ].
  repeat (apply orb_false_iff in Req; destruct Req as [Req ?]).
  destruct (negb (TELEFONE_REGEX_match _)) eqn:Tel in H; [ discriminate | ].
  apply negb_false_iff in Tel.
  apply bind_Ok in H. destruct H as (neg & Lt & H).
  destruct neg; [ discriminate | ].
  destruct (Decimal_lt_0_false v Pv Lt) as (s & coeff & -> & Hs).
  assert (Valor : forall ps,
             0 <= numeric_store (if ps : bool then zero_00
                                 else DFinite s coeff (-2))
             /\ (ps = true ->
                 numeric_store (if ps then zero_00 else DFinite s coeff (-2))
                 = 0)).
  { intros ps. destruct ps.
    - unfold zero_00. rewrite (Hexact false 0%N) by (rewrite ndigits_0; lia).
      split; [ reflexivity | reflexivity ].
    - split; [ | discriminate ].
      destruct s; [ | apply Hsign ].
      rewrite (Hs eq_refl).
      rewrite (Hexact true 0%N) by (rewrite ndigits_0; lia). reflexivity. }
  destruct (parse_date strptime_Ymd (form_data_nascimento form))
    as [nasc | ] eqn:Dn.
  - destruct (_ || _) eqn:Age in H; [ discriminate | ].
    injection H as <-. apply orb_false_iff in Age.
    rewrite !Z.ltb_ge in Age. simpl in Hn.
    unfold ficha_valida, ficha_do_formulario, aluno_de_campos. simpl.
    rewrite Dn.
    repeat split; auto; try lia; try apply Valor; try congruence.
    exists n. auto.
  - destruct (py_int _) as [idade | e] eqn:Pi in H;
      [ | destruct e; discriminate ].
    destruct (_ || _) eqn:Age in H; [ discriminate | ].
    injection H as <-. apply orb_false_iff in Age.
    rewrite !Z.ltb_ge in Age. simpl in Hn.
    unfold ficha_valida, ficha_do_formulario, aluno_de_campos. simpl.
    rewrite Dn.
    repeat split; auto; try lia; try apply Valor; try congruence.
    exists n. auto.
Qed.

Lemma salvar_aluno_Returns (db db1 : Database) (id : Z) (c : CamposAluno)
  (tabela : Aluno.t -> list Aluno.t) (erro sucesso resp : Response) :
  salvar_aluno py_int numeric_store db id c tabela erro sucesso
  = Returns (db1, resp) ->
  (resp = erro /\ db1 = db)
  \/ exists n,
       py_int (campo_turma_id c) = Ok n
       /\ resp = sucesso
       /\ db1 = mkdb (turmas db) (tabela (linha id n c)) (presencas db)
                  (pagamentos db) (users db).
Proof.
  unfold salvar_aluno.
  destruct (py_int (campo_turma_id c)) as [n | e].
  - destruct (int64 n); [ | discriminate ].
    intros H. injection H as <- <-. right. exists n. auto.
  - destruct e; try discriminate. intros H. injection H as <- <-. now left.
Qed.

(** The two ways [list_alunos] answers a form. *)
Lemma list_alunos_post_Returns (db db1 : Database) (hoje : date)
  (form : FormAluno) (resp : Response) :
  list_alunos_post py_int strptime_Ymd numeric_store db hoje form
  = Returns (db1, resp) ->
  (rejected resp /\ db1 = db)
  \/ exists c n,
       campos hoje form = Ok (inr c)
       /\ py_int (campo_turma_id c) = Ok n
       /\ resp = Redirect "list_alunos" "Aluno cadastrado com sucesso!"
                  "success"
       /\ db1 = mkdb (turmas db)
                  (alunos db
                   ++ [linha (next_id (map Aluno.id (alunos db))) n c])%list
                  (presencas db) (pagamentos db) (users db).
Proof.
  unfold list_alunos_post.
  destruct (sort_by String.leb Turma.nome (turmas db)).
  - intros H. injection H as <- <-. left. split; reflexivity.
  - destruct (campos hoje form) as [[message | c] | e];
      cbn [of_result bind_outcome]; [ | | discriminate ].
    + intros H. injection H as <- <-. left. split; reflexivity.
    + intros H. apply salvar_aluno_Returns in H.
      destruct H as [[-> ->] | (n & Hn & -> & ->)].
      * left. split; reflexivity.
      * right. exists c, n. auto.
Qed.

(** And [edit_aluno]. *)
Lemma edit_aluno_post_Returns (db db1 : Database) (hoje : date)
  (aluno_id : Z) (form : FormAluno) (resp : Response) :
  edit_aluno_post py_int strptime_Ymd numeric_store db hoje aluno_id form
  = Returns (db1, resp) ->
  exists aluno,
    In aluno (alunos db) /\ Aluno.id aluno = aluno_id
    /\ ((rejected resp /\ db1 = db)
        \/ exists c n,
             campos hoje form = Ok (inr c)
             /\ py_int (campo_turma_id c) = Ok n
             /\ resp = Redirect "list_alunos" "Aluno atualizado com sucesso!"
                        "success"
             /\ db1 = mkdb (turmas db)
                        (update_first (fun a => Aluno.id a =? aluno_id)
                           (fun _ => linha aluno_id n c) (alunos db))
                        (presencas db) (pagamentos db) (users db)).
Proof.
  unfold edit_aluno_post.
  destruct (get_aluno_or_404 db aluno_id) as [aluno | e] eqn:G;
    cbn [of_result bind_outcome]; [ | discriminate ].
  apply get_aluno_or_404_Ok in G. destruct G as [Ia Ea].
  intros H. exists aluno. split; [ exact Ia | ]. split; [ exact Ea | ].
  destruct (campos hoje form) as [[message | c] | e];
    cbn [of_result bind_outcome] in H; [ | | discriminate ].
  - injection H as <- <-. left. split; reflexivity.
  - apply salvar_aluno_Returns in H.
    destruct H as [[-> ->] | (n & Hn & -> & ->)].
    + left. split; reflexivity.
    + right. exists c, n. rewrite Ea. auto.
Qed.
End Formulario.

Lemma next_id_fresh (ids : list Z) (i : Z) : In i ids -> i < next_id ids.
Proof.
  unfold next_id. induction ids as [ | x ids IH ]; [ contradiction | ].
  cbn [fold_right]. intros [-> | H]; [ lia | ]. specialize (IH H). lia.
Qed.

Lemma NoDup_map_update_first_same {A K : Type} (k : A -> K) (f : A -> bool)
  (g : A -> A) (l : list A) :
  (forall x, f x = true -> k (g x) = k x) ->
  map k (update_first f g l) = map k l.
Proof.
  intros H. induction l as [ | x l IH ]; simpl; [ reflexivity | ].
  destruct (f x) eqn:F; simpl; [ now rewrite H | now rewrite IH ].
Qed.

(** X17. The student forms store what their checks let through.  Whenever
    [list_alunos] or [edit_aluno] answers a posted form, either it
    flashes an error and the database is as it was, or it flashes its
    success and exactly one row is added (with a new id) or replaced (the
    row of the id, the others untouched): that row holds the fields of the
    form, stripped; a name, a guardian and a phone that are not empty, the
    phone starting with eight characters of its class; an age from 4 to
    18, the one computed from the birth date where one is given; a fee that
    is not negative, and zero for a scholarship student.  The status is
    stored as sent and the class id is only read as a number.  Editing an
    id that no student has is answered with 404. *)
Theorem student_form_stores_checked_fields :
  forall (py_int : string -> result Z) (strptime_Ymd : string -> option date)
         (numeric_store : Decimal -> Z),
    store_exact numeric_store -> store_sign numeric_store ->
    (forall (db db1 : Database) (hoje : date) (form : FormAluno)
            (resp : Response),
        list_alunos_post py_int strptime_Ymd numeric_store db hoje form
        = Returns (db1, resp) ->
        (rejected resp /\ db1 = db)
        \/ (resp = Redirect "list_alunos" "Aluno cadastrado com sucesso!"
                     "success"
            /\ exists a,
                 db1 = mkdb (turmas db) (alunos db ++ [a])%list (presencas db)
                         (pagamentos db) (users db)
                 /\ (forall b, In b (alunos db) -> Aluno.id b < Aluno.id a)
                 /\ ficha_valida a
                 /\ ficha_do_formulario py_int strptime_Ymd hoje form a))
    /\ (forall (db db1 : Database) (hoje : date) (aluno_id : Z)
               (form : FormAluno) (resp : Response),
          edit_aluno_post py_int strptime_Ymd numeric_store db hoje aluno_id form
          = Returns (db1, resp) ->
          (rejected resp /\ db1 = db)
          \/ (resp = Redirect "list_alunos" "Aluno atualizado com sucesso!"
                       "success"
              /\ exists a,
                   db1 = mkdb (turmas db)
                           (update_first (fun x => Aluno.id x =? aluno_id)
                              (fun _ => a) (alunos db))
                           (presencas db) (pagamentos db) (users db)
                   /\ Aluno.id a = aluno_id
                   /\ (exists antes, In antes (alunos db)
                                     /\ Aluno.id antes = aluno_id)
                   /\ ficha_valida a
                   /\ ficha_do_formulario py_int strptime_Ymd hoje form a))
    /\ (forall (db : Database) (hoje : date) (aluno_id : Z) (form : FormAluno),
          (forall a, In a (alunos db) -> Aluno.id a <> aluno_id) ->
          edit_aluno_post py_int strptime_Ymd numeric_store db hoje aluno_id form
          = Raises (Exn NotFound)).
Proof.
  intros py_int strptime_Ymd numeric_store Hexact Hsign.
  split; [ | split ].
  - intros db db1 hoje form resp Run.
    apply list_alunos_post_Returns in Run.
    destruct Run as [Rej | (c & n & Hc & Hn & -> & ->)]; [ now left | ].
    right. split; [ reflexivity | ]. eexists. split; [ reflexivity | ].
    split.
    + intros b Hb. simpl. apply next_id_fresh. now apply in_map.
    + now apply (campos_aluno_inr py_int strptime_Ymd numeric_store Hexact Hsign
                   hoje form c).
  - intros db db1 hoje aluno_id form resp Run.
    apply edit_aluno_post_Returns in Run.
    destruct Run as (antes & Ia & Ea & [Rej | (c & n & Hc & Hn & -> & ->)]);
      [ now left | ].
    right. split; [ reflexivity | ]. eexists. split; [ reflexivity | ].
    split; [ reflexivity | ]. split; [ now exists antes | ].
    now apply (campos_aluno_inr py_int strptime_Ymd numeric_store Hexact Hsign
                 hoje form c).
  - intros db hoje aluno_id form H. unfold edit_aluno_post, get_aluno_or_404.
    replace (find (fun a => Aluno.id a =? aluno_id) (alunos db))
      with (@None Aluno.t); [ reflexivity | ].
    symmetry. apply find_none_iff. intros a Ia. apply Z.eqb_neq. auto.
Qed.

Lemma store_cents_exact : store_exact store_cents /\ store_sign store_cents.
Proof.
  split.
  - intros s c _. reflexivity.
  - intros c. simpl. lia.
Defined.

(** Davi is added on 5 May 2024, ten years old, and then edited. *)
Lemma student_form_stores_checked_fields_witness :
  exists (db1 : Database) (resp : Response),
    list_alunos_post int_ascii strptime_Ymd_ascii store_cents db_escola
      (mkdate 2024 5 5) form_davi
    = Returns (db1, resp)
    /\ ((rejected resp /\ db1 = db_escola)
        \/ (resp = Redirect "list_alunos" "Aluno cadastrado com sucesso!"
                     "success"
            /\ exists a,
                 db1 = mkdb (turmas db_escola) (alunos db_escola ++ [a])%list
                         (presencas db_escola) (pagamentos db_escola)
                         (users db_escola)
                 /\ (forall b, In b (alunos db_escola) ->
                               Aluno.id b < Aluno.id a)
                 /\ ficha_valida a
                 /\ ficha_do_formulario int_ascii strptime_Ymd_ascii
                      (mkdate 2024 5 5) form_davi a)).
Proof.
  destruct (student_form_stores_checked_fields int_ascii strptime_Ymd_ascii
              store_cents (proj1 store_cents_exact) (proj2 store_cents_exact))
    as [H _].
  eexists. eexists. split; [ vm_compute; reflexivity | ].
  apply H. vm_compute. reflexivity.
Defined.

Example list_alunos_post_exemplo :
  list_alunos_post int_ascii strptime_Ymd_ascii store_cents db_escola
    (mkdate 2024 5 5) form_davi
  = Returns
      (mkdb (turmas db_escola)
         (alunos db_escola
          ++ [Aluno.mk 4 "Davi" 10 "Eva" "(11) 95555-0000" "ativo" EmptyString
                (Some (mkdate 2014 3 10)) (Some 1) 125050 false])%list
         (presencas db_escola) (pagamentos db_escola) (users db_escola),
       Redirect "list_alunos" "Aluno cadastrado com sucesso!" "success").
Proof. vm_compute. reflexivity. Qed.

(** A class that does not exist and any status are stored as sent; a fee
    that reads as a NaN makes the view raise. *)
Example list_alunos_post_unchecked :
  (exists a db1 resp,
      list_alunos_post int_ascii strptime_Ymd_ascii store_cents db_escola
        (mkdate 2024 5 5)
        (mkform (Some "Davi") (Some "10") (Some "Eva") (Some "11955550000")
           (Some "99") (Some "talvez") None None None None)
      = Returns (db1, resp)
      /\ alunos db1 = (alunos db_escola ++ [a])%list
      /\ Aluno.turma_id a = Some 99 /\ Aluno.status a = "talvez"
      /\ get_turma_or_404 db1 99 = Raise NotFound)
  /\ list_alunos_post int_ascii strptime_Ymd_ascii store_cents db_escola
       (mkdate 2024 5 5)
       (mkform (Some "Davi") (Some "10") (Some "Eva") (Some "11955550000")
          (Some "1") None None None (Some "NaN") None)
     = Raises (Exn InvalidOperation).
Proof.
  split.
  - eexists. eexists. eexists. split; [ vm_compute; reflexivity | ].
    repeat split.
  - vm_compute. reflexivity.
Qed.

(** X18. The rows of the student table stay checked.  If the ids are unique
    and every row holds a name, a guardian and a phone that pass the
    checks of the form, an age from 4 to 18, and a fee that is not
    negative and is zero for a scholarship student, then this is still so
    after a student is added or edited through the forms, after a student
    is removed and after a class is removed. *)
Theorem student_rows_stay_checked :
  forall (py_int : string -> result Z) (strptime_Ymd : string -> option date)
         (numeric_store : Decimal -> Z) (db : Database),
    store_exact numeric_store -> store_sign numeric_store ->
    alunos_pk db -> Forall ficha_valida (alunos db) ->
    (forall (hoje : date) (form : FormAluno) (db1 : Database) (resp : Response),
        list_alunos_post py_int strptime_Ymd numeric_store db hoje form
        = Returns (db1, resp) ->
        alunos_pk db1 /\ Forall ficha_valida (alunos db1))
    /\ (forall (hoje : date) (aluno_id : Z) (form : FormAluno)
               (db1 : Database) (resp : Response),
          edit_aluno_post py_int strptime_Ymd numeric_store db hoje aluno_id form
          = Returns (db1, resp) ->
          alunos_pk db1 /\ Forall ficha_valida (alunos db1))
    /\ (forall (aluno_id : Z) (db1 : Database) (resp : Response),
          delete_aluno db aluno_id = Ok (db1, resp) ->
          alunos_pk db1 /\ Forall ficha_valida (alunos db1))
    /\ (forall (foreign_keys : bool) (turma_id : Z) (db1 : Database)
               (resp : Response),
          delete_turma foreign_keys db turma_id = Ok (db1, resp) ->
          alunos_pk db1 /\ Forall ficha_valida (alunos db1)).
Proof.
  intros py_int strptime_Ymd numeric_store db Hexact Hsign Hpk Hf.
  split; [ | split; [ | split ] ].
  - intros hoje form db1 resp Run. apply list_alunos_post_Returns in Run.
    destruct Run as [[_ ->] | (c & n & Hc & Hn & _ & ->)]; [ auto | ].
    destruct (campos_aluno_inr py_int strptime_Ymd numeric_store Hexact Hsign
                hoje form c (next_id (map Aluno.id (alunos db))) n Hc Hn)
      as [Hv _].
    unfold alunos_pk. cbn [alunos]. split.
    + rewrite map_app. cbn [map].
      apply Permutation_NoDup
        with (l := next_id (map Aluno.id (alunos db)) :: map Aluno.id (alunos db)).
      * apply Permutation_cons_append.
      * constructor; [ | exact Hpk ].
        intros Hin. apply next_id_fresh in Hin. lia.
    + apply Forall_app. split; [ exact Hf | ]. now constructor.
  - intros hoje aluno_id form db1 resp Run.
    apply edit_aluno_post_Returns in Run.
    destruct Run as (antes & _ & _ & [[_ ->] | (c & n & Hc & Hn & _ & ->)]);
      [ auto | ].
    destruct (campos_aluno_inr py_int strptime_Ymd numeric_store Hexact Hsign
                hoje form c aluno_id n Hc Hn) as [Hv _].
    unfold alunos_pk. cbn [alunos]. split.
    + rewrite (NoDup_map_update_first_same Aluno.id); [ exact Hpk | ].
      intros x Fx. apply Z.eqb_eq in Fx. now rewrite Fx.
    + apply Forall_update_first; [ | exact Hf ]. intros x _. exact Hv.
  - intros aluno_id db1 resp Run. unfold delete_aluno in Run.
    apply bind_Ok in Run. destruct Run as (x & _ & Run).
    injection Run as <- _. unfold alunos_pk. cbn [alunos]. split.
    + now apply NoDup_map_delete_first.
    + now apply Forall_delete_first.
  - intros fk turma_id db1 resp Run. unfold delete_turma in Run.
    apply bind_Ok in Run. destruct Run as (t & _ & Run).
    injection Run as <- _. unfold alunos_pk. cbn [alunos]. split.
    + rewrite map_map.
      replace (map (fun x => Aluno.id (if aluno_da_turma t x
                                       then aluno_set_turma_id x None else x))
                 (alunos db))
        with (map Aluno.id (alunos db)); [ exact Hpk | ].
      apply map_ext. intros a. now destruct (aluno_da_turma t a).
    + apply Forall_forall. intros b Hb. apply in_map_iff in Hb.
      destruct Hb as (a & <- & Ia). rewrite Forall_forall in Hf.
      specialize (Hf a Ia). now destruct (aluno_da_turma t a).
Qed.

Lemma db_escola_fichas : Forall ficha_valida (alunos db_escola).
Proof.
  repeat constructor; unfold MIN_IDADE, MAX_IDADE; simpl; try lia;
    discriminate.
Defined.

Lemma student_rows_stay_checked_witness :
  exists (db1 : Database) (resp : Response),
    list_alunos_post int_ascii strptime_Ymd_ascii store_cents db_escola
      (mkdate 2024 5 5) form_davi
    = Returns (db1, resp)
    /\ alunos_pk db1 /\ Forall ficha_valida (alunos db1).
Proof.
  destruct (student_rows_stay_checked int_ascii strptime_Ymd_ascii store_cents
              db_escola (proj1 store_cents_exact) (proj2 store_cents_exact)
              (proj1 db_escola_pk) db_escola_fichas) as [H _].
  eexists. eexists. split; [ vm_compute; reflexivity | ].
  eapply (H (mkdate 2024 5 5) form_davi). vm_compute. reflexivity.
Defined.

(** ** Accounts *)

Lemma user_by_lower_name_app_new (db : Database) (novo : User.t) (n : string) :
  user_by_lower_name db (lower_string (User.username novo)) = None ->
  user_by_lower_name (set_users db (users db ++ [novo])%list) n
  = if (lower_string (User.username novo) =? n)%string
    then Some novo
    else user_by_lower_name db n.
Proof.
  unfold user_by_lower_name. cbn [users set_users]. intros Hnone.
  rewrite find_app_last.
  destruct (String.eqb_spec (lower_string (User.username novo)) n) as [E | N].
  - subst n. now rewrite Hnone.
  - destruct (find (fun u => (lower_string (User.username u) =? n)%string)
                (users db)); reflexivity.
Qed.

Lemma lower_idempotent (l : list ascii) : lower (lower l) = lower l.
Proof.
  unfold lower. rewrite map_map. apply map_ext. intros c.
  unfold lower_char at 1.
  destruct ((65 <=? code (lower_char c)) && (code (lower_char c) <=? 90))%N
    eqn:E; [ | reflexivity ].
  exfalso. unfold lower_char in E.
  destruct ((65 <=? code c) && (code c <=? 90))%N eqn:C.
  - apply andb_true_iff in C. destruct C as [C1 C2].
    apply N.leb_le in C1, C2.
    unfold code in E. rewrite N_ascii_embedding in E
      by (unfold code in *; lia).
    apply andb_true_iff in E. destruct E as [_ E]. apply N.leb_le in E.
    unfold code in *. lia.
  - rewrite C in E. discriminate.
Qed.

Lemma lower_string_idempotent (s : string) :
  lower_string (lower_string s) = lower_string s.
Proof.
  unfold lower_string, chars.
  rewrite list_ascii_of_string_of_list_ascii. now rewrite lower_idempotent.
Qed.

Section Contas.
Variable check_password_hash : string -> string -> result bool.
Variable generate_password_hash : string -> result string.

Local Abbreviation create := (manage_users_create generate_password_hash).
Local Abbreviation login := (login_post check_password_hash).

(** The two ways the action [create] ends. *)
Lemma manage_users_create_Ok (db db1 : Database)
  (u p c r : option string) (resp : Response) :
  create db u p c r = Ok (db1, resp) ->
  (rejected resp /\ db1 = db)
  \/ exists h,
       generate_password_hash (form_get p EmptyString) = Ok h
       /\ vazio (lower_string (strip_string (form_get u EmptyString))) = false
       /\ (6 <= String.length (form_get p EmptyString))%nat
       /\ In (form_get r "gestor") User.ROLE_CHOICES
       /\ user_by_lower_name db
            (lower_string (strip_string (form_get u EmptyString))) = None
       /\ resp = Redirect "manage_users" "Usuário criado com sucesso!"
                  "success"
       /\ db1 = set_users db
                  (users db
                   ++ [User.mk (next_id (map User.id (users db)))
                         (lower_string (strip_string (form_get u EmptyString)))
                         h (form_get r "gestor")])%list.
Proof.
  unfold manage_users_create.
  destruct (vazio _ || vazio _) eqn:V;
    [ intros H; injection H as <- <-; left; split; reflexivity | ].
  destruct (negb (_ =? _)%string);
    [ intros H; injection H as <- <-; left; split; reflexivity | ].
  destruct (String.length (form_get p EmptyString) <? 6)%nat eqn:L;
    [ intros H; injection H as <- <-; left; split; reflexivity | ].
  destruct (negb (existsb _ User.ROLE_CHOICES)) eqn:R;
    [ intros H; injection H as <- <-; left; split; reflexivity | ].
  destruct (user_by_lower_name db _) eqn:U;
    [ intros H; injection H as <- <-; left; split; reflexivity | ].
  intros H. apply bind_Ok in H. destruct H as (h & Gh & H).
  injection H as <- <-. right. exists h.
  apply orb_false_iff in V. destruct V as [V _].
  apply Nat.ltb_ge in L. apply negb_false_iff in R.
  apply existsb_exists in R. destruct R as (x & Hx & Ex).
  apply String.eqb_eq in Ex. subst x.
  repeat split; auto.
Qed.
End Contas.

(** X19. An account that was created can log in.  When the action
    [create] succeeds one account is added, with a new id, the name typed
    in lower case without the white space around it, one of the three
    roles and the hash made of the password, which has six characters or
    more; no other account has that name, whatever the case of its
    letters.  Logging in with that name in any case and a password the hash
    accepts lets this account in; a password the hash refuses lets nobody
    in; and for any other name [login] answers as before.  The texts typed
    are ASCII. *)
Theorem created_account_can_log_in :
  forall (check_password_hash : string -> string -> result bool)
         (generate_password_hash : string -> result string)
         (db db1 : Database) (u p c r : option string),
    texto_ascii (form_get u EmptyString) ->
    texto_ascii (form_get p EmptyString) ->
    manage_users_create generate_password_hash db u p c r
    = Ok (db1, Redirect "manage_users" "Usuário criado com sucesso!" "success") ->
    exists novo,
      db1 = set_users db (users db ++ [novo])%list
      /\ User.username novo
         = lower_string (strip_string (form_get u EmptyString))
      /\ In (User.role novo) User.ROLE_CHOICES
      /\ generate_password_hash (form_get p EmptyString)
         = Ok (User.password_hash novo)
      /\ (6 <= String.length (form_get p EmptyString))%nat
      /\ (forall b, In b (users db) ->
                    User.id b < User.id novo
                    /\ lower_string (User.username b) <> User.username novo)
      /\ (forall name password,
            texto_ascii name ->
            lower_string (strip_string name) = User.username novo ->
            check_password_hash (User.password_hash novo) password = Ok true ->
            login_post check_password_hash db1 None (Some name) (Some password)
            = Ok (Some novo,
                  LoginRedirect "dashboard"
                    (Some ("Bem-vindo de volta!", "success"))))
      /\ (forall name password,
            texto_ascii name ->
            lower_string (strip_string name) = User.username novo ->
            check_password_hash (User.password_hash novo) password = Ok false ->
            login_post check_password_hash db1 None (Some name) (Some password)
            = Ok (None,
                  LoginPage (Some ("Usuário ou senha inválidos.", "error"))))
      /\ (forall name password,
            texto_ascii name ->
            lower_string (strip_string name) <> User.username novo ->
            login_post check_password_hash db1 None (Some name) password
            = login_post check_password_hash db None (Some name) password).
Proof.
  intros check gen db db1 u p c r _ _ Run.
  apply manage_users_create_Ok in Run.
  destruct Run as [[Rej _] | (h & Gh & Vu & Lp & Rr & Un & _ & ->)];
    [ discriminate Rej | ].
  set (username := lower_string (strip_string (form_get u EmptyString))) in *.
  set (novo := User.mk (next_id (map User.id (users db))) username h
                 (form_get r "gestor")).
  assert (Low : lower_string (User.username novo) = username).
  { unfold novo, username. simpl. apply lower_string_idempotent. }
  assert (Un' : user_by_lower_name db (lower_string (User.username novo)) = None)
    by (now rewrite Low).
  exists novo. split; [ reflexivity | ]. split; [ reflexivity | ].
  split; [ exact Rr | ]. split; [ exact Gh | ]. split; [ exact Lp | ].
  split; [ | split; [ | split ] ].
  - intros b Hb. split.
    + simpl. apply next_id_fresh. now apply in_map.
    + unfold user_by_lower_name in Un.
      apply (proj1 (find_none_iff _ _)) with (x := b) in Un; [ | exact Hb ].
      now apply String.eqb_neq in Un.
  - intros name password _ En Ck. unfold login_post.
    cbn [form_get]. rewrite (user_by_lower_name_app_new db novo _ Un').
    rewrite Low, En. cbn [User.username novo]. rewrite String.eqb_refl.
    cbn [User.password_hash novo]. cbn [User.password_hash novo] in Ck.
    rewrite Ck. reflexivity.
  - intros name password _ En Ck. unfold login_post.
    cbn [form_get]. rewrite (user_by_lower_name_app_new db novo _ Un').
    rewrite Low, En. cbn [User.username novo]. rewrite String.eqb_refl.
    cbn [User.password_hash novo]. cbn [User.password_hash novo] in Ck.
    rewrite Ck. reflexivity.
  - intros name password _ Nn. unfold login_post.
    cbn [form_get]. rewrite (user_by_lower_name_app_new db novo _ Un').
    rewrite Low.
    replace (username =? lower_string (strip_string name))%string with false;
      [ reflexivity | ].
    symmetry. apply String.eqb_neq. intros E. apply Nn. now rewrite <- E.
Qed.

(** Maria is created by the default account and logs in as "MARIA ". *)
Lemma created_account_can_log_in_witness :
  exists novo,
    set_users db_contas
      (users db_contas ++ [User.mk 2 "maria" "hash:segredo" "gestor"])%list
    = set_users db_contas (users db_contas ++ [novo])%list
    /\ User.username novo
       = lower_string (strip_string (form_get (Some " Maria") EmptyString))
    /\ In (User.role novo) User.ROLE_CHOICES
    /\ hash_exemplo (form_get (Some "segredo") EmptyString)
       = Ok (User.password_hash novo)
    /\ (6 <= String.length (form_get (Some "segredo") EmptyString))%nat
    /\ (forall b, In b (users db_contas) ->
                  User.id b < User.id novo
                  /\ lower_string (User.username b) <> User.username novo)
    /\ (forall name password,
          texto_ascii name ->
          lower_string (strip_string name) = User.username novo ->
          check_exemplo (User.password_hash novo) password = Ok true ->
          login_post check_exemplo
            (set_users db_contas
               (users db_contas
                ++ [User.mk 2 "maria" "hash:segredo" "gestor"])%list)
            None (Some name) (Some password)
          = Ok (Some novo,
                LoginRedirect "dashboard"
                  (Some ("Bem-vindo de volta!", "success"))))
    /\ (forall name password,
          texto_ascii name ->
          lower_string (strip_string name) = User.username novo ->
          check_exemplo (User.password_hash novo) password = Ok false ->
          login_post check_exemplo
            (set_users db_contas
               (users db_contas
                ++ [User.mk 2 "maria" "hash:segredo" "gestor"])%list)
            None (Some name) (Some password)
          = Ok (None,
                LoginPage (Some ("Usuário ou senha inválidos.", "error"))))
    /\ (forall name password,
          texto_ascii name ->
          lower_string (strip_string name) <> User.username novo ->
          login_post check_exemplo
            (set_users db_contas
               (users db_contas
                ++ [User.mk 2 "maria" "hash:segredo" "gestor"])%list)
            None (Some name) password
          = login_post check_exemplo db_contas None (Some name) password).
Proof.
  apply (created_account_can_log_in check_exemplo hash_exemplo db_contas _
           (Some " Maria") (Some "segredo") (Some "segredo") None).
  - repeat constructor.
  - repeat constructor.
  - reflexivity.
Defined.

Example login_exemplo :
  login_post check_exemplo
    (set_users db_contas
       (users db_contas ++ [User.mk 2 "maria" "hash:segredo" "gestor"])%list)
    None (Some "MARIA ") (Some "segredo")
  = Ok (Some (User.mk 2 "maria" "hash:segredo" "gestor"),
        LoginRedirect "dashboard" (Some ("Bem-vindo de volta!", "success")))
  /\ login_post check_exemplo db_contas None (Some "admin") (Some "errada")
     = Ok (None, LoginPage (Some ("Usuário ou senha inválidos.", "error"))).
Proof. split; reflexivity. Qed.

(** ** The accounts after any requests *)

Lemma permission_required_gate
  (view : Database -> User.t -> result (Database * Response))
  (db db' : Database) (cuo : option User.t) (resp : Response) :
  permission_required "users" view db cuo = Ok (db', resp) ->
  (rejected resp /\ db' = db)
  \/ (exists cu, cuo = Some cu /\ User.role cu = "admin"
                 /\ view db cu = Ok (db', resp)).
Proof.
  unfold permission_required. destruct cuo as [cu | ].
  - destruct (User.has_permission cu "users") eqn:P; cbn [negb].
    + intros Run. right. exists cu. repeat split; auto.
      now apply has_permission_users.
    + intros Run. injection Run as <- <-. left. split; reflexivity.
  - intros Run. injection Run as <- <-. left. split; [ exact I | reflexivity ].
Qed.

Lemma user_by_lower_name_None (db : Database) (n : string) :
  user_by_lower_name db n = None ->
  ~ In n (map (fun u => lower_string (User.username u)) (users db)).
Proof.
  unfold user_by_lower_name. intros F Hin.
  apply in_map_iff in Hin. destruct Hin as (b & Eb & Ib).
  apply (proj1 (find_none_iff _ _)) with (x := b) in F; [ | exact Ib ].
  apply String.eqb_neq in F. contradiction.
Qed.

Lemma NoDup_app_one {A : Type} (l : list A) (x : A) :
  NoDup l -> ~ In x l -> NoDup (l ++ [x]).
Proof.
  intros Hl Hx. apply NoDup_app_remove_l with (l := @nil A). simpl.
  apply Permutation_NoDup with (l := x :: l).
  - apply Permutation_cons_append.
  - now constructor.
Qed.

Section Pedidos.
Variable generate_password_hash : string -> result string.

(** What a step keeps of the accounts. *)
Local Abbreviation mantido db db' :=
  ((has_admin db -> has_admin db')
   /\ (~ has_admin db -> db' = db)
   /\ NoDup (map User.id (users db'))
   /\ (nomes_unicos db -> nomes_unicos db')
   /\ (forall u, In u (users db) -> User.username u = "admin" ->
                 exists u', In u' (users db') /\ User.id u' = User.id u
                            /\ User.username u' = "admin")
   /\ turmas db' = turmas db /\ alunos db' = alunos db
   /\ presencas db' = presencas db /\ pagamentos db' = pagamentos db).

Lemma mantido_refl (db : Database) :
  NoDup (map User.id (users db)) -> mantido db db.
Proof.
  intros Hnd. split; [ auto | ]. split; [ auto | ]. split; [ exact Hnd | ].
  split; [ auto | ]. split; [ intros u Iu Nu; exists u; auto | auto ].
Qed.

Lemma mantido_novo (db : Database) (novo : User.t) :
  NoDup (map User.id (users db)) ->
  has_admin db ->
  User.id novo = next_id (map User.id (users db)) ->
  ~ In (lower_string (User.username novo))
      (map (fun u => lower_string (User.username u)) (users db)) ->
  mantido db (set_users db (users db ++ [novo])%list).
Proof.
  intros Hnd (a & Ia & Ra) Eid Hn.
  cbn [users turmas alunos presencas pagamentos set_users].
  split; [ intros _; exists a; split; [ apply in_or_app; auto | exact Ra ] | ].
  split; [ intros N; exfalso; apply N; exists a; auto | ].
  split.
  { rewrite map_app. cbn [map]. apply NoDup_app_one; [ exact Hnd | ].
    intros Hin. rewrite Eid in Hin. apply next_id_fresh in Hin. lia. }
  split.
  { unfold nomes_unicos. cbn [users set_users]. intros Hu.
    rewrite map_app. cbn [map]. now apply NoDup_app_one. }
  split; [ | auto ].
  intros u Iu Nu. exists u. split; [ apply in_or_app; auto | auto ].
Qed.

Lemma manage_users_reset_password_inv (db db' : Database) (cu : User.t)
  (i : Z) (p c : option string) (resp : Response) :
  NoDup (map User.id (users db)) -> In cu (users db) ->
  User.role cu = "admin" ->
  manage_users_reset_password generate_password_hash db i p c
  = Ok (db', resp) ->
  mantido db db'.
Proof.
  intros Hnd Icu Rcu Run. unfold manage_users_reset_password in Run.
  apply bind_Ok in Run. destruct Run as (usuario & _ & Run).
  destruct (String.length (form_get p EmptyString) <? 6)%nat;
    [ injection Run as <- _; now apply mantido_refl | ].
  destruct (negb (_ =? _)%string);
    [ injection Run as <- _; now apply mantido_refl | ].
  apply bind_Ok in Run. destruct Run as (h & _ & Run).
  injection Run as <- _.
  cbn [users turmas alunos presencas pagamentos set_users].
  set (f := fun u : User.t => User.id u =? User.id usuario).
  set (g := fun u : User.t => set_password_hash u h).
  assert (Img : forall u, In u (users db) ->
                  exists u', In u' (update_first f g (users db))
                             /\ User.id u' = User.id u
                             /\ User.username u' = User.username u
                             /\ User.role u' = User.role u).
  { intros u Iu.
    destruct (In_update_first_image f g (users db) u Iu) as [H | H];
      [ exists u | exists (g u) ]; auto. }
  split.
  { intros _. destruct (Img cu Icu) as (u' & I' & _ & _ & R').
    exists u'. split; [ exact I' | congruence ]. }
  split.
  { intros N. exfalso. apply N. exists cu. auto. }
  split; [ now rewrite map_update_first | ].
  split.
  { unfold nomes_unicos. cbn [users set_users].
    now rewrite map_update_first. }
  split; [ | auto ].
  intros u Iu Nu. destruct (Img u Iu) as (u' & I' & E' & N' & _).
  exists u'. split; [ exact I' | split; [ exact E' | congruence ] ].
Qed.

Lemma manage_users_create_inv (db db' : Database) (cu : User.t)
  (u p c r : option string) (resp : Response) :
  NoDup (map User.id (users db)) -> In cu (users db) ->
  User.role cu = "admin" ->
  manage_users_create generate_password_hash db u p c r = Ok (db', resp) ->
  mantido db db'.
Proof.
  intros Hnd Icu Rcu Run.
  apply manage_users_create_Ok in Run.
  destruct Run as [[_ ->] | (h & _ & _ & _ & _ & Un & _ & ->)];
    [ now apply mantido_refl | ].
  apply mantido_novo; [ exact Hnd | exists cu; auto | reflexivity | ].
  cbn [User.username]. rewrite lower_string_idempotent.
  now apply user_by_lower_name_None.
Qed.

Lemma pedido_contas_inv (db db' : Database) :
  NoDup (map User.id (users db)) ->
  pedido_contas generate_password_hash db db' -> mantido db db'.
Proof.
  intros Hnd (cuo & request & resp & Hcu & _ & Run).
  assert (Adm : forall cu, cuo = Some cu -> User.role cu = "admin" ->
                           has_admin db).
  { intros cu E R. exists cu. auto. }
  destruct request as [u p c r | i p c | action];
    cbn [manage_users_request] in Run.
  - apply permission_required_gate in Run.
    destruct Run as [[_ ->] | (cu & E & R & Run)];
      [ now apply mantido_refl | ].
    apply (manage_users_create_inv db db' cu u p c r resp); auto.
  - apply permission_required_gate in Run.
    destruct Run as [[_ ->] | (cu & E & R & Run)];
      [ now apply mantido_refl | ].
    apply (manage_users_reset_password_inv db db' cu i p c resp); auto.
  - unfold manage_users in Run. apply permission_required_gate in Run.
    destruct Run as [[_ ->] | (cu & E & R & Run)];
      [ now apply mantido_refl | ].
    destruct (manage_users_post_inv db db' cu action resp Hnd (Hcu cu E)
                R Run) as (A' & Ids & Nomes & Padrao & Rest).
    split; [ auto | ].
    split; [ intros N; exfalso; apply N; exists cu; auto | ].
    auto.
Qed.

Lemma apos_pedidos_inv (db db' : Database) :
  NoDup (map User.id (users db)) ->
  apos_pedidos generate_password_hash db db' -> mantido db db'.
Proof.
  intros Hnd Seq. induction Seq as [ | db1 db2 _ IH Step ].
  - now apply mantido_refl.
  - destruct IH as (A1 & L1 & Ids1 & N1 & P1 & T1 & Al1 & Pr1 & Pg1).
    destruct (pedido_contas_inv db1 db2 Ids1 Step)
      as (A2 & L2 & Ids2 & N2 & P2 & T2 & Al2 & Pr2 & Pg2).
    split; [ auto | ].
    split.
    { intros N. pose proof (L1 N) as E1. subst db1. auto. }
    split; [ exact Ids2 | ]. split; [ auto | ].
    split.
    { intros u Iu Nu. destruct (P1 u Iu Nu) as (u1 & I1 & E1 & Nu1).
      destruct (P2 u1 I1 Nu1) as (u2 & I2 & E2 & Nu2).
      exists u2. split; [ exact I2 | split; [ congruence | exact Nu2 ] ]. }
    repeat split; congruence.
Qed.

Lemma bootstrap_admin_Ok (db db0 : Database) :
  bootstrap_admin generate_password_hash db = Ok db0 ->
  ((exists a, In a (users db) /\ User.username a = "admin") /\ db0 = db)
  \/ ((forall a, In a (users db) -> User.username a <> "admin")
      /\ exists h,
           generate_password_hash "admin123" = Ok h
           /\ db0 = set_users db
                      (users db
                       ++ [User.mk (next_id (map User.id (users db)))
                             "admin" h "admin"])%list).
Proof.
  unfold bootstrap_admin.
  destruct (find (fun u => (User.username u =? "admin")%string) (users db))
    as [a | ] eqn:F.
  - intros E. injection E as <-. left. apply find_some in F.
    destruct F as [Ia Na]. apply String.eqb_eq in Na.
    split; [ exists a; auto | reflexivity ].
  - intros Run. apply bind_Ok in Run. destruct Run as (h & Gh & Run).
    injection Run as <-. right. split; [ | exists h; auto ].
    intros a Ia. apply (proj1 (find_none_iff _ _)) with (x := a) in F;
      [ | exact Ia ].
    now apply String.eqb_neq in F.
Qed.
End Pedidos.

(** X20. The default account and the administrators.  At its start the
    application adds the account [admin], an administrator, where no
    account has that name.  From then on, whatever requests [manage_users]
    serves, by accounts of the table and with texts typed in ASCII: an
    account named [admin] is in the table; the ids stay distinct; if an
    account is an administrator at the start, one is at the end, and this
    is so wherever the start had to add the default account; with no
    administrator at the start no request changes anything, and the start
    had changed nothing either; names that differ up to case go on doing
    so; the other tables are never touched. *)
Theorem accounts_keep_default_and_admin :
  forall (generate_password_hash : string -> result string)
         (db db0 db' : Database),
    NoDup (map User.id (users db)) ->
    bootstrap_admin generate_password_hash db = Ok db0 ->
    apos_pedidos generate_password_hash db0 db' ->
    (exists u, In u (users db') /\ User.username u = "admin")
    /\ NoDup (map User.id (users db'))
    /\ (has_admin db0 -> has_admin db')
    /\ ((forall u, In u (users db) -> User.username u <> "admin") ->
        has_admin db')
    /\ (~ has_admin db0 -> db' = db /\ db0 = db)
    /\ (nomes_unicos db0 -> nomes_unicos db')
    /\ turmas db' = turmas db /\ alunos db' = alunos db
    /\ presencas db' = presencas db /\ pagamentos db' = pagamentos db.
Proof.
  intros gen db db0 db' Hnd Boot Seq.
  apply bootstrap_admin_Ok in Boot.
  assert (Start : NoDup (map User.id (users db0))
                  /\ (exists a, In a (users db0) /\ User.username a = "admin")
                  /\ ((forall u, In u (users db) -> User.username u <> "admin")
                      -> has_admin db0)
                  /\ (~ has_admin db0 -> db0 = db)
                  /\ turmas db0 = turmas db /\ alunos db0 = alunos db
                  /\ presencas db0 = presencas db
                  /\ pagamentos db0 = pagamentos db).
  { destruct Boot as [[(a & Ia & Na) ->] | [Nn (h & _ & ->)]].
    - split; [ exact Hnd | ]. split; [ exists a; auto | ].
      split; [ intros N; exfalso; now apply (N a) | auto 10 ].
    - cbn [users turmas alunos presencas pagamentos set_users].
      set (novo := User.mk (next_id (map User.id (users db))) "admin" h "admin").
      assert (Inovo : In novo (users db ++ [novo])%list)
        by (apply in_or_app; right; now left).
      split.
      { rewrite map_app. cbn [map]. apply NoDup_app_one; [ exact Hnd | ].
        intros Hin. apply next_id_fresh in Hin. simpl in Hin. lia. }
      split; [ exists novo; auto | ].
      split; [ intros _; exists novo; auto | ].
      split; [ | auto ].
      intros N. exfalso. apply N. exists novo. auto. }
  destruct Start as (Ids0 & (a & Ia & Na) & New & Locked & T0 & Al0 & Pr0 & Pg0).
  destruct (apos_pedidos_inv gen db0 db' Ids0 Seq)
    as (A1 & L1 & Ids1 & N1 & P1 & T1 & Al1 & Pr1 & Pg1).
  split.
  { destruct (P1 a Ia Na) as (u' & I' & _ & N'). exists u'. auto. }
  split; [ exact Ids1 | ]. split; [ exact A1 | ].
  split; [ auto | ].
  split.
  { intros N. pose proof (Locked N) as E0. pose proof (L1 N) as E1.
    split; congruence. }
  split; [ exact N1 | ].
  repeat split; congruence.
Qed.

(** On an empty table the start adds the default account, which then
    creates Maria: an administrator is left. *)
Lemma accounts_keep_default_and_admin_witness :
  has_admin
    (set_users db_contas
       (users db_contas ++ [User.mk 2 "maria" "hash:segredo" "gestor"])%list)
  /\ NoDup
       (map User.id
          (users db_contas ++ [User.mk 2 "maria" "hash:segredo" "gestor"])%list).
Proof.
  assert (Hnd : NoDup (map User.id (users (mkdb [] [] [] [] []))))
    by constructor.
  assert (Seq : apos_pedidos hash_exemplo db_contas
                  (set_users db_contas
                     (users db_contas
                      ++ [User.mk 2 "maria" "hash:segredo" "gestor"])%list)).
  { apply (apos_mais hash_exemplo db_contas db_contas _
             (apos_nenhum hash_exemplo db_contas)).
    exists (Some (User.mk 1 "admin" "hash:admin123" "admin")),
      (Create (Some " Maria") (Some "segredo") (Some "segredo") None),
      (Redirect "manage_users" "Usuário criado com sucesso!" "success").
    split; [ intros u E; injection E as <-; now left | ].
    split; [ | reflexivity ].
    split; repeat constructor. }
  destruct (accounts_keep_default_and_admin hash_exemplo
              (mkdb [] [] [] [] []) db_contas _ Hnd eq_refl Seq)
    as (_ & Ids & _ & Adm & _).
  split; [ apply Adm; intros u [] | exact Ids ].
Defined.

(** ** [format_currency] *)

Example format_currency_exemplo :
  format_currency (PyDecimal (DFinite false 123456750 (-2)))
  = Ok "R$ 1.234.567,50"
  /\ format_currency (PyStr "1.234,5") = Ok "R$ 1.234,50"
  /\ format_currency (PyStr "-0,005") = Ok "R$ -0,00"
  /\ format_currency (PyInt 999) = Ok "R$ 999,00"
  /\ format_currency (PyInt (-1000)) = Ok "R$ -1.000,00"
  /\ format_currency PyNone = Ok "R$ 0,00"
  /\ format_currency (PyStr "abc") = Ok "R$ 0,00"
  /\ format_currency (PyStr "nan") = Ok "R$ NaN"
  /\ format_currency (PyFloat (FInf false)) = Raise InvalidOperation.
Proof. repeat split; vm_compute; reflexivity. Qed.

(** *** Digits *)

Lemma code_digit (k : N) : (k < 10)%N -> code (ascii_of_N (48 + k)) = (48 + k)%N.
Proof. intros H. unfold code. apply N_ascii_embedding. lia. Qed.

Lemma is_digit_digit (k : N) : (k < 10)%N -> is_digit (ascii_of_N (48 + k)) = true.
Proof.
  intros H. unfold is_digit. rewrite code_digit by exact H.
  apply andb_true_iff. split; apply N.leb_le; lia.
Qed.

Lemma digits_value_snoc (ds : list ascii) (c : ascii) :
  digits_value (ds ++ [c]) = (digits_value ds * 10 + (code c - 48))%N.
Proof. unfold digits_value. now rewrite fold_left_app. Qed.

Lemma digits_of_spec (fuel : nat) :
  forall (n : N) (acc : list ascii),
    (n < 2 ^ N.of_nat (S fuel))%N ->
    exists ds, digits_of (S fuel) n acc = (ds ++ acc)%list
               /\ ds <> []
               /\ Forall (fun c => is_digit c = true) ds
               /\ digits_value ds = n.
Proof.
  induction fuel as [ | fuel IH ]; intros n acc Hn.
  - cbn [digits_of]. change (2 ^ N.of_nat 1)%N with 2%N in Hn.
    replace (n <? 10)%N with true by (symmetry; apply N.ltb_lt; lia).
    exists [ascii_of_N (48 + n mod 10)].
    split; [ reflexivity | ]. split; [ discriminate | ].
    assert (n mod 10 = n)%N as E by (apply N.mod_small; lia).
    split.
    + constructor; [ | constructor ]. apply is_digit_digit. lia.
    + unfold digits_value. cbn [fold_left]. rewrite code_digit by lia. lia.
  - remember (S fuel) as f eqn:Ef. cbn [digits_of].
    destruct (N.ltb_spec n 10) as [Lt | Ge].
    + exists [ascii_of_N (48 + n mod 10)].
      split; [ reflexivity | ]. split; [ discriminate | ].
      assert (n mod 10 = n)%N as E by (apply N.mod_small; lia).
      split.
      * constructor; [ | constructor ]. apply is_digit_digit. lia.
      * unfold digits_value. cbn [fold_left]. rewrite code_digit by lia. lia.
    + subst f.
      assert (Hq : (n / 10 < 2 ^ N.of_nat (S fuel))%N).
      { replace (N.of_nat (S (S fuel))) with (N.succ (N.of_nat (S fuel))) in Hn
          by lia.
        rewrite N.pow_succ_r' in Hn.
        apply N.Div0.div_lt_upper_bound. lia. }
      destruct (IH (n / 10)%N (ascii_of_N (48 + n mod 10) :: acc) Hq)
        as (ds & E & Nn & Fd & Vd).
      exists (ds ++ [ascii_of_N (48 + n mod 10)])%list.
      split; [ rewrite E; now rewrite <- app_assoc | ].
      split; [ intros H; now apply app_eq_nil in H | ].
      assert (n mod 10 < 10)%N as Hm by (apply N.mod_lt; lia).
      split.
      * apply Forall_app. split; [ exact Fd | ].
        constructor; [ | constructor ]. now apply is_digit_digit.
      * rewrite digits_value_snoc, Vd, code_digit by exact Hm.
        pose proof (N.Div0.div_mod n 10) as Hdm. clear - Hdm.
        generalize dependent (n / 10)%N. generalize (n mod 10)%N. lia.
Qed.

Lemma str_of_N_spec (n : N) :
  str_of_N n <> []
  /\ Forall (fun c => is_digit c = true) (str_of_N n)
  /\ digits_value (str_of_N n) = n.
Proof.
  unfold str_of_N.
  destruct (digits_of_spec (N.to_nat (N.size n)) n []) as (ds & E & H).
  - destruct n as [ | p ]; [ reflexivity | ].
    pose proof (N.size_gt (N.pos p)) as G.
    replace (N.of_nat (S (N.to_nat (N.size (N.pos p)))))
      with (N.succ (N.size (N.pos p))) by lia.
    rewrite N.pow_succ_r'. lia.
  - rewrite E, app_nil_r. exact H.
Qed.

(** *** Characters of an amount *)

Lemma digit_not (c x : ascii) :
  is_digit c = true -> is_digit x = false -> Ascii.eqb c x = false.
Proof.
  intros Hc Hx. destruct (Ascii.eqb_spec c x) as [-> | N]; [ | reflexivity ].
  congruence.
Qed.

Lemma digit_not_space (c : ascii) : is_digit c = true -> is_space c = false.
Proof.
  unfold is_digit, is_space. intros H.
  apply andb_true_iff in H. destruct H as [H1 H2]. apply N.leb_le in H1, H2.
  apply orb_false_iff. split; apply andb_false_iff.
  - right. apply N.leb_gt. lia.
  - right. apply N.leb_gt. lia.
Qed.

Lemma digit_lower (c : ascii) : is_digit c = true -> lower_char c = c.
Proof.
  unfold is_digit, lower_char. intros H.
  apply andb_true_iff in H. destruct H as [H1 H2]. apply N.leb_le in H1, H2.
  replace (65 <=? code c)%N with false; [ reflexivity | ].
  symmetry. apply N.leb_gt. lia.
Qed.

Lemma parse_sign_digit (c : ascii) (r : list ascii) :
  is_digit c = true -> parse_sign (c :: r) = (false, c :: r).
Proof.
  intros H.
  assert (Hm : Ascii.eqb c "-" = false) by (now apply digit_not).
  assert (Hp : Ascii.eqb c "+" = false) by (now apply digit_not).
  destruct c as [[ | ] [ | ] [ | ] [ | ] [ | ] [ | ] [ | ] [ | ]];
    try reflexivity; discriminate.
Qed.

Lemma span_digits_app (ds r : list ascii) :
  Forall (fun c => is_digit c = true) ds ->
  match r with c :: _ => is_digit c = false | [] => True end ->
  span_digits (ds ++ r) = (ds, r).
Proof.
  intros Hd Hr. induction Hd as [ | c ds Hc _ IH ].
  - destruct r as [ | c r ]; [ reflexivity | ]. simpl. now rewrite Hr.
  - simpl. rewrite Hc, IH. reflexivity.
Qed.

Lemma lstrip_id (l : list ascii) :
  match l with c :: _ => is_space c = false | [] => True end -> lstrip l = l.
Proof. destruct l as [ | c l ]; simpl; [ auto | ]. now intros ->. Qed.

Lemma strip_id (l : list ascii) :
  match l with c :: _ => is_space c = false | [] => True end ->
  match rev l with c :: _ => is_space c = false | [] => True end ->
  strip l = l.
Proof.
  intros H1 H2. unfold strip. rewrite (lstrip_id l H1), (lstrip_id _ H2).
  apply rev_involutive.
Qed.

Lemma strip_no_space (l : list ascii) :
  Forall (fun c => is_space c = false) l -> strip l = l.
Proof.
  intros H. apply strip_id.
  - destruct H; auto.
  - apply Forall_rev in H. destruct H; auto.
Qed.

Lemma replace_char_app (old : ascii) (new l1 l2 : list ascii) :
  replace_char old new (l1 ++ l2)
  = (replace_char old new l1 ++ replace_char old new l2)%list.
Proof. unfold replace_char. apply flat_map_app. Qed.

Lemma replace_char_absent (old : ascii) (new l : list ascii) :
  Forall (fun c => Ascii.eqb c old = false) l -> replace_char old new l = l.
Proof.
  unfold replace_char. induction 1 as [ | c l Hc _ IH ]; simpl; [ reflexivity | ].
  now rewrite Hc, IH.
Qed.

Lemma replace_char_filter (old : ascii) (l : list ascii) :
  replace_char old [] l = filter (fun c => negb (Ascii.eqb c old)) l.
Proof.
  unfold replace_char. induction l as [ | c l IH ]; simpl; [ reflexivity | ].
  destruct (Ascii.eqb c old); simpl; now rewrite IH.
Qed.

Lemma replace_char_map (old new : ascii) (l : list ascii) :
  replace_char old [new] l
  = map (fun c => if Ascii.eqb c old then new else c) l.
Proof.
  unfold replace_char. induction l as [ | c l IH ]; simpl; [ reflexivity | ].
  destruct (Ascii.eqb c old); simpl; now rewrite IH.
Qed.

Lemma replace_char_flat_map (old : ascii) (new : list ascii)
  (h : ascii -> list ascii) (l : list ascii) :
  replace_char old new (flat_map h l)
  = flat_map (fun c => replace_char old new (h c)) l.
Proof.
  induction l as [ | c l IH ]; [ reflexivity | ].
  cbn [flat_map]. now rewrite replace_char_app, IH.
Qed.

Lemma flat_map_filter (F : ascii -> list ascii) (k : ascii -> bool)
  (l : list ascii) :
  Forall (fun c => F c = if k c then [c] else []) l ->
  flat_map F l = filter k l.
Proof.
  induction 1 as [ | c l Hc _ IH ]; [ reflexivity | ].
  cbn [flat_map filter]. rewrite Hc, IH. now destruct (k c).
Qed.

(** *** The thousands separator *)

Lemma insert_thousands_sep_spec (P : ascii -> Prop) (n : nat) :
  forall l : list ascii,
    (List.length l <= n)%nat ->
    Forall (fun c => Ascii.eqb c "," = false) l ->
    filter (fun c => negb (Ascii.eqb c ",")) (insert_thousands_sep l) = l
    /\ (P ","%char -> Forall P l -> Forall P (insert_thousands_sep l)).
Proof.
  induction n as [ | n IH ]; intros l Hn Hl.
  - destruct l; [ split; auto | simpl in Hn; lia ].
  - destruct l as [ | a [ | b [ | c [ | d r ] ] ] ];
      try (split; [ | auto ]; cbn [insert_thousands_sep filter];
           repeat match goal with
                  | H : Forall _ (_ :: _) |- _ =>
                      let E := fresh "E" in
                      inversion H as [ | ? ? E ? ]; subst; clear H; rewrite E
                  end; reflexivity).
    inversion Hl as [ | ? ? Ea Hl1 ]; subst.
    inversion Hl1 as [ | ? ? Eb Hl2 ]; subst.
    inversion Hl2 as [ | ? ? Ec Hl3 ]; subst.
    destruct (IH (d :: r)) as [IH1 IH2]; [ simpl in *; lia | exact Hl3 | ].
    split.
    + change (insert_thousands_sep (a :: b :: c :: d :: r))
        with (a :: b :: c :: ","%char :: insert_thousands_sep (d :: r)).
      cbn [filter]. rewrite Ea, Eb, Ec. cbn [negb Ascii.eqb Bool.eqb].
      change (negb (Ascii.eqb "," ",")) with false. cbv iota.
      now rewrite IH1.
    + intros Pc Hp.
      change (insert_thousands_sep (a :: b :: c :: d :: r))
        with (a :: b :: c :: ","%char :: insert_thousands_sep (d :: r)).
      inversion Hp as [ | ? ? Pa Hp1 ]; subst.
      inversion Hp1 as [ | ? ? Pb Hp2 ]; subst.
      inversion Hp2 as [ | ? ? Pc' Hp3 ]; subst.
      repeat constructor; auto.
Qed.

(** *** The text of a finite amount *)

Section Moeda.
Variable s : bool.
Variable ds : list ascii.
Variables f1 f2 : ascii.
Hypothesis ds_digits : Forall (fun c => is_digit c = true) ds.
Hypothesis ds_some : ds <> [].
Hypothesis f1_digit : is_digit f1 = true.
Hypothesis f2_digit : is_digit f2 = true.

(** What [format] writes, what [format_currency] makes of it, and the
    same without the separators of the thousands. *)
Local Abbreviation form :=
  (format_sign s ++ rev (insert_thousands_sep (rev ds))
   ++ ["."%char; f1; f2])%list.
Local Abbreviation swap l :=
  (replace_char "X" ["."%char]
     (replace_char "." [","%char] (replace_char "," ["X"%char] l))).
Local Abbreviation plain :=
  (format_sign s ++ ds ++ ["."%char; f1; f2])%list.
Local Abbreviation valor_char c :=
  (is_digit c || Ascii.eqb c "-" || Ascii.eqb c "," || Ascii.eqb c ".").

Lemma valor_char_cases (P : ascii -> Prop) :
  (forall c, is_digit c = true -> P c) ->
  P "-"%char -> P ","%char -> P "."%char ->
  forall c, valor_char c = true -> P c.
Proof.
  intros Hd Hm Hc Hp c H.
  apply orb_true_iff in H. destruct H as [H | H];
    [ | apply Ascii.eqb_eq in H; now subst c ].
  apply orb_true_iff in H. destruct H as [H | H];
    [ | apply Ascii.eqb_eq in H; now subst c ].
  apply orb_true_iff in H. destruct H as [H | H];
    [ auto | apply Ascii.eqb_eq in H; now subst c ].
Qed.

Lemma form_chars : Forall (fun c => valor_char c = true) form.
Proof.
  apply Forall_app. split; [ destruct s; repeat constructor | ].
  apply Forall_app. split.
  - apply Forall_rev.
    apply (insert_thousands_sep_spec (fun c => valor_char c = true)
             (List.length (rev ds)) (rev ds) (le_n _)).
    + apply Forall_rev. revert ds_digits. apply Forall_impl.
      intros c Hc. now apply digit_not.
    + reflexivity.
    + apply Forall_rev. revert ds_digits. apply Forall_impl.
      intros c Hc. now rewrite Hc.
  - repeat constructor; [ now rewrite f1_digit | now rewrite f2_digit ].
Qed.

Lemma swap_flat_map (l : list ascii) :
  swap l = flat_map (fun c => swap [c]) l.
Proof.
  rewrite <- !replace_char_flat_map. do 3 f_equal.
  induction l as [ | c l IH ]; [ reflexivity | ].
  cbn [flat_map]. cbn [app]. now rewrite <- IH.
Qed.

Lemma swap_digit (c : ascii) : is_digit c = true -> swap [c] = [c].
Proof.
  intros H. unfold replace_char. cbn [flat_map app].
  rewrite (digit_not c "," H eq_refl). cbn [flat_map app].
  rewrite (digit_not c "." H eq_refl). cbn [flat_map app].
  now rewrite (digit_not c "X" H eq_refl).
Qed.

Lemma swap_no_space : Forall (fun c => is_space c = false) (swap form).
Proof.
  rewrite swap_flat_map. apply Forall_flat_map.
  pose proof form_chars as H. revert H. apply Forall_impl.
  apply valor_char_cases.
  - intros c Hc. rewrite (swap_digit c Hc).
    constructor; [ now apply digit_not_space | constructor ].
  - repeat constructor.
  - repeat constructor.
  - repeat constructor.
Qed.

Lemma swap_form_last :
  exists m, swap form = (m ++ [f2])%list.
Proof.
  exists (swap (format_sign s ++ rev (insert_thousands_sep (rev ds)))
          ++ [","%char; f1])%list.
  rewrite <- app_assoc.
  rewrite (app_assoc (format_sign s)). rewrite !replace_char_app.
  f_equal.
  change ["."%char; f1; f2] with (["."%char] ++ [f1] ++ [f2])%list.
  rewrite !replace_char_app.
  fold (swap [f1]). fold (swap [f2]).
  rewrite (swap_digit f1 f1_digit), (swap_digit f2 f2_digit). reflexivity.
Qed.

(** The separators of the thousands are what [clean] takes away. *)
Lemma clean_swap_form :
  replace_char "," ["."%char] (replace_char "." [] (swap form)) = plain.
Proof.
  rewrite swap_flat_map. rewrite !replace_char_flat_map.
  rewrite (flat_map_filter _ (fun c => negb (Ascii.eqb c ","))).
  - rewrite !filter_app. f_equal; [ now destruct s | ]. f_equal.
    + rewrite filter_rev.
      destruct (insert_thousands_sep_spec (fun _ => True)
                  (List.length (rev ds)) (rev ds) (le_n _)) as [E _].
      { apply Forall_rev. revert ds_digits. apply Forall_impl.
        intros c Hc. now apply digit_not. }
      rewrite E. apply rev_involutive.
    + cbn [filter].
      rewrite (digit_not f1 "," f1_digit eq_refl).
      rewrite (digit_not f2 "," f2_digit eq_refl). reflexivity.
  - pose proof form_chars as H. revert H. apply Forall_impl.
    apply valor_char_cases; try reflexivity.
    intros c Hc. rewrite (swap_digit c Hc).
    unfold replace_char. cbn [flat_map app].
    rewrite (digit_not c "." Hc eq_refl). cbn [flat_map app].
    rewrite (digit_not c "," Hc eq_refl). reflexivity.
Qed.

(** [Decimal] reads the plain text. *)
Lemma Decimal_of_chars_plain :
  ndigits (digits_value (ds ++ [f1; f2])%list) <= prec ->
  Decimal_of_chars plain
  = Ok (DFinite s (digits_value (ds ++ [f1; f2])%list) (-2)).
Proof.
  intros Hprec.
  assert (Cls : Forall (fun c => is_space c = false
                                 /\ Ascii.eqb c "_" = false
                                 /\ lower_char c = c) plain).
  { assert (D : forall c, is_digit c = true ->
                          is_space c = false /\ Ascii.eqb c "_" = false
                          /\ lower_char c = c).
    { intros c Hc. split; [ now apply digit_not_space | ].
      split; [ now apply digit_not | now apply digit_lower ]. }
    apply Forall_app. split; [ destruct s; repeat constructor | ].
    apply Forall_app. split.
    - revert ds_digits. apply Forall_impl. exact D.
    - repeat constructor; try (now apply D). }
  unfold Decimal_of_chars.
  rewrite strip_no_space
    by (revert Cls; apply Forall_impl; intros c H; apply H).
  rewrite replace_char_absent
    by (revert Cls; apply Forall_impl; intros c H; apply H).
  replace (lower plain) with plain.
  2:{ unfold lower. symmetry. rewrite <- (map_id plain) at 2.
      apply map_ext_in. intros c Hc.
      rewrite Forall_forall in Cls. now apply Cls. }
  assert (Sig : parse_sign plain = (s, (ds ++ ["."%char; f1; f2])%list)).
  { destruct s; [ reflexivity | ]. cbn [format_sign app].
    destruct ds as [ | d ds' ]; [ contradiction | ].
    inversion ds_digits; subst. cbn [app]. now apply parse_sign_digit. }
  rewrite Sig. unfold parse_number.
  rewrite (span_digits_app ds ["."%char; f1; f2] ds_digits eq_refl).
  rewrite <- (app_nil_r [f1; f2]) at 1.
  rewrite (span_digits_app [f1; f2] []);
    [ | repeat constructor; assumption | exact I ].
  destruct (ds ++ [f1; f2])%list eqn:E;
    [ apply app_eq_nil in E; destruct E; contradiction | ].
  cbn [parse_exponent]. cbn [List.length Z.of_nat].
  change (0 - Z.pos (Pos.of_succ_nat 1)) with (-2).
  replace (exact_literal (DFinite s (digits_value (a :: l)) (-2)))
    with true; [ reflexivity | ].
  symmetry. unfold exact_literal, adjusted, MAX_EMAX, MIN_ETINY, prec in *.
  apply andb_true_iff. split; [ apply Z.leb_le; lia | reflexivity ].
Qed.
End Moeda.

(** *** Amounts of two places *)

Lemma quantize_cent_finite (x : Decimal) (s : bool) (c : N) (e : Z) :
  quantize x cent = Ok (DFinite s c e) -> e = -2 /\ ndigits c <= prec.
Proof.
  unfold quantize, cent.
  destruct x as [s0 c0 e0 | s0 | s0 [ | ] p ]; try discriminate.
  - destruct (negb _); [ discriminate | ].
    destruct (c0 =? 0)%N.
    { intros H. injection H as <- <- <-. rewrite ndigits_0.
      unfold prec. lia. }
    destruct (Emax <? adjusted c0 e0); [ discriminate | ].
    destruct (prec <? adjusted c0 e0 - -2 + 1); [ discriminate | ].
    destruct (_rescale_exp s0 c0 e0 (-2)) as (c' & ->).
    destruct (Emax <? adjusted c' (-2)); [ discriminate | ].
    destruct (Z.ltb_spec prec (ndigits c')) as [ | Le ]; [ discriminate | ].
    intros E. injection E as <- <- <-. auto.
  - unfold _fix_nan. destruct (prec <? ndigits p); discriminate.
Qed.

Lemma _rescale_same (s : bool) (c : N) :
  _rescale s c (-2) (-2) = DFinite s c (-2).
Proof.
  unfold _rescale. destruct (N.eqb_spec c 0) as [-> | N]; [ reflexivity | ].
  change (-2 <=? -2) with true. cbv iota.
  change (10 ^ Z.to_N (-2 - -2))%N with 1%N. now rewrite N.mul_1_r.
Qed.

Lemma quantize_two_places (s : bool) (c : N) :
  ndigits c <= prec ->
  quantize (DFinite s c (-2)) cent = Ok (DFinite s c (-2)).
Proof.
  intros Hd. unfold quantize, cent.
  change (negb ((Etiny <=? -2) && (-2 <=? Emax))) with false. cbv iota.
  destruct (N.eqb_spec c 0) as [-> | N0]; [ reflexivity | ].
  rewrite _rescale_same.
  pose proof (ndigits_pos c) as Hp. unfold adjusted, prec, Emax in *.
  replace (999999 <? -2 + ndigits c - 1) with false
    by (symmetry; apply Z.ltb_ge; lia).
  replace (28 <? -2 + ndigits c - 1 - -2 + 1) with false
    by (symmetry; apply Z.ltb_ge; lia).
  replace (28 <? ndigits c) with false by (symmetry; apply Z.ltb_ge; lia).
  reflexivity.
Qed.

Lemma parse_decimal_finite (value : PyValue) (s : bool) (c : N) (e : Z) :
  parse_decimal value zero_00 = Ok (DFinite s c e) ->
  e = -2 /\ ndigits c <= prec.
Proof.
  assert (Z0 : forall s c e, Ok zero_00 = Ok (DFinite s c e) ->
                             e = -2 /\ ndigits c <= prec).
  { intros s' c' e' H. injection H as <- <- <-. rewrite ndigits_0.
    unfold prec. lia. }
  unfold parse_decimal.
  destruct value as [ | n | f | d | t ];
    try apply quantize_cent_finite; [ apply Z0 | ].
  destruct (Decimal_of_chars (clean t)) as [x | err]; cbn [bind].
  - destruct (quantize x cent) as [r | err] eqn:Q.
    + intros H. injection H as ->. now apply (quantize_cent_finite x s).
    + destruct err; try discriminate; apply Z0.
  - destruct err; try discriminate; apply Z0.
Qed.

Lemma digits_value_cents (c : N) :
  digits_value
    (str_of_N (c / 100)
     ++ [ascii_of_N (48 + c / 10 mod 10); ascii_of_N (48 + c mod 10)])%list
  = c.
Proof.
  destruct (str_of_N_spec (c / 100)) as (_ & _ & V).
  change [ascii_of_N (48 + c / 10 mod 10); ascii_of_N (48 + c mod 10)]
    with ([ascii_of_N (48 + c / 10 mod 10)] ++ [ascii_of_N (48 + c mod 10)])%list.
  rewrite app_assoc, !digits_value_snoc, V.
  rewrite !code_digit by (apply N.mod_lt; lia).
  pose proof (N.Div0.div_mod c 10) as H1.
  pose proof (N.Div0.div_mod (c / 10) 10) as H2.
  rewrite N.Div0.div_div in H2. change (10 * 10)%N with 100%N in H2.
  clear V. generalize dependent (c / 100)%N.
  generalize dependent (c / 10 mod 10)%N.
  generalize dependent (c / 10)%N. generalize dependent (c mod 10)%N.
  intros. lia.
Qed.

Lemma Decimal_of_chars_prefixed (m : list ascii) (b : ascii) :
  is_space b = false ->
  Decimal_of_chars (chars "R$ " ++ m ++ [b]) = Raise InvalidOperation.
Proof.
  intros Hb. unfold Decimal_of_chars.
  rewrite strip_id.
  - rewrite replace_char_app. unfold lower. rewrite map_app.
    generalize (map lower_char (replace_char "_" [] (m ++ [b]))).
    intros t. reflexivity.
  - reflexivity.
  - rewrite !rev_app_distr. cbn [rev app]. exact Hb.
Qed.

(** X21. What [format_currency] shows, [parse_decimal] reads back.
    Whenever [parse_decimal] makes a finite amount of a value,
    [format_currency] writes it as [R$] and a text: the text alone, typed
    into a form, is read by [parse_decimal] as the same amount, sign and
    all, whatever the default; with the [R$] in front it is not
    understood, and the default comes back. *)
Theorem format_currency_reads_back :
  forall (value : PyValue) (s : bool) (c : N) (e : Z) (default : Decimal),
    parse_decimal value zero_00 = Ok (DFinite s c e) ->
    exists form : string,
      format_currency value = Ok ("R$ " ++ form)%string
      /\ parse_decimal (PyStr form) default = Ok (DFinite s c e)
      /\ parse_decimal (PyStr ("R$ " ++ form)) default = Ok default.
Proof.
  intros value s c e default Run.
  destruct (parse_decimal_finite value s c e Run) as [-> Hp].
  destruct (str_of_N_spec (c / 100)) as (Some' & Digs & _).
  assert (D1 : is_digit (ascii_of_N (48 + c / 10 mod 10)) = true)
    by (apply is_digit_digit, N.mod_lt; lia).
  assert (D2 : is_digit (ascii_of_N (48 + c mod 10)) = true)
    by (apply is_digit_digit, N.mod_lt; lia).
  unfold format_currency. rewrite Run. cbn [bind].
  unfold Decimal_format_2f. rewrite _rescale_same.
  set (ds := str_of_N (c / 100)) in *.
  set (f1 := ascii_of_N (48 + c / 10 mod 10)) in *.
  set (f2 := ascii_of_N (48 + c mod 10)) in *.
  match goal with
  | |- context [string_of_list_ascii (chars "R$ " ++ ?x)] => set (body := x)
  end.
  exists (string_of_list_ascii body).
  split; [ reflexivity | ].
  pose proof (clean_swap_form s ds f1 f2 Digs D1 D2) as Clean.
  fold body in Clean.
  split.
  - (* the text alone *)
    unfold parse_decimal, clean, chars.
    rewrite list_ascii_of_string_of_list_ascii.
    rewrite strip_no_space by (apply swap_no_space; assumption).
    rewrite Clean, (Decimal_of_chars_plain s ds f1 f2 Digs Some' D1 D2)
      by (unfold ds, f1, f2; now rewrite digits_value_cents).
    cbn [bind]. unfold ds, f1, f2. rewrite digits_value_cents.
    now rewrite (quantize_two_places s c Hp).
  - (* the text as shown *)
    destruct (swap_form_last s ds f1 f2 D1 D2) as (m & Last).
    fold body in Last.
    unfold parse_decimal, clean.
    replace (chars ("R$ " ++ string_of_list_ascii body))
      with (chars "R$ " ++ body)%list
      by (unfold chars; cbn; now rewrite list_ascii_of_string_of_list_ascii).
    rewrite strip_id;
      [ | reflexivity
        | rewrite Last, !rev_app_distr; cbn [rev app];
          now apply digit_not_space ].
    rewrite !replace_char_app, Clean.
    change (replace_char "," ["."%char] (replace_char "." [] (chars "R$ ")))
      with (chars "R$ ").
    rewrite (app_assoc (format_sign s)).
    change ["."%char; f1; f2] with (["."%char; f1] ++ [f2])%list.
    rewrite (app_assoc _ _ [f2]).
    rewrite Decimal_of_chars_prefixed by (now apply digit_not_space).
    reflexivity.
Qed.

(** A fee of 1.234,50 comes back from its text. *)
Lemma format_currency_reads_back_witness :
  exists form : string,
    format_currency (PyStr "1.234,5") = Ok ("R$ " ++ form)%string
    /\ parse_decimal (PyStr form) zero_00 = Ok (DFinite false 123450 (-2))
    /\ parse_decimal (PyStr ("R$ " ++ form)) zero_00 = Ok zero_00.
Proof.
  apply (format_currency_reads_back (PyStr "1.234,5") false 123450 (-2)
           zero_00).
  vm_compute. reflexivity.
Defined.

(** ** A password that was set *)

Lemma find_update_first_by_id (p : User.t -> bool) (i : Z)
  (g : User.t -> User.t) (l : list User.t) :
  NoDup (map User.id l) ->
  (forall x, p (g x) = p x) ->
  find p (update_first (fun u => User.id u =? i) g l)
  = option_map (fun u => if User.id u =? i then g u else u) (find p l).
Proof.
  intros Hnd Hp. induction l as [ | x l IH ]; [ reflexivity | ].
  inversion Hnd as [ | ? ? Hn Hd ]; subst.
  cbn [update_first]. destruct (Z.eqb_spec (User.id x) i) as [E | N].
  - cbn [find]. rewrite Hp. destruct (p x) eqn:Px.
    + cbn [option_map]. now rewrite (proj2 (Z.eqb_eq _ _) E).
    + destruct (find p l) as [y | ] eqn:F; [ | reflexivity ].
      cbn [option_map]. apply find_some in F. destruct F as [Iy _].
      destruct (Z.eqb_spec (User.id y) i) as [Ey | Ny]; [ | reflexivity ].
      exfalso. apply Hn. rewrite E, <- Ey. now apply in_map.
  - cbn [find]. destruct (p x) eqn:Px.
    + cbn [option_map]. now rewrite (proj2 (Z.eqb_neq _ _) N).
    + now apply IH.
Qed.

Lemma user_by_lower_name_In (db : Database) (u : User.t) :
  nomes_unicos db -> In u (users db) ->
  user_by_lower_name db (lower_string (User.username u)) = Some u.
Proof.
  unfold nomes_unicos, user_by_lower_name. intros Hu Iu.
  destruct (find _ (users db)) as [x | ] eqn:F.
  - apply find_some in F. destruct F as [Ix Ex]. apply String.eqb_eq in Ex.
    f_equal.
    now apply (NoDup_map_inj (fun u => lower_string (User.username u))
                 (users db)).
  - apply (proj1 (find_none_iff _ _)) with (x := u) in F; [ | exact Iu ].
    rewrite String.eqb_refl in F. discriminate.
Qed.

Section Senhas.
Variable check_password_hash : string -> string -> result bool.
Variable generate_password_hash : string -> result string.

Local Abbreviation login := (login_post check_password_hash).

(** Who [login] lets in once the account [alvo] has the hash [h]. *)
Lemma login_after_set_password (db : Database) (alvo : User.t) (h : string)
  (name : string) (password : option string) :
  NoDup (map User.id (users db)) -> nomes_unicos db ->
  In alvo (users db) ->
  login
    (set_users db
       (update_first (fun u => User.id u =? User.id alvo)
          (fun u => set_password_hash u h) (users db)))
    None (Some name) password
  = if (lower_string (strip_string name)
        =? lower_string (User.username alvo))%string
    then
      confere <- check_password_hash h (form_get password EmptyString) ;;
      if (confere : bool)
      then Ok (Some (set_password_hash alvo h),
               LoginRedirect "dashboard"
                 (Some ("Bem-vindo de volta!", "success")))
      else Ok (None,
               LoginPage (Some ("Usuário ou senha inválidos.", "error")))
    else login db None (Some name) password.
Proof.
  intros Hnd Hun Ia. unfold login_post. cbn [form_get].
  set (n := lower_string (strip_string name)).
  unfold user_by_lower_name at 1. cbn [users set_users].
  rewrite find_update_first_by_id; [ | exact Hnd | reflexivity ].
  fold (user_by_lower_name db n).
  destruct (String.eqb_spec n (lower_string (User.username alvo)))
    as [E | N].
  - rewrite E, (user_by_lower_name_In db alvo Hun Ia).
    cbn [option_map]. rewrite Z.eqb_refl. reflexivity.
  - destruct (user_by_lower_name db n) as [x | ] eqn:F; [ | reflexivity ].
    cbn [option_map].
    unfold user_by_lower_name in F. apply find_some in F.
    destruct F as [Ix Ex]. apply String.eqb_eq in Ex.
    destruct (Z.eqb_spec (User.id x) (User.id alvo)) as [Eid | Nid];
      [ | reflexivity ].
    exfalso. apply N. rewrite <- Ex. f_equal. f_equal.
    now apply (NoDup_map_inj User.id (users db)).
Qed.
End Senhas.

Lemma senha_trocada_intro
  (check_password_hash : string -> string -> result bool)
  (generate_password_hash : string -> result string)
  (db : Database) (alvo : User.t) (senha h : string) :
  NoDup (map User.id (users db)) -> nomes_unicos db ->
  In alvo (users db) ->
  generate_password_hash senha = Ok h ->
  (6 <= String.length senha)%nat ->
  senha_trocada check_password_hash generate_password_hash db
    (set_users db
       (update_first (fun u => User.id u =? User.id alvo)
          (fun u => set_password_hash u h) (users db)))
    alvo senha.
Proof.
  intros Hnd Hun Ia Gh Len. exists h.
  split; [ exact Gh | ]. split; [ exact Len | ]. split; [ reflexivity | ].
  split; [ | split ].
  - intros name password _ En Ck.
    rewrite (login_after_set_password check_password_hash db alvo h name
               (Some password) Hnd Hun Ia).
    rewrite En, String.eqb_refl. cbn [form_get]. now rewrite Ck.
  - intros name password _ En Ck.
    rewrite (login_after_set_password check_password_hash db alvo h name
               (Some password) Hnd Hun Ia).
    rewrite En, String.eqb_refl. cbn [form_get]. now rewrite Ck.
  - intros name password _ Nn.
    rewrite (login_after_set_password check_password_hash db alvo h name
               password Hnd Hun Ia).
    now rewrite (proj2 (String.eqb_neq _ _) Nn).
Qed.

(** X22. The password that was set is the one [login] checks.  On a table
    with distinct ids and names distinct up to case, for an account of the
    table and a new password typed in ASCII: whatever the password form of
    [configuracoes] answers, either nothing changed and the answer is an
    error, or the current password was accepted and the account has the new
    password; whatever the action [reset_password] answers for that
    account, either nothing changed and the answer is an error, or the
    account has the new password.  Having the new password means: the text
    has six characters or more, only the hash of that row changed, and
    [login] with the name of the account in any case lets it in with a
    password the new hash accepts, lets nobody in with one it refuses, and
    answers as before for every other name. *)
Theorem set_password_is_checked_by_login :
  forall (check_password_hash : string -> string -> result bool)
         (generate_password_hash : string -> result string)
         (db db' : Database) (resp : Response) (alvo : User.t)
         (nova_senha confirmacao : option string),
    NoDup (map User.id (users db)) -> nomes_unicos db ->
    In alvo (users db) ->
    texto_ascii (form_get nova_senha EmptyString) ->
    (forall senha_atual : option string,
        configuracoes_post check_password_hash generate_password_hash db
          (Some alvo) senha_atual nova_senha confirmacao
        = Ok (db', resp) ->
        (db' = db /\ rejected resp)
        \/ (check_password_hash (User.password_hash alvo)
              (form_get senha_atual EmptyString) = Ok true
            /\ senha_trocada check_password_hash generate_password_hash
                 db db' alvo (form_get nova_senha EmptyString)))
    /\ (manage_users_reset_password generate_password_hash db (User.id alvo)
          nova_senha confirmacao
        = Ok (db', resp) ->
        (db' = db /\ rejected resp)
        \/ senha_trocada check_password_hash generate_password_hash
             db db' alvo (form_get nova_senha EmptyString)).
Proof.
  intros check gen db db' resp alvo nova confirmacao Hnd Hun Ia _.
  set (senha := form_get nova EmptyString).
  split.
  - (* the password form *)
    intros atual Run.
    unfold configuracoes_post, login_required in Run. fold senha in Run.
    apply bind_Ok in Run. destruct Run as (confere & Ck & Run).
    destruct confere; cbn [negb] in Run;
      [ | injection Run as <- <-; left; split; reflexivity ].
    destruct (negb (_ =? _)%string);
      [ injection Run as <- <-; left; split; reflexivity | ].
    destruct (Nat.ltb_spec (String.length senha) 6) as [Lt | Ge];
      [ injection Run as <- <-; left; split; reflexivity | ].
    apply bind_Ok in Run. destruct Run as (h & Gh & Run).
    injection Run as <- _. right. split; [ exact Ck | ].
    now apply senha_trocada_intro.
  - (* the action of the administrator *)
    intros Run.
    unfold manage_users_reset_password in Run.
    rewrite (get_user_or_404_In db alvo Hnd Ia) in Run.
    cbn [bind] in Run. fold senha in Run.
    destruct (Nat.ltb_spec (String.length senha) 6) as [Lt | Ge];
      [ injection Run as <- <-; left; split; reflexivity | ].
    destruct (negb (_ =? _)%string);
      [ injection Run as <- <-; left; split; reflexivity | ].
    apply bind_Ok in Run. destruct Run as (h & Gh & Run).
    injection Run as <- _. right. now apply senha_trocada_intro.
Qed.

(** The default account changes its password from admin123 to segredo. *)
Lemma set_password_is_checked_by_login_witness :
  (mkdb [] [] [] [] [User.mk 1 "admin" "hash:segredo" "admin"] = db_contas
   /\ rejected
        (Redirect "configuracoes" "Senha alterada com sucesso!" "success"))
  \/ (check_exemplo "hash:admin123" "admin123" = Ok true
      /\ senha_trocada check_exemplo hash_exemplo db_contas
           (mkdb [] [] [] [] [User.mk 1 "admin" "hash:segredo" "admin"])
           (User.mk 1 "admin" "hash:admin123" "admin") "segredo").
Proof.
  assert (Hnd : NoDup (map User.id (users db_contas)))
    by (repeat constructor; simpl; intuition discriminate).
  assert (Hun : nomes_unicos db_contas)
    by (repeat constructor; simpl; intuition discriminate).
  assert (Ia : In (User.mk 1 "admin" "hash:admin123" "admin")
                 (users db_contas)) by (now left).
  assert (Asc : texto_ascii (form_get (Some "segredo") EmptyString))
    by (repeat constructor).
  destruct (set_password_is_checked_by_login check_exemplo hash_exemplo
              db_contas
              (mkdb [] [] [] [] [User.mk 1 "admin" "hash:segredo" "admin"])
              (Redirect "configuracoes" "Senha alterada com sucesso!"
                 "success")
              (User.mk 1 "admin" "hash:admin123" "admin")
              (Some "segredo") (Some "segredo") Hnd Hun Ia Asc) as [Form _].
  exact (Form (Some "admin123") eq_refl).
Defined.

Example configuracoes_post_exemplo :
  configuracoes_post check_exemplo hash_exemplo db_contas
    (Some (User.mk 1 "admin" "hash:admin123" "admin"))
    (Some "admin123") (Some "segredo") (Some "segredo")
  = Ok (mkdb [] [] [] [] [User.mk 1 "admin" "hash:segredo" "admin"],
        Redirect "configuracoes" "Senha alterada com sucesso!" "success")
  /\ configuracoes_post check_exemplo hash_exemplo db_contas
       (Some (User.mk 1 "admin" "hash:admin123" "admin"))
       (Some "errada") (Some "segredo") (Some "segredo")
     = Ok (db_contas,
           Redirect "configuracoes" "Senha atual incorreta." "error")
  /\ configuracoes_post check_exemplo hash_exemplo db_contas None
       (Some "admin123") (Some "segredo") (Some "segredo")
     = Ok (db_contas, Unauthorized).
Proof. repeat split; reflexivity. Qed.

(** ** The class form *)

Lemma campos_turma_Some (i : Z) (form : FormTurma) (t : Turma.t) :
  campos_turma i form = Some t -> Turma.id t = i /\ turma_do_formulario form t.
Proof.
  unfold campos_turma, turma_do_formulario.
  destruct (vazio _ || vazio _ || vazio _ || vazio _) eqn:V; [ discriminate | ].
  intros E. injection E as <-. cbn [Turma.id Turma.nome Turma.categoria
                                    Turma.dias_horario Turma.local_treino].
  apply orb_false_iff in V. destruct V as [V V4].
  apply orb_false_iff in V. destruct V as [V V3].
  apply orb_false_iff in V. destruct V as [V1 V2].
  repeat split; assumption.
Qed.

Lemma turma_alunos_id (db db' : Database) (a b : Turma.t) :
  alunos db' = alunos db -> Turma.id a = Turma.id b ->
  turma_alunos db' a = turma_alunos db b.
Proof. unfold turma_alunos. now intros -> ->. Qed.

Lemma presencas_get_turmas (db db' : Database) (i : Z) (d : date) :
  alunos db' = alunos db -> presencas db' = presencas db ->
  match get_turma_or_404 db i, get_turma_or_404 db' i with
  | Ok a, Ok b => Turma.id a = Turma.id b
  | Raise e, Raise e' => e = e'
  | _, _ => False
  end ->
  presencas_get db' i d = presencas_get db i d.
Proof.
  intros Ea Ep. unfold presencas_get.
  destruct (get_turma_or_404 db i) as [a | e],
    (get_turma_or_404 db' i) as [b | e']; try contradiction.
  - intros Eid. cbn [bind]. rewrite Ep.
    now rewrite (turma_alunos_id db db' b a Ea (eq_sym Eid)).
  - now intros ->.
Qed.

(** X23. The class form keeps the students of every class.  With the ids
    of the classes distinct: when [list_turmas] answers a posted form,
    either a field is empty, nothing changes and the answer is an error, or
    one class is added, with the fields of the form stripped, none empty,
    and an id above all the others, and every class there was keeps its
    students and its attendance sheets.  When [edit_turma] answers, either
    a field is empty, nothing changes and the answer is an error, or the
    row of that id holds the fields of the form and the other rows are the
    same, the class keeps its id and its students, and the attendance
    sheet of every class and day is what it was.  Editing an id no class
    has is answered with 404. *)
Theorem class_form_keeps_students :
  forall (db db' : Database) (resp : Response) (form : FormTurma),
    turmas_pk db ->
    (list_turmas_post db form = Ok (db', resp) ->
     (db' = db /\ rejected resp)
     \/ exists t,
          db' = set_turmas db (turmas db ++ [t])%list
          /\ turma_do_formulario form t
          /\ (forall t', In t' (turmas db) -> Turma.id t' < Turma.id t)
          /\ turmas_pk db'
          /\ (forall t' d,
                In t' (turmas db) ->
                turma_alunos db' t' = turma_alunos db t'
                /\ presencas_get db' (Turma.id t') d
                   = presencas_get db (Turma.id t') d))
    /\ (forall turma_id,
          edit_turma_post db turma_id form = Ok (db', resp) ->
          (db' = db /\ rejected resp)
          \/ exists old t,
               In old (turmas db) /\ Turma.id old = turma_id
               /\ Turma.id t = turma_id
               /\ turma_do_formulario form t
               /\ db' = set_turmas db
                          (update_first (fun x => Turma.id x =? turma_id)
                             (fun _ => t) (turmas db))
               /\ In t (turmas db')
               /\ (forall t', In t' (turmas db) -> Turma.id t' <> turma_id ->
                              In t' (turmas db'))
               /\ turmas_pk db'
               /\ turma_alunos db' t = turma_alunos db old
               /\ (forall j d, presencas_get db' j d = presencas_get db j d))
    /\ (forall turma_id,
          (forall t, In t (turmas db) -> Turma.id t <> turma_id) ->
          edit_turma_post db turma_id form = Raise NotFound).
Proof.
  intros db db' resp form Hpk. split; [ | split ].
  - (* a new class *)
    unfold list_turmas_post.
    destruct (campos_turma _ form) as [t | ] eqn:C;
      [ | intros E; injection E as <- <-; left; split; reflexivity ].
    intros E. injection E as <- _. right. exists t.
    apply campos_turma_Some in C. destruct C as [Eid Campos].
    assert (Novo : forall t', In t' (turmas db) -> Turma.id t' < Turma.id t).
    { intros t' It'. rewrite Eid. apply next_id_fresh. now apply in_map. }
    split; [ reflexivity | ]. split; [ exact Campos | ].
    split; [ exact Novo | ]. split.
    + unfold turmas_pk. cbn [turmas set_turmas]. rewrite map_app. cbn [map].
      apply NoDup_app_one; [ exact Hpk | ].
      intros Hin. apply in_map_iff in Hin. destruct Hin as (t' & E' & It').
      specialize (Novo t' It'). lia.
    + intros t' d It'. split; [ reflexivity | ].
      apply presencas_get_turmas; [ reflexivity | reflexivity | ].
      rewrite (get_turma_or_404_In db t' Hpk It').
      unfold get_turma_or_404. cbn [turmas set_turmas].
      rewrite find_app_last.
      pose proof (get_turma_or_404_In db t' Hpk It') as G.
      unfold get_turma_or_404 in G.
      destruct (find (fun x => Turma.id x =? Turma.id t') (turmas db));
        [ | discriminate ].
      now injection G as ->.
  - (* an edited class *)
    intros i Run. unfold edit_turma_post in Run.
    apply bind_Ok in Run. destruct Run as (old & Get & Run).
    pose proof Get as Get'. apply get_turma_or_404_Ok in Get'.
    destruct Get' as [Iold Eold].
    destruct (campos_turma (Turma.id old) form) as [t | ] eqn:C;
      [ | injection Run as <- <-; left; split; reflexivity ].
    injection Run as <- _. right. exists old, t.
    apply campos_turma_Some in C. destruct C as [Eid Campos].
    rewrite Eold in *.
    assert (Find : find (fun x => Turma.id x =? i) (turmas db) = Some old).
    { unfold get_turma_or_404 in Get.
      destruct (find (fun x => Turma.id x =? i) (turmas db));
        [ now injection Get as -> | discriminate ]. }
    split; [ exact Iold | ]. split; [ reflexivity | ]. split; [ exact Eid | ].
    split; [ exact Campos | ]. split; [ reflexivity | ].
    cbn [turmas alunos presencas set_turmas].
    split.
    { apply (In_update_first_same (fun x => Turma.id x =? i) (fun _ => t)
               (turmas db) old Find). }
    split.
    { intros t' It' Nt'. apply In_update_first_other; [ exact It' | ].
      now apply Z.eqb_neq. }
    split.
    { unfold turmas_pk. cbn [turmas set_turmas].
      rewrite NoDup_map_update_first_same; [ exact Hpk | ].
      intros x Ex. apply Z.eqb_eq in Ex. congruence. }
    split; [ apply turma_alunos_id; [ reflexivity | congruence ] | ].
    intros j d. apply presencas_get_turmas; [ reflexivity | reflexivity | ].
    unfold get_turma_or_404. cbn [turmas set_turmas].
    destruct (Z.eq_dec j i) as [-> | Nj].
    + rewrite Find.
      rewrite (find_update_first_same (fun x => Turma.id x =? i) (fun _ => t)
                 (turmas db) old Find)
        by (apply Z.eqb_eq; exact Eid).
      congruence.
    + rewrite (find_update_first_other (fun x => Turma.id x =? i)
                 (fun x => Turma.id x =? j) (fun _ => t) (turmas db)).
      * destruct (find (fun x => Turma.id x =? j) (turmas db)); reflexivity.
      * intros x Ex. apply Z.eqb_eq in Ex.
        split; apply Z.eqb_neq; congruence.
  - (* no such class *)
    intros i Hn. unfold edit_turma_post, get_turma_or_404.
    destruct (find (fun t => Turma.id t =? i) (turmas db)) as [x | ] eqn:F;
      [ | reflexivity ].
    apply find_some in F. destruct F as [Ix Ex]. apply Z.eqb_eq in Ex.
    now destruct (Hn x Ix).
Qed.

(** The class Sub-11 is renamed: Bruno, Caio and Ana stay in it. *)
Lemma class_form_keeps_students_witness :
  edit_turma_post db_escola 1
    (mkformturma (Some " Sub-12 ") (Some "Infantil") (Some "Seg/Qua 17h")
       (Some "Campo 1"))
  = Ok (set_turmas db_escola
          [Turma.mk 1 "Sub-12" "Infantil" "Seg/Qua 17h" "Campo 1"],
        Redirect "list_turmas" "Turma atualizada!" "success")
  /\ turma_alunos
       (set_turmas db_escola
          [Turma.mk 1 "Sub-12" "Infantil" "Seg/Qua 17h" "Campo 1"])
       (Turma.mk 1 "Sub-12" "Infantil" "Seg/Qua 17h" "Campo 1")
     = turma_alunos db_escola turma_sub11.
Proof.
  split; [ reflexivity | ].
  destruct (class_form_keeps_students db_escola
              (set_turmas db_escola
                 [Turma.mk 1 "Sub-12" "Infantil" "Seg/Qua 17h" "Campo 1"])
              (Redirect "list_turmas" "Turma atualizada!" "success")
              (mkformturma (Some " Sub-12 ") (Some "Infantil")
                 (Some "Seg/Qua 17h") (Some "Campo 1"))
              (proj2 db_escola_pk)) as (_ & Edit & _).
  destruct (Edit 1 eq_refl)
    as [[_ Rej] | (old & t & Iold & _ & _ & _ & E & _ & _ & _ & Al & _)];
    [ discriminate Rej | ].
  apply (f_equal turmas) in E. cbn in E. injection E as <-.
  destruct Iold as [<- | []]. exact Al.
Defined.

(** ** [parse_month] *)

Lemma code_digit_char (k : Z) :
  0 <= k < 10 -> (code (digit_char k) - 48)%N = Z.to_N k.
Proof.
  intros H. unfold digit_char. rewrite code_digit by lia. lia.
Qed.

Lemma is_digit_digit_char (k : Z) : 0 <= k < 10 -> is_digit (digit_char k) = true.
Proof. intros H. unfold digit_char. apply is_digit_digit. lia. Qed.

Lemma int_digits_digits (ds : list ascii) :
  Forall (fun c => is_digit c = true) ds ->
  forall acc : N,
    int_digits ds acc
    = Some (fold_left (fun a c => (a * 10 + (code c - 48))%N) ds acc).
Proof.
  induction 1 as [ | c ds Hc _ IH ]; intros acc; [ reflexivity | ].
  cbn [int_digits fold_left]. rewrite Hc. apply IH.
Qed.

Lemma strip_c_digits (ds : list ascii) :
  Forall (fun c => is_digit c = true) ds -> strip_c ds = ds.
Proof.
  assert (D : forall c, is_digit c = true -> is_c_space c = false).
  { intros c H. unfold is_digit in H. unfold is_c_space.
    apply andb_true_iff in H. destruct H as [H1 H2]. apply N.leb_le in H1, H2.
    apply orb_false_iff. split.
    - apply andb_false_iff. right. apply N.leb_gt. lia.
    - apply N.eqb_neq. lia. }
  assert (L : forall l, Forall (fun c => is_digit c = true) l ->
                        lstrip_c l = l).
  { intros l Hl. destruct Hl as [ | c l Hc _ ]; [ reflexivity | ].
    cbn [lstrip_c]. now rewrite (D c Hc). }
  intros H. unfold strip_c. rewrite (L ds H).
  rewrite (L (rev ds)) by (now apply Forall_rev).
  apply rev_involutive.
Qed.

(** The model of [int] in the examples reads digits. *)
Lemma int_ascii_decimal : int_decimal int_ascii /\ int_ValueError int_ascii.
Proof.
  split.
  - intros ds Hn _ Hd. unfold int_ascii, chars.
    rewrite list_ascii_of_string_of_list_ascii.
    rewrite (strip_c_digits ds Hd).
    destruct ds as [ | d ds ]; [ contradiction | ].
    inversion Hd as [ | ? ? Hc Hr ]; subst.
    rewrite (parse_sign_digit d ds Hc), Hc.
    rewrite (int_digits_digits ds Hr). reflexivity.
  - intros text e. unfold int_ascii.
    destruct (parse_sign (strip_c (chars text))) as [neg r].
    destruct r as [ | c r ]; [ congruence | ].
    destruct (is_digit c); [ | congruence ].
    destruct (int_digits r (code c - 48)); congruence.
Defined.

Lemma split_char_digits (ds r : list ascii) :
  Forall (fun c => is_digit c = true) ds ->
  split_char "-" (ds ++ "-"%char :: r) = ds :: split_char "-" r.
Proof.
  induction 1 as [ | c ds Hc _ IH ]; [ reflexivity | ].
  cbn [app split_char]. rewrite (digit_not c "-" Hc eq_refl), IH. reflexivity.
Qed.

Lemma split_char_digits_last (ds : list ascii) :
  Forall (fun c => is_digit c = true) ds -> split_char "-" ds = [ds].
Proof.
  induction 1 as [ | c ds Hc _ IH ]; [ reflexivity | ].
  cbn [split_char]. rewrite (digit_not c "-" Hc eq_refl), IH. reflexivity.
Qed.

Section Competencia.
Variable py_int : string -> result Z.
Hypothesis py_int_decimal : int_decimal py_int.
Hypothesis py_int_ValueError : int_ValueError py_int.

Lemma parse_month_cases (value : option string) (hoje : date) :
  valid_date hoje ->
  parse_month py_int value hoje = Returns (mkdate (year hoje) (month hoje) 1)
  \/ (exists text year month y m,
         value = Some text
         /\ split_char "-" (chars text) = [year; month]
         /\ py_int (string_of_list_ascii year) = Ok y
         /\ py_int (string_of_list_ascii month) = Ok m
         /\ ((c_int y && c_int m = false
              /\ parse_month py_int value hoje = Raises OverflowError)
             \/ (c_int y && c_int m = true
                 /\ check_date_fields y m 1 = true
                 /\ parse_month py_int value hoje
                    = Returns (mkdate y m 1)))).
Proof.
  intros Hv. destruct (first_day_of_month_Ok hoje Hv) as [First _].
  apply check_date_fields_spec in Hv. destruct Hv as (_ & Hm & _).
  rewrite (mes_anterior_0 _ Hm) in First.
  unfold parse_month. rewrite First. cbn [of_result].
  destruct value as [text | ]; [ | now left ].
  destruct (vazio text); [ now left | ].
  destruct (split_char "-" (chars text)) as [ | yr [ | mo [ | x r ] ] ] eqn:S;
    try (now left).
  destruct (py_int (string_of_list_ascii yr)) as [y | e] eqn:Iy.
  2:{ rewrite (py_int_ValueError _ _ Iy). now left. }
  destruct (py_int (string_of_list_ascii mo)) as [m | e] eqn:Im.
  2:{ rewrite (py_int_ValueError _ _ Im). now left. }
  destruct (c_int y && c_int m) eqn:C.
  - unfold date_new. destruct (check_date_fields y m 1) eqn:K.
    + right. exists text, yr, mo, y, m. repeat split; auto.
    + now left.
  - right. exists text, yr, mo, y, m. repeat split; auto.
Qed.

Lemma parse_month_strftime (d hoje : date) :
  valid_date d ->
  parse_month py_int (Some (strftime_Y_m d)) hoje
  = Returns (mkdate (year d) (month d) 1).
Proof.
  intros Hv. apply check_date_fields_spec in Hv.
  destruct Hv as (Hy & Hm & Hd). unfold MINYEAR, MAXYEAR in Hy.
  pose proof (_days_in_month_bounds (year d) (month d) Hm) as Hb.
  unfold parse_month, strftime_Y_m, chars.
  rewrite list_ascii_of_string_of_list_ascii.
  cbn [string_of_list_ascii vazio].
  set (y := year d) in *. set (m := month d) in *. clearbody y m.
  assert (Dy : Forall (fun c => is_digit c = true)
                 [digit_char (y / 1000); digit_char (y / 100 mod 10);
                  digit_char (y / 10 mod 10); digit_char (y mod 10)]).
  { repeat constructor; apply is_digit_digit_char;
      try (apply Z.mod_pos_bound; lia).
    split; [ apply Z.div_pos; lia | apply Z.div_lt_upper_bound; lia ]. }
  assert (Dm : Forall (fun c => is_digit c = true)
                 [digit_char (m / 10); digit_char (m mod 10)]).
  { repeat constructor; apply is_digit_digit_char;
      try (apply Z.mod_pos_bound; lia).
    split; [ apply Z.div_pos; lia | apply Z.div_lt_upper_bound; lia ]. }
  change [digit_char (y / 1000); digit_char (y / 100 mod 10);
          digit_char (y / 10 mod 10); digit_char (y mod 10); "-"%char;
          digit_char (m / 10); digit_char (m mod 10)]
    with ([digit_char (y / 1000); digit_char (y / 100 mod 10);
           digit_char (y / 10 mod 10); digit_char (y mod 10)]
          ++ "-"%char :: [digit_char (m / 10); digit_char (m mod 10)])%list.
  rewrite (split_char_digits _ _ Dy), (split_char_digits_last _ Dm).
  rewrite (py_int_decimal _) by (discriminate || (simpl; lia) || exact Dy).
  rewrite (py_int_decimal _) by (discriminate || (simpl; lia) || exact Dm).
  assert (Ey : Z.of_N
                 (digits_value
                    [digit_char (y / 1000); digit_char (y / 100 mod 10);
                     digit_char (y / 10 mod 10); digit_char (y mod 10)])
               = y).
  { unfold digits_value. cbn [fold_left].
    rewrite !code_digit_char;
      try (apply Z.mod_pos_bound; lia);
      try (split; [ apply Z.div_pos; lia | apply Z.div_lt_upper_bound; lia ]).
    clear - Hy. Z.div_mod_to_equations. lia. }
  assert (Em : Z.of_N
                 (digits_value [digit_char (m / 10); digit_char (m mod 10)])
               = m).
  { unfold digits_value. cbn [fold_left].
    rewrite !code_digit_char;
      try (apply Z.mod_pos_bound; lia);
      try (split; [ apply Z.div_pos; lia | apply Z.div_lt_upper_bound; lia ]).
    clear - Hm. Z.div_mod_to_equations. lia. }
  rewrite Ey, Em.
  replace (c_int y && c_int m) with true.
  2:{ symmetry. unfold c_int. rewrite !andb_true_iff, !Z.leb_le, !Z.ltb_lt.
      lia. }
  rewrite date_new_Ok by (unfold MINYEAR, MAXYEAR; lia). reflexivity.
Qed.
End Competencia.

(** X24. The month a request names.  With [int] reading decimal digits
    and raising [ValueError] alone, on a valid day [hoje]: [parse_month]
    returns the first day of a month, a valid date, unless it raises
    [OverflowError], which it does exactly when the value is two texts
    around one hyphen that [int] both reads and one of the numbers is
    outside the range of a C [int]; without a value, and for a text
    that is not two parts around one hyphen, it returns the first day of
    the current month; and what [strftime("%Y-%m")] writes of a valid date,
    from the year 1000 on, it reads back as the first day of that month. *)
Theorem parse_month_first_day :
  forall (py_int : string -> result Z) (hoje : date),
    int_decimal py_int -> int_ValueError py_int -> valid_date hoje ->
    (forall value,
        (exists d, parse_month py_int value hoje = Returns d
                   /\ valid_date d /\ day d = 1)
        \/ parse_month py_int value hoje = Raises OverflowError)
    /\ (forall value,
          parse_month py_int value hoje = Raises OverflowError
          <-> exists text year month y m,
                value = Some text
                /\ split_char "-" (chars text) = [year; month]
                /\ py_int (string_of_list_ascii year) = Ok y
                /\ py_int (string_of_list_ascii month) = Ok m
                /\ (c_int y = false \/ c_int m = false))
    /\ parse_month py_int None hoje
       = Returns (mkdate (year hoje) (month hoje) 1)
    /\ (forall text,
          List.length (split_char "-" (chars text)) <> 2%nat ->
          parse_month py_int (Some text) hoje
          = Returns (mkdate (year hoje) (month hoje) 1))
    /\ (forall d,
          valid_date d -> 1000 <= year d ->
          parse_month py_int (Some (strftime_Y_m d)) hoje
          = Returns (mkdate (year d) (month d) 1)).
Proof.
  intros py_int hoje Hdec Hval Hv.
  assert (Primeiro : valid_date (mkdate (year hoje) (month hoje) 1)).
  { destruct (first_day_of_month_Ok hoje Hv) as [_ V].
    pose proof Hv as Hv'. apply check_date_fields_spec in Hv'.
    destruct Hv' as (_ & Hm & _). now rewrite (mes_anterior_0 _ Hm) in V. }
  split; [ | split; [ | split; [ | split ] ] ].
  - intros value.
    destruct (parse_month_cases py_int Hval value hoje Hv)
      as [Def | (text & yr & mo & y & m & _ & _ & _ & _
                 & [[_ Over] | (_ & K & Ret)])].
    + left. exists (mkdate (year hoje) (month hoje) 1). auto.
    + now right.
    + left. exists (mkdate y m 1). auto.
  - intros value. split.
    + intros Over.
      destruct (parse_month_cases py_int Hval value hoje Hv)
        as [Def | (text & yr & mo & y & m & Ev & S & Iy & Im
                   & [[C _] | (_ & _ & Ret)])];
        [ congruence | | congruence ].
      exists text, yr, mo, y, m. repeat split; auto.
      now apply andb_false_iff.
    + intros (text & yr & mo & y & m & -> & S & Iy & Im & C).
      unfold parse_month.
      destruct (vazio text) eqn:V.
      { destruct text; [ discriminate S | discriminate V ]. }
      rewrite S, Iy, Im.
      replace (c_int y && c_int m) with false; [ reflexivity | ].
      symmetry. now apply andb_false_iff.
  - destruct (parse_month_cases py_int Hval None hoje Hv)
      as [Def | (text & _ & _ & _ & _ & E & _)]; [ exact Def | discriminate E ].
  - intros text Len.
    destruct (parse_month_cases py_int Hval (Some text) hoje Hv)
      as [Def | (text' & yr & mo & _ & _ & E & S & _)]; [ exact Def | ].
    injection E as <-. rewrite S in Len. now contradiction Len.
  - intros d Vd _. now apply parse_month_strftime.
Qed.

(** March 2024 comes back from its text. *)
Lemma parse_month_first_day_witness :
  parse_month int_ascii (Some (strftime_Y_m (mkdate 2024 3 15)))
    (mkdate 2024 7 19)
  = Returns (mkdate 2024 3 1).
Proof.
  assert (Hv : valid_date (mkdate 2024 7 19)) by reflexivity.
  destruct (parse_month_first_day int_ascii (mkdate 2024 7 19)
              (proj1 int_ascii_decimal) (proj2 int_ascii_decimal) Hv)
    as (_ & _ & _ & _ & Back).
  apply (Back (mkdate 2024 3 15)); [ reflexivity | simpl; lia ].
Defined.

Example parse_month_exemplo :
  parse_month int_ascii (Some "2024-03") (mkdate 2024 7 19)
  = Returns (mkdate 2024 3 1)
  /\ parse_month int_ascii (Some " 2024 - 3 ") (mkdate 2024 7 19)
     = Returns (mkdate 2024 3 1)
  /\ parse_month int_ascii (Some "2024-13") (mkdate 2024 7 19)
     = Returns (mkdate 2024 7 1)
  /\ parse_month int_ascii (Some "2024-03-01") (mkdate 2024 7 19)
     = Returns (mkdate 2024 7 1)
  /\ parse_month int_ascii (Some "marco") (mkdate 2024 7 19)
     = Returns (mkdate 2024 7 1)
  /\ parse_month int_ascii (Some "99999999999999999999-1") (mkdate 2024 7 19)
     = Raises OverflowError.
Proof. repeat split; vm_compute; reflexivity. Qed.
